(* ===== verification/_CoqProject ===== *)
-Q . S2P
Prelude.v
QJson.v
Platform.v
OutputRelay.v
ConfigManager.v
CoreManager.v
TunManager.v
Safety.v
NekoService.v
Invariant.v
Cli.v
WebApi.v
SimpleWeb.v
Daemon.v
SimDaemon.v
Codec.v
GRPC.v
HeadlessCli.v
WebComplete.v
Dashboard.v
SimplePrograms.v
TextStream.v
CompleteCli.v
StandaloneCli.v
Beans.v
Database.v
ShareLink.v
