(* ===== verification/Prelude.v ===== *)
(** * A verification development of the nekoray headless service

    The repository (Halle-Astra/nekoray-cli-and-web) is a headless
    supervisor around an external proxy-core executable (sing-box /
    nekobox_core).  Its core is the service orchestration layer of
    [src/core/NekoService_Fixed.cpp] and the collaborators it owns:
    [ConfigManager] (the settings document [<configDir>/groups/nekobox.json]),
    [CoreManager] (the supervisor of the core process and the generator
    of its configuration) and [TunManager] (the privileged TUN process).
    Front ends drive the service: the CLI ([src/cli/main_cli.cpp]), the
    HTTP servers ([WebApiServer], [SimpleWebServer]) and the daemon
    ([main_daemon.cpp]); two stand-alone simulation daemons answer the
    same API without a service; two more command-line programs work
    without the service: [src/nekoray-cli-COMPLETE.cpp] (settings and
    profiles in JSON files, an interactive menu on stdin) and
    [src/nekoray_cli_standalone.cpp] (writes a sing-box configuration
    and forks the core).  A headless variant of the CLI
    ([src/nekoray/cli/main_cli_headless.cpp]) drives the same service
    and sets up the core's command channel, [SimpleGRPCClient] of
    [src/nekoray/rpc/gRPC_Headless.cpp] (length-prefixed JSON commands
    over TCP).  Beside the core, the profile beans of
    [src/nekoray/fmt] (one class per proxy protocol, with JSON and
    share-link codecs) and the profile database of [src/nekoray/db].

    ** Library layout (the _CoqProject order)

    - [Prelude] (this file): the [Outcome] type (a call returns or
      deadlocks), the state monad [M] with its notation in [neko_scope],
      the generic lemmas on monads and lists, the tactics and the
      [neko]/[neko_rw] hint databases.
    - [QJson]: [QJsonValue]/[QJsonObject] as the code uses them (a
      key-sorted association list, [operator[]], [value], [contains], the
      Qt 5 coercions) and the merge-with-defaults loop, proved to be a
      left-biased union.
    - [Platform]: the world: a file system with the paths the OS
      refuses, the process table, the clock of blocking waits, the trace
      of Qt signals, [QProcess] states and [ServiceStatus].
    - [OutputRelay]: [QString::split('\n', SkipEmptyParts)], [trimmed()]
      and the output slots of the supervisors.
    - [ConfigManager], [CoreManager], [TunManager]: each class as a
      record and one function per member function; the OS's answers to a
      spawn or a termination are explicit arguments.
    - [Safety]: [SafetyUtils] as pure functions of what the probes read.
    - [NekoService]: Module [NekoService] (every public operation, the
      slots, the traffic timer, a step relation over calls and external
      events), Module [Scenario] (the installations used by the
      examples) and Module [Lifecycle] (the lifecycle theorems).
    - [Invariant]: the service invariant and its preservation by every
      step, by rule induction over the reachable states.
    - [Cli]: [CliApplication::run] and its handlers over the service.
    - [WebApi], [SimpleWeb]: the two HTTP servers, their routing and
      handlers over the service, the response helpers.
    - [Daemon]: [DaemonApplication] and its event loop (timers, requests,
      the quit signal).  [SimDaemon]: both simulation daemons and their
      equivalence.
    - [Codec]: the Qt routines the beans call, translated from Qt (library
      code the sources only call, so not part of the map):
      [QString::arg] with its escape search, [indexOf], [lastIndexOf],
      [left], [mid], [QString::number]/[toInt], base64 and percent
      encoding.
    - [GRPC]: Module [GRPC], [SimpleGRPCClient] as a record of its
      members and one function per member function and slot in the monad
      [M] over the client and the trace of signals, debug lines and bytes
      written; the global client with [InitializeGRPC]/[CleanupGRPC]; the
      event loop ([react], [step], [reachable]).  Module [GRPCFacts]: the
      client invariant by rule induction and the not-connected errors.
      The bytes written for a command are a section parameter ([frame]):
      the line that computes the length prefix does not compile.
    - [HeadlessCli]: Module [HeadlessCli], [CliApplication] of
      [main_cli_headless.cpp]: its slots, handlers, dispatch and [run]
      over the service (through [Cli.svc_with], the service call with a
      front end's slots) and the global gRPC client.  Module
      [HeadlessCliFacts]: its theorems.
    - [WebComplete]: the single-file consoles [nekoray-web-COMPLETE.cpp]
      and [nekoray-web-COMPLETE-FIXED.cpp] (Modules [WebComplete] and
      [WebCompleteFixed]): globals, [handleRequest] with its framing, the
      [readyRead] lambda and [main]; Module [QUtf8] decodes the request
      as [QString::fromUtf8] does, into UTF-16 units.
    - [Dashboard]: the script of the two consoles' page, in the browser:
      [apiCall], [loadStatus], [loadProfiles], the buttons' functions and
      the timer (Modules [CompletePage], [FixedPage]) over the page and a
      server reached through the interface [Console]/[ConsoleSpec];
      [JsonText] is the JSON text between the two sides with its
      round-trip laws; Module [Servers] puts both consoles'
      [handleRequest] behind the interface, and [DashboardFacts] proves
      they keep it.
    - [SimplePrograms]: the small front ends: [main_cli_fixed_simple.cpp]
      (Module [FixedSimpleCli]), the stateless servers of
      [main_web_fixed_simple.cpp], [nekoray-web-SIMPLE.cpp] and
      [nekoray-web-WORKING.cpp] ([FixedSimpleWeb], [SimpleWebApi],
      [WorkingWebApi]), and [main] of [main_web.cpp] over the service
      ([MainWeb]).
    - [Beans]: [AbstractBean] and the eight bean classes as one sum type
      with virtual dispatch; [ToJson], [FromJson], [BuildCoreObjSingBox];
      the [JsonStore] interface as a type class with [Save]/[Load].
    - [Database]: [ProfileManager] (groups, ids, the bean factory) and
      [ProxyEntity] (its JSON form).
    - [ShareLink]: the Shadowsocks and VMess share links.
    - [TextStream]: Module [QTextStream], what [QTextStream] does on
      stdin and stdout: [>>] into a [QString] (skip blanks, read a word)
      and into an [int] (Qt's base detection: 0x, 0b, leading 0, decimal;
      0 on failure; 32-bit wrap), [readLine], and the buffered writer that
      flushes past 16384 characters or on [flush()].
    - [CompleteCli]: Module [CompleteCli], [CompleteCliApplication] of
      [nekoray-cli-COMPLETE.cpp] as state passing over its members, the
      file system, stdin and the [m_out] buffer: constructor,
      [loadConfiguration]/[saveConfiguration], [run], every handler, menu
      and stub, [runInteractiveMode] and [main]; [showHelp] writes the
      help text to the terminal and calls [::exit], so [run] ends in
      [Return] or [ExitCalled].  Module [CompleteCliFacts]: a [steps]
      framework (a call returns and relates the consoles by a preorder:
      stdin kept or consumed, nothing printed, files kept) with its hint
      database, the loop as a big-step relation, and the theorems.
    - [StandaloneCli]: Module [StandaloneCli], [NekoRayCLI] of
      [nekoray_cli_standalone.cpp]: its members, the two configuration
      templates as JSON values, [createConfigDir], [startCore],
      [stopCore], [showStatus], [run] with its argument loop and
      [std::stoi]'s exceptions; [system], [fork]/[execlp], [kill] and
      [sleep] are recorded calls answered by an oracle.  Module
      [StandaloneCliFacts]: its theorems.

    ** What the theorems show (the main ones are C1 to C34 of PROJECT.json)

    The service: its invariant on every reachable state and that no call
    deadlocks from one; the functional behaviour of start, stop, load and
    initialize on every branch; where the code departs from the spec
    (the fresh-directory [initialize] deadlock, the simulation-mode stop
    that leaves [isRunning] true, the TUN stop's [killall] that also
    kills the core, hard-coded ports, temp files left behind, a 10 s
    stop).  The front ends: the HTTP handlers refine the service calls,
    the log buffer is bounded, the two simulation daemons agree, the
    daemon's quit shuts the service down.  The beans: every bean's JSON
    round-trips (with Qt's base64, percent and decimal codecs shown to
    round-trip as library lemmas); the
    Shadowsocks link round-trips under the parser's conditions, the VMess
    link loses [security]; the database keeps group ids unique below
    [INT_MAX], turns every profile read back into a SOCKS/HTTP one, and
    never saves a bean.  The complete CLI: its menu loop ends or exhausts
    stdin (termination, by the input's length) and never exits at end of
    input; the fuelled loop refines the loop relation; settings, profiles
    and groups round-trip through the three files; [-c DIR] copies the
    home profiles into DIR; [config show] prints keys, never values; an
    unknown command's message stays in the unflushed buffer at [exit].
    The stand-alone CLI: [stop] signals nothing (the pids die with the
    process), a non-numeric argument aborts every command, [--dry-run]
    still runs the shell command and writes the configuration, and
    neither template proxies.  The single-file web consoles: the FIXED
    file is equivalent to the other but for one log line; every answer
    is framed with its exact [Content-Length]; a session keeps the
    default data and a stopped proxy has no profile; and the body of a
    request is cut at a position counted in UTF-16 units, wrong as soon
    as a header is not ASCII.  Their page: a Start click on the COMPLETE
    console runs the proxy with that profile, shows it Running and marks
    exactly that profile's rows Active; no run of clicks and timer ticks
    on the COMPLETE page ever stops a running proxy (it has no Stop
    button, and its Add Group button calls an undefined function), while
    the FIXED page's Stop button does.  The small front ends: the simple CLI
    claims a start it never makes, reports Stopped and ignores its
    options, and [main_web.cpp] never starts on a fresh
    directory.  The command channel: in every reachable state the traffic
    timer runs exactly while the core runs, the core runs only over a
    connected socket and the reported speeds are not negative; without a connection
    every command fails with its error and changes nothing else.  The
    headless CLI: [start] refines the service's [loadProfile] and
    [startProxy]; the safety gate ends a run before any command exactly
    when the options ask for the check, the environment fails it and
    [--force] is absent, and leaves the gRPC client allocated then; its
    dry run accepts any positive id, which the real [start] rejects above
    100.

    ** Modelling choices, bounds and fuel

    Integers are [Z] with the code's range checks written out ([toInt],
    [int] wrap-around in [GetNextId]).  JSON text is not parsed: a file
    holds a parsed [QJsonValue] or malformed bytes, the distinction
    [QJsonDocument::fromJson] makes; where a link carries JSON text the
    printer and parser are parameters.  Strings are byte strings (a
    [QString] as its UTF-8 bytes).  Waits are bounded by the code's
    timeouts.  Two loops take fuel.  [formatBytes]: five rounds, one
    per unit, and [formatBytes_loop_enough_fuel] shows more fuel changes
    nothing.  The [while (true)] of [CompleteCli.menu_loop] may not end
    (it does not at end of input), so it takes a number of rounds and
    blocks ([Deadlock]) when they run out; [loop_ends_menu_loop] and [menu_loop_more] show the
    result does not depend on the fuel once it suffices, and
    [menu_loop_ends_or_eof] that rounds bounded by the input's length
    suffice unless stdin runs dry.  [QCommandLineParser]'s parsing is not
    modelled: [run] receives the [-c] value and the positional
    arguments.  The literal [\\n] of [nekoray-cli-COMPLETE.cpp]'s strings is
    kept as the two characters the program prints.  Random draws ([GenerateRandomTag]) and the clock
    ([currentMSecsSinceEpoch]) are inputs, and so are the draws of
    [SimpleGRPCClient] ([testLatency] in [[50, 300)], the traffic
    increments in [[1000, 5000)] and [[2000, 10000)]: [possible] keeps
    them in range) and what the network answers ([ConnectAnswer],
    whether a write succeeds).  Its [qint64] counters are [Z]: at most
    10^4 bytes a second are added, so [2^63] is out of reach of any run.

    ** Not modelled

    [debug_cli.cpp] (a debugging main that prints the steps of a
    start-up), the markup and style of the pages beyond their buttons
    (the scripts are modelled; two handlers' [await]s are not
    interleaved; the servers take the page's text as a parameter), the earlier
    service variants ([nekoray/core/NekoService.cpp], [CoreManager.cpp],
    [core/TunManager.cpp]: they call the GUI's [NekoGui::dataStore] and
    [profileManager], which are not in the repository), [SocksHttpBean]'s [QUrl] share links, the
    escapes [qDebug] adds to a [QByteArray], a [waitForConnected] that
    times out in the connecting state (the model's failed connection
    ends unconnected), and the diagnostic programs; PROJECT.json lists each with its
    reason. *)

From stdpp Require Export base gmap strings list.
From Stdlib Require Export ZArith Sorted.

Declare Scope neko_scope.
Delimit Scope neko_scope with neko.

(** ** Calls that return or block forever *)

(** A call of the service either returns a value with the new state, or
    never returns: the thread blocks on a mutex it already holds. *)
Inductive Outcome (A : Type) : Type :=
| Returns (a : A)
| Deadlock.
Arguments Returns {A} _.
Arguments Deadlock {A}.

(** The orchestrator's monad: state passing with a possible deadlock. *)
Definition M (S A : Type) : Type := S -> Outcome (A * S).

Definition mret {S A} (a : A) : M S A := fun s => Returns (a, s).

Definition mbind {S A B} (m : M S A) (k : A -> M S B) : M S B :=
  fun s => match m s with
           | Returns (a, s') => k a s'
           | Deadlock => Deadlock
           end.

Definition mget {S} : M S S := fun s => Returns (s, s).
Definition mput {S} (s : S) : M S unit := fun _ => Returns (tt, s).
Definition mmodify {S} (f : S -> S) : M S unit := fun s => Returns (tt, f s).
Definition mdeadlock {S A} : M S A := fun _ => Deadlock.

(** The plumbing unfolds as soon as a state is supplied. *)
Arguments mret {S A} a s /.
Arguments mbind {S A B} m k s /.
Arguments mget {S} s /.
Arguments mput {S} s _ /.
Arguments mmodify {S} f s /.

Notation "x <- m ;; k" := (mbind m (fun x => k))
  (at level 100, m at next level, right associativity) : neko_scope.
Notation "m ;;; k" := (mbind m (fun _ => k))
  (at level 100, right associativity) : neko_scope.

Open Scope neko_scope.

(** Runs a call and keeps the final state, when it returns. *)
Definition run_state {S A} (m : M S A) (s : S) : option S :=
  match m s with Returns (_, s') => Some s' | Deadlock => None end.

(** Runs a call and keeps its result, when it returns. *)
Definition run_result {S A} (m : M S A) (s : S) : option A :=
  match m s with Returns (a, _) => Some a | Deadlock => None end.

(** A property of the state that a call keeps whenever it returns. *)
Definition mkeeps {S A} (P : S -> Prop) (m : M S A) : Prop :=
  forall s a s', P s -> m s = Returns (a, s') -> P s'.

(** A property every result of a call has. *)
Definition mensures {S A} (Q : A -> Prop) (m : M S A) : Prop :=
  forall s a s', m s = Returns (a, s') -> Q a.

(** ** Monad laws *)

Lemma mbind_ret_l {S A B} (a : A) (k : A -> M S B) s :
  mbind (mret a) k s = k a s.
Proof. reflexivity. Qed.

Lemma mbind_ret_r {S A} (m : M S A) s : mbind m mret s = m s.
Proof. unfold mbind, mret. by destruct (m s) as [[]|]. Qed.

Lemma mbind_assoc {S A B C} (m : M S A) (k : A -> M S B) (h : B -> M S C) s :
  mbind (mbind m k) h s = mbind m (fun a => mbind (k a) h) s.
Proof. unfold mbind. by destruct (m s) as [[]|]. Qed.

Lemma mbind_returns {S A B} (m : M S A) (k : A -> M S B) s a s' :
  m s = Returns (a, s') -> mbind m k s = k a s'.
Proof. intros H. unfold mbind. by rewrite H. Qed.

Lemma mbind_deadlock {S A B} (m : M S A) (k : A -> M S B) s :
  m s = Deadlock -> mbind m k s = Deadlock.
Proof. intros H. unfold mbind. by rewrite H. Qed.

Lemma mkeeps_ret {S A} (P : S -> Prop) (a : A) : mkeeps P (mret a).
Proof. intros s a' s' HP [=]; subst; done. Qed.

Lemma mkeeps_bind {S A B} (P : S -> Prop) (m : M S A) (k : A -> M S B) :
  mkeeps P m -> (forall a, mkeeps P (k a)) -> mkeeps P (mbind m k).
Proof.
  intros Hm Hk s b s'' HP. unfold mbind.
  destruct (m s) as [[a s']|] eqn:E; [|done]. intros H. exact (Hk a s' b s'' (Hm s a s' HP E) H).
Qed.

Lemma mensures_ret {S A} (Q : A -> Prop) (a : A) : Q a -> @mensures S A Q (mret a).
Proof. intros HQ s a' s' [=]; subst; done. Qed.

Lemma mensures_bind {S A B} (Q : B -> Prop) (m : M S A) (k : A -> M S B) :
  (forall a, mensures Q (k a)) -> mensures Q (mbind m k).
Proof.
  intros Hk s b s''. unfold mbind.
  destruct (m s) as [[a s']|] eqn:E; [|done]. exact (Hk a s' b s'').
Qed.

(** ** Generic lemmas on lists, options and booleans *)

Lemma filter_length_le {A} (P : A -> Prop) `{forall x, Decision (P x)} (l : list A) :
  length (filter P l) <= length l.
Proof.
  induction l as [|x l IH]; simpl; [lia|].
  rewrite filter_cons. case_decide; simpl; lia.
Qed.

Lemma Forall_filter_intro {A} (P : A -> Prop) `{forall x, Decision (P x)} (l : list A) :
  Forall P (filter P l).
Proof.
  induction l as [|x l IH]; simpl; [constructor|].
  rewrite filter_cons. case_decide; [constructor|]; auto.
Qed.

Lemma filter_all {A} (P : A -> Prop) `{forall x, Decision (P x)} (l : list A) :
  Forall P l -> filter P l = l.
Proof. induction 1; [done|]. by rewrite filter_cons_True, IHForall. Qed.

Lemma negb_true_iff_false (b : bool) : negb b = true <-> b = false.
Proof. destruct b; split; done. Qed.

(** ** Automation *)

Create HintDb neko.
Create Rewrite HintDb neko_rw.
#[export] Hint Resolve Forall_filter_intro mkeeps_ret mensures_ret : neko.
#[export] Hint Rewrite @mbind_ret_l : neko_rw.

(** A decidable proposition on closed terms, settled by evaluation. *)
Ltac decide_closed := apply (bool_decide_unpack _); vm_compute; reflexivity.

(** Inversion that substitutes and cleans up. *)
Ltac invc H := inversion H; subst; clear H.

(** Case analysis on the first boolean guard ([if]) of the goal,
    remembering the equation. *)
Ltac destruct_guard :=
  match goal with
  | |- context [if ?b then _ else _] =>
      let E := fresh "Hg" in destruct b eqn:E
  end.

(** Unfolds the monad plumbing of a goal. *)
Ltac mstep := unfold mbind, mret, mget, mput, mmodify, mdeadlock in *; simpl in *.
