(* ===== verification/QJson.v ===== *)
(** * Qt's JSON values and objects, as the service code uses them

    [QJsonValue] has Qt's constructors (numbers are the integers the code
    stores); a [QJsonObject] is an association list kept sorted by key,
    which is how Qt stores it.  [obj_insert] is [obj[key] = value],
    [obj_find]/[obj_value]/[obj_contains] are the lookups, and the
    coercions [qj_toBool], [qj_toInt], [qj_toString] are those of Qt 5
    ([toInt] returns 0 for a number outside the 32-bit [int] range).
    [merge_defaults] is the loop of [src/core/NekoService_Fixed.cpp] that
    fills the keys a document lacks from the defaults; it is proved to be
    the left-biased union of the two objects. *)

From S2P Require Import Prelude.

#[local] Set Warnings "-register-all".
Local Open Scope Z_scope.

Inductive QJsonValue : Type :=
| QNull
| QBool (b : bool)
| QDouble (n : Z)
| QString (s : string)
| QArray (a : list QJsonValue)
| QObject (o : list (string * QJsonValue))
| QUndefined.

Abbreviation QJsonObject := (list (string * QJsonValue)).

(** ** Object operations (Qt library) *)

(** [obj[k] = v]: replaces the entry of key [k], or inserts it at its
    place in key order. *)
Fixpoint obj_insert (k : string) (v : QJsonValue) (o : QJsonObject) : QJsonObject :=
  match o with
  | [] => [(k, v)]
  | (k', v') :: o' =>
      match String.compare k k' with
      | Lt => (k, v) :: o
      | Eq => (k, v) :: o'
      | Gt => (k', v') :: obj_insert k v o'
      end
  end.

(** The entry of key [k], if any. *)
Fixpoint obj_find (k : string) (o : QJsonObject) : option QJsonValue :=
  match o with
  | [] => None
  | (k', v') :: o' => if String.eqb k k' then Some v' else obj_find k o'
  end.

(** [obj.contains(k)]. *)
Definition obj_contains (k : string) (o : QJsonObject) : bool :=
  match obj_find k o with Some _ => true | None => false end.

(** [obj.value(k)]: [Undefined] when the key is missing. *)
Definition obj_value (k : string) (o : QJsonObject) : QJsonValue :=
  match obj_find k o with Some v => v | None => QUndefined end.

(** [obj.value(k, d)] as [NekoService_Fixed.cpp] writes it: the entry of
    [k], or [d] when the key is missing. *)
Definition obj_value_or (k : string) (d : QJsonValue) (o : QJsonObject) : QJsonValue :=
  match obj_find k o with Some v => v | None => d end.

(** [QJsonValue::toBool()]: [false] unless the value is a boolean. *)
Definition qj_toBool (v : QJsonValue) : bool :=
  match v with QBool b => b | _ => false end.

Definition INT_MIN : Z := - 2 ^ 31.
Definition INT_MAX : Z := 2 ^ 31 - 1.

(** [QJsonValue::toInt()] in Qt 5: a number that fits in a 32-bit [int],
    else the default 0. *)
Definition qj_toInt (v : QJsonValue) : Z :=
  match v with
  | QDouble n => if (INT_MIN <=? n) && (n <=? INT_MAX) then n else 0
  | _ => 0
  end.

(** [QJsonValue::toString()]: the empty string unless a string. *)
Definition qj_toString (v : QJsonValue) : string :=
  match v with QString s => s | _ => EmptyString end.

(** [QJsonDocument::object()] of a parsed document: the object, or the
    empty object when the document holds an array. *)
Definition doc_object (v : QJsonValue) : QJsonObject :=
  match v with QObject o => o | _ => [] end.

(** ** The merge-with-defaults loop (code of the repository)

    [for (it = defaults.begin(); ...) if (!config.contains(it.key()))
       config[it.key()] = it.value();] *)
Definition merge_defaults (config defaults : QJsonObject) : QJsonObject :=
  fold_left (fun c kv => if obj_contains kv.1 c then c else obj_insert kv.1 kv.2 c)
            defaults config.

(** ** Key order *)

Definition key_lt (a b : string * QJsonValue) : Prop := String.compare a.1 b.1 = Lt.

(** A well-formed object: keys strictly increasing. *)
Definition obj_sorted (o : QJsonObject) : Prop := StronglySorted key_lt o.

Lemma string_compare_refl (s : string) : String.compare s s = Eq.
Proof.
  induction s as [|a s IH]; simpl; [done|].
  unfold Ascii.compare. by rewrite N.compare_refl.
Qed.

Lemma string_compare_lt_le (a b : string) :
  String.compare a b = Lt -> String.le a b /\ a <> b.
Proof.
  intros H. split.
  - unfold String.le, String.leb. by rewrite H.
  - intros ->. by rewrite string_compare_refl in H.
Qed.

Lemma string_compare_le_lt (a b : string) :
  String.le a b -> a <> b -> String.compare a b = Lt.
Proof.
  unfold String.le, String.leb. intros Hle Hne.
  destruct (String.compare a b) eqn:E; try done.
  by apply String.compare_eq_iff in E.
Qed.

Lemma string_compare_lt_trans (a b c : string) :
  String.compare a b = Lt -> String.compare b c = Lt -> String.compare a c = Lt.
Proof.
  intros [Hab Nab]%string_compare_lt_le [Hbc Nbc]%string_compare_lt_le.
  apply string_compare_le_lt; [by trans b|].
  intros ->. apply Nbc. by apply (anti_symm String.le).
Qed.

Lemma string_compare_gt_lt (a b : string) :
  String.compare a b = Gt -> String.compare b a = Lt.
Proof. intros H. rewrite String.compare_antisym, H. done. Qed.

Lemma string_eqb_compare (a b : string) :
  String.eqb a b = true <-> String.compare a b = Eq.
Proof.
  rewrite String.eqb_eq. split.
  - intros ->. apply string_compare_refl.
  - apply String.compare_eq_iff.
Qed.

#[export] Hint Resolve string_compare_refl string_compare_gt_lt : neko.

(** ** Lookup after insertion *)

Lemma obj_find_insert_eq k v o : obj_find k (obj_insert k v o) = Some v.
Proof.
  induction o as [|[k' v'] o IH]; simpl; [by rewrite String.eqb_refl|].
  destruct (String.compare k k') eqn:E; simpl; rewrite ?String.eqb_refl; try done.
  destruct (String.eqb k k') eqn:E'; [|done].
  apply string_eqb_compare in E'. congruence.
Qed.

Lemma obj_find_insert_ne k j v o :
  j <> k -> obj_find j (obj_insert k v o) = obj_find j o.
Proof.
  intros Hne. induction o as [|[k' v'] o IH]; simpl.
  - by apply String.eqb_neq in Hne as ->.
  - destruct (String.compare k k') eqn:E; simpl.
    + apply String.compare_eq_iff in E as <-.
      by apply String.eqb_neq in Hne as ->.
    + by apply String.eqb_neq in Hne as ->.
    + by rewrite IH.
Qed.

(** Lookup after [QJsonObject::insert]: the inserted key maps to the
    new value, every other key to its old value. *)
Lemma obj_find_insert k j v o :
  obj_find j (obj_insert k v o) = if String.eqb j k then Some v else obj_find j o.
Proof.
  destruct (String.eqb j k) eqn:E.
  - apply String.eqb_eq in E as ->. apply obj_find_insert_eq.
  - apply String.eqb_neq in E. by apply obj_find_insert_ne.
Qed.

Lemma obj_contains_find k o : obj_contains k o = true <-> is_Some (obj_find k o).
Proof. unfold obj_contains. destruct (obj_find k o); split; intros H; by inv H || eauto. Qed.

#[export] Hint Rewrite obj_find_insert_eq : neko_rw.

(** ** Sortedness is preserved by insertion *)

Lemma obj_insert_keys_bound k v o (b : string * QJsonValue) :
  Forall (key_lt b) o -> key_lt b (k, v) -> Forall (key_lt b) (obj_insert k v o).
Proof.
  intros Hall Hb. induction Hall as [|[k' v'] o Hk Hall IH]; simpl.
  - by constructor.
  - destruct (String.compare k k'); repeat constructor; auto.
Qed.

Lemma obj_insert_sorted k v o : obj_sorted o -> obj_sorted (obj_insert k v o).
Proof.
  unfold obj_sorted. induction 1 as [|[k' v'] o Hs IH Hall]; simpl.
  - repeat constructor.
  - destruct (String.compare k k') eqn:E.
    + apply String.compare_eq_iff in E as <-. by constructor.
    + constructor; [by constructor|]. constructor; [done|].
      eapply Forall_impl; [exact Hall|]. intros [k2 v2] H.
      by eapply string_compare_lt_trans.
    + constructor; [done|]. apply obj_insert_keys_bound; [done|].
      by apply string_compare_gt_lt.
Qed.

(** ** The merge loop *)

Lemma merge_defaults_find config defaults k :
  obj_find k (merge_defaults config defaults) =
  match obj_find k config with
  | Some v => Some v
  | None => obj_find k defaults
  end.
Proof.
  unfold merge_defaults. revert config.
  induction defaults as [|[k' v'] d IH]; intros c; simpl.
  - by destruct (obj_find k c).
  - rewrite IH. unfold obj_contains.
    destruct (String.eqb k k') eqn:E.
    + apply String.eqb_eq in E as ->.
      destruct (obj_find k' c) eqn:F; [by rewrite F|].
      by rewrite obj_find_insert_eq.
    + apply String.eqb_neq in E.
      destruct (obj_find k' c) eqn:F; [done|].
      by rewrite obj_find_insert_ne.
Qed.

(** The merge loop of [getCurrentConfig] keeps a key-sorted object
    sorted, as a [QJsonObject] always is. *)
Lemma merge_defaults_sorted config defaults :
  obj_sorted config -> obj_sorted (merge_defaults config defaults).
Proof.
  unfold merge_defaults. revert config.
  induction defaults as [|[k' v'] d IH]; intros c Hc; simpl; [done|].
  apply IH. destruct (obj_contains k' c); [done|]. by apply obj_insert_sorted.
Qed.

(** ** Examples *)

Lemma merge_defaults_sorted_witness :
  obj_sorted (merge_defaults [("spmode_vpn", QBool true)]
                             [("inbound_socks_port", QDouble 2080); ("spmode_vpn", QBool false)]).
Proof. apply merge_defaults_sorted. repeat constructor. Defined.
