(* ===== verification/Platform.v ===== *)
(** * The world the service runs in

    The file system the code reads and writes, the OS process table, the
    clock of blocking waits, and the trace of Qt signals.  The OS's
    answers to a spawn or a termination request are the explicit outcome
    types [SpawnOutcome] and [ExitOutcome].  [QProcess.state] and
    [ServiceStatus.t] carry the constructors of [QProcess::ProcessState]
    and of [NekoCore::ServiceStatus]
    ([src/nekoray/core/NekoService.hpp]). *)

From S2P Require Import Prelude QJson.
From Stdlib Require Import DecimalString.
From Stdlib Require Import Ascii.

Local Open Scope Z_scope.

(** The platform families the [#ifdef]s of the code distinguish:
    [Q_OS_WIN], [Q_OS_MACOS], and every other (Linux) build. *)
Inductive Platform : Type := Windows | MacOS | Linux.

#[export] Instance Platform_eq_dec : EqDecision Platform.
Proof. solve_decision. Defined.

(** ** Strings the code builds *)

(** [QString::number(n)] and [QString::arg(int)]. *)
Definition z_to_string (z : Z) : string := NilZero.string_of_int (Z.to_int z).

(** [dir + "/" + name]. *)
Definition path_join (dir name : string) : string := (dir +:+ "/" +:+ name)%string.

(** [QDir::temp()]. *)
Definition temp_dir : string := "/tmp".

(** [QDir::temp().absoluteFilePath(name)]. *)
Definition temp_path (name : string) : string := path_join temp_dir name.

(** The last component of a path: what [killall] matches. *)
Fixpoint basename_go (s acc : string) : string :=
  match s with
  | EmptyString => acc
  | String c s' =>
      if Ascii.eqb c "/"%char then basename_go s' EmptyString
      else basename_go s' (acc +:+ String c EmptyString)%string
  end.
Definition basename (s : string) : string := basename_go s EmptyString.

(** ** Files and directories *)

(** What a file holds: a JSON document (as [QJsonDocument::toJson]
    wrote it), bytes that are not JSON, or a text file of lines. *)
Inductive FileContent : Type :=
| JsonFile (v : QJsonValue)
| Malformed
| TextFile (lines : list string).

Record FileSystem : Type := mkFileSystem {
  fs_files : gmap string FileContent;
  fs_dirs : gset string;
  fs_unwritable : gset string;   (** [QFile::open(WriteOnly)] fails *)
  fs_unreadable : gset string;   (** [QFile::open(ReadOnly)] fails *)
  fs_unmakeable : gset string    (** [QDir::mkpath]/[mkdir] fails *)
}.

Definition file_exists (p : string) (fs : FileSystem) : bool :=
  match fs_files fs !! p with Some _ => true | None => false end.

Definition dir_exists (d : string) (fs : FileSystem) : bool :=
  bool_decide (d ∈ fs_dirs fs).

(** [QFile::open(WriteOnly)] then [write]: [None] when the open fails. *)
Definition fs_write (p : string) (c : FileContent) (fs : FileSystem) : option FileSystem :=
  if bool_decide (p ∈ fs_unwritable fs) then None
  else Some {| fs_files := <[p := c]> (fs_files fs); fs_dirs := fs_dirs fs;
               fs_unwritable := fs_unwritable fs; fs_unreadable := fs_unreadable fs;
               fs_unmakeable := fs_unmakeable fs |}.

(** [QFile::open(ReadOnly)] then [readAll]. *)
Definition fs_read (p : string) (fs : FileSystem) : option FileContent :=
  if bool_decide (p ∈ fs_unreadable fs) then None else fs_files fs !! p.

(** [QFile::remove]. *)
Definition fs_remove (p : string) (fs : FileSystem) : FileSystem :=
  {| fs_files := delete p (fs_files fs); fs_dirs := fs_dirs fs;
     fs_unwritable := fs_unwritable fs; fs_unreadable := fs_unreadable fs;
     fs_unmakeable := fs_unmakeable fs |}.

(** [QDir::mkpath]/[QDir::mkdir]: [None] when the OS refuses. *)
Definition fs_mkdir (d : string) (fs : FileSystem) : option FileSystem :=
  if bool_decide (d ∈ fs_unmakeable fs) then None
  else Some {| fs_files := fs_files fs; fs_dirs := {[d]} ∪ fs_dirs fs;
               fs_unwritable := fs_unwritable fs; fs_unreadable := fs_unreadable fs;
               fs_unmakeable := fs_unmakeable fs |}.

(** [if (!dir.exists(d)) dir.mkpath(d)]: the directory exists after,
    unless the OS refused. *)
Definition ensure_dir (d : string) (fs : FileSystem) : option FileSystem :=
  if dir_exists d fs then Some fs else fs_mkdir d fs.

(** [QJsonDocument::fromJson]: the parsed document, or a parse error.
    Qt 5 accepts an object or an array at top level. *)
Definition parse_json (c : FileContent) : option QJsonValue :=
  match c with
  | JsonFile (QObject o) => Some (QObject o)
  | JsonFile (QArray a) => Some (QArray a)
  | _ => None
  end.

(** ** Processes *)

Module QProcess.
(** [QProcess::ProcessState]. *)
Inductive state : Type := NotRunning | Starting | Running.
End QProcess.

#[export] Instance QProcess_state_eq_dec : EqDecision QProcess.state.
Proof. solve_decision. Defined.

(** A [QProcess] object: its state, the OS pid, and what it was started
    with. *)
Record Process : Type := mkProcess {
  qp_state : QProcess.state;
  qp_pid : Z;
  qp_program : string;
  qp_args : list string
}.

(** The OS's answer to [start] followed by [waitForStarted(5000)]: the
    process started after [ms] milliseconds with pid [pid]; it failed to
    start at once ([FailedToStart]); or it did not report within the
    timeout. *)
Inductive SpawnOutcome : Type :=
| Spawned (pid : Z) (ms : Z)
| SpawnFailed
| SpawnTimeout.

(** The OS's answer to [terminate()] + [waitForFinished(5000)] and, if
    needed, [kill()] + [waitForFinished(2000)]. *)
Inductive ExitOutcome : Type :=
| ExitOnTerminate (ms : Z)
| ExitOnKill (ms : Z)
| KillTimeout.

Definition spawn_outcome_ok (o : SpawnOutcome) : Prop :=
  match o with Spawned _ ms => 0 <= ms <= 5000 | _ => True end.

Definition exit_outcome_ok (o : ExitOutcome) : Prop :=
  match o with
  | ExitOnTerminate ms => 0 <= ms <= 5000
  | ExitOnKill ms => 0 <= ms <= 2000
  | KillTimeout => True
  end.

(** Milliseconds [waitForStarted(5000)] blocks. *)
Definition spawn_wait (o : SpawnOutcome) : Z :=
  match o with Spawned _ ms => ms | SpawnFailed => 0 | SpawnTimeout => 5000 end.

(** Milliseconds the terminate/kill sequence blocks. *)
Definition exit_wait (o : ExitOutcome) : Z :=
  match o with
  | ExitOnTerminate ms => ms
  | ExitOnKill ms => 5000 + ms
  | KillTimeout => 5000 + 2000
  end.

(** ** Service status and signals *)

Module ServiceStatus.
(** [NekoCore::ServiceStatus]. *)
Inductive t : Type := Stopped | Starting | Running | Stopping | Error.
End ServiceStatus.

#[export] Instance ServiceStatus_eq_dec : EqDecision ServiceStatus.t.
Proof. solve_decision. Defined.

(** The Qt signals of the service and of its supervisors. *)
Inductive Event : Type :=
| statusChanged (s : ServiceStatus.t)
| profileChanged (id : Z)
| trafficUpdated (up down : Z)
| errorOccurred (msg : string)
| logMessage (level msg : string)
| coreLogOutput (line : string)
| coreProcessFinished
| tunLogOutput (line : string)
| tunProcessFinished.

(** ** The world *)

Record World : Type := mkWorld {
  w_fs : FileSystem;
  w_procs : gmap Z string;   (** live pids and the program each runs *)
  w_clock : Z;               (** milliseconds spent blocked *)
  w_events : list Event      (** signals emitted, oldest first *)
}.

Definition emit (e : Event) (w : World) : World :=
  {| w_fs := w_fs w; w_procs := w_procs w; w_clock := w_clock w;
     w_events := w_events w ++ [e] |}.

Definition set_fs (fs : FileSystem) (w : World) : World :=
  {| w_fs := fs; w_procs := w_procs w; w_clock := w_clock w; w_events := w_events w |}.

Definition set_procs (ps : gmap Z string) (w : World) : World :=
  {| w_fs := w_fs w; w_procs := ps; w_clock := w_clock w; w_events := w_events w |}.

Definition wait_ms (ms : Z) (w : World) : World :=
  {| w_fs := w_fs w; w_procs := w_procs w; w_clock := w_clock w + ms;
     w_events := w_events w |}.


(** [terminate()]; [waitForFinished(5000)]; then [kill()];
    [waitForFinished(2000)] on the process [pid].  A pid the OS already
    reaped makes the first wait return at once.  The boolean tells whether
    the process finished during the waits (then [QProcess] emitted
    [finished]). *)
Definition terminate_and_wait (o : ExitOutcome) (pid : Z) (w : World) : World * bool :=
  match w_procs w !! pid with
  | None => (w, true)
  | Some _ =>
      match o with
      | KillTimeout => (wait_ms (exit_wait o) w, false)
      | _ => (wait_ms (exit_wait o) (set_procs (delete pid (w_procs w)) w), true)
      end
  end.

(** [start(program, args)] followed by [waitForStarted(5000)]: the
    process handle, in state [Running], when the OS started it. *)
Definition spawn (o : SpawnOutcome) (program : string) (args : list string) (runs : string)
    (w : World) : option Process * World :=
  match o with
  | Spawned pid ms =>
      (Some (mkProcess QProcess.Running pid program args),
       wait_ms ms (set_procs (<[pid := runs]> (w_procs w)) w))
  | _ => (None, wait_ms (spawn_wait o) w)
  end.

(** ** Lemmas on the world *)

Lemma emit_events e w : w_events (emit e w) = w_events w ++ [e].
Proof. reflexivity. Qed.

Lemma file_exists_write p c fs fs' :
  fs_write p c fs = Some fs' -> fs_files fs' !! p = Some c.
Proof.
  unfold fs_write. case_bool_decide; [done|]. intros [= <-]. simpl.
  apply lookup_insert_eq.
Qed.

Lemma fs_write_other p q c fs fs' :
  fs_write p c fs = Some fs' -> q <> p -> fs_files fs' !! q = fs_files fs !! q.
Proof.
  unfold fs_write. case_bool_decide; [done|]. intros [= <-] Hne. simpl.
  by apply lookup_insert_ne.
Qed.

Lemma fs_remove_gone p fs : fs_files (fs_remove p fs) !! p = None.
Proof. apply lookup_delete_eq. Qed.

Lemma fs_remove_other p q fs : q <> p -> fs_files (fs_remove p fs) !! q = fs_files fs !! q.
Proof. intros Hne. by apply lookup_delete_ne. Qed.

Lemma spawn_wait_bound o : spawn_outcome_ok o -> 0 <= spawn_wait o <= 5000.
Proof. destruct o; simpl; lia. Qed.

Lemma exit_wait_bound o : exit_outcome_ok o -> 0 <= exit_wait o <= 7000.
Proof. destruct o; simpl; lia. Qed.


Lemma terminate_and_wait_clock o pid w :
  exit_outcome_ok o -> w_clock w <= w_clock (terminate_and_wait o pid w).1 <= w_clock w + 7000.
Proof.
  intros Ho. pose proof (exit_wait_bound o Ho).
  unfold terminate_and_wait. destruct (w_procs w !! pid); [|simpl; lia].
  destruct o; simpl in *; lia.
Qed.

Lemma terminate_and_wait_events o pid w :
  w_events (terminate_and_wait o pid w).1 = w_events w.
Proof. unfold terminate_and_wait. by repeat case_match. Qed.

Lemma terminate_and_wait_fs o pid w :
  w_fs (terminate_and_wait o pid w).1 = w_fs w.
Proof. unfold terminate_and_wait. by repeat case_match. Qed.

Lemma terminate_and_wait_other o pid w q :
  q <> pid -> w_procs (terminate_and_wait o pid w).1 !! q = w_procs w !! q.
Proof.
  intros Hne. unfold terminate_and_wait.
  repeat case_match; simpl; try done; by rewrite lookup_delete_ne.
Qed.

Lemma spawn_clock o prog args runs w :
  spawn_outcome_ok o -> w_clock w <= w_clock (spawn o prog args runs w).2 <= w_clock w + 5000.
Proof. intros Ho. pose proof (spawn_wait_bound o Ho). destruct o; simpl in *; lia. Qed.

Lemma spawn_fs o prog args runs w : w_fs (spawn o prog args runs w).2 = w_fs w.
Proof. by destruct o. Qed.

Lemma spawn_events o prog args runs w : w_events (spawn o prog args runs w).2 = w_events w.
Proof. by destruct o. Qed.

Lemma ensure_dir_ok d fs :
  d ∉ fs_unmakeable fs ->
  exists fs', ensure_dir d fs = Some fs' /\ fs_files fs' = fs_files fs /\
    fs_unmakeable fs' = fs_unmakeable fs /\ fs_unwritable fs' = fs_unwritable fs /\
    fs_unreadable fs' = fs_unreadable fs /\ d ∈ fs_dirs fs'.
Proof.
  intros Hd. unfold ensure_dir, dir_exists, fs_mkdir.
  case_bool_decide as He; [by eexists|].
  rewrite bool_decide_false by done. eexists. split; [done|]. simpl. set_solver.
Qed.

#[export] Hint Resolve spawn_wait_bound exit_wait_bound fs_remove_gone : neko.
