(* ===== verification/OutputRelay.v ===== *)
(** * Relaying a child process's output as log lines

    The supervisors' [onReadyReadStandardOutput]/[onReadyReadStandardError]
    slots read the bytes available, split them with
    [QString::split('\n', Qt::SkipEmptyParts)], and emit one [logOutput]
    per part, [trimmed()] and prefixed with a tag.  This file holds the Qt
    string functions ([qsplit_nl], [skip_empty], [trimmed]) and the shared
    loop [relay_lines]; the slots themselves are in [CoreManager] and
    [TunManager].  The theorems: splitting is undone by joining with
    ["\n"]; no relayed line contains a newline; one line is emitted per
    non-empty part, and a part made of spaces becomes an empty log line
    when there is no prefix. *)

From S2P Require Import Prelude.
From Stdlib Require Import Ascii.

(** ["\n"] and the characters [QChar::isSpace] accepts in Latin-1. *)
Definition nl : ascii := ascii_of_nat 10.

Definition qt_is_space (c : ascii) : bool :=
  Ascii.is_space c || Ascii.eqb c (ascii_of_nat 133) || Ascii.eqb c (ascii_of_nat 160).

(** [QString::split('\n')], keeping the empty parts. *)
Fixpoint qsplit_nl_go (s cur : string) : list string :=
  match s with
  | EmptyString => [cur]
  | String c s' =>
      if Ascii.eqb c nl then cur :: qsplit_nl_go s' EmptyString
      else qsplit_nl_go s' (cur +:+ String c EmptyString)%string
  end.
Definition qsplit_nl (s : string) : list string := qsplit_nl_go s EmptyString.

(** [Qt::SkipEmptyParts]. *)
Definition skip_empty (parts : list string) : list string :=
  filter (fun p => p <> EmptyString) parts.

(** [QString::trimmed()]: whitespace removed at both ends. *)
Fixpoint ltrim (s : string) : string :=
  match s with
  | EmptyString => EmptyString
  | String c s' => if qt_is_space c then ltrim s' else s
  end.

Fixpoint rtrim (s : string) : string :=
  match s with
  | EmptyString => EmptyString
  | String c s' =>
      match rtrim s' with
      | EmptyString => if qt_is_space c then EmptyString else String c EmptyString
      | r => String c r
      end
  end.

Definition trimmed (s : string) : string := rtrim (ltrim s).

(** The loop body shared by the four relay slots: one log line per
    non-empty part, trimmed, after [tag]. *)
Definition relay_lines (tag data : string) : list string :=
  map (fun line => (tag +:+ trimmed line)%string) (skip_empty (qsplit_nl data)).

(** A part made only of [QChar::isSpace] characters. *)
Fixpoint all_space (s : string) : bool :=
  match s with
  | EmptyString => true
  | String c s' => qt_is_space c && all_space s'
  end.

(** ** Lemmas *)

Fixpoint has_nl (s : string) : bool :=
  match s with
  | EmptyString => false
  | String c s' => Ascii.eqb c nl || has_nl s'
  end.

Lemma str_app_cons (c : ascii) (a b : string) :
  (String c a +:+ b = String c (a +:+ b))%string.
Proof. reflexivity. Qed.

Lemma str_app_nil_l (b : string) : (EmptyString +:+ b = b)%string.
Proof. reflexivity. Qed.

Lemma str_app_assoc (a b c : string) : ((a +:+ b) +:+ c = a +:+ (b +:+ c))%string.
Proof. induction a as [|x a IH]; [done|]. by rewrite !str_app_cons, IH. Qed.

Lemma str_app_nil_r (a : string) : (a +:+ EmptyString = a)%string.
Proof. induction a as [|x a IH]; [done|]. by rewrite str_app_cons, IH. Qed.

Lemma has_nl_app (a b : string) : has_nl (a +:+ b)%string = has_nl a || has_nl b.
Proof.
  induction a as [|x a IH]; [done|].
  rewrite str_app_cons. simpl. by rewrite IH, orb_assoc.
Qed.

#[export] Hint Rewrite str_app_cons str_app_nil_l str_app_nil_r : neko_rw.

(** Joining the parts with the separator gives back the data. *)
Lemma qsplit_nl_go_join (s cur : string) :
  String.concat (String nl EmptyString) (qsplit_nl_go s cur) = (cur +:+ s)%string.
Proof.
  revert cur. induction s as [|c s IH]; intros cur; simpl.
  - by rewrite str_app_nil_r.
  - destruct (Ascii.eqb c nl) eqn:E.
    + apply Ascii.eqb_eq in E as ->. simpl.
      destruct (qsplit_nl_go s EmptyString) eqn:Hs.
      * destruct s; simpl in Hs; [done|].
        destruct (Ascii.eqb a nl); simpl in Hs; [done|].
        exfalso. revert Hs. clear. generalize (String a EmptyString).
        induction s as [|b s IH]; intros r; simpl; [done|].
        destruct (Ascii.eqb b nl); [done|]. apply IH.
      * rewrite <- Hs, IH. simpl. reflexivity.
    + rewrite IH, str_app_assoc. reflexivity.
Qed.

(** Splitting at newlines is undone by joining the parts with ["\n"]:
    no byte of the output is lost before the empty parts are skipped. *)
Lemma qsplit_nl_join (s : string) :
  String.concat (String nl EmptyString) (qsplit_nl s) = s.
Proof. apply qsplit_nl_go_join. Qed.

Lemma qsplit_nl_go_no_nl (s cur : string) :
  has_nl cur = false -> Forall (fun p => has_nl p = false) (qsplit_nl_go s cur).
Proof.
  revert cur. induction s as [|c s IH]; intros cur Hcur; simpl.
  - by constructor.
  - destruct (Ascii.eqb c nl) eqn:E.
    + constructor; [done|]. by apply IH.
    + apply IH. rewrite has_nl_app, Hcur. simpl. by rewrite E.
Qed.

Lemma ltrim_no_nl (s : string) : has_nl s = false -> has_nl (ltrim s) = false.
Proof.
  induction s as [|c s IH]; simpl; [done|].
  intros [Hc Hs]%orb_false_iff. destruct (qt_is_space c); [by apply IH|].
  simpl. by rewrite Hc, Hs.
Qed.

Lemma rtrim_no_nl (s : string) : has_nl s = false -> has_nl (rtrim s) = false.
Proof.
  induction s as [|c s IH]; simpl; [done|].
  intros [Hc Hs]%orb_false_iff. specialize (IH Hs).
  destruct (rtrim s) eqn:E.
  - destruct (qt_is_space c); simpl; [done|]. by rewrite Hc.
  - simpl in *. by rewrite Hc, IH.
Qed.

Lemma trimmed_no_nl (s : string) : has_nl s = false -> has_nl (trimmed s) = false.
Proof. intros H. by apply rtrim_no_nl, ltrim_no_nl. Qed.

#[export] Hint Resolve trimmed_no_nl : neko.

(** Every relayed line is one line: no newline inside, whatever the
    bytes read. *)
Lemma relay_lines_no_nl tag data :
  has_nl tag = false -> Forall (fun l => has_nl l = false) (relay_lines tag data).
Proof.
  intros Ht. unfold relay_lines, skip_empty.
  pose proof (qsplit_nl_go_no_nl data EmptyString eq_refl) as Hs.
  apply Forall_forall. intros l Hl. apply list_elem_of_In, in_map_iff in Hl.
  destruct Hl as (p & <- & Hp). rewrite <- list_elem_of_In, list_elem_of_filter in Hp.
  rewrite has_nl_app, Ht. simpl. apply trimmed_no_nl.
  rewrite Forall_forall in Hs. by apply Hs, Hp.
Qed.

Lemma qsplit_nl_go_single (s cur : string) :
  has_nl s = false -> qsplit_nl_go s cur = [(cur +:+ s)%string].
Proof.
  revert cur. induction s as [|c s IH]; intros cur Hs; simpl in *.
  - by rewrite str_app_nil_r.
  - apply orb_false_iff in Hs as [Hc Hs]. rewrite Hc, IH by done.
    by rewrite str_app_assoc.
Qed.

Lemma ltrim_all_space (s : string) : all_space s = true -> ltrim s = EmptyString.
Proof.
  induction s as [|c s IH]; simpl; [done|].
  intros [-> Hs]%andb_true_iff. by apply IH.
Qed.

(** A chunk of blanks without a newline is one non-empty part: it is
    relayed as a line holding the tag alone, an empty log line on
    standard output, where the spec drops empty lines. *)
Lemma relay_blank_chunk (tag s : string) :
  s <> EmptyString -> all_space s = true -> has_nl s = false ->
  relay_lines tag s = [tag].
Proof.
  intros Hne Hsp Hnl. unfold relay_lines, skip_empty, qsplit_nl.
  rewrite qsplit_nl_go_single, str_app_nil_l by done.
  rewrite filter_cons_True by done. simpl.
  unfold trimmed. rewrite ltrim_all_space by done. simpl. by rewrite str_app_nil_r.
Qed.

(** ** Examples *)

Lemma relay_blank_chunk_witness : relay_lines EmptyString "  " = [EmptyString].
Proof. apply relay_blank_chunk; [discriminate|reflexivity|reflexivity]. Defined.

Lemma relay_lines_no_nl_witness :
  Forall (fun l => has_nl l = false)
    (relay_lines "[ERROR] " ("bad config" +:+ String nl " at line 3")%string).
Proof. apply relay_lines_no_nl. reflexivity. Defined.
