(* ===== verification/ConfigManager.v ===== *)
(** * ConfigStore: [NekoCore::ConfigManager]

    [src/nekoray/core/ConfigManager.cpp]: the settings document kept in
    memory ([m_dataStore]) and in [<configDir>/groups/nekobox.json].
    [initialize] creates the directory and its [groups] subdirectory,
    [load] reads and parses the file (creating it when absent), [save]
    writes the document.  Every operation maps a [ConfigManager.t] and a
    [FileSystem] to its boolean result and the new pair.

    Theorems: [load] on a malformed file fails and keeps the previous
    document (the spec's invariant of 4.5); [load] on a fresh directory
    creates the file; [save] then [load] gives the document back; a
    successful [initialize] leaves both directories in place. *)

From S2P Require Import Prelude QJson Platform.

Module ConfigManager.

(** The members of [class ConfigManager]. *)
Record t : Type := mk {
  m_dataStore : QJsonObject;
  m_configDir : string;
  m_configFile : string
}.

(** [ConfigManager::ConfigManager]: every member default-constructed. *)
Definition create : t := mk [] EmptyString EmptyString.

Definition with_dataStore (d : QJsonObject) (c : t) : t :=
  mk d (m_configDir c) (m_configFile c).

(** [ConfigManager::initialize(configDir)]. *)
Definition initialize (configDir : string) (c : t) (fs : FileSystem)
  : bool * t * FileSystem :=
  let c1 := mk (m_dataStore c) configDir (configDir +:+ "/groups/nekobox.json")%string in
  match ensure_dir configDir fs with
  | None => (false, c1, fs)
  | Some fs1 =>
      match ensure_dir (path_join configDir "groups") fs1 with
      | None => (false, c1, fs1)
      | Some fs2 => (true, c1, fs2)
      end
  end.

(** [ConfigManager::save()]: [QJsonDocument(m_dataStore).toJson()]
    written over the file. *)
Definition save (c : t) (fs : FileSystem) : bool * t * FileSystem :=
  match fs_write (m_configFile c) (JsonFile (QObject (m_dataStore c))) fs with
  | None => (false, c, fs)
  | Some fs' => (true, c, fs')
  end.

(** [ConfigManager::load()]. *)
Definition load (c : t) (fs : FileSystem) : bool * t * FileSystem :=
  if negb (file_exists (m_configFile c) fs) then
    save (with_dataStore [] c) fs
  else
    match fs_read (m_configFile c) fs with
    | None => (false, c, fs)
    | Some content =>
        match parse_json content with
        | None => (false, c, fs)
        | Some doc => (true, with_dataStore (doc_object doc) c, fs)
        end
    end.

(** ** Functional behaviour *)

(** A file that does not parse: [load] fails and the document is the
    one held before. *)
Lemma load_malformed_keeps c fs content :
  fs_files fs !! m_configFile c = Some content ->
  m_configFile c ∉ fs_unreadable fs ->
  parse_json content = None ->
  load c fs = (false, c, fs).
Proof.
  intros Hf Hr Hp. unfold load, file_exists, fs_read.
  rewrite Hf. simpl. case_bool_decide; [done|]. by rewrite ?Hf, Hp.
Qed.

(** A file that parses: the document becomes its object. *)
Lemma load_parsed c fs content doc :
  fs_files fs !! m_configFile c = Some content ->
  m_configFile c ∉ fs_unreadable fs ->
  parse_json content = Some doc ->
  load c fs = (true, with_dataStore (doc_object doc) c, fs).
Proof.
  intros Hf Hr Hp. unfold load, file_exists, fs_read.
  rewrite Hf. simpl. case_bool_decide; [done|]. by rewrite ?Hf, Hp.
Qed.

(** No file yet: [load] writes an empty document and succeeds when the
    path is writable. *)
Lemma load_absent_creates c fs :
  fs_files fs !! m_configFile c = None ->
  m_configFile c ∉ fs_unwritable fs ->
  exists fs', load c fs = (true, with_dataStore [] c, fs') /\
              fs_files fs' !! m_configFile c = Some (JsonFile (QObject [])).
Proof.
  intros Hf Hw. unfold load, file_exists. rewrite Hf. simpl.
  unfold save, fs_write. simpl. case_bool_decide; [done|].
  eexists. split; [done|]. simpl. apply lookup_insert_eq.
Qed.

(** [save] leaves the other files as they were. *)
Lemma save_other c fs b c' fs' p :
  save c fs = (b, c', fs') -> p <> m_configFile c -> fs_files fs' !! p = fs_files fs !! p.
Proof.
  unfold save. destruct (fs_write _ _ fs) eqn:E; intros [= <- <- <-] Hne; [|done].
  by eapply fs_write_other.
Qed.

Lemma with_dataStore_same c : with_dataStore (m_dataStore c) c = c.
Proof. by destruct c. Qed.

(** Round trip: what [save] wrote, [load] reads back. *)
Lemma save_load_roundtrip c fs c' fs' :
  save c fs = (true, c', fs') ->
  m_configFile c ∉ fs_unreadable fs ->
  load c' fs' = (true, c, fs').
Proof.
  unfold save. destruct (fs_write _ _ fs) as [fs1|] eqn:E; intros H Hr; [|done].
  injection H as <- <-.
  pose proof (file_exists_write _ _ _ _ E) as Hf.
  unfold fs_write in E. case_bool_decide; [done|]. injection E as <-.
  rewrite (load_parsed c _ _ (QObject (m_dataStore c)) Hf Hr eq_refl).
  simpl. by rewrite with_dataStore_same.
Qed.

(** A successful [initialize] leaves the directory and its [groups]
    subdirectory in place. *)
Lemma initialize_dirs dir c fs c' fs' :
  initialize dir c fs = (true, c', fs') ->
  dir ∈ fs_dirs fs' /\ path_join dir "groups" ∈ fs_dirs fs'.
Proof.
  unfold initialize, ensure_dir, dir_exists, fs_mkdir.
  repeat (case_bool_decide || case_match); intros; simplify_eq/=; set_solver.
Qed.

(** When the OS creates every directory asked for, [initialize]
    succeeds and touches no file. *)
Lemma initialize_ok dir c fs :
  fs_unmakeable fs = ∅ ->
  exists fs', initialize dir c fs =
    (true, mk (m_dataStore c) dir (dir +:+ "/groups/nekobox.json")%string, fs') /\
    fs_files fs' = fs_files fs /\ fs_unmakeable fs' = ∅ /\
    fs_unwritable fs' = fs_unwritable fs /\ fs_unreadable fs' = fs_unreadable fs.
Proof.
  intros Hu. unfold initialize.
  destruct (ensure_dir_ok dir fs) as (fs1 & -> & Hf1 & Hu1 & Hw1 & Hr1 & _); [set_solver|].
  destruct (ensure_dir_ok (path_join dir "groups") fs1) as (fs2 & -> & Hf2 & Hu2 & Hw2 & Hr2 & _);
    [set_solver|].
  eexists. split; [reflexivity|]. repeat split; congruence.
Qed.

End ConfigManager.

(** ** Examples *)

Lemma save_load_roundtrip_witness :
  let c := ConfigManager.mk [("inbound_socks_port", QDouble 1080%Z)] "/cfg"
             "/cfg/groups/nekobox.json" in
  let fs := mkFileSystem ∅ {[ "/cfg"; "/cfg/groups" ]} ∅ ∅ ∅ in
  ConfigManager.load (ConfigManager.save c fs).1.2 (ConfigManager.save c fs).2 =
    (true, c, (ConfigManager.save c fs).2).
Proof.
  intros c fs. apply (ConfigManager.save_load_roundtrip c fs); [reflexivity|decide_closed].
Defined.

Lemma load_malformed_keeps_witness :
  let c := ConfigManager.mk [("spmode_vpn", QBool true)] "/cfg" "/cfg/groups/nekobox.json" in
  let fs := mkFileSystem {[ "/cfg/groups/nekobox.json" := Malformed ]} ∅ ∅ ∅ ∅ in
  ConfigManager.load c fs = (false, c, fs).
Proof.
  intros c fs. apply (ConfigManager.load_malformed_keeps c fs Malformed);
    [vm_compute; reflexivity|decide_closed|reflexivity].
Defined.

Lemma load_absent_creates_witness :
  let c := ConfigManager.mk [] "/cfg" "/cfg/groups/nekobox.json" in
  exists fs', ConfigManager.load c (mkFileSystem ∅ ∅ ∅ ∅ ∅) =
                (true, ConfigManager.with_dataStore [] c, fs') /\
              fs_files fs' !! "/cfg/groups/nekobox.json" = Some (JsonFile (QObject [])).
Proof.
  intros c. apply (ConfigManager.load_absent_creates c); [vm_compute; reflexivity|decide_closed].
Defined.
