(* ===== verification/CoreManager.v ===== *)
(** * CoreSupervisor: [NekoCore::CoreManager]

    [src/nekoray/core/CoreManager_Fixed.cpp].  The supervisor holds at
    most one [QProcess] for the proxy core ([m_process]), the path of the
    configuration it generated ([m_configPath]), the executable found by
    the constructor ([m_corePath]), the profile it runs
    ([m_currentProfileId]) and the simulation flag the constructor sets
    when no executable is found ([m_simulationMode]).

    Every operation maps the supervisor and the [World] to its result and
    the new pair; the OS's answers are the [SpawnOutcome] of [start] and
    the [ExitOutcome] of [stop].  [process_exited] is the [finished]
    notification Qt delivers when the process dies, re-emitted as
    [processFinished]; [onReadyReadStandardOutput]/[Error] relay output.

    Theorems: [start] is idempotent, succeeds exactly when the config can
    be written and the OS starts the process, and then [isRunning]; [stop]
    clears [isRunning] outside simulation mode, and does not in simulation
    mode; [stop] never removes the generated config file; the generated
    configuration listens on 2080/2081 whatever the settings say; [start]
    blocks at most 5 s and [stop] at most 7 s. *)

From S2P Require Import Prelude QJson Platform OutputRelay.

Local Open Scope Z_scope.

(** [o[k1] = v1; o[k2] = v2; ...] on a fresh [QJsonObject]. *)
Definition obj_build (kvs : list (string * QJsonValue)) : QJsonObject :=
  fold_left (fun o kv => obj_insert kv.1 kv.2 o) kvs [].

(** The candidate executable names, searched in this order. *)
Definition possibleNames : list string := ["nekobox_core"; "nekoray_core"; "sing-box"].

(** [appDir + "/" + name], with [".exe"] on Windows. *)
Definition exe_path (plat : Platform) (appDir name : string) : string :=
  if decide (plat = Windows) then (path_join appDir name +:+ ".exe")%string
  else path_join appDir name.

(** The first candidate that exists beside the application. *)
Fixpoint find_in_dir (plat : Platform) (appDir : string) (fs : FileSystem)
    (names : list string) : string :=
  match names with
  | [] => EmptyString
  | n :: rest =>
      if file_exists (exe_path plat appDir n) fs then exe_path plat appDir n
      else find_in_dir plat appDir fs rest
  end.

(** The first candidate for which [which name] exits with 0; [which]
    gives that output, and the code keeps it [trimmed()]. *)
Fixpoint find_in_path (which : string -> option string) (names : list string) : string :=
  match names with
  | [] => EmptyString
  | n :: rest =>
      match which n with
      | Some out => trimmed out
      | None => find_in_path which rest
      end
  end.

Module CoreManager.

Record t : Type := mk {
  m_process : option Process;
  m_configPath : string;
  m_corePath : string;
  m_currentProfileId : Z;
  m_simulationMode : bool
}.

(** [CoreManager::CoreManager]: search beside the application, then
    on the PATH; no executable means simulation mode. *)
Definition create (plat : Platform) (appDir : string) (which : string -> option string)
    (fs : FileSystem) : t :=
  let inDir := find_in_dir plat appDir fs possibleNames in
  let corePath := if String.eqb inDir EmptyString then find_in_path which possibleNames
                  else inDir in
  mk None EmptyString corePath (-1) (String.eqb corePath EmptyString).

Definition set_process (p : option Process) (c : t) : t :=
  mk p (m_configPath c) (m_corePath c) (m_currentProfileId c) (m_simulationMode c).
Definition set_profile (id : Z) (c : t) : t :=
  mk (m_process c) (m_configPath c) (m_corePath c) id (m_simulationMode c).
Definition set_configPath (path : string) (c : t) : t :=
  mk (m_process c) path (m_corePath c) (m_currentProfileId c) (m_simulationMode c).

(** [m_process && m_process->state() != QProcess::NotRunning]. *)
Definition process_active (c : t) : bool :=
  match m_process c with
  | Some p => negb (bool_decide (qp_state p = QProcess.NotRunning))
  | None => false
  end.

(** The configuration [generateConfig] writes: a log section, SOCKS and
    HTTP inbounds on 127.0.0.1:2080 and :2081, direct and block
    outbounds, and a route whose final outbound is [direct]. *)
Definition core_config : QJsonObject :=
  let log := obj_build [("level", QString "info")] in
  let socksInbound := obj_build [("type", QString "socks"); ("tag", QString "socks-in");
                                 ("listen", QString "127.0.0.1"); ("listen_port", QDouble 2080)] in
  let httpInbound := obj_build [("type", QString "http"); ("tag", QString "http-in");
                                ("listen", QString "127.0.0.1"); ("listen_port", QDouble 2081)] in
  let directOutbound := obj_build [("type", QString "direct"); ("tag", QString "direct")] in
  let blockOutbound := obj_build [("type", QString "block"); ("tag", QString "block")] in
  let route := obj_build [("final", QString "direct")] in
  obj_build [("log", QObject log);
             ("inbounds", QArray [QObject socksInbound; QObject httpInbound]);
             ("outbounds", QArray [QObject directOutbound; QObject blockOutbound]);
             ("route", QObject route)].

(** [QDir::temp().absoluteFilePath("nekoray_core_%1.json")]. *)
Definition config_file (profileId : Z) : string :=
  temp_path ("nekoray_core_" +:+ z_to_string profileId +:+ ".json")%string.

(** [CoreManager::generateConfig(profileId)]: [m_configPath] is set
    before the file is opened. *)
Definition generateConfig (profileId : Z) (c : t) (w : World) : bool * t * World :=
  let c1 := set_configPath (config_file profileId) c in
  match fs_write (config_file profileId) (JsonFile (QObject core_config)) (w_fs w) with
  | None => (false, c1, w)
  | Some fs => (true, c1, set_fs fs w)
  end.

(** [CoreManager::start(profileId)]. *)
Definition start (o : SpawnOutcome) (profileId : Z) (c : t) (w : World) : bool * t * World :=
  if process_active c then (true, c, w)
  else if String.eqb (m_corePath c) EmptyString then
    if m_simulationMode c then (true, set_profile profileId c, w) else (false, c, w)
  else
    match generateConfig profileId c w with
    | (false, c1, w1) => (false, c1, w1)
    | (true, c1, w1) =>
        let args := ["--disable-color"; "run"; "-c"; m_configPath c1] in
        match spawn o (m_corePath c1) args (m_corePath c1) w1 with
        | (Some p, w2) =>
            (true, set_profile profileId (set_process (Some p) c1),
             emit (coreLogOutput ("Core started with PID " +:+ z_to_string (qp_pid p))%string) w2)
        | (None, w2) => (false, set_process None c1, w2)
        end
    end.

(** [CoreManager::stop()]. *)
Definition stop (o : ExitOutcome) (c : t) (w : World) : bool * t * World :=
  match m_process c with
  | None => (true, c, w)
  | Some p =>
      if bool_decide (qp_state p = QProcess.NotRunning) then (true, c, w)
      else
        let '(w1, finished) := terminate_and_wait o (qp_pid p) w in
        let w2 := if finished then emit coreProcessFinished w1 else w1 in
        (true, set_profile (-1) (set_process None c),
         emit (coreLogOutput "Core process stopped") w2)
  end.

(** [CoreManager::isRunning()]. *)
Definition isRunning (c : t) : bool :=
  (m_simulationMode c && (0 <? m_currentProfileId c)) ||
  match m_process c with
  | Some p => bool_decide (qp_state p = QProcess.Running)
  | None => false
  end.

(** [CoreManager::getProcessId()]. *)
Definition getProcessId (c : t) : Z :=
  match m_process c with
  | Some p => if bool_decide (qp_state p = QProcess.Running) then qp_pid p else -1
  | None => -1
  end.

(** Qt notices that the OS reaped the process: the handle goes to
    [NotRunning] and [finished] is relayed as [processFinished]
    ([onProcessFinished]).  The boolean tells whether it fired. *)
Definition process_exited (c : t) (w : World) : bool * t * World :=
  match m_process c with
  | Some p =>
      if negb (bool_decide (qp_state p = QProcess.NotRunning)) &&
         negb (bool_decide (is_Some (w_procs w !! qp_pid p)))
      then (true, set_process (Some (mkProcess QProcess.NotRunning (qp_pid p)
                                       (qp_program p) (qp_args p))) c,
            emit coreProcessFinished w)
      else (false, c, w)
  | None => (false, c, w)
  end.

(** [onReadyReadStandardOutput] / [onReadyReadStandardError]. *)
Definition relay (tag data : string) (c : t) (w : World) : World :=
  match m_process c with
  | Some _ => fold_left (fun w line => emit (coreLogOutput line) w) (relay_lines tag data) w
  | None => w
  end.
Definition onReadyReadStandardOutput (data : string) (c : t) (w : World) : World :=
  relay EmptyString data c w.
Definition onReadyReadStandardError (data : string) (c : t) (w : World) : World :=
  relay "[ERROR] " data c w.

End CoreManager.

(** ** Properties of the core supervisor *)

Module CoreManagerFacts.
Import CoreManager.

(** The constructor's coherence: simulation mode exactly when no
    executable was found.  No operation changes either member. *)
Definition wf (c : t) : Prop := m_simulationMode c = String.eqb (m_corePath c) EmptyString.

Lemma create_wf plat appDir which fs : wf (create plat appDir which fs).
Proof. reflexivity. Qed.

Lemma generateConfig_ok profileId c w :
  config_file profileId ∉ fs_unwritable (w_fs w) ->
  exists fs', fs_write (config_file profileId) (JsonFile (QObject core_config)) (w_fs w) = Some fs' /\
    generateConfig profileId c w = (true, set_configPath (config_file profileId) c, set_fs fs' w).
Proof.
  intros Hw. unfold generateConfig, fs_write. case_bool_decide; [done|].
  eexists. split; reflexivity.
Qed.

(** [start] and [stop] never change the executable or the mode. *)
Lemma start_fields o id c w :
  m_corePath (start o id c w).1.2 = m_corePath c /\
  m_simulationMode (start o id c w).1.2 = m_simulationMode c.
Proof. split; unfold start, generateConfig; repeat case_match; by simplify_eq/=. Qed.

Lemma stop_fields o c w :
  m_corePath (stop o c w).1.2 = m_corePath c /\
  m_simulationMode (stop o c w).1.2 = m_simulationMode c.
Proof. split; unfold stop; repeat case_match; by simplify_eq/=. Qed.

Lemma start_preserves_wf o id c w : wf c -> wf (start o id c w).1.2.
Proof. unfold wf. destruct (start_fields o id c w) as [-> ->]. done. Qed.

Lemma stop_preserves_wf o c w : wf c -> wf (stop o c w).1.2.
Proof. unfold wf. destruct (stop_fields o c w) as [-> ->]. done. Qed.

(** Without a process handle (simulation mode) [stop] does nothing. *)
Lemma stop_no_process o c w : m_process c = None -> stop o c w = (true, c, w).
Proof. intros H. unfold stop. by rewrite H. Qed.

Lemma process_exited_fields c w :
  m_corePath (process_exited c w).1.2 = m_corePath c /\
  m_simulationMode (process_exited c w).1.2 = m_simulationMode c.
Proof. unfold process_exited. split; by repeat case_match. Qed.

Lemma process_exited_preserves_wf c w : wf c -> wf (process_exited c w).1.2.
Proof. unfold wf. destruct (process_exited_fields c w) as [-> ->]. done. Qed.

(** Outside simulation mode, noticing an exit leaves the handle
    [NotRunning]: a supervisor that was not running stays so. *)
Lemma process_exited_not_running c w :
  m_simulationMode c = false -> isRunning c = false ->
  isRunning (process_exited c w).1.2 = false.
Proof.
  intros Hs Hr. unfold process_exited. repeat case_match; try done.
  unfold isRunning. simpl. rewrite Hs. simpl. first [done|by rewrite bool_decide_false].
Qed.

(** A second [start] while the process is alive changes nothing and
    spawns nothing. *)
Lemma start_idempotent o id c w :
  process_active c = true -> start o id c w = (true, c, w).
Proof. intros H. unfold start. by rewrite H. Qed.

(** [start] with an executable, a writable temp directory and an OS
    that starts the process: success, the handle runs the executable
    on the generated config, and [isRunning] holds. *)
Lemma start_spawned id c w pid ms :
  process_active c = false ->
  m_corePath c <> EmptyString ->
  config_file id ∉ fs_unwritable (w_fs w) ->
  let '(b, c', w') := start (Spawned pid ms) id c w in
  b = true /\ isRunning c' = true /\ getProcessId c' = pid /\
  m_currentProfileId c' = id /\ m_configPath c' = config_file id /\
  w_procs w' !! pid = Some (m_corePath c) /\
  fs_files (w_fs w') !! config_file id = Some (JsonFile (QObject core_config)).
Proof.
  intros Ha Hp Hw. destruct (generateConfig_ok id c w Hw) as (fs' & Hfs & Hg).
  unfold start. rewrite Ha. apply String.eqb_neq in Hp. rewrite Hp, Hg. simpl.
  unfold isRunning, getProcessId. simpl.
  rewrite ?orb_true_r. repeat split; try done.
  - apply lookup_insert_eq.
  - by eapply file_exists_write.
Qed.

(** [start] fails when the temp config cannot be written: nothing is
    spawned, only [m_configPath] has moved. *)
Lemma start_unwritable o id c w :
  process_active c = false ->
  m_corePath c <> EmptyString ->
  config_file id ∈ fs_unwritable (w_fs w) ->
  start o id c w = (false, set_configPath (config_file id) c, w).
Proof.
  intros Ha Hp Hw. unfold start, generateConfig, fs_write. rewrite Ha.
  apply String.eqb_neq in Hp as ->. by rewrite bool_decide_true.
Qed.

(** [start] fails when the OS does not start the process; the handle
    is dropped, so outside simulation mode [isRunning] is false. *)
Lemma start_not_spawned o id c w :
  process_active c = false ->
  m_corePath c <> EmptyString ->
  config_file id ∉ fs_unwritable (w_fs w) ->
  (forall pid ms, o <> Spawned pid ms) ->
  let '(b, c', _) := start o id c w in
  b = false /\ m_process c' = None /\ (wf c -> isRunning c' = false).
Proof.
  intros Ha Hp Hw Ho. destruct (generateConfig_ok id c w Hw) as (fs' & _ & Hg).
  unfold wf, start, isRunning. rewrite Ha.
  apply String.eqb_neq in Hp as Hp'. rewrite Hp', Hg.
  destruct o as [pid ms| |]; [by destruct (Ho pid ms)| |];
    simpl; repeat split; intros ->; done.
Qed.

(** [stop] either finds no live handle and changes nothing, or drops
    the handle and resets the profile. *)
Lemma stop_state o c w :
  ((stop o c w).1.2 = c /\ process_active c = false) \/
  (stop o c w).1.2 = set_profile (-1) (set_process None c).
Proof.
  unfold stop, process_active. destruct (m_process c) as [p|]; [|by left].
  case_bool_decide; [by left|]. right. by destruct (terminate_and_wait _ _ _).
Qed.

(** Outside simulation mode, after [stop] the supervisor is not
    running, whatever the OS answered. *)
Lemma stop_not_running o c w :
  m_simulationMode c = false -> isRunning (stop o c w).1.2 = false.
Proof.
  intros Hs. destruct (stop_state o c w) as [[-> Ha]| ->]; unfold isRunning;
    simpl; rewrite Hs; [|done].
  unfold process_active in Ha. simpl.
  destruct (m_process c) as [p|]; [|done].
  apply negb_false_iff in Ha. apply bool_decide_eq_true in Ha.
  rewrite Ha. done.
Qed.

(** In simulation mode (no executable was found) [start] pretends a
    process runs, and [stop], which only looks at [m_process], leaves
    [m_currentProfileId] in place: the supervisor still reports
    running after [stop]. *)
Lemma simulation_stop_still_running so eo id c w :
  m_simulationMode c = true -> m_corePath c = EmptyString -> m_process c = None ->
  0 < id ->
  let '(_, c1, w1) := start so id c w in
  isRunning c1 = true /\ isRunning (stop eo c1 w1).1.2 = true.
Proof.
  intros Hs Hp Hn Hid. unfold start, process_active. rewrite Hn, Hp, Hs. simpl.
  unfold stop, isRunning. simpl. rewrite Hs, Hn. simpl.
  apply Z.ltb_lt in Hid as ->. by rewrite Hs, Hn.
Qed.

(** [stop] touches no file: the config [generateConfig] wrote stays in
    the temp directory. *)
Lemma stop_keeps_files o c w : w_fs (stop o c w).2 = w_fs w.
Proof.
  unfold stop. destruct (m_process c) as [p|]; [|done]. case_bool_decide; [done|].
  destruct (terminate_and_wait o (qp_pid p) w) as [w1 fin] eqn:E. simpl.
  pose proof (terminate_and_wait_fs o (qp_pid p) w) as Hfs. rewrite E in Hfs. simpl in Hfs.
  by destruct fin.
Qed.

(** [stop] after a successful [start] leaves the generated config
    file in the temp directory: the code never removes it, where the spec says
    it is always removed. *)
Lemma start_then_stop_leaves_config id c w pid ms eo :
  process_active c = false ->
  m_corePath c <> EmptyString ->
  config_file id ∉ fs_unwritable (w_fs w) ->
  let '(_, c1, w1) := start (Spawned pid ms) id c w in
  fs_files (w_fs (stop eo c1 w1).2) !! config_file id = Some (JsonFile (QObject core_config)).
Proof.
  intros Ha Hp Hw. destruct (generateConfig_ok id c w Hw) as (fs' & Hfs & Hg).
  unfold start. rewrite Ha. apply String.eqb_neq in Hp as ->. rewrite Hg. simpl.
  rewrite stop_keeps_files. simpl. unfold fs_write in Hfs.
  case_bool_decide; simplify_eq/=. apply lookup_insert_eq.
Qed.

(** Blocking time of [start]: at most 5 s of [waitForStarted]. *)
Lemma start_clock o id c w :
  spawn_outcome_ok o -> w_clock w <= w_clock (start o id c w).2 <= w_clock w + 5000.
Proof.
  intros Ho. unfold start, generateConfig.
  destruct (process_active c); [simpl; lia|].
  destruct (String.eqb _ _); [destruct (m_simulationMode c); simpl; lia|].
  destruct (fs_write _ _ _) as [fs|]; simpl; [|lia].
  pose proof (spawn_clock o (m_corePath c) ["--disable-color"; "run"; "-c"; config_file id]
                (m_corePath c) (set_fs fs w) Ho) as Hc.
  destruct (spawn _ _ _ _ _) as [[p|] w2]; simpl in *; lia.
Qed.

(** Blocking time of [stop]: at most 5 s of [terminate] and 2 s of
    [kill], 7 s in all. *)
Lemma stop_clock o c w :
  exit_outcome_ok o -> w_clock w <= w_clock (stop o c w).2 <= w_clock w + 7000.
Proof.
  intros Ho. unfold stop. destruct (m_process c) as [p|]; [|simpl; lia].
  case_bool_decide; [simpl; lia|].
  pose proof (terminate_and_wait_clock o (qp_pid p) w Ho) as Hc.
  destruct (terminate_and_wait o (qp_pid p) w) as [w1 []]; simpl in *; lia.
Qed.

(** The relay slots emit one [logOutput] per line of [relay_lines], in
    order, and only while a process handle exists. *)
Lemma relay_events tag data c w :
  w_events (relay tag data c w) =
  w_events w ++ match m_process c with
                | Some _ => map coreLogOutput (relay_lines tag data)
                | None => []
                end.
Proof.
  unfold relay. destruct (m_process c); [|by rewrite app_nil_r].
  generalize (relay_lines tag data) as ls. intros ls. revert w.
  induction ls as [|l ls IH]; intros w; simpl; [by rewrite app_nil_r|].
  rewrite IH, emit_events, <- app_assoc. done.
Qed.

End CoreManagerFacts.

(** ** Examples

    An installation with [/opt/nekoray/nekobox_core], an empty temp
    directory, and profile 1. *)

Lemma start_spawned_witness :
  let c := CoreManager.mk None EmptyString "/opt/nekoray/nekobox_core" (-1) false in
  let w := mkWorld (mkFileSystem ∅ ∅ ∅ ∅ ∅) ∅ 0 [] in
  let '(b, c', w') := CoreManager.start (Spawned 4242 30) 1 c w in
  b = true /\ CoreManager.isRunning c' = true /\ CoreManager.getProcessId c' = 4242 /\
  CoreManager.m_currentProfileId c' = 1 /\
  CoreManager.m_configPath c' = CoreManager.config_file 1 /\
  w_procs w' !! 4242 = Some "/opt/nekoray/nekobox_core"%string /\
  fs_files (w_fs w') !! CoreManager.config_file 1 =
    Some (JsonFile (QObject CoreManager.core_config)).
Proof.
  intros c w. apply (CoreManagerFacts.start_spawned 1 c w 4242 30);
    [reflexivity|discriminate|decide_closed].
Defined.

Lemma start_unwritable_witness :
  let c := CoreManager.mk None EmptyString "/opt/nekoray/nekobox_core" (-1) false in
  let w := mkWorld (mkFileSystem ∅ ∅ {[ CoreManager.config_file 1 ]} ∅ ∅) ∅ 0 [] in
  CoreManager.start (Spawned 4242 30) 1 c w =
    (false, CoreManager.set_configPath (CoreManager.config_file 1) c, w).
Proof.
  intros c w. apply CoreManagerFacts.start_unwritable; [reflexivity|discriminate|decide_closed].
Defined.

Lemma start_idempotent_witness :
  let c := CoreManager.mk (Some (mkProcess QProcess.Running 4242 "/opt/nekoray/nekobox_core" []))
             "/tmp/nekoray_core_1.json" "/opt/nekoray/nekobox_core" 1 false in
  let w := mkWorld (mkFileSystem ∅ ∅ ∅ ∅ ∅) {[ 4242 := "/opt/nekoray/nekobox_core" ]} 0 [] in
  CoreManager.start (Spawned 5000 30) 2 c w = (true, c, w).
Proof. intros c w. apply CoreManagerFacts.start_idempotent. reflexivity. Defined.

Lemma start_then_stop_leaves_config_witness :
  let c := CoreManager.mk None EmptyString "/opt/nekoray/nekobox_core" (-1) false in
  let w := mkWorld (mkFileSystem ∅ ∅ ∅ ∅ ∅) ∅ 0 [] in
  let '(_, c1, w1) := CoreManager.start (Spawned 4242 30) 1 c w in
  fs_files (w_fs (CoreManager.stop (ExitOnTerminate 100) c1 w1).2) !! CoreManager.config_file 1 =
    Some (JsonFile (QObject CoreManager.core_config)).
Proof.
  intros c w. apply CoreManagerFacts.start_then_stop_leaves_config;
    [reflexivity|discriminate|decide_closed].
Defined.

Lemma stop_clock_witness :
  let c := CoreManager.mk (Some (mkProcess QProcess.Running 4242 "/opt/nekoray/nekobox_core" []))
             "/tmp/nekoray_core_1.json" "/opt/nekoray/nekobox_core" 1 false in
  let w := mkWorld (mkFileSystem ∅ ∅ ∅ ∅ ∅) {[ 4242 := "/opt/nekoray/nekobox_core" ]} 0 [] in
  w_clock w <= w_clock (CoreManager.stop (ExitOnKill 2000) c w).2 <= w_clock w + 7000.
Proof. intros c w. apply CoreManagerFacts.stop_clock. simpl. lia. Defined.
