(* ===== verification/TunManager.v ===== *)
(** * TunSupervisor: [NekoCore::TunManager]

    [src/nekoray/core/TunManager_Fixed.cpp].  The supervisor of the
    privileged TUN process: the [QProcess] handle ([m_tunProcess]), the
    generated TUN configuration and launch script ([m_tunConfigPath],
    [m_tunScriptPath]) and the core executable found beside the
    application ([m_corePath]; unlike [CoreManager] there is no PATH
    fallback).

    [tun_config] is the document [generateTunConfig] writes;
    [tun_launch] is the per-platform privilege launcher of
    [startTunProcess] (the core itself on Windows, [osascript] on macOS,
    [pkexec bash script] elsewhere).  [stop] first runs
    [pkexec killall -2 nekobox_core] outside Windows: its outcome is a
    [KillallOutcome]; it sends SIGINT to every process whose executable is
    named [nekobox_core], the main core included.

    Theorems: [start] is idempotent and fails without an executable;
    after [stop] of a live process both temp files are gone, on every
    termination path; [stop] blocks up to 10 s on Linux; the [killall]
    step kills a main core named [nekobox_core]. *)

From S2P Require Import Prelude QJson Platform OutputRelay CoreManager.
From Stdlib Require Import Ascii.

Local Open Scope Z_scope.

(** The answer to [killProcess.start("pkexec", {"killall", "-2",
    "nekobox_core"})] + [waitForFinished(3000)]: the user authorised it
    and [killall] ran within [ms], or the wait timed out (the [QProcess]
    on the stack is then destroyed, which kills [pkexec] before
    [killall] runs). *)
Inductive KillallOutcome : Type :=
| KillallDone (ms : Z)
| KillallTimeout.

Definition killall_outcome_ok (k : KillallOutcome) : Prop :=
  match k with KillallDone ms => 0 <= ms <= 3000 | KillallTimeout => True end.

(** The effect of the [killall] step on the world.  On macOS there is no
    [pkexec]: the start fails and the wait returns at once. *)
Definition killall_nekobox (plat : Platform) (k : KillallOutcome) (w : World) : World :=
  match plat, k with
  | Linux, KillallDone ms =>
      wait_ms ms (set_procs (filter (fun kv => basename kv.2 <> "nekobox_core") (w_procs w)) w)
  | Linux, KillallTimeout => wait_ms 3000 w
  | _, _ => w
  end.

(** A double quote, for the script text. *)
Definition dq : string := String (ascii_of_nat 34) EmptyString.

Module TunManager.

Record t : Type := mk {
  m_tunProcess : option Process;
  m_tunConfigPath : string;
  m_tunScriptPath : string;
  m_corePath : string
}.

(** [TunManager::TunManager]: the first candidate beside the
    application, and nothing else. *)
Definition create (plat : Platform) (appDir : string) (fs : FileSystem) : t :=
  mk None EmptyString EmptyString (find_in_dir plat appDir fs possibleNames).

Definition set_process (p : option Process) (x : t) : t :=
  mk p (m_tunConfigPath x) (m_tunScriptPath x) (m_corePath x).
Definition set_configPath (path : string) (x : t) : t :=
  mk (m_tunProcess x) path (m_tunScriptPath x) (m_corePath x).
Definition set_scriptPath (path : string) (x : t) : t :=
  mk (m_tunProcess x) (m_tunConfigPath x) path (m_corePath x).

Definition process_active (x : t) : bool :=
  match m_tunProcess x with
  | Some p => negb (bool_decide (qp_state p = QProcess.NotRunning))
  | None => false
  end.

(** The document [generateTunConfig] builds: fake-IP DNS with two
    upstream resolvers, a TUN inbound on 172.19.0.1/28, a SOCKS outbound
    to 127.0.0.1:2080, direct and block outbounds, and route rules that
    block multicast and send port 53 to [dns-out]. *)
Definition tun_config : QJsonObject :=
  let log := obj_build [("level", QString "info")] in
  let fakeip := obj_build [("enabled", QBool true); ("inet4_range", QString "198.18.0.0/15");
                           ("inet6_range", QString "fc00::/18")] in
  let dnsRemote := obj_build [("tag", QString "dns-remote"); ("address", QString "8.8.8.8");
                              ("detour", QString "direct")] in
  let dnsDirect := obj_build [("tag", QString "dns-direct"); ("address", QString "223.5.5.5");
                              ("detour", QString "direct")] in
  let dnsFake := obj_build [("address", QString "fakeip"); ("tag", QString "dns-fake")] in
  let dns := obj_build [("fakeip", QObject fakeip);
                        ("servers", QArray [QObject dnsRemote; QObject dnsDirect; QObject dnsFake])] in
  let tunInbound := obj_build [("type", QString "tun"); ("tag", QString "tun-in");
      ("interface_name", QString "nekoray-tun"); ("inet4_address", QString "172.19.0.1/28");
      ("mtu", QDouble 9000); ("auto_route", QBool true); ("strict_route", QBool true);
      ("stack", QString "system"); ("endpoint_independent_nat", QBool true);
      ("sniff", QBool true)] in
  let socksOutbound := obj_build [("type", QString "socks"); ("tag", QString "proxy");
      ("server", QString "127.0.0.1"); ("server_port", QDouble 2080);
      ("udp_fragment", QBool true)] in
  let directOutbound := obj_build [("type", QString "direct"); ("tag", QString "direct")] in
  let blockOutbound := obj_build [("type", QString "block"); ("tag", QString "block")] in
  let blockMulticast := obj_build [("ip_cidr", QArray [QString "224.0.0.0/3"; QString "ff00::/8"]);
                                   ("outbound", QString "block")] in
  let dnsRule := obj_build [("port", QDouble 53); ("outbound", QString "dns-out")] in
  let route := obj_build [("final", QString "proxy"); ("auto_detect_interface", QBool true);
                          ("rules", QArray [QObject blockMulticast; QObject dnsRule])] in
  obj_build [("log", QObject log); ("dns", QObject dns);
             ("inbounds", QArray [QObject tunInbound]);
             ("outbounds", QArray [QObject socksOutbound; QObject directOutbound;
                                   QObject blockOutbound]);
             ("route", QObject route)].

Definition config_file : string := temp_path "nekoray_tun.json".
Definition script_file : string := temp_path "nekoray_tun.sh".

(** The launch script: a thin [exec] wrapper. *)
Definition tun_script (corePath configPath : string) : list string :=
  ["#!/bin/bash";
   ("echo " +:+ dq +:+ "Starting NekoRay TUN mode..." +:+ dq)%string;
   ("exec " +:+ dq +:+ corePath +:+ dq +:+ " --disable-color run -c " +:+ dq +:+
    configPath +:+ dq)%string].

(** [TunManager::generateTunConfig()]: the config (its failure fails the
    call), then, outside Windows, the script (its failure is ignored). *)
Definition generateTunConfig (plat : Platform) (x : t) (w : World) : bool * t * World :=
  let x1 := set_configPath config_file x in
  match fs_write config_file (JsonFile (QObject tun_config)) (w_fs w) with
  | None => (false, x1, w)
  | Some fs1 =>
      if decide (plat = Windows) then (true, x1, set_fs fs1 w)
      else
        let x2 := set_scriptPath script_file x1 in
        match fs_write script_file (TextFile (tun_script (m_corePath x) config_file)) fs1 with
        | Some fs2 => (true, x2, set_fs fs2 w)
        | None => (true, x2, set_fs fs1 w)
        end
  end.

(** The privilege launcher of [startTunProcess]: the program and the
    arguments per platform. *)
Definition tun_launch (plat : Platform) (corePath configPath scriptPath : string)
    : string * list string :=
  match plat with
  | Windows => (corePath, ["--disable-color"; "run"; "-c"; configPath])
  | MacOS => ("osascript", ["-e"; ("do shell script " +:+ dq +:+ "bash " +:+ scriptPath +:+
                                   dq +:+ " with administrator privileges")%string])
  | Linux => ("pkexec", ["bash"; scriptPath])
  end.

(** What the started pid ends up running: the core itself on Windows,
    and on Linux after [pkexec] and the script's [exec]; on macOS the
    pid stays [osascript]. *)
Definition launched_program (plat : Platform) (corePath : string) : string :=
  match plat with MacOS => "osascript" | _ => corePath end.

(** [TunManager::startTunProcess()]. *)
Definition startTunProcess (plat : Platform) (o : SpawnOutcome) (x : t) (w : World)
    : bool * t * World :=
  let '(program, args) := tun_launch plat (m_corePath x) (m_tunConfigPath x) (m_tunScriptPath x) in
  match spawn o program args (launched_program plat (m_corePath x)) w with
  | (Some p, w1) =>
      (true, set_process (Some p) x,
       emit (tunLogOutput ("TUN process started with PID " +:+ z_to_string (qp_pid p))%string) w1)
  | (None, w1) => (false, set_process None x, w1)
  end.

(** [TunManager::start()]. *)
Definition start (plat : Platform) (o : SpawnOutcome) (x : t) (w : World) : bool * t * World :=
  if process_active x then (true, x, w)
  else if String.eqb (m_corePath x) EmptyString then (false, x, w)
  else
    match generateTunConfig plat x w with
    | (false, x1, w1) => (false, x1, w1)
    | (true, x1, w1) => startTunProcess plat o x1 w1
    end.

(** Removes the temp files whose paths are set. *)
Definition cleanup (x : t) (fs : FileSystem) : FileSystem :=
  let fs1 := if String.eqb (m_tunConfigPath x) EmptyString then fs
             else fs_remove (m_tunConfigPath x) fs in
  if String.eqb (m_tunScriptPath x) EmptyString then fs1
  else fs_remove (m_tunScriptPath x) fs1.

(** [TunManager::stop()]. *)
Definition stop (plat : Platform) (k : KillallOutcome) (o : ExitOutcome) (x : t) (w : World)
    : bool * t * World :=
  match m_tunProcess x with
  | None => (true, x, w)
  | Some p =>
      if bool_decide (qp_state p = QProcess.NotRunning) then (true, x, w)
      else
        let w1 := if decide (plat = Windows) then w else killall_nekobox plat k w in
        let '(w2, finished) := terminate_and_wait o (qp_pid p) w1 in
        let w3 := if finished then emit tunProcessFinished w2 else w2 in
        (true, set_process None x,
         emit (tunLogOutput "TUN process stopped") (set_fs (cleanup x (w_fs w3)) w3))
  end.

(** [TunManager::isRunning()]. *)
Definition isRunning (x : t) : bool :=
  match m_tunProcess x with
  | Some p => bool_decide (qp_state p = QProcess.Running)
  | None => false
  end.

(** Qt notices the TUN process died: [finished] relayed as
    [processFinished]. *)
Definition process_exited (x : t) (w : World) : bool * t * World :=
  match m_tunProcess x with
  | Some p =>
      if negb (bool_decide (qp_state p = QProcess.NotRunning)) &&
         negb (bool_decide (is_Some (w_procs w !! qp_pid p)))
      then (true, set_process (Some (mkProcess QProcess.NotRunning (qp_pid p)
                                       (qp_program p) (qp_args p))) x,
            emit tunProcessFinished w)
      else (false, x, w)
  | None => (false, x, w)
  end.

(** [onReadyReadStandardOutput] / [onReadyReadStandardError]. *)
Definition relay (tag data : string) (x : t) (w : World) : World :=
  match m_tunProcess x with
  | Some _ => fold_left (fun w line => emit (tunLogOutput line) w) (relay_lines tag data) w
  | None => w
  end.
Definition onReadyReadStandardOutput (data : string) (x : t) (w : World) : World :=
  relay "[TUN] " data x w.
Definition onReadyReadStandardError (data : string) (x : t) (w : World) : World :=
  relay "[TUN ERROR] " data x w.

End TunManager.

(** ** Properties of the TUN supervisor *)

Module TunManagerFacts.
Import TunManager.

Lemma tun_start_idempotent plat o x w :
  process_active x = true -> start plat o x w = (true, x, w).
Proof. intros H. unfold start. by rewrite H. Qed.

(** Without an executable beside the application [start] fails at
    once: no file is written, nothing is spawned. *)
Lemma start_no_core plat o x w :
  process_active x = false -> m_corePath x = EmptyString -> start plat o x w = (false, x, w).
Proof. intros Ha Hc. unfold start. by rewrite Ha, Hc. Qed.

(** A successful start on Linux: the handle runs the core through
    [pkexec bash nekoray_tun.sh], and both temp files are written. *)
Lemma start_linux_spawned x w pid ms :
  process_active x = false ->
  m_corePath x <> EmptyString ->
  config_file ∉ fs_unwritable (w_fs w) ->
  script_file ∉ fs_unwritable (w_fs w) ->
  let '(b, x', w') := start Linux (Spawned pid ms) x w in
  b = true /\ isRunning x' = true /\
  option_map qp_program (m_tunProcess x') = Some "pkexec"%string /\
  w_procs w' !! pid = Some (m_corePath x) /\
  fs_files (w_fs w') !! config_file = Some (JsonFile (QObject tun_config)) /\
  fs_files (w_fs w') !! script_file = Some (TextFile (tun_script (m_corePath x) config_file)).
Proof.
  intros Ha Hc Hw1 Hw2. unfold start. rewrite Ha.
  apply String.eqb_neq in Hc. rewrite Hc.
  unfold generateTunConfig, fs_write at 1. case_bool_decide; [done|]. simpl.
  unfold fs_write. case_bool_decide as Hs; [simpl in Hs; done|]. simpl.
  repeat split; try done.
  - apply lookup_insert_eq.
  - rewrite lookup_insert_ne; [apply lookup_insert_eq|done].
  - apply lookup_insert_eq.
Qed.

Lemma cleanup_config x fs :
  m_tunConfigPath x <> EmptyString -> fs_files (cleanup x fs) !! m_tunConfigPath x = None.
Proof.
  intros H. unfold cleanup. apply String.eqb_neq in H. rewrite H.
  destruct (String.eqb (m_tunScriptPath x) EmptyString); [apply fs_remove_gone|].
  destruct (decide (m_tunConfigPath x = m_tunScriptPath x)) as [<-|Hne];
    [apply fs_remove_gone|].
  rewrite fs_remove_other by done. apply fs_remove_gone.
Qed.

Lemma cleanup_script x fs :
  m_tunScriptPath x <> EmptyString -> fs_files (cleanup x fs) !! m_tunScriptPath x = None.
Proof.
  intros H. unfold cleanup. apply String.eqb_neq in H. rewrite H. apply fs_remove_gone.
Qed.

(** [stop] of a live TUN process: the handle is released and both temp
    files are removed, whatever the [killall] and the termination did,
    the forced-kill path included. *)
Lemma stop_cleans_up plat k o x w :
  process_active x = true ->
  m_tunConfigPath x <> EmptyString -> m_tunScriptPath x <> EmptyString ->
  let '(b, x', w') := stop plat k o x w in
  b = true /\ isRunning x' = false /\ m_tunProcess x' = None /\
  fs_files (w_fs w') !! m_tunConfigPath x = None /\
  fs_files (w_fs w') !! m_tunScriptPath x = None.
Proof.
  intros Ha Hc Hs. unfold process_active in Ha. unfold stop.
  destruct (m_tunProcess x) as [p|]; [|done].
  apply negb_true_iff in Ha. rewrite Ha.
  destruct (terminate_and_wait _ _ _) as [w2 fin].
  repeat split; simpl; [by apply cleanup_config | by apply cleanup_script].
Qed.

(** [stop] never leaves the handle running. *)
Lemma tun_stop_not_running plat k o x w : isRunning (stop plat k o x w).1.2 = false.
Proof.
  unfold stop, isRunning. destruct (m_tunProcess x) as [p|] eqn:Hp; [|simpl; by rewrite Hp].
  case_bool_decide as Hn; [simpl; by rewrite Hp, Hn|].
  by destruct (terminate_and_wait _ _ _).
Qed.

Lemma killall_clock plat k w :
  killall_outcome_ok k -> w_clock w <= w_clock (killall_nekobox plat k w) <= w_clock w + 3000.
Proof. destruct plat, k; simpl; lia. Qed.

(** Blocking time of [stop]: up to 3 s for [killall], 5 s for
    [terminate], 2 s for [kill]: 10 s in all. *)
Lemma tun_stop_clock plat k o x w :
  killall_outcome_ok k -> exit_outcome_ok o ->
  w_clock w <= w_clock (stop plat k o x w).2 <= w_clock w + 10000.
Proof.
  intros Hk Ho. unfold stop. destruct (m_tunProcess x) as [p|]; [|simpl; lia].
  case_bool_decide; [simpl; lia|].
  set (w1 := if decide (plat = Windows) then w else killall_nekobox plat k w).
  assert (w_clock w <= w_clock w1 <= w_clock w + 3000).
  { subst w1. case_decide; [lia|]. by apply killall_clock. }
  pose proof (terminate_and_wait_clock o (qp_pid p) w1 Ho).
  destruct (terminate_and_wait o (qp_pid p) w1) as [w2 []]; simpl in *; lia.
Qed.

(** The bound is reached: no authorisation for [killall] within 3 s and
    a process that ignores [terminate] and [kill]. *)
Lemma stop_clock_worst x w p :
  m_tunProcess x = Some p -> qp_state p = QProcess.Running ->
  w_procs w !! qp_pid p <> None ->
  w_clock (stop Linux KillallTimeout KillTimeout x w).2 = w_clock w + 10000.
Proof.
  intros Hp Hr Hal. unfold stop. rewrite Hp, Hr. simpl.
  unfold terminate_and_wait. simpl.
  destruct (w_procs w !! qp_pid p); [simpl; lia|done].
Qed.

(** The [killall] step of [stop] on Linux sends SIGINT to every process
    named [nekobox_core]: the main proxy core among them. *)
Lemma stop_kills_nekobox_core ms o x w p cpid corePath :
  m_tunProcess x = Some p -> qp_state p = QProcess.Running ->
  w_procs w !! cpid = Some corePath ->
  basename corePath = "nekobox_core"%string ->
  w_procs (stop Linux (KillallDone ms) o x w).2 !! cpid = None.
Proof.
  intros Hp Hr Hc Hb. unfold stop. rewrite Hp, Hr. simpl.
  set (w1 := wait_ms ms _).
  assert (Hk : w_procs w1 !! cpid = None).
  { subst w1. simpl. apply map_lookup_filter_None. right. intros v Hv.
    rewrite Hc in Hv. injection Hv as <-. simpl. by intros []. }
  destruct (decide (cpid = qp_pid p)) as [->|Hne].
  - unfold terminate_and_wait. rewrite Hk. done.
  - pose proof (terminate_and_wait_other o (qp_pid p) w1 cpid Hne) as Ho.
    destruct (terminate_and_wait o (qp_pid p) w1) as [w2 []]; simpl in *; congruence.
Qed.

Lemma stop_true plat k o x w : (stop plat k o x w).1.1 = true.
Proof.
  unfold stop. destruct (m_tunProcess x); [|done]. case_bool_decide; [done|].
  by destruct (terminate_and_wait _ _ _).
Qed.

Lemma killall_events plat k w : w_events (killall_nekobox plat k w) = w_events w.
Proof. by destruct plat, k. Qed.

(** The signals [stop] emits are the TUN supervisor's own: the core's
    [processFinished] is never among them. *)
Lemma stop_events plat k o x w :
  exists es, w_events (stop plat k o x w).2 = w_events w ++ es /\
    coreProcessFinished ∉ es.
Proof.
  unfold stop. destruct (m_tunProcess x) as [p|]; [|exists []; simpl; split; [by rewrite app_nil_r|set_solver]].
  case_bool_decide; [exists []; simpl; split; [by rewrite app_nil_r|set_solver]|].
  set (w1 := if decide (plat = Windows) then w else killall_nekobox plat k w).
  assert (Hw1 : w_events w1 = w_events w).
  { subst w1. case_decide; [done|apply killall_events]. }
  pose proof (terminate_and_wait_events o (qp_pid p) w1) as He.
  destruct (terminate_and_wait o (qp_pid p) w1) as [w2 []]; simpl in *.
  - exists [tunProcessFinished; tunLogOutput "TUN process stopped"].
    rewrite He, Hw1, <- app_assoc. split; [done|set_solver].
  - exists [tunLogOutput "TUN process stopped"]. rewrite He, Hw1. split; [done|set_solver].
Qed.

Lemma generateTunConfig_events plat x w :
  w_events (generateTunConfig plat x w).2 = w_events w.
Proof. unfold generateTunConfig. by repeat case_match. Qed.

(** [start] emits at most its log line. *)
Lemma start_events plat o x w :
  exists es, w_events (start plat o x w).2 = w_events w ++ es /\
    coreProcessFinished ∉ es.
Proof.
  unfold start. destruct (process_active x); [exists []; split; [by rewrite app_nil_r|set_solver]|].
  destruct (String.eqb _ _); [exists []; split; [by rewrite app_nil_r|set_solver]|].
  pose proof (generateTunConfig_events plat x w) as Hg.
  destruct (generateTunConfig plat x w) as [[[] x1] w1]; simpl in Hg;
    [|exists []; split; [simpl; by rewrite Hg, app_nil_r|set_solver]].
  unfold startTunProcess. destruct (tun_launch _ _ _ _) as [prog args].
  pose proof (spawn_events o prog args (launched_program plat (m_corePath x1)) w1) as Hs.
  destruct (spawn _ _ _ _ _) as [[p|] w2]; simpl in *.
  - eexists [_]. split; [by rewrite Hs, Hg|set_solver].
  - exists []. split; [by rewrite Hs, Hg, app_nil_r|set_solver].
Qed.

Lemma process_exited_events x w :
  exists es, w_events (process_exited x w).2 = w_events w ++ es /\
    coreProcessFinished ∉ es.
Proof.
  unfold process_exited. repeat case_match;
    first [exists [tunProcessFinished]; split; [done|set_solver]
          |exists []; split; [by rewrite app_nil_r|set_solver]].
Qed.

End TunManagerFacts.

(** ** Examples

    A TUN process with pid 7000 started through [pkexec] on Linux, its two
    temp files written. *)

Lemma stop_cleans_up_witness :
  let x := TunManager.mk (Some (mkProcess QProcess.Running 7000 "pkexec" ["bash"; TunManager.script_file]))
             TunManager.config_file TunManager.script_file "/opt/nekoray/nekobox_core" in
  let w := mkWorld (mkFileSystem {[ TunManager.config_file := JsonFile (QObject TunManager.tun_config);
                                    TunManager.script_file := TextFile [] ]} ∅ ∅ ∅ ∅)
             {[ 7000 := "/opt/nekoray/nekobox_core" ]} 0 [] in
  let '(b, x', w') := TunManager.stop Linux (KillallDone 100) KillTimeout x w in
  b = true /\ TunManager.isRunning x' = false /\ TunManager.m_tunProcess x' = None /\
  fs_files (w_fs w') !! TunManager.config_file = None /\
  fs_files (w_fs w') !! TunManager.script_file = None.
Proof.
  intros x w. apply TunManagerFacts.stop_cleans_up; [reflexivity|discriminate|discriminate].
Defined.

Lemma stop_clock_worst_witness :
  let p := mkProcess QProcess.Running 7000 "pkexec" ["bash"; TunManager.script_file] in
  let x := TunManager.mk (Some p) TunManager.config_file TunManager.script_file
             "/opt/nekoray/nekobox_core" in
  let w := mkWorld (mkFileSystem ∅ ∅ ∅ ∅ ∅) {[ 7000 := "/opt/nekoray/nekobox_core" ]} 0 [] in
  w_clock (TunManager.stop Linux KillallTimeout KillTimeout x w).2 = w_clock w + 10000.
Proof.
  intros p x w. apply (TunManagerFacts.stop_clock_worst x w p);
    [reflexivity|reflexivity|vm_compute; discriminate].
Defined.

Lemma start_linux_spawned_witness :
  let x := TunManager.mk None EmptyString EmptyString "/opt/nekoray/nekobox_core" in
  let w := mkWorld (mkFileSystem ∅ ∅ ∅ ∅ ∅) ∅ 0 [] in
  let '(b, x', w') := TunManager.start Linux (Spawned 7000 40) x w in
  b = true /\ TunManager.isRunning x' = true /\
  option_map qp_program (TunManager.m_tunProcess x') = Some "pkexec"%string /\
  w_procs w' !! 7000 = Some "/opt/nekoray/nekobox_core"%string /\
  fs_files (w_fs w') !! TunManager.config_file = Some (JsonFile (QObject TunManager.tun_config)) /\
  fs_files (w_fs w') !! TunManager.script_file =
    Some (TextFile (TunManager.tun_script "/opt/nekoray/nekobox_core" TunManager.config_file)).
Proof.
  intros x w. apply TunManagerFacts.start_linux_spawned;
    [reflexivity|discriminate|decide_closed|decide_closed].
Defined.

Lemma start_no_core_witness :
  let x := TunManager.create Linux "/opt/nekoray" (mkFileSystem ∅ ∅ ∅ ∅ ∅) in
  let w := mkWorld (mkFileSystem ∅ ∅ ∅ ∅ ∅) ∅ 0 [] in
  TunManager.start Linux (Spawned 7000 40) x w = (false, x, w).
Proof. intros x w. apply TunManagerFacts.start_no_core; reflexivity. Defined.
