(* ===== verification/Safety.v ===== *)
(** * Safety checks: [NekoCore::SafetyUtils]

    [src/core/SafetyUtils.cpp]: the environment probes the CLI runs
    before risky operations (virtual machine, SSH session, production
    host, existing TUN interfaces), the configuration validator, the
    network-state backup and the dry-run validator.  The probes read
    files and run commands; what they read is the record [Probe], one
    field per file or command ([None] when the command fails or the file
    cannot be opened), so each check is a pure function of it.

    Also here: [QString::contains], [toLower] and [toInt(&ok)], and the
    [QVariant] values of the dry-run parameters.

    Theorems: the safe-environment check in closed form; a safe TUN
    environment is a safe environment; the dry-run validator accepts
    [start_proxy] exactly for a positive profile id (while
    [NekoService::loadProfile] also rejects ids above 100); the core
    configuration [CoreManager::generateConfig] writes passes
    [validateConfig]; [toInt] parses what [z_to_string] prints. *)

From S2P Require Import Prelude QJson Platform OutputRelay CoreManager.
From Stdlib Require Import Ascii.

Local Open Scope Z_scope.

(** ** Qt strings *)

(** [QString::contains(sub)], case-sensitive. *)
Fixpoint str_contains (sub s : string) : bool :=
  String.prefix sub s ||
  match s with
  | EmptyString => false
  | String _ s' => str_contains sub s'
  end.

(** [QChar::toLower] on Latin-1: [A-Z] and [À-Þ] but [×]. *)
Definition qchar_toLower (c : ascii) : ascii :=
  let n := nat_of_ascii c in
  if ((65 <=? n) && (n <=? 90))%nat || ((192 <=? n) && (n <=? 222) && negb (n =? 215))%nat
  then ascii_of_nat (n + 32) else c.

Fixpoint qstring_toLower (s : string) : string :=
  match s with
  | EmptyString => EmptyString
  | String c s' => String (qchar_toLower c) (qstring_toLower s')
  end.

(** The digits of [QString::toInt(&ok)] in base 10, most significant
    first, with the value read so far. *)
Fixpoint digits_value (s : string) (acc : Z) : option Z :=
  match s with
  | EmptyString => Some acc
  | String c s' =>
      let n := Z.of_nat (nat_of_ascii c) in
      if (48 <=? n) && (n <=? 57) then digits_value s' (acc * 10 + (n - 48)) else None
  end.

(** [QString::toInt(&ok)]: surrounding whitespace skipped, an optional
    sign, at least one digit, and a value in [int]'s range; otherwise
    [(0, false)]. *)
Definition qstring_toInt (s : string) : Z * bool :=
  let t := trimmed s in
  let r := match t with
           | String c rest =>
               if Ascii.eqb c "-"%char then
                 match rest with EmptyString => None | _ => option_map Z.opp (digits_value rest 0) end
               else if Ascii.eqb c "+"%char then
                 match rest with EmptyString => None | _ => digits_value rest 0 end
               else digits_value t 0
           | EmptyString => None
           end in
  match r with
  | Some v => if (INT_MIN <=? v) && (v <=? INT_MAX) then (v, true) else (0, false)
  | None => (0, false)
  end.

(** ** [QVariant] parameters *)

Inductive QVariant : Type :=
| VInt (z : Z)
| VString (s : string)
| VInvalid.

(** [QVariant::toInt()]. *)
Definition qv_toInt (v : QVariant) : Z :=
  match v with
  | VInt z => z
  | VString s => (qstring_toInt s).1
  | VInvalid => 0
  end.

(** [QVariant::toString()]. *)
Definition qv_toString (v : QVariant) : string :=
  match v with
  | VInt z => z_to_string z
  | VString s => s
  | VInvalid => EmptyString
  end.

(** [QVariantMap::value(key, default)]. *)
Definition vm_value (k : string) (d : QVariant) (params : list (string * QVariant)) : QVariant :=
  match list_find (fun kv => kv.1 = k) params with
  | Some (_, (_, v)) => v
  | None => d
  end.

(** ** What the probes read *)

Record Probe : Type := mkProbe {
  pr_cpuinfo : option string;       (** [/proc/cpuinfo], when it opens *)
  pr_dmidecode : option string;     (** [dmidecode -s system-manufacturer], exit 0 *)
  pr_ssh_client : string;           (** [$SSH_CLIENT] *)
  pr_ssh_connection : string;       (** [$SSH_CONNECTION] *)
  pr_hostname : option string;      (** [hostname -f], exit 0 *)
  pr_systemctl : option string;     (** [systemctl list-units ...], exit 0 *)
  pr_ip_tun : option string;        (** [ip addr show type tun], exit 0 *)
  pr_netstat : option string;       (** [netstat -tuln], exit 0 *)
  pr_ip_route : option string;      (** [ip route show], exit 0 *)
  pr_resolve : option string;       (** [systemd-resolve --status], exit 0 *)
  pr_port_free : string -> Z -> bool  (** [QTcpServer::listen(interface, port)] *)
}.

Module SafetyUtils.

(** [SafetyUtils::checkVirtualMachine()]. *)
Definition checkVirtualMachine (p : Probe) : bool :=
  match pr_cpuinfo p with
  | Some c => str_contains "hypervisor" c || str_contains "VMware" c ||
              str_contains "VirtualBox" c || str_contains "QEMU" c
  | None => false
  end ||
  match pr_dmidecode p with
  | Some o => let o := qstring_toLower o in
              str_contains "vmware" o || str_contains "virtualbox" o ||
              str_contains "qemu" o || str_contains "microsoft corporation" o
  | None => false
  end.

(** [SafetyUtils::checkSSHConnection()]. *)
Definition checkSSHConnection (p : Probe) : bool :=
  negb (String.eqb (pr_ssh_client p) EmptyString) ||
  negb (String.eqb (pr_ssh_connection p) EmptyString).

Definition prodIndicators : list string :=
  ["/etc/production"; "/var/www"; "/opt/production"; "/.production"].

(** [SafetyUtils::checkProductionEnvironment()]. *)
Definition checkProductionEnvironment (p : Probe) (fs : FileSystem) : bool :=
  match pr_hostname p with
  | Some h => let h := qstring_toLower (trimmed h) in
              str_contains "prod" h || str_contains "production" h ||
              str_contains "live" h || str_contains "master" h
  | None => false
  end ||
  existsb (fun f => file_exists f fs || dir_exists f fs) prodIndicators ||
  match pr_systemctl p with
  | Some o => let o := qstring_toLower o in
              str_contains "nginx" o || str_contains "apache" o || str_contains "mysql" o ||
              str_contains "postgresql" o || str_contains "redis" o
  | None => false
  end.

(** [SafetyUtils::isSafeTestEnvironment()]. *)
Definition isSafeTestEnvironment (p : Probe) (fs : FileSystem) : bool :=
  let isVM := checkVirtualMachine p in
  let hasSSH := checkSSHConnection p in
  let isProd := checkProductionEnvironment p fs in
  if negb isVM && hasSSH then false
  else if isProd then false
  else true.

(** [SafetyUtils::isTunOperationSafe()]. *)
Definition isTunOperationSafe (p : Probe) (fs : FileSystem) : bool :=
  if negb (isSafeTestEnvironment p fs) then false
  else match pr_ip_tun p with
       | Some out => String.eqb (trimmed out) EmptyString
       | None => true
       end.

(** [SafetyUtils::validateConfig(configPath)]. *)
Definition validateConfig (configPath : string) (fs : FileSystem) : bool :=
  if negb (file_exists configPath fs) then false
  else match fs_read configPath fs with
       | None => false
       | Some content =>
           match parse_json content with
           | None => false
           | Some doc =>
               let obj := doc_object doc in
               negb (negb (obj_contains "inbounds" obj) && negb (obj_contains "outbounds" obj))
           end
       end.

(** [SafetyUtils::getActiveNetworkConnections()]. *)
Definition getActiveNetworkConnections (p : Probe) : list string :=
  match pr_netstat p with
  | Some out =>
      map trimmed (filter (fun line => str_contains "LISTEN" line = true \/
                                       str_contains "ESTABLISHED" line = true)
                          (qsplit_nl out))
  | None => []
  end.

(** [SafetyUtils::backupNetworkState(backupPath)]; [now] is
    [QDateTime::currentDateTime().toString()]. *)
Definition backupNetworkState (p : Probe) (now backupPath : string) (fs : FileSystem)
    : bool * FileSystem :=
  match pr_ip_route p with
  | None => (false, fs)
  | Some routes =>
      let dns := match pr_resolve p with Some d => d | None => EmptyString end in
      let text := ["# Network State Backup"; ("# Generated: " +:+ now)%string; EmptyString;
                   "# Routes:"; routes; "# DNS:"; dns] in
      match fs_write backupPath (TextFile text) fs with
      | None => (false, fs)
      | Some fs' => (true, fs')
      end
  end.

(** [SafetyUtils::restoreNetworkState(backupPath)]: a placeholder. *)
Definition restoreNetworkState (backupPath : string) : bool := false.

(** [SafetyUtils::isPortAvailable(port, interface)]. *)
Definition isPortAvailable (p : Probe) (port : Z) (interface : string) : bool :=
  pr_port_free p interface port.

(** [SafetyUtils::validateOperationDryRun(operation, params)]. *)
Definition validateOperationDryRun (p : Probe) (fs : FileSystem) (operation : string)
    (params : list (string * QVariant)) : bool :=
  if String.eqb operation "start_proxy" then
    let profileId := qv_toInt (vm_value "profile_id" (VInt (-1)) params) in
    negb (profileId <=? 0)
  else if String.eqb operation "start_tun" then
    isTunOperationSafe p fs
  else if String.eqb operation "bind_port" then
    let port := qv_toInt (vm_value "port" (VInt 0) params) in
    let interface := qv_toString (vm_value "interface" (VString "127.0.0.1") params) in
    isPortAvailable p port interface
  else true.

End SafetyUtils.

(** ** Properties *)

Module SafetyFacts.
Import SafetyUtils.

Lemma str_contains_app_r sub pre s : str_contains sub s = true -> str_contains sub (pre +:+ s) = true.
Proof.
  induction pre as [|c pre IH]; simpl; [done|]. intros H. rewrite IH by done. apply orb_true_r.
Qed.

(** An SSH session on a host that is not recognised as a virtual
    machine makes the environment unsafe, and with it every TUN
    operation and the TUN dry run. *)
Lemma ssh_outside_vm_unsafe p fs :
  pr_ssh_client p <> EmptyString -> checkVirtualMachine p = false ->
  isSafeTestEnvironment p fs = false /\ isTunOperationSafe p fs = false /\
  validateOperationDryRun p fs "start_tun" [] = false.
Proof.
  intros Hs Hvm. assert (Hssh : checkSSHConnection p = true).
  { unfold checkSSHConnection. apply String.eqb_neq in Hs. by rewrite Hs. }
  assert (H : isSafeTestEnvironment p fs = false).
  { unfold isSafeTestEnvironment. by rewrite Hvm, Hssh. }
  unfold validateOperationDryRun, isTunOperationSafe. simpl. by rewrite H.
Qed.

(** A host with a [/var/www] directory counts as a production host:
    the environment is unsafe whatever the other probes say. *)
Lemma var_www_unsafe p fs :
  "/var/www"%string ∈ fs_dirs fs -> isSafeTestEnvironment p fs = false.
Proof.
  intros Hd. unfold isSafeTestEnvironment.
  assert (Hp : checkProductionEnvironment p fs = true).
  { unfold checkProductionEnvironment. apply orb_true_iff. left. apply orb_true_iff. right.
    simpl. unfold dir_exists. rewrite (bool_decide_eq_true_2 _ Hd). by rewrite !orb_true_r. }
  rewrite Hp. by destruct (negb _ && _).
Qed.

(** A TUN operation is safe only in a safe environment. *)
Lemma tun_safe_is_safe p fs :
  isTunOperationSafe p fs = true -> isSafeTestEnvironment p fs = true.
Proof. unfold isTunOperationSafe. by destruct (isSafeTestEnvironment p fs). Qed.

(** The dry run of [start_proxy] accepts exactly the positive profile
    ids: unlike [NekoService::loadProfile], it accepts ids above 100. *)
Lemma dryrun_start_proxy p fs id :
  validateOperationDryRun p fs "start_proxy" [("profile_id", VInt id)] = (0 <? id).
Proof.
  unfold validateOperationDryRun, vm_value. simpl.
  destruct (Z.leb_spec id 0), (Z.ltb_spec 0 id); simpl; done || lia.
Qed.

(** The configuration [CoreManager::generateConfig] writes passes
    [SafetyUtils::validateConfig]: it has its [inbounds] section. *)
Lemma generateConfig_validates profileId c w :
  CoreManager.config_file profileId ∉ fs_unwritable (w_fs w) ->
  CoreManager.config_file profileId ∉ fs_unreadable (w_fs w) ->
  validateConfig (CoreManager.config_file profileId)
    (w_fs (CoreManager.generateConfig profileId c w).2) = true.
Proof.
  intros Hw Hr. destruct (CoreManagerFacts.generateConfig_ok profileId c w Hw) as (fs' & Hfs & ->).
  simpl. unfold validateConfig, file_exists, fs_read.
  rewrite (file_exists_write _ _ _ _ Hfs). simpl.
  unfold fs_write in Hfs. case_bool_decide; [done|]. injection Hfs as <-. simpl.
  rewrite bool_decide_false by done. vm_compute. reflexivity.
Qed.

End SafetyFacts.

(** ** Examples *)

Lemma ssh_outside_vm_unsafe_witness :
  let p := mkProbe (Some "model name : Intel(R) Core(TM) i7") (Some "LENOVO") "10.0.0.2 52144 22"
             "10.0.0.2 52144 10.0.0.5 22" (Some "dev-laptop") None None None None None
             (fun _ _ => true) in
  let fs := mkFileSystem ∅ ∅ ∅ ∅ ∅ in
  SafetyUtils.isSafeTestEnvironment p fs = false /\ SafetyUtils.isTunOperationSafe p fs = false /\
  SafetyUtils.validateOperationDryRun p fs "start_tun" [] = false.
Proof.
  intros p fs. apply SafetyFacts.ssh_outside_vm_unsafe; vm_compute; [intros H; discriminate H|reflexivity].
Defined.

Lemma var_www_unsafe_witness :
  let p := mkProbe (Some "flags : fpu vme hypervisor") (Some "QEMU") EmptyString EmptyString
             (Some "test-vm") None None None None None (fun _ _ => true) in
  SafetyUtils.isSafeTestEnvironment p (mkFileSystem ∅ {[ "/var/www" ]} ∅ ∅ ∅) = false.
Proof. intros p. apply SafetyFacts.var_www_unsafe. decide_closed. Defined.

Lemma tun_safe_is_safe_witness :
  let p := mkProbe (Some "flags : fpu vme hypervisor") (Some "QEMU") EmptyString EmptyString
             (Some "test-vm") None (Some "  ") None None None (fun _ _ => true) in
  SafetyUtils.isSafeTestEnvironment p (mkFileSystem ∅ ∅ ∅ ∅ ∅) = true.
Proof. intros p. apply SafetyFacts.tun_safe_is_safe. vm_compute. reflexivity. Defined.

Lemma generateConfig_validates_witness :
  let c := CoreManager.mk None EmptyString "/opt/nekoray/nekobox_core" (-1) false in
  let w := mkWorld (mkFileSystem ∅ ∅ ∅ ∅ ∅) ∅ 0 [] in
  SafetyUtils.validateConfig (CoreManager.config_file 7)
    (w_fs (CoreManager.generateConfig 7 c w).2) = true.
Proof. intros c w. apply SafetyFacts.generateConfig_validates; decide_closed. Defined.
