(* ===== verification/NekoService.v ===== *)
(** * ServiceOrchestrator: [NekoCore::NekoService]

    [src/core/NekoService_Fixed.cpp].  The service owns a [CoreManager],
    a [TunManager], a [ConfigManager], the traffic timer and its
    counters, the current and the default settings, and one
    non-recursive [QMutex] that every public operation holds for its
    whole duration ([QMutexLocker]).

    A call runs in the monad [M Sys] of [Prelude] over the pair of the
    service and the [World]: it returns, or it deadlocks when it locks
    the mutex its own thread already holds.  The OS's answers for a call
    are gathered in an [Env].  Signals emitted by a supervisor during a
    call are delivered at once to the connected slot ([deliver]), as
    Qt's direct connections do; [process_events] is one turn of the Qt
    event loop that notices dead child processes.

    This file defines the state, every public operation and slot, and
    the step relation (Module [NekoService]); Module [Scenario] holds a
    concrete installation the examples run on, and Module [Lifecycle]
    the theorems about each operation. *)

From S2P Require Import Prelude QJson Platform OutputRelay ConfigManager CoreManager TunManager Safety.

Local Open Scope Z_scope.

(** The OS's answers during one call. *)
Record Env : Type := mkEnv {
  env_plat : Platform;
  env_configLocation : string;       (** [QStandardPaths::ConfigLocation] *)
  env_core_spawn : SpawnOutcome;
  env_tun_spawn : SpawnOutcome;
  env_core_exit : ExitOutcome;
  env_tun_exit : ExitOutcome;
  env_killall : KillallOutcome
}.

Module NekoService.

Record t : Type := mk {
  m_status : ServiceStatus.t;
  m_configDir : string;
  m_currentProfileId : Z;
  m_coreManager : CoreManager.t;
  m_tunManager : TunManager.t;
  m_configManager : ConfigManager.t;
  m_timerActive : bool;            (** [m_trafficTimer->isActive()] *)
  m_uploadBytes : Z;
  m_downloadBytes : Z;
  m_lastUploadBytes : Z;
  m_lastDownloadBytes : Z;
  m_currentConfig : QJsonObject;
  m_defaultConfig : QJsonObject;
  m_locked : bool                  (** [m_mutex] is held *)
}.

Abbreviation Sys := (t * World)%type.

(** The defaults the constructor fills in. *)
Definition defaultConfig : QJsonObject :=
  obj_build [("inbound_address", QString "127.0.0.1");
             ("inbound_socks_port", QDouble 2080);
             ("inbound_http_port", QDouble 2081);
             ("spmode_vpn", QBool false);
             ("vpn_internal_tun", QBool true)].

(** [NekoService::NekoService]. *)
Definition create (plat : Platform) (appDir : string) (which : string -> option string)
    (fs : FileSystem) : t :=
  mk ServiceStatus.Stopped EmptyString (-1)
     (CoreManager.create plat appDir which fs) (TunManager.create plat appDir fs)
     ConfigManager.create false 0 0 0 0 [] defaultConfig false.

(** ** Field updates *)

Definition set_status (st : ServiceStatus.t) (s : t) : t :=
  mk st (m_configDir s) (m_currentProfileId s) (m_coreManager s) (m_tunManager s)
     (m_configManager s) (m_timerActive s) (m_uploadBytes s) (m_downloadBytes s)
     (m_lastUploadBytes s) (m_lastDownloadBytes s) (m_currentConfig s) (m_defaultConfig s)
     (m_locked s).
Definition set_configDir (d : string) (s : t) : t :=
  mk (m_status s) d (m_currentProfileId s) (m_coreManager s) (m_tunManager s)
     (m_configManager s) (m_timerActive s) (m_uploadBytes s) (m_downloadBytes s)
     (m_lastUploadBytes s) (m_lastDownloadBytes s) (m_currentConfig s) (m_defaultConfig s)
     (m_locked s).
Definition set_profileId (id : Z) (s : t) : t :=
  mk (m_status s) (m_configDir s) id (m_coreManager s) (m_tunManager s)
     (m_configManager s) (m_timerActive s) (m_uploadBytes s) (m_downloadBytes s)
     (m_lastUploadBytes s) (m_lastDownloadBytes s) (m_currentConfig s) (m_defaultConfig s)
     (m_locked s).
Definition set_core (c : CoreManager.t) (s : t) : t :=
  mk (m_status s) (m_configDir s) (m_currentProfileId s) c (m_tunManager s)
     (m_configManager s) (m_timerActive s) (m_uploadBytes s) (m_downloadBytes s)
     (m_lastUploadBytes s) (m_lastDownloadBytes s) (m_currentConfig s) (m_defaultConfig s)
     (m_locked s).
Definition set_tun (x : TunManager.t) (s : t) : t :=
  mk (m_status s) (m_configDir s) (m_currentProfileId s) (m_coreManager s) x
     (m_configManager s) (m_timerActive s) (m_uploadBytes s) (m_downloadBytes s)
     (m_lastUploadBytes s) (m_lastDownloadBytes s) (m_currentConfig s) (m_defaultConfig s)
     (m_locked s).
Definition set_configManager (cm : ConfigManager.t) (s : t) : t :=
  mk (m_status s) (m_configDir s) (m_currentProfileId s) (m_coreManager s) (m_tunManager s)
     cm (m_timerActive s) (m_uploadBytes s) (m_downloadBytes s)
     (m_lastUploadBytes s) (m_lastDownloadBytes s) (m_currentConfig s) (m_defaultConfig s)
     (m_locked s).
Definition set_timer (b : bool) (s : t) : t :=
  mk (m_status s) (m_configDir s) (m_currentProfileId s) (m_coreManager s) (m_tunManager s)
     (m_configManager s) b (m_uploadBytes s) (m_downloadBytes s)
     (m_lastUploadBytes s) (m_lastDownloadBytes s) (m_currentConfig s) (m_defaultConfig s)
     (m_locked s).
Definition set_traffic (up down lastUp lastDown : Z) (s : t) : t :=
  mk (m_status s) (m_configDir s) (m_currentProfileId s) (m_coreManager s) (m_tunManager s)
     (m_configManager s) (m_timerActive s) up down lastUp lastDown
     (m_currentConfig s) (m_defaultConfig s) (m_locked s).
Definition set_currentConfig (o : QJsonObject) (s : t) : t :=
  mk (m_status s) (m_configDir s) (m_currentProfileId s) (m_coreManager s) (m_tunManager s)
     (m_configManager s) (m_timerActive s) (m_uploadBytes s) (m_downloadBytes s)
     (m_lastUploadBytes s) (m_lastDownloadBytes s) o (m_defaultConfig s) (m_locked s).
Definition set_locked (b : bool) (s : t) : t :=
  mk (m_status s) (m_configDir s) (m_currentProfileId s) (m_coreManager s) (m_tunManager s)
     (m_configManager s) (m_timerActive s) (m_uploadBytes s) (m_downloadBytes s)
     (m_lastUploadBytes s) (m_lastDownloadBytes s) (m_currentConfig s) (m_defaultConfig s) b.

(** ** Monad helpers *)

Definition gets {A} (f : t -> A) : M Sys A := fun '(s, w) => Returns (f s, (s, w)).
Definition modify_svc (f : t -> t) : M Sys unit := fun '(s, w) => Returns (tt, (f s, w)).
Definition modify_world (f : World -> World) : M Sys unit :=
  fun '(s, w) => Returns (tt, (s, f w)).
Definition gets_world {A} (f : World -> A) : M Sys A := fun '(s, w) => Returns (f w, (s, w)).
Definition signal (e : Event) : M Sys unit := modify_world (emit e).

(** [QMutexLocker locker(&m_mutex)] around [body]: locking a mutex the
    thread already holds never returns. *)
Definition with_lock {A} (body : M Sys A) : M Sys A :=
  fun '(s, w) =>
    if m_locked s then Deadlock
    else match body (set_locked true s, w) with
         | Returns (a, (s', w')) => Returns (a, (set_locked false s', w'))
         | Deadlock => Deadlock
         end.

(** [NekoService::getStatusString()]. *)
Definition getStatusString (st : ServiceStatus.t) : string :=
  match st with
  | ServiceStatus.Stopped => "Stopped"
  | ServiceStatus.Starting => "Starting"
  | ServiceStatus.Running => "Running"
  | ServiceStatus.Stopping => "Stopping"
  | ServiceStatus.Error => "Error"
  end.

(** [NekoService::setStatus(status)]: a change emits [statusChanged]
    and a debug log line. *)
Definition setStatus (st : ServiceStatus.t) : M Sys unit :=
  cur <- gets m_status ;;
  if bool_decide (cur = st) then mret tt
  else modify_svc (set_status st) ;;;
       signal (statusChanged st) ;;;
       signal (logMessage "debug" ("Service status changed to: " +:+ getStatusString st)%string).

(** ** Slots *)

(** [NekoService::onCoreProcessFinished]. *)
Definition onCoreProcessFinished : M Sys unit :=
  st <- gets m_status ;;
  if bool_decide (st = ServiceStatus.Running) then
    setStatus ServiceStatus.Error ;;;
    signal (errorOccurred "Core process crashed unexpectedly")
  else mret tt.

(** [NekoService::onTunProcessFinished]. *)
Definition onTunProcessFinished : M Sys unit :=
  signal (logMessage "warn" "TUN process finished").

(** The connections of the constructor: the supervisors'
    [processFinished] to the two slots. *)
Definition slot_of (e : Event) : M Sys unit :=
  match e with
  | coreProcessFinished => onCoreProcessFinished
  | tunProcessFinished => onTunProcessFinished
  | _ => mret tt
  end.

(** Emits the signals in order, each followed by its slot (direct
    connection). *)
Fixpoint deliver (es : list Event) : M Sys unit :=
  match es with
  | [] => mret tt
  | e :: rest => signal e ;;; slot_of e ;;; deliver rest
  end.

(** Runs a supervisor operation on the world: its signals are delivered
    to the service's slots as they are emitted. *)
Definition run_sub {C A} (get : t -> C) (put : C -> t -> t)
    (op : C -> World -> A * C * World) : M Sys A :=
  fun '(s, w) =>
    let '(a, c', w') := op (get s) w in
    let n := length (w_events w) in
    let w0 := {| w_fs := w_fs w'; w_procs := w_procs w'; w_clock := w_clock w';
                 w_events := w_events w |} in
    match deliver (drop n (w_events w')) (put c' s, w0) with
    | Returns (_, st) => Returns (a, st)
    | Deadlock => Deadlock
    end.

Definition core_op {A} (op : CoreManager.t -> World -> A * CoreManager.t * World) : M Sys A :=
  run_sub m_coreManager set_core op.
Definition tun_op {A} (op : TunManager.t -> World -> A * TunManager.t * World) : M Sys A :=
  run_sub m_tunManager set_tun op.
Definition config_op {A} (op : ConfigManager.t -> FileSystem -> A * ConfigManager.t * FileSystem)
    : M Sys A :=
  fun '(s, w) => let '(a, cm, fs) := op (m_configManager s) (w_fs w) in
                 Returns (a, (set_configManager cm s, set_fs fs w)).

(** ** Public operations *)

(** The loop of [initializeDirectories] over the required
    subdirectories: the final file system, or the first subdirectory
    the OS refused to create. *)
Fixpoint ensure_subdirs (dir : string) (subs : list string) (fs : FileSystem)
    : FileSystem * option string :=
  match subs with
  | [] => (fs, None)
  | sub :: rest =>
      match ensure_dir (path_join dir sub) fs with
      | None => (fs, Some sub)
      | Some fs' => ensure_subdirs dir rest fs'
      end
  end.

(** [NekoService::initializeDirectories()]. *)
Definition initializeDirectories : M Sys bool :=
  fun '(s, w) =>
    let dir := m_configDir s in
    match ensure_dir dir (w_fs w) with
    | None => Returns (false, (s, emit (errorOccurred
                ("Failed to create config directory: " +:+ dir)%string) w))
    | Some fs1 =>
        match ensure_subdirs dir ["profiles"; "groups"; "routes"] fs1 with
        | (fs2, None) => Returns (true, (s, set_fs fs2 w))
        | (fs2, Some sub) =>
            Returns (false, (s, emit (errorOccurred
              ("Failed to create directory: " +:+ dir +:+ "/" +:+ sub)%string) (set_fs fs2 w)))
        end
    end.

(** [NekoService::saveConfig()]. *)
Definition saveConfig : M Sys bool :=
  with_lock (config_op ConfigManager.save).

(** [NekoService::loadDataStore()]: a missing file is created through
    [saveConfig()], which locks [m_mutex] a second time. *)
Definition loadDataStore : M Sys bool :=
  s_w <- mget ;;
  let '(s, w) := s_w in
  let configFile := (m_configDir s +:+ "/groups/nekobox.json")%string in
  if negb (file_exists configFile (w_fs w)) then
    modify_svc (fun s => set_currentConfig (m_defaultConfig s) s) ;;;
    saveConfig
  else
    match fs_read configFile (w_fs w) with
    | None => mret false
    | Some content =>
        match parse_json content with
        | None => mret false
        | Some doc =>
            modify_svc (fun s =>
              set_currentConfig (merge_defaults (doc_object doc) (m_defaultConfig s)) s) ;;;
            mret true
        end
    end.

(** [NekoService::initialize(configDir)]. *)
Definition initialize (env : Env) (configDir : string) : M Sys bool :=
  with_lock (
    modify_svc (set_configDir
      (if String.eqb configDir EmptyString then (env_configLocation env +:+ "/nekoray")%string
       else configDir)) ;;;
    okDirs <- initializeDirectories ;;
    if negb okDirs then mret false else
    dir <- gets m_configDir ;;
    okCm <- config_op (ConfigManager.initialize dir) ;;
    if negb okCm then mret false else
    okDs <- loadDataStore ;;
    if negb okDs then mret false else
    setStatus ServiceStatus.Stopped ;;;
    mret true).

(** [NekoService::loadProfile(profileId)]. *)
Definition loadProfile (profileId : Z) : M Sys bool :=
  with_lock (
    if (profileId <=? 0) || (100 <? profileId) then
      signal (errorOccurred ("Invalid profile ID: " +:+ z_to_string profileId)%string) ;;;
      mret false
    else
      modify_svc (set_profileId profileId) ;;;
      signal (profileChanged profileId) ;;;
      signal (logMessage "info" ("Profile " +:+ z_to_string profileId +:+ " loaded")%string) ;;;
      mret true).

(** The two settings [startProxy] reads, with their defaults. *)
Definition tun_enabled (cfg : QJsonObject) : bool :=
  qj_toBool (obj_value_or "spmode_vpn" (QBool false) cfg) &&
  qj_toBool (obj_value_or "vpn_internal_tun" (QBool true) cfg).

(** [NekoService::startProxy()]. *)
Definition startProxy (env : Env) : M Sys bool :=
  with_lock (
    st <- gets m_status ;;
    if bool_decide (st = ServiceStatus.Running) then mret true else
    id <- gets m_currentProfileId ;;
    if id <? 0 then signal (errorOccurred "No profile selected") ;;; mret false else
    setStatus ServiceStatus.Starting ;;;
    okCore <- core_op (CoreManager.start (env_core_spawn env) id) ;;
    if negb okCore then
      setStatus ServiceStatus.Error ;;;
      signal (errorOccurred "Failed to start core process") ;;;
      mret false
    else
      cfg <- gets m_currentConfig ;;
      (if tun_enabled cfg then
         okTun <- tun_op (TunManager.start (env_plat env) (env_tun_spawn env)) ;;
         if negb okTun then
           signal (logMessage "warn" "Failed to start TUN mode, continuing without TUN")
         else mret tt
       else mret tt) ;;;
      modify_svc (set_timer true) ;;;
      setStatus ServiceStatus.Running ;;;
      signal (logMessage "info" "Proxy started successfully") ;;;
      mret true).

(** The teardown shared by [stopProxy] and [shutdown]: the timer, then
    the TUN process if running, then the core if running. *)
Definition teardown (env : Env) : M Sys unit :=
  modify_svc (set_timer false) ;;;
  tunUp <- gets (fun s => TunManager.isRunning (m_tunManager s)) ;;
  (if tunUp then
     tun_op (TunManager.stop (env_plat env) (env_killall env) (env_tun_exit env)) ;;; mret tt
   else mret tt) ;;;
  coreUp <- gets (fun s => CoreManager.isRunning (m_coreManager s)) ;;
  if coreUp then core_op (CoreManager.stop (env_core_exit env)) ;;; mret tt
  else mret tt.

(** [NekoService::stopProxy()]. *)
Definition stopProxy (env : Env) : M Sys bool :=
  with_lock (
    st <- gets m_status ;;
    if bool_decide (st = ServiceStatus.Stopped) then mret true else
    setStatus ServiceStatus.Stopping ;;;
    teardown env ;;;
    setStatus ServiceStatus.Stopped ;;;
    signal (logMessage "info" "Proxy stopped successfully") ;;;
    mret true).

(** [NekoService::shutdown()]. *)
Definition shutdown (env : Env) : M Sys unit :=
  with_lock (
    st <- gets m_status ;;
    if bool_decide (st = ServiceStatus.Stopped) then mret tt else
    setStatus ServiceStatus.Stopping ;;;
    teardown env ;;;
    config_op ConfigManager.save ;;;
    setStatus ServiceStatus.Stopped).

(** [NekoService::restartProxy()]: [QThread::msleep(500)] between. *)
Definition restartProxy (env_stop env_start : Env) : M Sys bool :=
  ok <- stopProxy env_stop ;;
  if negb ok then mret false else
  modify_world (wait_ms 500) ;;;
  startProxy env_start.

(** [NekoService::startTunMode()]. *)
Definition startTunMode (env : Env) : M Sys bool :=
  with_lock (
    up <- gets (fun s => TunManager.isRunning (m_tunManager s)) ;;
    if up then mret true
    else tun_op (TunManager.start (env_plat env) (env_tun_spawn env))).

(** [NekoService::stopTunMode()]. *)
Definition stopTunMode (env : Env) : M Sys bool :=
  with_lock (tun_op (TunManager.stop (env_plat env) (env_killall env) (env_tun_exit env))).

(** [NekoService::isTunModeRunning()]. *)
Definition isTunModeRunning (s : t) : bool := TunManager.isRunning (m_tunManager s).

(** [NekoService::loadConfig(configPath)]. *)
Definition loadConfig (configPath : string) : M Sys bool :=
  with_lock (
    if negb (String.eqb configPath EmptyString) then
      fs <- gets_world w_fs ;;
      match fs_read configPath fs with
      | None => mret false
      | Some content =>
          match parse_json content with
          | None => mret false
          | Some doc => modify_svc (set_currentConfig (doc_object doc)) ;;; mret true
          end
      end
    else config_op ConfigManager.load).

(** [NekoService::getCurrentConfig()]. *)
Definition getCurrentConfig (s : t) : QJsonObject :=
  merge_defaults (m_currentConfig s) (m_defaultConfig s).

(** The accessors. *)
Definition getSocksAddress (s : t) : string :=
  qj_toString (obj_value_or "inbound_address"
                 (obj_value "inbound_address" (m_defaultConfig s)) (m_currentConfig s)).
Definition getSocksPort (s : t) : Z :=
  qj_toInt (obj_value_or "inbound_socks_port"
              (obj_value "inbound_socks_port" (m_defaultConfig s)) (m_currentConfig s)).
Definition getHttpAddress (s : t) : string := getSocksAddress s.
Definition getHttpPort (s : t) : Z :=
  qj_toInt (obj_value_or "inbound_http_port"
              (obj_value "inbound_http_port" (m_defaultConfig s)) (m_currentConfig s)).

(** [NekoService::resetTraffic()]. *)
Definition resetTraffic : M Sys unit :=
  with_lock (modify_svc (set_traffic 0 0 0 0) ;;; signal (trafficUpdated 0 0)).

(** [NekoService::updateTraffic()], the timer's slot; [r_up], [r_down]
    are the two [qrand()] results. *)
Definition updateTraffic (r_up r_down : Z) : M Sys unit :=
  up <- gets (fun s => CoreManager.isRunning (m_coreManager s)) ;;
  if up then
    s <- gets id ;;
    let u := m_uploadBytes s + r_up mod 1000 in
    let d := m_downloadBytes s + r_down mod 5000 in
    modify_svc (set_traffic u d (m_lastUploadBytes s) (m_lastDownloadBytes s)) ;;;
    signal (trafficUpdated u d)
  else mret tt.

(** One turn of the Qt event loop: the supervisors notice a child the
    OS has reaped, and their [processFinished] reaches the slots. *)
Definition process_events : M Sys unit :=
  core_op CoreManager.process_exited ;;;
  tun_op TunManager.process_exited ;;;
  mret tt.

(** ** The service as a transition system *)

(** The public calls a client (CLI, HTTP handler) can make after
    [initialize]. *)
Inductive Call : Type :=
| CallLoadProfile (id : Z)
| CallStartProxy
| CallStopProxy
| CallRestartProxy
| CallStartTunMode
| CallStopTunMode
| CallLoadConfig (path : string)
| CallSaveConfig
| CallResetTraffic
| CallShutdown.

Definition run_call (env : Env) (c : Call) : M Sys unit :=
  match c with
  | CallLoadProfile id => loadProfile id ;;; mret tt
  | CallStartProxy => startProxy env ;;; mret tt
  | CallStopProxy => stopProxy env ;;; mret tt
  | CallRestartProxy => restartProxy env env ;;; mret tt
  | CallStartTunMode => startTunMode env ;;; mret tt
  | CallStopTunMode => stopTunMode env ;;; mret tt
  | CallLoadConfig path => loadConfig path ;;; mret tt
  | CallSaveConfig => saveConfig ;;; mret tt
  | CallResetTraffic => resetTraffic
  | CallShutdown => shutdown env
  end.

(** One step of the running service: a call that returns, a timer tick
    while the timer is active, the OS reaping a child (a crash, or a
    signal from elsewhere), or a turn of the event loop. *)
Inductive step : Sys -> Sys -> Prop :=
| step_call env c sw sw' :
    run_call env c sw = Returns (tt, sw') -> step sw sw'
| step_tick r_up r_down sw sw' :
    m_timerActive sw.1 = true -> 0 <= r_up -> 0 <= r_down ->
    updateTraffic r_up r_down sw = Returns (tt, sw') -> step sw sw'
| step_crash pid s w :
    is_Some (w_procs w !! pid) ->
    step (s, w) (s, set_procs (delete pid (w_procs w)) w)
| step_events sw sw' :
    process_events sw = Returns (tt, sw') -> step sw sw'.

Inductive reachable (sw0 : Sys) : Sys -> Prop :=
| reach_init : reachable sw0 sw0
| reach_step sw sw' : reachable sw0 sw -> step sw sw' -> reachable sw0 sw'.

End NekoService.

(** ** A concrete installation

    The inputs the examples of [Lifecycle] and [Invariant] run the
    service on: a Linux host with [/opt/nekoray/nekobox_core] beside the
    application, a settings file under [~/.config/nekoray], an OS that
    starts the core as pid 4242 and the TUN process as pid 7000, and the
    same host without the core executable (simulation mode); the probes
    of [SafetyUtils] on a laptop reached over SSH and in a virtual
    machine, and a host with [/var/www].  [run_calls]
    runs a list of public calls in order, as a client (the CLI or an HTTP
    handler) issues them; [calls_return] says that none of them deadlocks. *)

Module Scenario.
Import NekoService.

Definition app_dir : string := "/opt/nekoray".
Definition core_bin : string := "/opt/nekoray/nekobox_core".
Definition cfg_dir : string := "/home/user/.config/nekoray".
Definition cfg_file : string := (cfg_dir +:+ "/groups/nekobox.json")%string.

(** The settings file: a SOCKS port of 1080 and TUN mode asked for. *)
Definition cfg_doc : QJsonObject :=
  obj_build [("inbound_socks_port", QDouble 1080); ("spmode_vpn", QBool true)].

Definition fs_install : FileSystem :=
  mkFileSystem {[ core_bin := TextFile [] ]} {[ app_dir ]} ∅ ∅ ∅.
Definition fs_configured : FileSystem :=
  mkFileSystem {[ core_bin := TextFile []; cfg_file := JsonFile (QObject cfg_doc) ]}
    {[ app_dir ]} ∅ ∅ ∅.
Definition fs_bare : FileSystem := mkFileSystem ∅ ∅ ∅ ∅ ∅.

(** The configured host, serving a web site from [/var/www]. *)
Definition fs_webhost : FileSystem :=
  mkFileSystem (fs_files fs_configured) {[ app_dir; "/var/www" ]} ∅ ∅ ∅.

(** A developer's laptop reached over SSH: no hypervisor, no production
    service, no TUN interface yet, every port free. *)
Definition probe_laptop : Probe :=
  mkProbe (Some "model name : Intel(R) Core(TM) i7") (Some "LENOVO") "10.0.0.2 52144 22"
    "10.0.0.2 52144 10.0.0.5 22" (Some "dev-laptop") (Some "ssh.service loaded active running")
    None (Some "tcp 0 0 127.0.0.1:631 0.0.0.0:* LISTEN") (Some "default via 10.0.0.1 dev wlan0")
    None (fun _ _ => true).

(** The same laptop inside a QEMU virtual machine. *)
Definition probe_vm : Probe :=
  mkProbe (Some "flags : fpu vme hypervisor") (Some "QEMU") EmptyString EmptyString
    (Some "test-vm") None None None None None (fun _ _ => true).

Definition world0 (fs : FileSystem) : World := mkWorld fs ∅ 0 [].

Definition env_linux : Env :=
  mkEnv Linux "/home/user/.config" (Spawned 4242 30) (Spawned 7000 40)
    (ExitOnTerminate 100) (ExitOnTerminate 80) (KillallDone 50).

(** The service as [main] constructs it. *)
Definition svc0 : t := create Linux app_dir (fun _ => None) fs_install.
Definition svc_sim : t := create Linux app_dir (fun _ => None) fs_bare.

Fixpoint run_calls (env : Env) (cs : list Call) (sw : Sys) : Sys :=
  match cs with
  | [] => sw
  | c :: cs' =>
      match run_call env c sw with
      | Returns (_, sw') => run_calls env cs' sw'
      | Deadlock => sw
      end
  end.

Fixpoint calls_return (env : Env) (cs : list Call) (sw : Sys) : bool :=
  match cs with
  | [] => true
  | c :: cs' =>
      match run_call env c sw with
      | Returns (_, sw') => calls_return env cs' sw'
      | Deadlock => false
      end
  end.

(** The proxy started on profile 1. *)
Definition sys_running : Sys :=
  run_calls env_linux [CallLoadProfile 1; CallStartProxy] (svc0, world0 fs_install).

(** The proxy and TUN mode started. *)
Definition sys_tun : Sys :=
  run_calls env_linux [CallLoadProfile 1; CallStartProxy; CallStartTunMode]
    (svc0, world0 fs_install).

(** The proxy "started" in simulation mode. *)
Definition sys_sim : Sys :=
  run_calls env_linux [CallLoadProfile 1; CallStartProxy] (svc_sim, world0 fs_bare).

(** The service initialised on the web host. *)
Definition sys_webhost : Sys :=
  match initialize env_linux cfg_dir (svc0, world0 fs_webhost) with
  | Returns (_, sw) => sw
  | Deadlock => (svc0, world0 fs_webhost)
  end.

End Scenario.

(** ** The lifecycle of the service: theorems about [NekoService]

    Each public operation of [src/core/NekoService_Fixed.cpp] is
    characterised on every branch (its result, the status it leaves, the
    processes and the timer), from the building blocks: [with_lock],
    [setStatus], signal delivery to the slots, and the supervisors'
    operations.  Then the state machine: the invariant that holds in
    every state reachable from an initialised service, by induction over
    [NekoService.step]; and the places where the code departs from the
    spec, each with a concrete witness. *)

Module Lifecycle.
Import NekoService.

(** ** Record updates *)

Lemma set_locked_cancel s : m_locked s = false -> set_locked false (set_locked true s) = s.
Proof. destruct s; simpl; intros ->; reflexivity. Qed.

Lemma set_status_same s : set_status (m_status s) s = s.
Proof. by destruct s. Qed.

Lemma set_status_twice st1 st2 s : set_status st2 (set_status st1 s) = set_status st2 s.
Proof. reflexivity. Qed.

#[export] Hint Rewrite set_status_same set_status_twice : neko_rw.

(** The world changed only by appended signals. *)
Definition quiet (w w' : World) : Prop :=
  w_fs w' = w_fs w /\ w_procs w' = w_procs w /\ w_clock w' = w_clock w.

Lemma quiet_refl w : quiet w w.
Proof. done. Qed.

Lemma quiet_trans w1 w2 w3 : quiet w1 w2 -> quiet w2 w3 -> quiet w1 w3.
Proof. unfold quiet. intros (?&?&?) (?&?&?). repeat split; congruence. Qed.

Lemma quiet_emit e w : quiet w (emit e w).
Proof. done. Qed.

#[export] Hint Resolve quiet_refl quiet_emit : neko.

(** The trace only grows. *)
Definition grows (w w' : World) : Prop := exists es, w_events w' = w_events w ++ es.

Lemma grows_refl w : grows w w.
Proof. exists []. by rewrite app_nil_r. Qed.

Lemma grows_trans w1 w2 w3 : grows w1 w2 -> grows w2 w3 -> grows w1 w3.
Proof. intros [e1 H1] [e2 H2]. exists (e1 ++ e2). by rewrite H2, H1, app_assoc. Qed.

Lemma grows_emit e w : grows w (emit e w).
Proof. by exists [e]. Qed.

Lemma grows_elem e w w' : grows w w' -> e ∈ w_events w -> e ∈ w_events w'.
Proof. intros [es ->] H. set_solver. Qed.

#[export] Hint Resolve grows_refl grows_emit : neko.

(** ** Building blocks *)

Lemma with_lock_unlocked {A} (body : M Sys A) s w :
  m_locked s = false ->
  with_lock body (s, w) =
  match body (set_locked true s, w) with
  | Returns (a, (s', w')) => Returns (a, (set_locked false s', w'))
  | Deadlock => Deadlock
  end.
Proof. intros H. unfold with_lock. by rewrite H. Qed.

Lemma with_lock_locked {A} (body : M Sys A) s w :
  m_locked s = true -> with_lock body (s, w) = Deadlock.
Proof. intros H. unfold with_lock. by rewrite H. Qed.

Lemma setStatus_run st s w :
  exists w', setStatus st (s, w) = Returns (tt, (set_status st s, w')) /\ quiet w w' /\
             grows w w'.
Proof.
  unfold setStatus. cbn. case_bool_decide as H.
  - exists w. subst. rewrite set_status_same. split; [done|]. split; [done|apply grows_refl].
  - eexists. split; [reflexivity|]. split; [done|].
    eapply grows_trans; apply grows_emit.
Qed.

(** Delivering signals to the slots: the only state a slot changes is
    the status, from [Running] to [Error]. *)
Lemma deliver_run es s w :
  exists s' w', deliver es (s, w) = Returns (tt, (s', w')) /\ quiet w w' /\ grows w w' /\
    (s' = s \/ (m_status s = ServiceStatus.Running /\ s' = set_status ServiceStatus.Error s)).
Proof.
  revert s w. induction es as [|e es IH]; intros s w; simpl.
  - exists s, w. split; [done|]. split; [apply quiet_refl|]. split; [apply grows_refl|by left].
  - destruct e; cbn;
      try (match goal with |- context [deliver es (s, ?w1)] =>
             destruct (IH s w1) as (s' & w' & -> & Hq & Hg & Hs) end;
           exists s', w'; split; [done|]; split; [eapply quiet_trans; eauto with neko|];
           split; [eapply grows_trans; [|exact Hg]; eauto using grows_trans with neko|done]).
    + (* coreProcessFinished *)
      unfold onCoreProcessFinished, gets. cbn. case_bool_decide as Hr.
      * destruct (setStatus_run ServiceStatus.Error s (emit coreProcessFinished w))
          as (w1 & Hw1 & Hq1 & Hg1).
        unfold mbind. rewrite Hw1. cbn.
        destruct (IH (set_status ServiceStatus.Error s)
                     (emit (errorOccurred "Core process crashed unexpectedly") w1))
          as (s' & w' & -> & Hq & Hg & Hs).
        exists s', w'. split; [done|]. split.
        { eapply quiet_trans; [|eapply quiet_trans; [exact Hq1|]]; eauto with neko. }
        split.
        { eapply grows_trans; [apply grows_emit|].
          eapply grows_trans; [exact Hg1|]. eapply grows_trans; [apply grows_emit|exact Hg]. }
        right. split; [done|]. destruct Hs as [->|[Hc _]]; [done|]. done.
      * cbn. destruct (IH s (emit coreProcessFinished w)) as (s' & w' & -> & Hq & Hg & Hs).
        exists s', w'. split; [done|]. split; [eapply quiet_trans; eauto with neko|].
        split; [eapply grows_trans; [apply grows_emit|exact Hg]|].
        destruct Hs as [->|[Hc _]]; [by left|done].
Qed.

(** A supervisor operation run from the service: the supervisor's new
    state is stored, and the slots only move [Running] to [Error]. *)
Lemma run_sub_run {C A} (get : t -> C) (put : C -> t -> t)
    (op : C -> World -> A * C * World) s w :
  exists s'' w'',
    run_sub get put op (s, w) = Returns ((op (get s) w).1.1, (s'', w'')) /\
    quiet (op (get s) w).2 w'' /\ grows w w'' /\
    (s'' = put (op (get s) w).1.2 s \/
     (m_status (put (op (get s) w).1.2 s) = ServiceStatus.Running /\
      s'' = set_status ServiceStatus.Error (put (op (get s) w).1.2 s))).
Proof.
  unfold run_sub. destruct (op (get s) w) as [[a c'] w'] eqn:E. simpl.
  match goal with |- context [deliver ?es (?s1, ?w1)] =>
    destruct (deliver_run es s1 w1) as (s'' & w'' & -> & Hq & Hg & Hs) end.
  exists s'', w''. split; [done|]. split; [|split; [|done]].
  - destruct Hq as (? & ? & ?). repeat split; simpl in *; congruence.
  - destruct Hg as [es' Hg]. exists es'. by rewrite Hg.
Qed.

(** When the status is not [Running], nothing but the supervisor's
    state changes. *)
Lemma run_sub_quiet {C A} (get : t -> C) (put : C -> t -> t)
    (op : C -> World -> A * C * World) s w :
  m_status (put (op (get s) w).1.2 s) <> ServiceStatus.Running ->
  exists w'', run_sub get put op (s, w) = Returns ((op (get s) w).1.1, (put (op (get s) w).1.2 s, w''))
    /\ quiet (op (get s) w).2 w'' /\ grows w w''.
Proof.
  intros Hn. destruct (run_sub_run get put op s w) as (s'' & w'' & Hr & Hq & Hg & [->|[Hc _]]);
    [|done]. eauto.
Qed.

(** Signals other than the core's [processFinished] reach slots that
    only log. *)
Lemma deliver_no_core es s w :
  coreProcessFinished ∉ es ->
  exists w', deliver es (s, w) = Returns (tt, (s, w')) /\ quiet w w' /\ grows w w'.
Proof.
  revert w. induction es as [|e es IH]; intros w Hn; simpl.
  - exists w. split; [done|]. split; [apply quiet_refl|apply grows_refl].
  - assert (He : e <> coreProcessFinished) by set_solver.
    assert (Hes : coreProcessFinished ∉ es) by set_solver.
    destruct e; try done; cbn;
      match goal with |- context [deliver es (s, ?w1)] =>
        destruct (IH w1 Hes) as (w' & -> & Hq & Hg) end;
      exists w'; (split; [done|]); (split;
      [eapply quiet_trans; [|exact Hq]; eauto using quiet_trans with neko
      |eapply grows_trans; [|exact Hg]; eauto using grows_trans with neko]).
Qed.

Lemma run_sub_no_core {C A} (get : t -> C) (put : C -> t -> t)
    (op : C -> World -> A * C * World) s w :
  (exists es, w_events (op (get s) w).2 = w_events w ++ es /\ coreProcessFinished ∉ es) ->
  exists w'', run_sub get put op (s, w) = Returns ((op (get s) w).1.1, (put (op (get s) w).1.2 s, w''))
    /\ quiet (op (get s) w).2 w'' /\ grows w w''.
Proof.
  intros (es & Hes & Hn). unfold run_sub.
  destruct (op (get s) w) as [[a c'] w'] eqn:E. simpl in *. rewrite Hes, drop_app_length.
  destruct (deliver_no_core es (put c' s)
    {| w_fs := w_fs w'; w_procs := w_procs w'; w_clock := w_clock w'; w_events := w_events w |} Hn)
    as (w'' & -> & Hq & [es' Hg]).
  exists w''. split; [done|]. split.
  - destruct Hq as (?&?&?). repeat split; simpl in *; congruence.
  - exists es'. by rewrite Hg.
Qed.

Lemma set_core_status c s : m_status (set_core c s) = m_status s.
Proof. done. Qed.
Lemma set_tun_status x s : m_status (set_tun x s) = m_status s.
Proof. done. Qed.
#[export] Hint Rewrite set_core_status set_tun_status : neko_rw.

Lemma tun_op_quiet {A} (op : TunManager.t -> World -> A * TunManager.t * World) s w :
  m_status s <> ServiceStatus.Running ->
  exists w'', tun_op op (s, w) = Returns ((op (m_tunManager s) w).1.1,
                                         (set_tun (op (m_tunManager s) w).1.2 s, w''))
    /\ quiet (op (m_tunManager s) w).2 w'' /\ grows w w''.
Proof. intros H. by apply run_sub_quiet. Qed.

Lemma core_op_quiet {A} (op : CoreManager.t -> World -> A * CoreManager.t * World) s w :
  m_status s <> ServiceStatus.Running ->
  exists w'', core_op op (s, w) = Returns ((op (m_coreManager s) w).1.1,
                                          (set_core (op (m_coreManager s) w).1.2 s, w''))
    /\ quiet (op (m_coreManager s) w).2 w'' /\ grows w w''.
Proof. intros H. by apply run_sub_quiet. Qed.

(** Symbolic execution unfolds the monad, not the operations the
    lemmas above describe. *)
Arguments tun_op : simpl never.
Arguments core_op : simpl never.
Arguments config_op : simpl never.
Arguments setStatus : simpl never.
Arguments deliver : simpl never.

(** ** Teardown: the timer, then the TUN process, then the core *)

Lemma teardown_run env s w :
  m_status s <> ServiceStatus.Running ->
  exists c' x' w',
    teardown env (s, w) = Returns (tt, (set_core c' (set_tun x' (set_timer false s)), w')) /\
    TunManager.isRunning x' = false /\
    CoreManager.m_simulationMode c' = CoreManager.m_simulationMode (m_coreManager s) /\
    CoreManager.m_corePath c' = CoreManager.m_corePath (m_coreManager s) /\
    (CoreManager.m_simulationMode (m_coreManager s) = false -> CoreManager.isRunning c' = false) /\
    (CoreManager.m_process (m_coreManager s) = None -> c' = m_coreManager s).
Proof.
  intros Hst. unfold teardown, modify_svc, gets. cbn.
  set (s1 := set_timer false s).
  destruct (TunManager.isRunning (m_tunManager s)) eqn:Ht; cbn.
  - destruct (tun_op_quiet
               (TunManager.stop (env_plat env) (env_killall env) (env_tun_exit env)) s1 w Hst)
      as (w1 & -> & _). cbn.
    set (x' := (TunManager.stop _ _ _ _ _).1.2).
    assert (Hx : TunManager.isRunning x' = false) by apply TunManagerFacts.tun_stop_not_running.
    destruct (CoreManager.isRunning (m_coreManager s)) eqn:Hc; cbn.
    + destruct (core_op_quiet (CoreManager.stop (env_core_exit env)) (set_tun x' s1) w1 Hst)
        as (w2 & -> & _). cbn.
      eexists _, x', w2. split; [reflexivity|]. split; [done|].
      destruct (CoreManagerFacts.stop_fields (env_core_exit env) (m_coreManager s) w1) as [Hp Hs].
      split; [done|]. split; [done|].
      split; [intros Hsim; by apply CoreManagerFacts.stop_not_running|].
      intros Hn. by rewrite CoreManagerFacts.stop_no_process.
    + exists (m_coreManager s), x', w1. split; [by destruct s|]. auto.
  - destruct (CoreManager.isRunning (m_coreManager s)) eqn:Hc; cbn.
    + destruct (core_op_quiet (CoreManager.stop (env_core_exit env)) s1 w Hst)
        as (w2 & -> & _). cbn.
      eexists _, (m_tunManager s), w2. split; [by destruct s|]. split; [done|].
      destruct (CoreManagerFacts.stop_fields (env_core_exit env) (m_coreManager s) w) as [Hp Hs].
      split; [done|]. split; [done|].
      split; [intros Hsim; by apply CoreManagerFacts.stop_not_running|].
      intros Hn. by rewrite CoreManagerFacts.stop_no_process.
    + exists (m_coreManager s), (m_tunManager s), w. split; [by destruct s|]. auto.
Qed.

Arguments teardown : simpl never.

(** ** stopProxy *)

(** [stopProxy] on a stopped service returns [true] and changes nothing. *)
Lemma stopProxy_idempotent env s w :
  m_locked s = false -> m_status s = ServiceStatus.Stopped ->
  stopProxy env (s, w) = Returns (true, (s, w)).
Proof.
  intros Hl Hs. unfold stopProxy. rewrite with_lock_unlocked by done. cbn.
  rewrite Hs, bool_decide_true by done. cbn. by rewrite set_locked_cancel.
Qed.

(** [stopProxy] from any other status: it returns [true] with the
    status [Stopped], the timer stopped, the TUN process stopped, the
    core stopped (outside simulation mode) and the mutex released; a
    core supervisor without a process handle is left as it was. *)
Lemma stopProxy_run env s w :
  m_locked s = false -> m_status s <> ServiceStatus.Stopped ->
  exists s' w', stopProxy env (s, w) = Returns (true, (s', w')) /\
    m_status s' = ServiceStatus.Stopped /\ m_timerActive s' = false /\
    isTunModeRunning s' = false /\
    (CoreManager.m_simulationMode (m_coreManager s) = false ->
     CoreManager.isRunning (m_coreManager s') = false) /\
    (CoreManager.m_process (m_coreManager s) = None -> m_coreManager s' = m_coreManager s) /\
    (CoreManagerFacts.wf (m_coreManager s) -> CoreManagerFacts.wf (m_coreManager s')) /\
    CoreManager.m_simulationMode (m_coreManager s') =
      CoreManager.m_simulationMode (m_coreManager s) /\
    m_locked s' = false /\ m_currentProfileId s' = m_currentProfileId s /\
    m_currentConfig s' = m_currentConfig s.
Proof.
  intros Hl Hs. unfold stopProxy. rewrite with_lock_unlocked by done. cbn.
  rewrite bool_decide_false by done. cbn.
  destruct (setStatus_run ServiceStatus.Stopping (set_locked true s) w) as (w1 & -> & _). cbn.
  destruct (teardown_run env (set_status ServiceStatus.Stopping (set_locked true s)) w1)
    as (c' & x' & w2 & -> & Hx & Hsim & Hpath & Hc & Hn); [done|]. cbn.
  match goal with |- context [setStatus ?st (?s1, ?w3)] =>
    destruct (setStatus_run st s1 w3) as (w4 & -> & _) end. cbn.
  eexists _, _. split; [reflexivity|]. simpl in *. repeat split; auto.
  unfold CoreManagerFacts.wf. rewrite Hsim, Hpath. done.
Qed.

(** C3: [stopProxy] from any other status reaches [Stopped] with the timer
    and the TUN process stopped, the core stopped outside simulation
    mode, the mutex released and the profile and settings kept. *)
Lemma stopProxy_stops env s w :
  m_locked s = false -> m_status s <> ServiceStatus.Stopped ->
  exists s' w', stopProxy env (s, w) = Returns (true, (s', w')) /\
    m_status s' = ServiceStatus.Stopped /\ m_timerActive s' = false /\
    isTunModeRunning s' = false /\
    (CoreManager.m_simulationMode (m_coreManager s) = false ->
     CoreManager.isRunning (m_coreManager s') = false) /\
    m_locked s' = false /\ m_currentProfileId s' = m_currentProfileId s /\
    m_currentConfig s' = m_currentConfig s.
Proof.
  intros Hl Hs. destruct (stopProxy_run env s w Hl Hs) as (s' & w' & ? & ? & ? & ? & ? & _ & _ & _ & ?).
  exists s', w'. tauto.
Qed.

(** C9: In simulation mode the core supervisor has no process handle, so
    [CoreManager::stop] returns at once and keeps its profile: after
    [stopProxy] the service reports [Stopped] while the core supervisor
    still reports running. *)
Lemma stopProxy_simulation_still_running env s w :
  m_locked s = false -> m_status s <> ServiceStatus.Stopped ->
  CoreManager.m_simulationMode (m_coreManager s) = true ->
  CoreManager.m_process (m_coreManager s) = None ->
  0 < CoreManager.m_currentProfileId (m_coreManager s) ->
  exists s' w', stopProxy env (s, w) = Returns (true, (s', w')) /\
    m_status s' = ServiceStatus.Stopped /\ CoreManager.isRunning (m_coreManager s') = true.
Proof.
  intros Hl Hs Hsim Hp Hid.
  destruct (stopProxy_run env s w Hl Hs) as (s' & w' & Hr & Hst & _ & _ & _ & Hc & _).
  exists s', w'. split; [done|]. split; [done|]. rewrite (Hc Hp).
  unfold CoreManager.isRunning. rewrite Hsim. simpl. by apply Z.ltb_lt in Hid as ->.
Qed.

(** ** startProxy *)

Lemma core_start_quiet o id c w w' :
  quiet w w' -> (CoreManager.start o id c w).1 = (CoreManager.start o id c w').1.
Proof.
  intros (Hfs & _ & _). unfold CoreManager.start, CoreManager.generateConfig.
  rewrite Hfs. repeat case_match; simplify_eq/=; try done;
    destruct o; simplify_eq/=; done.
Qed.

(** A second [startProxy] while [Running] returns [true] and spawns
    nothing. *)
Lemma startProxy_idempotent env s w :
  m_locked s = false -> m_status s = ServiceStatus.Running ->
  startProxy env (s, w) = Returns (true, (s, w)).
Proof.
  intros Hl Hs. unfold startProxy. rewrite with_lock_unlocked by done. cbn.
  rewrite Hs, bool_decide_true by done. cbn. by rewrite set_locked_cancel.
Qed.

(** Without a profile, [startProxy] fails with "No profile selected"
    and leaves the service as it was. *)
Lemma startProxy_no_profile env s w :
  m_locked s = false -> m_status s <> ServiceStatus.Running -> m_currentProfileId s < 0 ->
  startProxy env (s, w) = Returns (false, (s, emit (errorOccurred "No profile selected") w)).
Proof.
  intros Hl Hs Hid. unfold startProxy. rewrite with_lock_unlocked by done. cbn.
  rewrite bool_decide_false by done. cbn.
  apply Z.ltb_lt in Hid. rewrite Hid. cbn. by rewrite set_locked_cancel.
Qed.

(** The core does not start: [startProxy] fails, the status is
    [Error], nothing else of the service moved but the core supervisor. *)
Lemma startProxy_core_fails env s w :
  m_locked s = false -> m_status s <> ServiceStatus.Running -> 0 <= m_currentProfileId s ->
  (CoreManager.start (env_core_spawn env) (m_currentProfileId s) (m_coreManager s) w).1.1 = false ->
  exists w', startProxy env (s, w) =
    Returns (false, (set_core (CoreManager.start (env_core_spawn env) (m_currentProfileId s)
                                 (m_coreManager s) w).1.2
                       (set_status ServiceStatus.Error s), w')).
Proof.
  intros Hl Hs Hid Hc. unfold startProxy. rewrite with_lock_unlocked by done. cbn.
  rewrite bool_decide_false by done. cbn.
  assert (Hid' : (m_currentProfileId s <? 0) = false) by (apply Z.ltb_ge; lia).
  rewrite Hid'. cbn.
  destruct (setStatus_run ServiceStatus.Starting (set_locked true s) w) as (w1 & -> & Hq1 & _). cbn.
  destruct (core_op_quiet (CoreManager.start (env_core_spawn env) (m_currentProfileId s))
              (set_status ServiceStatus.Starting (set_locked true s)) w1) as (w2 & -> & _);
    [done|]. cbn.
  rewrite (core_start_quiet _ _ _ w1 w) in * by (destruct Hq1 as (?&?&?); repeat split; congruence).
  rewrite Hc. cbn.
  match goal with |- context [setStatus ?st (?s1, ?w3)] =>
    destruct (setStatus_run st s1 w3) as (w4 & -> & _) end. cbn.
  eexists. f_equal. f_equal. f_equal. by destruct s; simpl in *; subst.
Qed.

(** The core starts: [startProxy] returns [true], the status is
    [Running] and the timer active, whether the TUN process (when the
    settings ask for it) started or not. *)
Lemma startProxy_runs env s w :
  m_locked s = false -> m_status s <> ServiceStatus.Running -> 0 <= m_currentProfileId s ->
  (CoreManager.start (env_core_spawn env) (m_currentProfileId s) (m_coreManager s) w).1.1 = true ->
  exists s' w', startProxy env (s, w) = Returns (true, (s', w')) /\
    m_status s' = ServiceStatus.Running /\ m_timerActive s' = true /\ m_locked s' = false /\
    m_coreManager s' =
      (CoreManager.start (env_core_spawn env) (m_currentProfileId s) (m_coreManager s) w).1.2 /\
    (tun_enabled (m_currentConfig s) = false -> m_tunManager s' = m_tunManager s) /\
    m_currentProfileId s' = m_currentProfileId s /\ m_currentConfig s' = m_currentConfig s.
Proof.
  intros Hl Hs Hid Hc. unfold startProxy. rewrite with_lock_unlocked by done. cbn.
  rewrite bool_decide_false by done. cbn.
  assert (Hid' : (m_currentProfileId s <? 0) = false) by (apply Z.ltb_ge; lia).
  rewrite Hid'. cbn.
  destruct (setStatus_run ServiceStatus.Starting (set_locked true s) w) as (w1 & -> & Hq1 & _). cbn.
  destruct (core_op_quiet (CoreManager.start (env_core_spawn env) (m_currentProfileId s))
              (set_status ServiceStatus.Starting (set_locked true s)) w1) as (w2 & -> & _);
    [done|]. cbn.
  assert (Hq : quiet w1 w) by (destruct Hq1 as (?&?&?); repeat split; congruence).
  rewrite (core_start_quiet _ _ _ w1 w Hq) in *. rewrite Hc. cbn.
  set (c' := (CoreManager.start _ _ _ w).1.2).
  destruct (tun_enabled (m_currentConfig s)) eqn:Ht; cbn.
  - destruct (tun_op_quiet (TunManager.start (env_plat env) (env_tun_spawn env))
                (set_core c' (set_status ServiceStatus.Starting (set_locked true s))) w2)
      as (w3 & -> & _); [done|]. cbn.
    destruct (TunManager.start _ _ _ _).1.1; cbn;
      match goal with |- context [setStatus ?st (?s1, ?w4)] =>
        destruct (setStatus_run st s1 w4) as (w5 & -> & _) end; cbn;
      eexists _, _; split; try reflexivity; simpl; repeat split; done.
  - match goal with |- context [setStatus ?st (?s1, ?w4)] =>
      destruct (setStatus_run st s1 w4) as (w5 & -> & _) end; cbn.
    eexists _, _; split; [reflexivity|]. simpl. repeat split; done.
Qed.

(** C4: [startProxy] when not [Running]: without a profile it fails with
    an error and changes nothing; otherwise its result is the core
    supervisor's [start], the core supervisor's new state is kept, and
    the status ends [Running] (timer active) or [Error]. *)
Theorem startProxy_spec env s w :
  m_locked s = false -> m_status s <> ServiceStatus.Running ->
  exists b s' w', startProxy env (s, w) = Returns (b, (s', w')) /\ m_locked s' = false /\
    ((m_currentProfileId s < 0)%Z ->
       b = false /\ s' = s /\ w' = emit (errorOccurred "No profile selected") w) /\
    ((0 <= m_currentProfileId s)%Z ->
       b = (CoreManager.start (env_core_spawn env) (m_currentProfileId s) (m_coreManager s) w).1.1 /\
       m_coreManager s' =
         (CoreManager.start (env_core_spawn env) (m_currentProfileId s) (m_coreManager s) w).1.2 /\
       m_status s' = (if b then ServiceStatus.Running else ServiceStatus.Error) /\
       (b = true -> m_timerActive s' = true)).
Proof.
  intros Hl Hr. destruct (decide (m_currentProfileId s < 0)%Z) as [Hid|Hid].
  { eexists _, s, _. rewrite startProxy_no_profile by done. split; [reflexivity|].
    split; [done|]. split; [done|lia]. }
  destruct (CoreManager.start (env_core_spawn env) (m_currentProfileId s) (m_coreManager s) w)
    as [[[] c'] w1] eqn:Hc.
  - destruct (startProxy_runs env s w Hl Hr) as (s' & w' & Hrun & Hst & Ht & Hl' & Hc' & _);
      [lia|by rewrite Hc|].
    exists true, s', w'. rewrite Hc in Hc'. repeat split; try done; lia.
  - destruct (startProxy_core_fails env s w Hl Hr) as (w' & Hrun); [lia|by rewrite Hc|].
    rewrite Hc in Hrun. eexists false, _, w'. split; [exact Hrun|].
    repeat split; try done; lia.
Qed.

(** ** loadProfile *)

(** [loadProfile] in one equation: the range check decides between the
    error and the update. *)
Lemma loadProfile_run id s w :
  m_locked s = false ->
  loadProfile id (s, w) =
    if (id <=? 0) || (100 <? id) then
      Returns (false, (s, emit (errorOccurred ("Invalid profile ID: " +:+ z_to_string id)%string) w))
    else
      Returns (true, (set_profileId id s,
        emit (logMessage "info" ("Profile " +:+ z_to_string id +:+ " loaded")%string)
             (emit (profileChanged id) w))).
Proof.
  intros Hl. unfold loadProfile. rewrite with_lock_unlocked by done. cbn.
  destruct ((id <=? 0) || (100 <? id)); cbn;
    [by rewrite set_locked_cancel|by destruct s; simpl in *; subst].
Qed.

(** The profile range: [loadProfile id] succeeds exactly for
    [1 <= id <= 100]; it then stores [id] and emits [profileChanged];
    otherwise it emits an error and changes nothing. *)
Lemma loadProfile_in_range id s w :
  m_locked s = false -> 1 <= id <= 100 ->
  loadProfile id (s, w) =
    Returns (true, (set_profileId id s,
      emit (logMessage "info" ("Profile " +:+ z_to_string id +:+ " loaded")%string)
           (emit (profileChanged id) w))).
Proof.
  intros Hl Hid. unfold loadProfile. rewrite with_lock_unlocked by done. cbn.
  assert (H : ((id <=? 0) || (100 <? id)) = false).
  { apply orb_false_iff. split; [apply Z.leb_gt|apply Z.ltb_ge]; lia. }
  rewrite H. cbn. by destruct s; simpl in *; subst.
Qed.

(** The profile range, failing side: an id outside [1, 100] makes
    [loadProfile] emit "Invalid profile ID" and change nothing. *)
Lemma loadProfile_out_of_range id s w :
  m_locked s = false -> ~ (1 <= id <= 100) ->
  loadProfile id (s, w) =
    Returns (false, (s, emit (errorOccurred ("Invalid profile ID: " +:+ z_to_string id)%string) w)).
Proof.
  intros Hl Hid. unfold loadProfile. rewrite with_lock_unlocked by done. cbn.
  assert (H : ((id <=? 0) || (100 <? id)) = true).
  { apply orb_true_iff. destruct (Z_le_gt_dec id 0); [left; by apply Z.leb_le|].
    right. apply Z.ltb_lt. lia. }
  rewrite H. cbn. by rewrite set_locked_cancel.
Qed.

(** ** Crash detection *)

(** The core dies while the service is [Running]: the next turn of the
    event loop moves the status to [Error] and emits an error. *)
Lemma crash_detected s w p :
  m_status s = ServiceStatus.Running ->
  CoreManager.m_process (m_coreManager s) = Some p -> qp_state p = QProcess.Running ->
  w_procs w !! qp_pid p = None ->
  exists s' w', process_events (s, w) = Returns (tt, (s', w')) /\
    m_status s' = ServiceStatus.Error /\
    errorOccurred "Core process crashed unexpectedly" ∈ w_events w'.
Proof.
  intros Hs Hp Hr Hw. unfold process_events. cbn. unfold core_op, run_sub.
  unfold CoreManager.process_exited. rewrite Hp, Hr, Hw.
  rewrite bool_decide_false by done. cbn.
  rewrite drop_app_length. unfold deliver. cbn.
  unfold onCoreProcessFinished. cbn. rewrite Hs, bool_decide_true by done. cbn.
  unfold setStatus. cbn. rewrite Hs, bool_decide_false by done. cbn.
  match goal with |- context [tun_op ?op (?s1, ?w1)] =>
    destruct (tun_op_quiet op s1 w1) as (w2 & -> & _ & Hg) end; [done|]. cbn.
  eexists _, _. split; [reflexivity|]. split; [done|].
  eapply grows_elem; [exact Hg|]. simpl. set_solver.
Qed.

(** ** The TUN supervisor's [killall] and the main core *)

(** C8: On Linux, [stopTunMode] while the proxy runs: the call succeeds and
    the service still reports [Running], but [killall -2 nekobox_core]
    also killed the main core, so the next turn of the event loop moves
    the service to [Error]. *)
Lemma stopTunMode_crashes_core env s w p ptun ms corePath :
  m_locked s = false -> m_status s = ServiceStatus.Running ->
  env_plat env = Linux -> env_killall env = KillallDone ms ->
  CoreManager.m_process (m_coreManager s) = Some p -> qp_state p = QProcess.Running ->
  w_procs w !! qp_pid p = Some corePath -> basename corePath = "nekobox_core"%string ->
  TunManager.m_tunProcess (m_tunManager s) = Some ptun -> qp_state ptun = QProcess.Running ->
  exists s1 w1 s2 w2,
    stopTunMode env (s, w) = Returns (true, (s1, w1)) /\
    m_status s1 = ServiceStatus.Running /\ isTunModeRunning s1 = false /\
    process_events (s1, w1) = Returns (tt, (s2, w2)) /\
    m_status s2 = ServiceStatus.Error /\
    errorOccurred "Core process crashed unexpectedly" ∈ w_events w2.
Proof.
  intros Hl Hs Hp Hk Hc Hcr Hw Hb Ht Htr.
  unfold stopTunMode. rewrite Hp, Hk, with_lock_unlocked by done.
  set (op := TunManager.stop Linux (KillallDone ms) (env_tun_exit env)).
  destruct (run_sub_no_core m_tunManager set_tun op (set_locked true s) w) as (w1 & Hr & Hq & _).
  { apply TunManagerFacts.stop_events. }
  unfold tun_op. rewrite Hr. subst op. rewrite TunManagerFacts.stop_true.
  set (s1 := set_locked false (set_tun _ _)).
  assert (Hdead : w_procs w1 !! qp_pid p = None).
  { destruct Hq as (_ & -> & _). eapply TunManagerFacts.stop_kills_nekobox_core; eauto. }
  destruct (crash_detected s1 w1 p) as (s2 & w2 & Hpe & Hs2 & He); try done.
  exists s1, w1, s2, w2. repeat split; try done.
  apply TunManagerFacts.tun_stop_not_running.
Qed.

(** ** initialize *)

Lemma ensure_subdirs_ok dir subs fs :
  fs_unmakeable fs = ∅ ->
  exists fs', ensure_subdirs dir subs fs = (fs', None) /\ fs_files fs' = fs_files fs /\
    fs_unmakeable fs' = ∅ /\ fs_unwritable fs' = fs_unwritable fs /\
    fs_unreadable fs' = fs_unreadable fs.
Proof.
  revert fs. induction subs as [|sub subs IH]; intros fs Hu; simpl; [by eexists|].
  destruct (ensure_dir_ok (path_join dir sub) fs) as (fs1 & -> & Hf & Hu1 & Hw & Hr & _);
    [set_solver|].
  destruct (IH fs1) as (fs2 & -> & Hf2 & Hu2 & Hw2 & Hr2); [congruence|].
  eexists. split; [done|]. repeat split; congruence.
Qed.

Lemma initializeDirectories_ok s w :
  fs_unmakeable (w_fs w) = ∅ ->
  exists fs', initializeDirectories (s, w) = Returns (true, (s, set_fs fs' w)) /\
    fs_files fs' = fs_files (w_fs w) /\ fs_unmakeable fs' = ∅ /\
    fs_unwritable fs' = fs_unwritable (w_fs w) /\ fs_unreadable fs' = fs_unreadable (w_fs w).
Proof.
  intros Hu. unfold initializeDirectories.
  destruct (ensure_dir_ok (m_configDir s) (w_fs w)) as (fs1 & -> & Hf & Hu1 & Hw & Hr & _);
    [set_solver|].
  destruct (ensure_subdirs_ok (m_configDir s) ["profiles"; "groups"; "routes"] fs1)
    as (fs2 & -> & Hf2 & Hu2 & Hw2 & Hr2); [congruence|].
  eexists. split; [done|]. repeat split; congruence.
Qed.

Arguments initializeDirectories : simpl never.

(** On a fresh configuration directory (no [groups/nekobox.json]),
    [initialize] never returns: [loadDataStore] creates the file through
    [saveConfig()], which locks [m_mutex] again while [initialize] holds
    it. *)
Lemma initialize_fresh_blocks env dir s w :
  m_locked s = false -> dir <> EmptyString ->
  fs_unmakeable (w_fs w) = ∅ ->
  fs_files (w_fs w) !! (dir +:+ "/groups/nekobox.json")%string = None ->
  initialize env dir (s, w) = Deadlock.
Proof.
  intros Hl Hd Hu Hf. unfold initialize. rewrite with_lock_unlocked by done. cbn.
  apply String.eqb_neq in Hd. rewrite Hd. cbn.
  destruct (initializeDirectories_ok (set_configDir dir (set_locked true s)) w Hu)
    as (fs1 & -> & Hf1 & Hu1 & _ & _). cbn.
  unfold config_op. cbn.
  destruct (ConfigManager.initialize_ok dir (m_configManager s) fs1 Hu1)
    as (fs2 & -> & Hf2 & _ & _ & _). cbn.
  unfold loadDataStore, file_exists. cbn. rewrite Hf2, Hf1, Hf. cbn.
  done.
Qed.

(** A configuration file that parses: [initialize] returns [true], the
    status is [Stopped], and the settings are the file's object with the
    missing default keys filled in. *)
Lemma initialize_existing env dir s w doc :
  m_locked s = false -> dir <> EmptyString ->
  fs_unmakeable (w_fs w) = ∅ ->
  fs_files (w_fs w) !! (dir +:+ "/groups/nekobox.json")%string = Some (JsonFile (QObject doc)) ->
  (dir +:+ "/groups/nekobox.json")%string ∉ fs_unreadable (w_fs w) ->
  exists s' w', initialize env dir (s, w) = Returns (true, (s', w')) /\
    m_status s' = ServiceStatus.Stopped /\ m_locked s' = false /\ m_configDir s' = dir /\
    m_currentConfig s' = merge_defaults doc (m_defaultConfig s) /\
    m_defaultConfig s' = m_defaultConfig s /\
    m_coreManager s' = m_coreManager s /\ m_tunManager s' = m_tunManager s.
Proof.
  intros Hl Hd Hu Hf Hr. unfold initialize. rewrite with_lock_unlocked by done. cbn.
  apply String.eqb_neq in Hd. rewrite Hd. cbn.
  destruct (initializeDirectories_ok (set_configDir dir (set_locked true s)) w Hu)
    as (fs1 & -> & Hf1 & Hu1 & _ & Hr1). cbn.
  unfold config_op. cbn.
  destruct (ConfigManager.initialize_ok dir (m_configManager s) fs1 Hu1)
    as (fs2 & -> & Hf2 & _ & _ & Hr2). cbn.
  unfold loadDataStore, file_exists, fs_read. cbn. rewrite Hf2, Hf1, Hf. cbn.
  rewrite bool_decide_false by (rewrite Hr2, Hr1; done). cbn.
  match goal with |- context [setStatus ?st (?s1, ?w3)] =>
    destruct (setStatus_run st s1 w3) as (w4 & -> & _) end. cbn.
  eexists _, _. split; [reflexivity|]. simpl. repeat split; done.
Qed.

(** C10: The config-merge round trip of the spec: after [initialize] on a
    partial file, [getCurrentConfig] holds every key of the file with
    its value, and every other default key with the default value. *)
Lemma initialize_merge_roundtrip env dir s w doc :
  m_locked s = false -> dir <> EmptyString ->
  fs_unmakeable (w_fs w) = ∅ ->
  fs_files (w_fs w) !! (dir +:+ "/groups/nekobox.json")%string = Some (JsonFile (QObject doc)) ->
  (dir +:+ "/groups/nekobox.json")%string ∉ fs_unreadable (w_fs w) ->
  exists s' w', initialize env dir (s, w) = Returns (true, (s', w')) /\
    forall k, obj_find k (getCurrentConfig s') =
              match obj_find k doc with
              | Some v => Some v
              | None => obj_find k (m_defaultConfig s)
              end.
Proof.
  intros Hl Hd Hu Hf Hr.
  destruct (initialize_existing env dir s w doc Hl Hd Hu Hf Hr)
    as (s' & w' & Hi & _ & _ & _ & Hc & Hdf & _).
  exists s', w'. split; [done|]. intros k. unfold getCurrentConfig.
  rewrite merge_defaults_find, Hc, Hdf, merge_defaults_find.
  by destruct (obj_find k doc), (obj_find k (m_defaultConfig s)).
Qed.

(** ** The settings accessors and the core's configuration *)

(** [getSocksPort] reports the port of the settings, while the
    configuration [generateConfig] writes for the core always has its
    SOCKS inbound on 2080: a port set in the settings is reported but
    never listened on. *)
Lemma socks_port_not_applied s n :
  obj_find "inbound_socks_port" (m_currentConfig s) = Some (QDouble n) ->
  (INT_MIN <= n <= INT_MAX)%Z ->
  getSocksPort s = n /\
  exists socks http,
    obj_find "inbounds" CoreManager.core_config = Some (QArray [QObject socks; QObject http]) /\
    obj_find "listen_port" socks = Some (QDouble 2080).
Proof.
  intros Hf Hn. split.
  - unfold getSocksPort, obj_value_or. rewrite Hf. simpl.
    by rewrite (proj2 (Z.leb_le _ _) (proj1 Hn)), (proj2 (Z.leb_le _ _) (proj2 Hn)).
  - eexists _, _. split; reflexivity.
Qed.

(** ** Examples on the installation of [Scenario] *)

Lemma stopProxy_stops_witness :
  let s := Scenario.sys_running.1 in let w := Scenario.sys_running.2 in
  exists s' w', stopProxy Scenario.env_linux (s, w) = Returns (true, (s', w')) /\
    m_status s' = ServiceStatus.Stopped /\ m_timerActive s' = false /\
    isTunModeRunning s' = false /\
    (CoreManager.m_simulationMode (m_coreManager s) = false ->
     CoreManager.isRunning (m_coreManager s') = false) /\
    m_locked s' = false /\ m_currentProfileId s' = m_currentProfileId s /\
    m_currentConfig s' = m_currentConfig s.
Proof.
  intros s w. apply stopProxy_stops; vm_compute; [reflexivity|discriminate].
Defined.

Lemma startProxy_spec_witness :
  let sw := Scenario.run_calls Scenario.env_linux [CallLoadProfile 1]
              (Scenario.svc0, Scenario.world0 Scenario.fs_install) in
  let env := Scenario.env_linux in let s := sw.1 in let w := sw.2 in
  exists b s' w', startProxy env (s, w) = Returns (b, (s', w')) /\ m_locked s' = false /\
    ((m_currentProfileId s < 0)%Z ->
       b = false /\ s' = s /\ w' = emit (errorOccurred "No profile selected") w) /\
    ((0 <= m_currentProfileId s)%Z ->
       b = (CoreManager.start (env_core_spawn env) (m_currentProfileId s) (m_coreManager s) w).1.1 /\
       m_coreManager s' =
         (CoreManager.start (env_core_spawn env) (m_currentProfileId s) (m_coreManager s) w).1.2 /\
       m_status s' = (if b then ServiceStatus.Running else ServiceStatus.Error) /\
       (b = true -> m_timerActive s' = true)).
Proof.
  intros sw env s w. apply startProxy_spec; vm_compute; [reflexivity|discriminate].
Defined.

Lemma stopTunMode_crashes_core_witness :
  let s := Scenario.sys_tun.1 in let w := Scenario.sys_tun.2 in
  exists s1 w1 s2 w2,
    stopTunMode Scenario.env_linux (s, w) = Returns (true, (s1, w1)) /\
    m_status s1 = ServiceStatus.Running /\ isTunModeRunning s1 = false /\
    process_events (s1, w1) = Returns (tt, (s2, w2)) /\
    m_status s2 = ServiceStatus.Error /\
    errorOccurred "Core process crashed unexpectedly" ∈ w_events w2.
Proof.
  intros s w. eapply (stopTunMode_crashes_core Scenario.env_linux s w); vm_compute; reflexivity.
Defined.

Lemma stopProxy_simulation_still_running_witness :
  let s := Scenario.sys_sim.1 in let w := Scenario.sys_sim.2 in
  exists s' w', stopProxy Scenario.env_linux (s, w) = Returns (true, (s', w')) /\
    m_status s' = ServiceStatus.Stopped /\ CoreManager.isRunning (m_coreManager s') = true.
Proof.
  intros s w. apply stopProxy_simulation_still_running; vm_compute;
    first [reflexivity|discriminate].
Defined.

Lemma loadProfile_in_range_witness :
  loadProfile 1 (Scenario.svc0, Scenario.world0 Scenario.fs_install) =
    Returns (true, (set_profileId 1 Scenario.svc0,
      emit (logMessage "info" ("Profile " +:+ z_to_string 1 +:+ " loaded")%string)
           (emit (profileChanged 1) (Scenario.world0 Scenario.fs_install)))).
Proof. apply loadProfile_in_range; [vm_compute; reflexivity|lia]. Defined.

Lemma loadProfile_out_of_range_witness :
  loadProfile 101 (Scenario.svc0, Scenario.world0 Scenario.fs_install) =
    Returns (false, (Scenario.svc0,
      emit (errorOccurred ("Invalid profile ID: " +:+ z_to_string 101)%string)
           (Scenario.world0 Scenario.fs_install))).
Proof. apply loadProfile_out_of_range; [vm_compute; reflexivity|lia]. Defined.

Lemma initialize_merge_roundtrip_witness :
  exists s' w', initialize Scenario.env_linux Scenario.cfg_dir
                  (Scenario.svc0, Scenario.world0 Scenario.fs_configured) = Returns (true, (s', w')) /\
    forall k, obj_find k (getCurrentConfig s') =
              match obj_find k Scenario.cfg_doc with
              | Some v => Some v
              | None => obj_find k (m_defaultConfig Scenario.svc0)
              end.
Proof.
  apply initialize_merge_roundtrip; vm_compute;
    first [reflexivity|discriminate|decide_closed].
Defined.

Lemma socks_port_not_applied_witness :
  let s := set_currentConfig Scenario.cfg_doc Scenario.svc0 in
  getSocksPort s = 1080 /\
  exists socks http,
    obj_find "inbounds" CoreManager.core_config = Some (QArray [QObject socks; QObject http]) /\
    obj_find "listen_port" socks = Some (QDouble 2080).
Proof. intros s. apply socks_port_not_applied; vm_compute; [reflexivity|split; discriminate]. Defined.

End Lifecycle.
