(* ===== verification/Invariant.v ===== *)
(** * The invariant of the running service

    After the constructor, the service's state satisfies [inv]: the
    mutex is free between calls, [Starting] and [Stopping] never outlive
    the call that set them, the core supervisor's mode matches its
    executable, a running traffic timer means the proxy was started, and a
    service that reports [Stopped] has no core running (outside
    simulation mode).  [preserves m] says [m] returns from every state
    satisfying [inv] (it never deadlocks) into a state satisfying [inv];
    every public call, the timer's tick, a child's death and a turn of
    the event loop preserve it, so [inv] holds in every state [reachable]
    from one where it holds. *)

From S2P Require Import Prelude QJson Platform ConfigManager CoreManager TunManager NekoService.

Module ServiceInvariant.
Import NekoService Lifecycle.

(** The statuses a public call leaves behind. *)
Definition settled (st : ServiceStatus.t) : bool :=
  match st with
  | ServiceStatus.Starting | ServiceStatus.Stopping => false
  | _ => true
  end.

Record inv (s : t) : Prop := {
  inv_unlocked : m_locked s = false;
  inv_settled : settled (m_status s) = true;
  inv_core_wf : CoreManagerFacts.wf (m_coreManager s);
  inv_timer : m_timerActive s = true -> m_status s <> ServiceStatus.Stopped;
  inv_stopped_core : m_status s = ServiceStatus.Stopped ->
    CoreManager.m_simulationMode (m_coreManager s) = false ->
    CoreManager.isRunning (m_coreManager s) = false
}.

(** The fields [inv] reads. *)
Definition frame (s s' : t) : Prop :=
  m_locked s' = m_locked s /\ m_status s' = m_status s /\
  m_coreManager s' = m_coreManager s /\ m_timerActive s' = m_timerActive s.

(** [m] returns from every state of [inv], into a state of [inv]. *)
Definition preserves {A} (m : M Sys A) : Prop :=
  forall s w, inv s -> exists a s' w', m (s, w) = Returns (a, (s', w')) /\ inv s'.

(** A locked body that only changes fields [inv] does not read. *)
Definition framed {A} (body : M Sys A) : Prop :=
  forall s w, exists a s' w', body (s, w) = Returns (a, (s', w')) /\ frame s s'.

Lemma frame_refl s : frame s s.
Proof. done. Qed.

Lemma frame_trans s1 s2 s3 : frame s1 s2 -> frame s2 s3 -> frame s1 s3.
Proof. unfold frame. intros (?&?&?&?) (?&?&?&?). repeat split; congruence. Qed.

#[export] Hint Resolve frame_refl : neko.

Lemma inv_frame s s' : frame s s' -> inv s -> inv s'.
Proof.
  intros (Hl & Hs & Hc & Ht) []. split; rewrite ?Hl, ?Hs, ?Hc, ?Ht; done.
Qed.

Lemma with_lock_framed {A} (body : M Sys A) : framed body -> preserves (with_lock body).
Proof.
  intros Hb s w Hi. rewrite with_lock_unlocked by apply Hi.
  destruct (Hb (set_locked true s) w) as (a & s' & w' & -> & Hf).
  exists a, (set_locked false s'), w'. split; [done|].
  apply (inv_frame s); [|done]. destruct Hf as (Hl & Hs & Hc & Ht).
  repeat split; simpl in *; try congruence. symmetry. apply Hi.
Qed.

Lemma preserves_bind {A B} (m : M Sys A) (k : A -> M Sys B) :
  preserves m -> (forall a, preserves (k a)) -> preserves (mbind m k).
Proof.
  intros Hm Hk s w Hi. destruct (Hm s w Hi) as (a & s1 & w1 & Hr & Hi1).
  destruct (Hk a s1 w1 Hi1) as (b & s2 & w2 & Hr2 & Hi2).
  exists b, s2, w2. simpl. by rewrite Hr.
Qed.

Lemma preserves_ret {A} (a : A) : preserves (mret a).
Proof. intros s w Hi. by exists a, s, w. Qed.

Lemma preserves_modify_world f : preserves (modify_world f).
Proof. intros s w Hi. by exists tt, s, (f w). Qed.

Lemma framed_ret {A} (a : A) : framed (mret a).
Proof. intros s w. exists a, s, w. auto with neko. Qed.

Lemma framed_signal e : framed (signal e).
Proof. intros s w. exists tt, s, (emit e w). auto with neko. Qed.

Lemma framed_bind {A B} (m : M Sys A) (k : A -> M Sys B) :
  framed m -> (forall a, framed (k a)) -> framed (mbind m k).
Proof.
  intros Hm Hk s w. destruct (Hm s w) as (a & s1 & w1 & Hr & Hf1).
  destruct (Hk a s1 w1) as (b & s2 & w2 & Hr2 & Hf2).
  exists b, s2, w2. simpl. rewrite Hr. split; [done|]. by eapply frame_trans.
Qed.

Lemma framed_modify f : (forall s, frame s (f s)) -> framed (modify_svc f).
Proof. intros Hf s w. by exists tt, (f s), w. Qed.

Lemma framed_gets {A} (f : t -> A) : framed (gets f).
Proof. intros s w. exists (f s), s, w. auto with neko. Qed.

Lemma framed_gets_world {A} (f : World -> A) : framed (gets_world f).
Proof. intros s w. exists (f w), s, w. auto with neko. Qed.

#[export] Hint Resolve framed_ret framed_signal framed_gets framed_gets_world : neko.

(** The framed combinators, applied backwards through a body. *)
Ltac framed_auto :=
  repeat first
    [ apply framed_bind; [|intros []] | apply framed_bind; [|intro]
    | apply framed_modify; intros ?; by repeat split
    | progress (auto with neko)
    | case_match ].

Lemma framed_preserves {A} (m : M Sys A) : framed m -> preserves m.
Proof.
  intros Hm s w Hi. destruct (Hm s w) as (a & s' & w' & Hr & Hf).
  exists a, s', w'. split; [done|]. by eapply inv_frame.
Qed.

Lemma framed_config_op {A} (op : ConfigManager.t -> FileSystem -> A * ConfigManager.t * FileSystem) :
  framed (config_op op).
Proof.
  intros s w. unfold config_op. destruct (op _ _) as [[a cm] fs].
  eexists _, _, _. split; [reflexivity|]. by repeat split.
Qed.

(** A TUN supervisor operation whose signals leave the core's
    [processFinished] out. *)
Lemma framed_tun_op {A} (op : TunManager.t -> World -> A * TunManager.t * World) :
  (forall x w, exists es, w_events (op x w).2 = w_events w ++ es /\ coreProcessFinished ∉ es) ->
  framed (tun_op op).
Proof.
  intros Hop s w. unfold tun_op.
  destruct (run_sub_no_core m_tunManager set_tun op s w (Hop _ _)) as (w'' & -> & _).
  eexists _, _, _. split; [reflexivity|]. by repeat split.
Qed.

#[export] Hint Resolve framed_config_op : neko.

(** ** The calls that leave the fields of [inv] alone *)

Lemma loadProfile_preserves id : preserves (loadProfile id).
Proof. apply with_lock_framed. unfold loadProfile. framed_auto. Qed.

Lemma loadConfig_preserves path : preserves (loadConfig path).
Proof. apply with_lock_framed. framed_auto. Qed.

Lemma saveConfig_preserves : preserves saveConfig.
Proof. apply with_lock_framed. auto with neko. Qed.

Lemma resetTraffic_preserves : preserves resetTraffic.
Proof. apply with_lock_framed. framed_auto. Qed.

Lemma startTunMode_preserves env : preserves (startTunMode env).
Proof.
  apply with_lock_framed. framed_auto.
  apply framed_tun_op. intros. apply TunManagerFacts.start_events.
Qed.

Lemma stopTunMode_preserves env : preserves (stopTunMode env).
Proof.
  apply with_lock_framed. apply framed_tun_op. intros. apply TunManagerFacts.stop_events.
Qed.

Lemma updateTraffic_preserves r_up r_down : preserves (updateTraffic r_up r_down).
Proof. apply framed_preserves. unfold updateTraffic. framed_auto. Qed.

(** ** Starting and stopping the proxy *)

Lemma startProxy_preserves env : preserves (startProxy env).
Proof.
  intros s w Hi. pose proof (inv_unlocked _ Hi) as Hl.
  destruct (decide (m_status s = ServiceStatus.Running)) as [Hr|Hr].
  { exists true, s, w. by rewrite startProxy_idempotent. }
  destruct (decide (m_currentProfileId s < 0)%Z) as [Hid|Hid].
  { eexists _, s, _. by rewrite startProxy_no_profile. }
  pose proof (CoreManagerFacts.start_preserves_wf (env_core_spawn env) (m_currentProfileId s)
                (m_coreManager s) w (inv_core_wf _ Hi)) as Hwf.
  destruct (CoreManager.start (env_core_spawn env) (m_currentProfileId s) (m_coreManager s) w)
    as [[[] c'] w1] eqn:Hc.
  - destruct (startProxy_runs env s w Hl Hr) as (s' & w' & Hrun & Hst & _ & Hl' & Hc' & _);
      [lia|by rewrite Hc|].
    exists true, s', w'. split; [done|].
    split; rewrite ?Hst, ?Hl', ?Hc', ?Hc; done.
  - destruct (startProxy_core_fails env s w Hl Hr) as (w' & Hrun); [lia|by rewrite Hc|].
    rewrite Hc in Hrun. eexists false, _, w'. split; [exact Hrun|].
    split; simpl; done.
Qed.

(** [stopProxy] and [shutdown] share the shape of their result. *)
Lemma inv_stopped s s' :
  inv s -> m_status s' = ServiceStatus.Stopped -> m_timerActive s' = false ->
  (CoreManager.m_simulationMode (m_coreManager s) = false ->
   CoreManager.isRunning (m_coreManager s') = false) ->
  (CoreManagerFacts.wf (m_coreManager s) -> CoreManagerFacts.wf (m_coreManager s')) ->
  CoreManager.m_simulationMode (m_coreManager s') =
    CoreManager.m_simulationMode (m_coreManager s) ->
  m_locked s' = false -> inv s'.
Proof.
  intros Hi Hs Ht Hc Hw Hsim Hl.
  split; rewrite ?Hs, ?Ht, ?Hl; try done; [by apply Hw, Hi|].
  intros _ Hn. apply Hc. congruence.
Qed.

Lemma stopProxy_preserves env : preserves (stopProxy env).
Proof.
  intros s w Hi. pose proof (inv_unlocked _ Hi) as Hl.
  destruct (decide (m_status s = ServiceStatus.Stopped)) as [Hs|Hs].
  { exists true, s, w. by rewrite stopProxy_idempotent. }
  destruct (stopProxy_run env s w Hl Hs) as (s' & w' & Hr & Hst & Ht & _ & Hc & _ & Hw & Hsim & Hl' & _).
  exists true, s', w'. split; [done|]. by eapply inv_stopped.
Qed.

(** [shutdown] returns, into an invariant state that reports [Stopped]. *)
Lemma shutdown_stopped env s w :
  inv s -> exists s' w', shutdown env (s, w) = Returns (tt, (s', w')) /\ inv s' /\
                          m_status s' = ServiceStatus.Stopped.
Proof.
  intros Hi. pose proof (inv_unlocked _ Hi) as Hl.
  unfold shutdown. rewrite with_lock_unlocked by done. cbn.
  case_bool_decide as Hs.
  { cbn. exists s, w. by rewrite set_locked_cancel. }
  cbn. destruct (setStatus_run ServiceStatus.Stopping (set_locked true s) w) as (w1 & -> & _). cbn.
  destruct (teardown_run env (set_status ServiceStatus.Stopping (set_locked true s)) w1)
    as (c' & x' & w2 & -> & _ & Hsim & Hpath & Hc & _); [done|]. cbn.
  unfold config_op. destruct (ConfigManager.save _ _) as [[a cm] fs]. cbn.
  match goal with |- context [setStatus ?st (?s1, ?w3)] =>
    destruct (setStatus_run st s1 w3) as (w4 & -> & _) end. cbn.
  eexists _, _. split; [reflexivity|]. split; [|done]. eapply (inv_stopped s); simpl; try done.
  unfold CoreManagerFacts.wf. by rewrite Hsim, Hpath.
Qed.

Lemma shutdown_preserves env : preserves (shutdown env).
Proof.
  intros s w Hi. destruct (shutdown_stopped env s w Hi) as (s' & w' & Hr & Hi' & _).
  by exists tt, s', w'.
Qed.

Lemma restartProxy_preserves env1 env2 : preserves (restartProxy env1 env2).
Proof.
  apply preserves_bind; [apply stopProxy_preserves|]. intros [].
  - apply preserves_bind; [apply preserves_modify_world|]. intros _. apply startProxy_preserves.
  - apply preserves_ret.
Qed.

(** ** The event loop *)

Lemma core_exited_preserves : preserves (core_op CoreManager.process_exited).
Proof.
  intros s w Hi. unfold core_op.
  destruct (run_sub_run m_coreManager set_core CoreManager.process_exited s w)
    as (s'' & w'' & Hr & _ & _ & Hs).
  eexists _, s'', w''. split; [exact Hr|].
  destruct (CoreManagerFacts.process_exited_fields (m_coreManager s) w) as [_ Hsim].
  pose proof (CoreManagerFacts.process_exited_preserves_wf (m_coreManager s) w
                (inv_core_wf _ Hi)) as Hwf.
  destruct Hs as [->|[_ ->]]; split; simpl; try done; try apply Hi.
  intros Hst Hn. apply CoreManagerFacts.process_exited_not_running; [congruence|].
  by apply Hi; [|congruence].
Qed.

Lemma process_events_preserves : preserves process_events.
Proof.
  apply preserves_bind; [apply core_exited_preserves|]. intros _.
  apply preserves_bind; [|intros _; apply preserves_ret].
  apply framed_preserves, framed_tun_op. intros. apply TunManagerFacts.process_exited_events.
Qed.

Lemma run_call_preserves env c : preserves (run_call env c).
Proof.
  destruct c; simpl;
    try (apply preserves_bind; [|intros _; apply preserves_ret]);
    auto using loadProfile_preserves, startProxy_preserves, stopProxy_preserves,
      restartProxy_preserves, startTunMode_preserves, stopTunMode_preserves,
      loadConfig_preserves, saveConfig_preserves, resetTraffic_preserves, shutdown_preserves.
Qed.

Lemma step_preserves sw sw' : step sw sw' -> inv sw.1 -> inv sw'.1.
Proof.
  intros Hst Hi. destruct Hst as [env c [s w] sw' Hr|r_up r_down [s w] sw' _ _ _ Hr|pid s w _|[s w] sw' Hr].
  - destruct (run_call_preserves env c s w Hi) as ([] & s' & w' & Hr' & Hi').
    rewrite Hr' in Hr. by injection Hr as <-.
  - destruct (updateTraffic_preserves r_up r_down s w Hi) as ([] & s' & w' & Hr' & Hi').
    rewrite Hr' in Hr. by injection Hr as <-.
  - done.
  - destruct (process_events_preserves s w Hi) as ([] & s' & w' & Hr' & Hi').
    rewrite Hr' in Hr. by injection Hr as <-.
Qed.

(** Calls that all return, run in order, are steps. *)
Lemma run_calls_reachable env cs sw0 sw :
  reachable sw0 sw -> Scenario.calls_return env cs sw = true ->
  reachable sw0 (Scenario.run_calls env cs sw).
Proof.
  revert sw. induction cs as [|c cs IH]; intros sw Hr Hc; simpl in *; [done|].
  destruct (run_call env c sw) as [[[] sw']|] eqn:E; [|done].
  apply IH; [|done]. eapply reach_step; [exact Hr|]. by eapply step_call.
Qed.

(** ** The invariant of the reachable states *)

(** The constructor's state satisfies the invariant: unlocked,
    [Stopped], the core supervisor in simulation mode exactly when no
    executable was found, the timer stopped and no core running. *)
Lemma create_inv plat appDir which fs : inv (create plat appDir which fs).
Proof.
  split; try done; try apply CoreManagerFacts.create_wf.
  intros _ _. unfold CoreManager.isRunning. simpl. by rewrite andb_false_r.
Qed.

(** C1: Every state reachable from a state of the invariant, through
    public calls, timer ticks, children dying and turns of the event
    loop, satisfies it: the mutex is free, the status is [Stopped],
    [Running] or [Error], the timer runs only when the proxy was
    started, and a service that reports [Stopped] runs no core
    (outside simulation mode). *)
Theorem reachable_inv sw0 sw : inv sw0.1 -> reachable sw0 sw -> inv sw.1.
Proof.
  intros H0 Hr. induction Hr as [|sw sw' _ IH Hst]; [done|].
  by eapply step_preserves.
Qed.

(** C2: From every state reachable from a state of the invariant, each
    public call returns: no call deadlocks on the service mutex. *)
Theorem reachable_calls_return sw0 s w env c :
  inv sw0.1 -> reachable sw0 (s, w) ->
  exists s' w', run_call env c (s, w) = Returns (tt, (s', w')).
Proof.
  intros H0 Hr.
  assert (Hi : inv (s, w).1).
  { clear env c. induction Hr as [|sw sw' _ IH Hst]; [done|]. by eapply step_preserves. }
  destruct (run_call_preserves env c s w Hi) as ([] & s' & w' & Hr' & _). eauto.
Qed.

(** ** Examples on the installation of [Scenario] *)

Lemma inv_svc0 : inv Scenario.svc0.
Proof.
  split; vm_compute; try reflexivity; intros; first [reflexivity|discriminate].
Defined.

Lemma reachable_inv_witness :
  inv (Scenario.svc0, Scenario.world0 Scenario.fs_install).1 /\
  reachable (Scenario.svc0, Scenario.world0 Scenario.fs_install) Scenario.sys_running /\
  inv Scenario.sys_running.1.
Proof.
  assert (H0 : inv (Scenario.svc0, Scenario.world0 Scenario.fs_install).1) by apply inv_svc0.
  assert (Hr : reachable (Scenario.svc0, Scenario.world0 Scenario.fs_install) Scenario.sys_running).
  { apply run_calls_reachable; [constructor|vm_compute; reflexivity]. }
  split; [exact H0|]. split; [exact Hr|].
  exact (reachable_inv _ _ H0 Hr).
Defined.

Lemma reachable_calls_return_witness :
  exists s' w', run_call Scenario.env_linux CallShutdown Scenario.sys_running = Returns (tt, (s', w')).
Proof.
  destruct Scenario.sys_running as [s w] eqn:E.
  apply (reachable_calls_return (Scenario.svc0, Scenario.world0 Scenario.fs_install)).
  - apply inv_svc0.
  - rewrite <- E. apply run_calls_reachable; [constructor|vm_compute; reflexivity].
Defined.

End ServiceInvariant.
