(* ===== verification/Cli.v ===== *)
(** * The command-line front end: [CliApplication] of [src/cli/main_cli.cpp]

    [CliApplication::run] parses the options, constructs and initialises
    the service, connects three of its signals to printing slots, runs
    the safety check, and dispatches the first positional argument to a
    handler.  A run is a computation in the state monad [M] over the
    service's state and what has been printed ([Out] lines, in order).
    A call of the service goes through [svc], which appends, right after
    the call, what the connected slots printed for the signals the call
    emitted (direct connections print during the call, before the
    handler's next line).  [QCoreApplication::exec()] and
    [QCommandLineParser::showHelp] do not return to the handler: the
    first is the [Deadlock] outcome (the run never returns), the second
    ends the process with [Help].

    Not modelled: the option parsing of [QCommandLineParser] itself (the
    parsed [Options] are the input) and the text of
    [QString::number(size, 'f', 2)] in [formatBytes] (the line carries
    the value and the unit). *)

From S2P Require Import Prelude QJson Platform OutputRelay ConfigManager CoreManager TunManager Safety NekoService.
From Stdlib Require Import Ascii QArith.

Local Open Scope Z_scope.

Module Cli.
Import NekoService.

(** What a run prints: stdout lines, stderr lines ([qCritical] and
    [ERROR:] lines), the help text, the configuration as JSON, and the
    byte counters of [status]. *)
Inductive Out : Type :=
| Stdout (s : string)
| Stderr (s : string)
| Help (code : Z)
| ConfigDump (o : QJsonObject)
| Bytes (label : string) (size : Q) (unit : string).

(** The options [QCommandLineParser] recognised. *)
Record Options : Type := mkOptions {
  o_config : string;
  o_daemon : bool;
  o_verbose : bool;
  o_tun : bool;
  o_dryRun : bool;
  o_force : bool;
  o_safe : bool;
  o_port : string;
  o_args : list string
}.

(** The members of [CliApplication]. *)
Record t : Type := mk {
  m_verbose : bool;
  m_dryRun : bool;
  m_force : bool;
  m_enableSafety : bool
}.

Abbreviation CliState := (Sys * list Out)%type.

(** [QString::toUpper] on ASCII letters. *)
Definition qchar_toUpper (c : ascii) : ascii :=
  let n := nat_of_ascii c in
  if ((97 <=? n) && (n <=? 122))%nat then ascii_of_nat (n - 32) else c.

Fixpoint qstring_toUpper (s : string) : string :=
  match s with
  | EmptyString => EmptyString
  | String c s' => String (qchar_toUpper c) (qstring_toUpper s')
  end.

(** A [QString] as [qDebug] writes it: in double quotes. *)
Definition quoted (s : string) : string := (dq +:+ s +:+ dq)%string.

(** ** The slots connected in [run] *)

Definition onLogMessage (cli : t) (level message : string) : list Out :=
  if m_verbose cli || String.eqb level "error" || String.eqb level "warn" then
    [Stdout ("[" +:+ qstring_toUpper level +:+ "] " +:+ message)%string]
  else [].

Definition onError (error : string) : list Out := [Stderr ("ERROR: " +:+ error)%string].

Definition onStatusChanged (cli : t) (st : ServiceStatus.t) : list Out :=
  if m_verbose cli then [Stdout ("Status: " +:+ getStatusString st)%string] else [].

(** What the connected slots print for one signal. *)
Definition echo (cli : t) (e : Event) : list Out :=
  match e with
  | logMessage level message => onLogMessage cli level message
  | errorOccurred error => onError error
  | statusChanged st => onStatusChanged cli st
  | _ => []
  end.

(** ** The run as a computation *)

(** A call of the service, the signals it emitted echoed by the slots
    [slots] connected to them. *)
Definition svc_with {A} (slots : Event -> list Out) (m : M Sys A) : M CliState A :=
  fun '(sw, out) =>
    match m sw with
    | Returns (a, sw') =>
        Returns (a, (sw', out ++ flat_map slots (drop (length (w_events sw.2)) (w_events sw'.2))))
    | Deadlock => Deadlock
    end.

(** A call of the service, its signals echoed by [CliApplication]'s slots. *)
Definition svc {A} (cli : t) (m : M Sys A) : M CliState A := svc_with (echo cli) m.

(** A call made before the slots are connected: nothing is printed. *)
Definition svc_unconnected {A} (m : M Sys A) : M CliState A :=
  fun '(sw, out) =>
    match m sw with
    | Returns (a, sw') => Returns (a, (sw', out))
    | Deadlock => Deadlock
    end.

Definition print (o : Out) : M CliState unit := fun '(sw, out) => Returns (tt, (sw, out ++ [o])).

Definition peek {A} (f : Sys -> A) : M CliState A := fun '(sw, out) => Returns (f sw, (sw, out)).

(** [QCoreApplication::exec()]: the event loop runs until the process is
    killed; the handler never returns. *)
Definition exec_forever {A} : M CliState A := fun _ => Deadlock.

(** [CliApplication::formatBytes]: the [while] loop divides by 1024 at
    most four times; the result is the value and the unit printed. *)
Definition units : list string := ["B"; "KB"; "MB"; "GB"; "TB"].

Fixpoint formatBytes_loop (fuel : nat) (size : Q) (unitIndex : nat) : Q * nat :=
  match fuel with
  | O => (size, unitIndex)
  | S fuel' =>
      if Qle_bool 1024 size && (unitIndex <? length units - 1)%nat
      then formatBytes_loop fuel' (size / 1024) (S unitIndex)
      else (size, unitIndex)
  end.

Definition formatBytes (bytes : Z) : Q * string :=
  let '(size, i) := formatBytes_loop (length units) (inject_Z bytes) 0 in
  (size, nth i units EmptyString).

(** ** The handlers *)

Section Handlers.
Context (env : Env) (probe : Probe) (cli : t).

Definition fail (msg : string) : M CliState Z := print (Stderr msg) ;;; mret 1.

(** The SOCKS5 and HTTP lines of [start] and [status]. *)
Definition print_endpoints : M CliState unit :=
  s <- peek fst ;;
  print (Stdout ("SOCKS5: " +:+ getSocksAddress s +:+ ":" +:+ z_to_string (getSocksPort s))%string) ;;;
  print (Stdout ("HTTP: " +:+ getHttpAddress s +:+ ":" +:+ z_to_string (getHttpPort s))%string).

(** [handleStart(args)]. *)
Definition handleStart (args : list string) : M CliState Z :=
  match args with
  | _ :: a1 :: _ =>
      let '(profileId, ok) := qstring_toInt a1 in
      if negb ok then fail ("Invalid profile ID: " +:+ quoted a1)%string else
      if m_dryRun cli then
        valid <- peek (fun sw => SafetyUtils.validateOperationDryRun probe (w_fs sw.2) "start_proxy"
                                   [("profile_id", VInt profileId)]) ;;
        if valid then
          print (Stdout ("DRY RUN: Would start proxy with profile " +:+ z_to_string profileId)%string) ;;;
          mret 0
        else fail "DRY RUN: Validation failed"
      else
        okLoad <- svc cli (loadProfile profileId) ;;
        if negb okLoad then fail ("Failed to load profile: " +:+ z_to_string profileId)%string else
        okStart <- svc cli (startProxy env) ;;
        if negb okStart then fail "Failed to start proxy" else
        print (Stdout ("Proxy started successfully with profile " +:+ z_to_string profileId)%string) ;;;
        print_endpoints ;;;
        mret 0
  | _ => fail "Profile ID required for start command"
  end.

(** [handleStop()]. *)
Definition handleStop : M CliState Z :=
  ok <- svc cli (stopProxy env) ;;
  if negb ok then fail "Failed to stop proxy" else
  print (Stdout "Proxy stopped successfully") ;;; mret 0.

(** [handleRestart(args)]. *)
Definition handleRestart (args : list string) : M CliState Z :=
  match args with
  | _ :: a1 :: _ =>
      let '(profileId, ok) := qstring_toInt a1 in
      if negb ok then fail ("Invalid profile ID: " +:+ quoted a1)%string else
      okLoad <- svc cli (loadProfile profileId) ;;
      if negb okLoad then fail ("Failed to load profile: " +:+ z_to_string profileId)%string else
      okRestart <- svc cli (restartProxy env env) ;;
      if negb okRestart then fail "Failed to restart proxy" else
      print (Stdout ("Proxy restarted successfully with profile " +:+ z_to_string profileId)%string) ;;;
      mret 0
  | _ => fail "Profile ID required for restart command"
  end.

(** [handleStatus()]. *)
Definition handleStatus : M CliState Z :=
  s <- peek fst ;;
  print (Stdout ("Service Status: " +:+ getStatusString (m_status s))%string) ;;;
  print (Stdout ("Current Profile: " +:+ z_to_string (m_currentProfileId s))%string) ;;;
  print (Stdout ("TUN Mode: " +:+ (if isTunModeRunning s then "Running" else "Stopped"))%string) ;;;
  (if bool_decide (m_status s = ServiceStatus.Running) then
     print_endpoints ;;;
     let '(up, upUnit) := formatBytes (m_uploadBytes s) in
     let '(down, downUnit) := formatBytes (m_downloadBytes s) in
     print (Bytes "Upload: " up upUnit) ;;; print (Bytes "Download: " down downUnit)
   else mret tt) ;;;
  mret 0.

(** [handleList()]. *)
Definition handleList : M CliState Z :=
  print (Stdout "Profile listing not yet implemented") ;;; mret 0.

(** [handleDaemon(enableTun, webPort)]. *)
Definition handleDaemon (webPort : Z) : M CliState Z :=
  print (Stdout "Starting daemon mode...") ;;;
  print (Stdout ("Web API will be available on port " +:+ z_to_string webPort)%string) ;;;
  exec_forever.

(** [handleTunStart()]. *)
Definition handleTunStart : M CliState Z :=
  safe <- peek (fun sw => SafetyUtils.isTunOperationSafe probe (w_fs sw.2)) ;;
  if m_enableSafety cli && negb (m_force cli) && negb safe then
    print (Stderr "TUN operation not safe in current environment") ;;;
    fail "Use --force to override, or run in safe environment"
  else if m_dryRun cli then
    valid <- peek (fun sw => SafetyUtils.validateOperationDryRun probe (w_fs sw.2) "start_tun" []) ;;
    if valid then print (Stdout "DRY RUN: Would start TUN mode") ;;; mret 0
    else fail "DRY RUN: TUN validation failed"
  else
    ok <- svc cli (startTunMode env) ;;
    if negb ok then fail "Failed to start TUN mode" else
    print (Stdout "TUN mode started successfully") ;;; mret 0.

(** [handleTunStop()]. *)
Definition handleTunStop : M CliState Z :=
  ok <- svc cli (stopTunMode env) ;;
  if negb ok then fail "Failed to stop TUN mode" else
  print (Stdout "TUN mode stopped successfully") ;;; mret 0.

(** [handleImport(args)]. *)
Definition handleImport (args : list string) : M CliState Z :=
  match args with
  | _ :: source :: _ =>
      print (Stdout ("Import functionality not yet implemented for: " +:+ source)%string) ;;; mret 0
  | _ => fail "URL or file path required for import command"
  end.

(** [handleConfig()]. *)
Definition handleConfig : M CliState Z :=
  s <- peek fst ;; print (ConfigDump (getCurrentConfig s)) ;;; mret 0.

End Handlers.

(** [CliApplication::run(arguments)], after [parser.process]. *)
Definition run (env : Env) (probe : Probe) (o : Options) : M CliState Z :=
  ok <- svc_unconnected (initialize env (o_config o)) ;;
  if negb ok then fail "Failed to initialize service" else
  let cli := mk (o_verbose o) (o_dryRun o) (o_force o) (o_safe o) in
  safe <- peek (fun sw => SafetyUtils.isSafeTestEnvironment probe (w_fs sw.2)) ;;
  if m_enableSafety cli && negb (m_force cli) && negb safe then
    print (Stderr "Safety check failed: Not in safe environment") ;;;
    fail "Use --force to override, or run in VM/test environment"
  else
  match o_args o with
  | [] => print (Help 1) ;;; mret 1
  | command :: _ =>
      if String.eqb command "start" then handleStart env probe cli (o_args o)
      else if String.eqb command "stop" then handleStop env cli
      else if String.eqb command "restart" then handleRestart env cli (o_args o)
      else if String.eqb command "status" then handleStatus
      else if String.eqb command "list" then handleList
      else if String.eqb command "daemon" then handleDaemon (qstring_toInt (o_port o)).1
      else if String.eqb command "tun-start" then handleTunStart env probe cli
      else if String.eqb command "tun-stop" then handleTunStop env cli
      else if String.eqb command "import" then handleImport (o_args o)
      else if String.eqb command "config" then handleConfig
      else print (Stderr ("Unknown command: " +:+ quoted command)%string) ;;; print (Help 1) ;;; mret 1
  end.

(** [main]: a [daemon] anywhere in the raw arguments keeps the event
    loop running after a successful [run]. *)
Definition main (env : Env) (probe : Probe) (arguments : list string) (o : Options)
    : M CliState Z :=
  result <- run env probe o ;;
  if (result =? 0) && existsb (fun a => String.eqb a "daemon") arguments then exec_forever
  else mret result.

End Cli.

(** ** Properties of the front end *)

Module CliFacts.
Import NekoService Lifecycle Cli.

Lemma svc_unconnected_run {A} (m : M Sys A) sw out a sw' :
  m sw = Returns (a, sw') -> svc_unconnected m (sw, out) = Returns (a, (sw', out)).
Proof. destruct sw. simpl. by intros ->. Qed.

(** C5: On a fresh configuration directory the command-line tool hangs,
    whatever the command: [run] constructs the service and calls
    [initialize], whose [loadDataStore] locks [m_mutex] a second time
    through [saveConfig]. *)
Theorem run_fresh_hangs env probe o s w out :
  m_locked s = false -> o_config o <> EmptyString ->
  fs_unmakeable (w_fs w) = ∅ ->
  fs_files (w_fs w) !! (o_config o +:+ "/groups/nekobox.json")%string = None ->
  run env probe o ((s, w), out) = Deadlock.
Proof.
  intros Hl Hd Hu Hf. unfold run, mbind at 1, svc_unconnected. cbv beta iota.
  by rewrite initialize_fresh_blocks.
Qed.

Lemma drop_emit e w : drop (length (w_events w)) (w_events (emit e w)) = [e].
Proof. by rewrite emit_events, drop_app_length. Qed.

Lemma svc_run {A} cli (m : M Sys A) sw out a sw' :
  m sw = Returns (a, sw') ->
  svc cli m (sw, out) =
    Returns (a, (sw', out ++ flat_map (echo cli) (drop (length (w_events sw.2)) (w_events sw'.2)))).
Proof. destruct sw. simpl. by intros ->. Qed.

#[local] Arguments loadProfile : simpl never.
#[local] Arguments startProxy : simpl never.
#[local] Arguments stopProxy : simpl never.
#[local] Arguments restartProxy : simpl never.

(** The dry run of [start] and the real [start] disagree on a
    profile id above 100: the dry run reports that it would start the
    proxy and exits with 0, the real command fails in
    [NekoService::loadProfile] and exits with 1. *)
Theorem start_dry_run_disagrees env probe cli s w out a1 id :
  qstring_toInt a1 = (id, true) -> 100 < id -> m_locked s = false -> m_dryRun cli = true ->
  handleStart env probe cli ["start"; a1] ((s, w), out) =
    Returns (0, ((s, w),
      out ++ [Stdout ("DRY RUN: Would start proxy with profile " +:+ z_to_string id)%string])) /\
  handleStart env probe (mk (m_verbose cli) false (m_force cli) (m_enableSafety cli))
    ["start"; a1] ((s, w), out) =
    Returns (1, ((s, emit (errorOccurred ("Invalid profile ID: " +:+ z_to_string id)%string) w),
      out ++ [Stderr ("ERROR: Invalid profile ID: " +:+ z_to_string id)%string;
              Stderr ("Failed to load profile: " +:+ z_to_string id)%string])).
Proof.
  intros Ha Hid Hl Hd. split; unfold handleStart; rewrite Ha; simpl.
  - rewrite Hd. simpl. rewrite SafetyFacts.dryrun_start_proxy.
    rewrite (proj2 (Z.ltb_lt 0 id)) by lia. simpl. done.
  - assert (Hr : ((id <=? 0) || (100 <? id)) = true) by (apply orb_true_iff; right; apply Z.ltb_lt; lia).
    pose proof (loadProfile_run id s w Hl) as HL. rewrite Hr in HL.
    rewrite HL. simpl. rewrite drop_app_length. unfold fail. simpl.
    by rewrite <- app_assoc.
Qed.

(** [stop] always exits with 0: [NekoService::stopProxy] never
    fails, whatever the state, and the service ends [Stopped]. *)
Theorem stop_exits_zero env cli s w out :
  m_locked s = false ->
  exists s' w' printed,
    handleStop env cli ((s, w), out) =
      Returns (0, ((s', w'), out ++ printed ++ [Stdout "Proxy stopped successfully"])) /\
    m_status s' = ServiceStatus.Stopped.
Proof.
  intros Hl. unfold handleStop.
  destruct (decide (m_status s = ServiceStatus.Stopped)) as [Hs|Hs].
  - exists s, w, []. simpl. rewrite (stopProxy_idempotent env s w Hl Hs). simpl.
    rewrite drop_all. simpl. by rewrite app_nil_r.
  - destruct (stopProxy_run env s w Hl Hs) as (s' & w' & Hr & Hst & _).
    eexists s', w', _. simpl. rewrite Hr. simpl. split; [|done].
    by rewrite <- app_assoc.
Qed.

(** With [--safe] and without [--force], an unsafe environment stops
    the run right after [initialize]: two lines on stderr, exit code 1,
    and no command is run, whatever the arguments. *)
Theorem run_refuses_unsafe env probe o s w out s1 w1 :
  initialize env (o_config o) (s, w) = Returns (true, (s1, w1)) ->
  o_safe o = true -> o_force o = false ->
  SafetyUtils.isSafeTestEnvironment probe (w_fs w1) = false ->
  run env probe o ((s, w), out) =
    Returns (1, ((s1, w1), out ++ [Stderr "Safety check failed: Not in safe environment";
                                    Stderr "Use --force to override, or run in VM/test environment"])).
Proof.
  intros Hi Hs Hf Hu. unfold run, mbind at 1, svc_unconnected. cbv beta iota.
  rewrite Hi. simpl. rewrite Hs, Hf, Hu. unfold fail. simpl. by rewrite <- app_assoc.
Qed.

Section FormatBytes.
Local Open Scope Q_scope.

(** The loop of [formatBytes]: with enough fuel for the four divisions it
    exits with its condition false, and it only divides by 1024. *)
Lemma formatBytes_loop_spec fuel size i :
  (i <= 4)%nat -> (4 - i <= fuel)%nat ->
  let '(size', i') := formatBytes_loop fuel size i in
  (i <= i' <= 4)%nat /\ (size' * inject_Z (1024 ^ Z.of_nat (i' - i)) == size)%Q /\
  ((i' < 4)%nat -> (size' < 1024)%Q) /\ ((i < i')%nat -> (1024 <= size' * 1024)%Q).
Proof.
  revert size i. induction fuel as [|fuel IH]; intros size i Hi Hf; simpl.
  - assert (i = 4)%nat by lia. subst. repeat split; try lia.
    + rewrite Nat.sub_diag. simpl. by rewrite Qmult_1_r.
  - destruct (Qle_bool 1024 size && (i <? 4)%nat) eqn:E.
    + apply andb_true_iff in E as [Hq Hlt]. apply Qle_bool_iff in Hq. apply Nat.ltb_lt in Hlt.
      specialize (IH (size / 1024) (S i) ltac:(lia) ltac:(lia)).
      destruct (formatBytes_loop fuel (size / 1024) (S i)) as [size' i'] eqn:E'.
      destruct IH as (Hb & Heq & Hlt' & Hge). repeat split; try lia; auto.
      * replace (i' - i)%nat with (S (i' - S i)) by lia.
        rewrite Nat2Z.inj_succ, Z.pow_succ_r by lia. rewrite inject_Z_mult.
        transitivity (size' * inject_Z (1024 ^ Z.of_nat (i' - S i)) * 1024); [ring|].
        rewrite Heq. field.
      * intros _. destruct (Nat.eq_dec i' (S i)) as [->|Hne].
        -- rewrite Nat.sub_diag in Heq. simpl in Heq. rewrite Qmult_1_r in Heq. rewrite Heq.
           assert (E2 : size / 1024 * 1024 == size) by field. by rewrite E2.
        -- apply Hge. lia.
    + repeat split; try lia.
      * rewrite Nat.sub_diag. simpl. by rewrite Qmult_1_r.
      * intros Hlt. apply andb_false_iff in E as [Hq|Hq].
        -- apply Qnot_le_lt. intros Hc. apply Qle_bool_iff in Hc. congruence.
        -- apply Nat.ltb_ge in Hq. lia.
Qed.

(** [formatBytes] of a counter: the printed value times 1024 to the
    unit's rank is the byte count; the value is below 1024 unless the unit
    is TB; and it is at least 1 once a division happened. *)
Theorem formatBytes_spec bytes :
  exists k, (k <= 4)%nat /\ formatBytes bytes = ((formatBytes bytes).1, nth k units EmptyString) /\
    ((formatBytes bytes).1 * inject_Z (1024 ^ Z.of_nat k) == inject_Z bytes)%Q /\
    ((k < 4)%nat -> ((formatBytes bytes).1 < 1024)%Q) /\
    ((0 < k)%nat -> (1 <= (formatBytes bytes).1)%Q).
Proof.
  unfold formatBytes.
  pose proof (formatBytes_loop_spec (length units) (inject_Z bytes) 0 ltac:(lia) ltac:(simpl; lia)) as H.
  destruct (formatBytes_loop _ _ _) as [size k]. destruct H as (Hb & Heq & Hlt & Hge).
  exists k. rewrite Nat.sub_0_r in Heq. repeat split; auto; try lia.
  intros Hk. specialize (Hge Hk). apply (Qmult_le_r _ _ 1024); [done|]. by rewrite Qmult_1_l.
Qed.

(** the [while] loop of [formatBytes] stops by its own condition
    within the fuel the model gives it (one round per unit): from unit
    [i], [4 - i] rounds suffice and any further fuel changes nothing, so
    the model computes what the unbounded C++ loop computes. *)
Theorem formatBytes_loop_enough_fuel fuel extra size i :
  (i <= 4)%nat -> (4 - i <= fuel)%nat ->
  formatBytes_loop (fuel + extra) size i = formatBytes_loop fuel size i.
Proof.
  revert size i. induction fuel as [|fuel IH]; intros size i Hi Hf.
  - assert (i = 4)%nat as -> by lia. destruct extra; simpl; [done|].
    by rewrite andb_false_r.
  - simpl. destruct (Qle_bool 1024 size && (i <? 4)%nat) eqn:E; [|done].
    apply andb_true_iff in E as [_ Hlt%Nat.ltb_lt]. apply IH; lia.
Qed.

Lemma formatBytes_loop_enough_fuel_witness :
  (0 <= 4)%nat /\ (4 - 0 <= length units)%nat /\
  formatBytes_loop (length units + 3) (inject_Z 3000000) 0 = formatBytes_loop (length units) (inject_Z 3000000) 0.
Proof.
  split; [lia|]. split; [simpl; lia|].
  apply formatBytes_loop_enough_fuel; simpl; lia.
Defined.

End FormatBytes.

(** ** Examples on the installation of [Scenario] *)

Lemma run_fresh_hangs_witness :
  run Scenario.env_linux Scenario.probe_vm
    (mkOptions Scenario.cfg_dir false false false false false false "8080" ["status"])
    ((Scenario.svc0, Scenario.world0 Scenario.fs_install), []) = Deadlock.
Proof.
  apply run_fresh_hangs; vm_compute; [reflexivity|intros H; discriminate H|reflexivity|reflexivity].
Defined.

Lemma start_dry_run_disagrees_witness :
  let cli := mk false true false false in
  handleStart Scenario.env_linux Scenario.probe_vm cli ["start"; "101"]
    ((Scenario.svc0, Scenario.world0 Scenario.fs_install), []) =
    Returns (0, ((Scenario.svc0, Scenario.world0 Scenario.fs_install),
      [] ++ [Stdout ("DRY RUN: Would start proxy with profile " +:+ z_to_string 101)%string])) /\
  handleStart Scenario.env_linux Scenario.probe_vm
    (mk (m_verbose cli) false (m_force cli) (m_enableSafety cli)) ["start"; "101"]
    ((Scenario.svc0, Scenario.world0 Scenario.fs_install), []) =
    Returns (1, ((Scenario.svc0, emit (errorOccurred ("Invalid profile ID: " +:+ z_to_string 101)%string)
                                   (Scenario.world0 Scenario.fs_install)),
      [] ++ [Stderr ("ERROR: Invalid profile ID: " +:+ z_to_string 101)%string;
             Stderr ("Failed to load profile: " +:+ z_to_string 101)%string])).
Proof.
  intros cli. apply start_dry_run_disagrees; [reflexivity|lia|reflexivity|reflexivity].
Defined.

Lemma stop_exits_zero_witness :
  exists s' w' printed,
    handleStop Scenario.env_linux (mk true false false false)
      ((Scenario.sys_running.1, Scenario.sys_running.2), []) =
      Returns (0, ((s', w'), [] ++ printed ++ [Stdout "Proxy stopped successfully"])) /\
    m_status s' = ServiceStatus.Stopped.
Proof. apply stop_exits_zero. vm_compute. reflexivity. Defined.

Lemma run_refuses_unsafe_witness :
  run Scenario.env_linux Scenario.probe_vm
    (mkOptions Scenario.cfg_dir false false false false false true "8080" ["start"; "1"])
    ((Scenario.svc0, Scenario.world0 Scenario.fs_webhost), []) =
    Returns (1, ((Scenario.sys_webhost.1, Scenario.sys_webhost.2),
      [] ++ [Stderr "Safety check failed: Not in safe environment";
             Stderr "Use --force to override, or run in VM/test environment"])).
Proof. apply run_refuses_unsafe; vm_compute; reflexivity. Defined.

End CliFacts.
