(* ===== verification/WebApi.v ===== *)
(** * The HTTP API: [NekoWeb::WebApiServer]

    [src/nekoray/web/WebApiServer.cpp] (declared in
    [src/web/WebApiServer.hpp]): a [QHttpServer] whose routes call the
    service and answer JSON.  The server's state is the record [t] (the
    service it is attached to, the port, the log buffer fed by the
    service's signals, the last traffic answer); a request is handled in
    the state monad [M] over the service's state and the server's.  A
    call of the service goes through [svc], which runs the connected
    slots [onServiceError]/[onServiceLogMessage] on the signals the call
    emitted, in order.

    The router is the ordered list [routes] of [setupRoutes]: a pattern
    is a list of path segments, [<arg>] matching one segment; a request
    no route matches gets [QHttpServer]'s 404.  The page of
    [handleGetWebUI] is the constant [WebUIPage]; its HTML and script
    text is not modelled.  Clock readings ([QDateTime]) are inputs. *)

From S2P Require Import Prelude QJson Platform OutputRelay ConfigManager CoreManager TunManager Safety NekoService.
From Stdlib Require Import Ascii.

Local Open Scope Z_scope.

Module WebApi.
Import NekoService.

Inductive Method : Type := Get | Post | Put | Delete | Options.

#[global] Instance Method_eq_dec : EqDecision Method.
Proof. solve_decision. Defined.

(** A request: method, path, headers as [QHttpServerRequest::headers()]
    gives them, and the body's bytes as the file model has them (a JSON
    document, or bytes that do not parse). *)
Record Request : Type := mkRequest {
  rq_method : Method;
  rq_path : string;
  rq_headers : list (string * string);
  rq_body : FileContent
}.

Inductive Body : Type :=
| JsonBody (o : QJsonObject)
| WebUIPage
| NoBody.

Record Response : Type := mkResponse {
  rs_status : Z;
  rs_mime : string;
  rs_body : Body;
  rs_headers : list (string * string)
}.

(** The members of [WebApiServer]. *)
Record t : Type := mk {
  m_attached : bool;              (** [m_service != nullptr] *)
  m_port : Z;
  m_listening : bool;             (** [m_httpServer->isListening()] *)
  m_connections : nat;            (** how many times the three slots are connected *)
  m_logs : list QJsonObject;
  m_maxLogs : nat;
  m_lastTrafficStats : QJsonObject;
  m_errors : list string          (** the [errorOccurred] signals emitted *)
}.

(** [WebApiServer::WebApiServer]. *)
Definition create : t := mk false 0 false 0 [] 1000 [] [].

Abbreviation WebState := (Sys * t)%type.

(** ** The log buffer *)

(** [m_logs.append(entry); if (m_logs.size() > m_maxLogs) m_logs.removeFirst();] *)
Definition append_log (entry : QJsonObject) (x : t) : t :=
  let logs := m_logs x ++ [entry] in
  mk (m_attached x) (m_port x) (m_listening x) (m_connections x)
     (if (m_maxLogs x <? length logs)%nat then tail logs else logs)
     (m_maxLogs x) (m_lastTrafficStats x) (m_errors x).

(** [WebApiServer::onServiceError]; [now] is the ISO date of the clock. *)
Definition onServiceError (now error : string) (x : t) : t :=
  append_log (obj_build [("timestamp", QString now); ("level", QString "error");
                         ("message", QString error)]) x.

(** [WebApiServer::onServiceLogMessage]. *)
Definition onServiceLogMessage (now level message : string) (x : t) : t :=
  append_log (obj_build [("timestamp", QString now); ("level", QString level);
                         ("message", QString message)]) x.

(** The slots connected in [start], on one signal; [onServiceStatusChanged]
    does nothing. *)
Definition on_event (now : string) (x : t) (e : Event) : t :=
  match e with
  | errorOccurred error => onServiceError now error x
  | logMessage level message => onServiceLogMessage now level message x
  | _ => x
  end.

(** A signal reaches each connection of the slot, in the order they were
    made: [connect] without [Qt::UniqueConnection] connects again on
    every [start]. *)
Definition dispatch (now : string) (x : t) (e : Event) : t :=
  Nat.iter (m_connections x) (fun y => on_event now y e) x.

(** A call of the service, its signals passed to the slots. *)
Definition svc {A} (now : string) (m : M Sys A) : M WebState A :=
  fun '(sw, x) =>
    match m sw with
    | Returns (a, sw') =>
        Returns (a, (sw', fold_left (dispatch now) (drop (length (w_events sw.2)) (w_events sw'.2)) x))
    | Deadlock => Deadlock
    end.

Definition peek {A} (f : WebState -> A) : M WebState A := fun ws => Returns (f ws, ws).
Definition modify_server (f : t -> t) : M WebState unit :=
  fun '(sw, x) => Returns (tt, (sw, f x)).

(** ** Responses *)

Definition cors_headers : list (string * string) :=
  [("Access-Control-Allow-Origin", "*");
   ("Access-Control-Allow-Methods", "GET, POST, PUT, DELETE, OPTIONS");
   ("Access-Control-Allow-Headers", "Content-Type, Authorization")].

(** [WebApiServer::addCorsHeaders]. *)
Definition addCorsHeaders (r : Response) : Response :=
  mkResponse (rs_status r) (rs_mime r) (rs_body r) (rs_headers r ++ cors_headers).

(** [WebApiServer::jsonResponse(data, statusCode)]. *)
Definition jsonResponse (data : QJsonObject) (statusCode : Z) : Response :=
  mkResponse statusCode "application/json" (JsonBody data) [].

(** [WebApiServer::errorResponse(error, statusCode)]. *)
Definition errorResponse (error : string) (statusCode : Z) : Response :=
  jsonResponse (obj_build [("error", QString error)]) statusCode.

(** [WebApiServer::parseRequestBody]: the body's object, or the empty
    object when it does not parse. *)
Definition parseRequestBody (rq : Request) : QJsonObject :=
  match parse_json (rq_body rq) with
  | Some doc => doc_object doc
  | None => []
  end.

(** [WebApiServer::validateJsonRequest]: the [content-type] header is
    exactly [application/json]. *)
Definition validateJsonRequest (rq : Request) : bool :=
  match list_find (fun kv => kv.1 = "content-type"%string) (rq_headers rq) with
  | Some (_, (_, v)) => String.eqb v "application/json"
  | None => false
  end.

(** [QHttpServer]'s answer when no route matches. *)
Definition notFound : Response := mkResponse 404 "application/x-empty" NoBody [].

(** ** Server control *)

(** [WebApiServer::start(port, service)]: [service_present] is
    [service != nullptr], [listen_ok] the answer of [listen]. *)
Definition start (port : Z) (service_present listen_ok : bool) (x : t) : bool * t :=
  if negb service_present then
    (false, mk (m_attached x) (m_port x) (m_listening x) (m_connections x) (m_logs x)
                (m_maxLogs x) (m_lastTrafficStats x) (m_errors x ++ ["Service is null"]))
  else
    let x := mk true port (m_listening x) (S (m_connections x)) (m_logs x)
                (m_maxLogs x) (m_lastTrafficStats x) (m_errors x) in
    if listen_ok then (true, mk true port true (m_connections x) (m_logs x)
                                (m_maxLogs x) (m_lastTrafficStats x) (m_errors x))
    else (false, mk true port (m_listening x) (m_connections x) (m_logs x)
                    (m_maxLogs x) (m_lastTrafficStats x)
                    (m_errors x ++ [("Failed to start web server on port " +:+ z_to_string port)%string])).

(** [WebApiServer::stop()]: the HTTP server is replaced by a fresh one;
    the service's connections to the slots stay. *)
Definition stop (x : t) : t :=
  mk false 0 false (m_connections x) (m_logs x) (m_maxLogs x) (m_lastTrafficStats x) (m_errors x).

(** [WebApiServer::isRunning()]. *)
Definition isRunning (x : t) : bool := m_listening x.

(** [WebApiServer::getPort()]. *)
Definition getPort (x : t) : Z := m_port x.

(** ** Routing *)

Inductive Segment : Type := Lit (s : string) | Arg.

(** A path split at each ['/']: ["/api/status"] is [""; "api"; "status"]. *)
Fixpoint split_path_go (s cur : string) : list string :=
  match s with
  | EmptyString => [cur]
  | String c s' =>
      if Ascii.eqb c "/"%char then cur :: split_path_go s' EmptyString
      else split_path_go s' (cur +:+ String c EmptyString)%string
  end.
Definition split_path (s : string) : list string := split_path_go s EmptyString.

(** A pattern matches a path of as many segments, [<arg>] standing for
    one non-empty segment ([QHttpServerRouter]'s [[^/]+]). *)
Fixpoint seg_match (pat : list Segment) (segs : list string) : bool :=
  match pat, segs with
  | [], [] => true
  | Lit l :: pat', s :: segs' => String.eqb l s && seg_match pat' segs'
  | Arg :: pat', s :: segs' => negb (String.eqb s EmptyString) && seg_match pat' segs'
  | _, _ => false
  end.

Inductive Handler : Type :=
| GetStatus | PostStart | PostStop | PostRestart | GetProfiles | GetConfig
| PostConfig | GetTraffic | PostTunStart | PostTunStop | GetLogs | PostImport
| GetWebUI | OptionsRequest.

Definition api (p : string) : list Segment := [Lit EmptyString; Lit "api"; Lit p].

(** [WebApiServer::setupRoutes()], in the order of registration. *)
Definition routes : list (list Segment * Method * Handler) :=
  [(api "status", Get, GetStatus);
   (api "start", Post, PostStart);
   (api "stop", Post, PostStop);
   (api "restart", Post, PostRestart);
   (api "profiles", Get, GetProfiles);
   (api "config", Get, GetConfig);
   (api "config", Post, PostConfig);
   (api "traffic", Get, GetTraffic);
   ([Lit EmptyString; Lit "api"; Lit "tun"; Lit "start"], Post, PostTunStart);
   ([Lit EmptyString; Lit "api"; Lit "tun"; Lit "stop"], Post, PostTunStop);
   (api "logs", Get, GetLogs);
   (api "import", Post, PostImport);
   ([Lit EmptyString; Lit EmptyString], Get, GetWebUI);
   ([Lit EmptyString; Arg], Get, GetWebUI);
   ([Lit EmptyString; Lit "api"; Arg], Options, OptionsRequest)].

(** The first route whose method and pattern match. *)
Definition route (rq : Request) : option Handler :=
  match list_find (fun r => r.1.2 = rq_method rq /\ seg_match r.1.1 (split_path (rq_path rq)) = true)
                  routes with
  | Some (_, (_, h)) => Some h
  | None => None
  end.

(** ** The handlers

    [env] answers the OS for the calls a handler makes, [env'] for the
    start half of a restart; [now] is [QDateTime::currentDateTime()] as
    ISO text, [secs] is [QDateTime::currentSecsSinceEpoch()]. *)
Section Handlers.
Context (env env' : Env) (now : string) (secs : Z).

Definition ok_response (kvs : list (string * QJsonValue)) : M WebState Response :=
  mret (addCorsHeaders (jsonResponse (obj_build kvs) 200)).
Definition error_response (error : string) (statusCode : Z) : M WebState Response :=
  mret (addCorsHeaders (errorResponse error statusCode)).

(** [handleGetStatus]. *)
Definition handleGetStatus : M WebState Response :=
  s <- peek (fun ws => ws.1.1) ;;
  let response := obj_build
    [("status", QString (qstring_toLower (getStatusString (m_status s))));
     ("current_profile", QDouble (m_currentProfileId s));
     ("tun_running", QBool (isTunModeRunning s))] in
  let response :=
    if bool_decide (m_status s = ServiceStatus.Running) then
      obj_insert "proxy" (QObject (obj_build
        [("socks_address", QString (getSocksAddress s)); ("socks_port", QDouble (getSocksPort s));
         ("http_address", QString (getHttpAddress s)); ("http_port", QDouble (getHttpPort s))]))
        response
    else response in
  mret (addCorsHeaders (jsonResponse response 200)).

(** The part [handlePostStart] and [handlePostRestart] share: the request
    checks and the profile id. *)
Definition with_profile_id (rq : Request) (k : Z -> M WebState Response) : M WebState Response :=
  if negb (validateJsonRequest rq) then error_response "Invalid JSON request" 400
  else
    let body := parseRequestBody rq in
    if negb (obj_contains "profile_id" body) then error_response "Missing profile_id" 400
    else k (qj_toInt (obj_value "profile_id" body)).

(** [handlePostStart]. *)
Definition handlePostStart (rq : Request) : M WebState Response :=
  with_profile_id rq (fun profileId =>
    loaded <- svc now (loadProfile profileId) ;;
    if negb loaded then error_response "Failed to load profile" 400
    else
      started <- svc now (startProxy env) ;;
      if negb started then error_response "Failed to start proxy" 500
      else ok_response [("success", QBool true); ("message", QString "Proxy started successfully");
                        ("profile_id", QDouble profileId)]).

(** [handlePostStop]. *)
Definition handlePostStop : M WebState Response :=
  stopped <- svc now (stopProxy env) ;;
  if negb stopped then error_response "Failed to stop proxy" 500
  else ok_response [("success", QBool true); ("message", QString "Proxy stopped successfully")].

(** [handlePostRestart]. *)
Definition handlePostRestart (rq : Request) : M WebState Response :=
  with_profile_id rq (fun profileId =>
    loaded <- svc now (loadProfile profileId) ;;
    if negb loaded then error_response "Failed to load profile" 400
    else
      restarted <- svc now (restartProxy env env') ;;
      if negb restarted then error_response "Failed to restart proxy" 500
      else ok_response [("success", QBool true); ("message", QString "Proxy restarted successfully");
                        ("profile_id", QDouble profileId)]).

(** [handleGetProfiles]: one sample profile. *)
Definition handleGetProfiles : M WebState Response :=
  ok_response [("profiles", QArray [QObject (obj_build
    [("id", QDouble 1); ("name", QString "Sample Profile"); ("type", QString "vmess")])])].

(** [handleGetConfig]. *)
Definition handleGetConfig : M WebState Response :=
  s <- peek (fun ws => ws.1.1) ;;
  mret (addCorsHeaders (jsonResponse (getCurrentConfig s) 200)).

(** [handlePostConfig]: the body is not used. *)
Definition handlePostConfig (rq : Request) : M WebState Response :=
  if negb (validateJsonRequest rq) then error_response "Invalid JSON request" 400
  else ok_response [("success", QBool true);
                    ("message", QString "Configuration updated successfully")].

(** [handleGetTraffic]: the answer is also kept in [m_lastTrafficStats]. *)
Definition handleGetTraffic : M WebState Response :=
  s <- peek (fun ws => ws.1.1) ;;
  let response := obj_build [("upload_bytes", QDouble (m_uploadBytes s));
                             ("download_bytes", QDouble (m_downloadBytes s));
                             ("timestamp", QDouble secs)] in
  modify_server (fun x => mk (m_attached x) (m_port x) (m_listening x) (m_connections x)
                             (m_logs x) (m_maxLogs x) response (m_errors x)) ;;;
  mret (addCorsHeaders (jsonResponse response 200)).

(** [handlePostTunStart]. *)
Definition handlePostTunStart : M WebState Response :=
  started <- svc now (startTunMode env) ;;
  if negb started then error_response "Failed to start TUN mode" 500
  else ok_response [("success", QBool true); ("message", QString "TUN mode started successfully")].

(** [handlePostTunStop]. *)
Definition handlePostTunStop : M WebState Response :=
  stopped <- svc now (stopTunMode env) ;;
  if negb stopped then error_response "Failed to stop TUN mode" 500
  else ok_response [("success", QBool true); ("message", QString "TUN mode stopped successfully")].

(** [handleGetLogs]: the buffer, oldest first. *)
Definition handleGetLogs : M WebState Response :=
  logs <- peek (fun ws => m_logs ws.2) ;;
  ok_response [("logs", QArray (map QObject logs))].

(** [handlePostImport]: nothing is imported. *)
Definition handlePostImport (rq : Request) : M WebState Response :=
  if negb (validateJsonRequest rq) then error_response "Invalid JSON request" 400
  else ok_response [("success", QBool true);
                    ("message", QString "Import functionality not yet implemented")].

(** [handleGetWebUI]: the embedded page. *)
Definition handleGetWebUI : M WebState Response :=
  mret (mkResponse 200 "text/html" WebUIPage []).

(** [handleOptionsRequest]: an empty answer with the CORS headers. *)
Definition handleOptionsRequest : M WebState Response :=
  mret (addCorsHeaders (mkResponse 200 "application/x-empty" NoBody [])).

Definition run_handler (h : Handler) (rq : Request) : M WebState Response :=
  match h with
  | GetStatus => handleGetStatus
  | PostStart => handlePostStart rq
  | PostStop => handlePostStop
  | PostRestart => handlePostRestart rq
  | GetProfiles => handleGetProfiles
  | GetConfig => handleGetConfig
  | PostConfig => handlePostConfig rq
  | GetTraffic => handleGetTraffic
  | PostTunStart => handlePostTunStart
  | PostTunStop => handlePostTunStop
  | GetLogs => handleGetLogs
  | PostImport => handlePostImport rq
  | GetWebUI => handleGetWebUI
  | OptionsRequest => handleOptionsRequest
  end.

(** A request reaching the listening server: the route's handler, or 404. *)
Definition serve (rq : Request) : M WebState Response :=
  match route rq with
  | Some h => run_handler h rq
  | None => mret notFound
  end.

End Handlers.

End WebApi.

Module WebApiFacts.
Import NekoService WebApi.

(** ** The log buffer *)

Definition bounded (x : t) : Prop := (length (m_logs x) <= m_maxLogs x)%nat.

(** The [k] newest entries of a list. *)
Definition lastn {A} (k : nat) (l : list A) : list A := drop (length l - k) l.

Lemma append_log_fields e x :
  m_maxLogs (append_log e x) = m_maxLogs x /\ m_connections (append_log e x) = m_connections x.
Proof. done. Qed.

Lemma append_log_bounded e x : bounded x -> bounded (append_log e x).
Proof.
  unfold bounded, append_log; simpl. intros H.
  destruct (Nat.ltb_spec (m_maxLogs x) (length (m_logs x ++ [e]))) as [Hlt|Hge].
  - rewrite length_app in Hlt; simpl in Hlt.
    destruct (m_logs x); simpl in *; [lia|rewrite length_app; simpl; lia].
  - exact Hge.
Qed.

Lemma append_log_below e x :
  (length (m_logs x) < m_maxLogs x)%nat -> m_logs (append_log e x) = m_logs x ++ [e].
Proof.
  unfold append_log; simpl. intros H.
  destruct (Nat.ltb_spec (m_maxLogs x) (length (m_logs x ++ [e]))) as [Hlt|]; [|done].
  rewrite length_app in Hlt; simpl in Hlt; lia.
Qed.

Lemma on_event_bounded now x e : bounded x -> bounded (on_event now x e).
Proof. destruct e; intros H; try exact H; apply append_log_bounded, H. Qed.

Lemma on_event_connections now x e : m_connections (on_event now x e) = m_connections x.
Proof. by destruct e. Qed.

Lemma dispatch_bounded now x e : bounded x -> bounded (dispatch now x e).
Proof.
  unfold dispatch. generalize (m_connections x) as n. intros n.
  induction n; intros H; [exact H|]. apply on_event_bounded, IHn, H.
Qed.

Lemma dispatch_all_bounded now es x : bounded x -> bounded (fold_left (dispatch now) es x).
Proof.
  revert x; induction es; simpl; auto using dispatch_bounded.
Qed.

Lemma svc_keeps {A} now (m : M Sys A) : mkeeps (fun ws : WebState => bounded ws.2) (svc now m).
Proof.
  intros [sw x] a [sw' x'] H. unfold svc.
  destruct (m sw) as [[b sw'']|]; [|done]. intros [=]; subst.
  simpl. apply dispatch_all_bounded, H.
Qed.

Lemma peek_keeps {A} (P : WebState -> Prop) (f : WebState -> A) : mkeeps P (peek f).
Proof. intros ws a ws' H [=]; subst; done. Qed.

Create HintDb webapi.
#[local] Hint Resolve mkeeps_bind mkeeps_ret svc_keeps peek_keeps : webapi.

(** [serve] keeps the buffer within its bound, by the handler. *)
Lemma run_handler_keeps env env' now secs h rq :
  mkeeps (fun ws : WebState => bounded ws.2) (run_handler env env' now secs h rq).
Proof.
  destruct h; simpl;
  unfold handleGetStatus, handlePostStart, handlePostStop, handlePostRestart,
    handleGetProfiles, handleGetConfig, handlePostConfig, handleGetTraffic,
    handlePostTunStart, handlePostTunStop, handleGetLogs, handlePostImport,
    handleGetWebUI, handleOptionsRequest, with_profile_id, ok_response, error_response;
  repeat first
    [ progress (eauto 6 with webapi)
    | apply mkeeps_bind; [eauto with webapi|intros ?]
    | match goal with |- context [if ?b then _ else _] => destruct b end ].
  (* [handleGetTraffic] writes [m_lastTrafficStats] only. *)
  all: intros [sw x] [] [sw' x'] H [=]; subst; exact H.
Qed.

(** The CORS headers end every answer a handler builds, but the page's. *)
Definition has_cors (r : Response) : Prop := exists hs, rs_headers r = hs ++ cors_headers.

Lemma cors_added r : has_cors (addCorsHeaders r).
Proof. by eexists. Qed.

Lemma run_handler_cors env env' now secs h rq :
  h <> GetWebUI -> mensures has_cors (run_handler env env' now secs h rq).
Proof.
  intros Hh. destruct h; try done; simpl;
  unfold handleGetStatus, handlePostStart, handlePostStop, handlePostRestart,
    handleGetProfiles, handleGetConfig, handlePostConfig, handleGetTraffic,
    handlePostTunStart, handlePostTunStop, handleGetLogs, handlePostImport,
    handleOptionsRequest, with_profile_id, ok_response, error_response;
  repeat first
    [ apply mensures_ret, cors_added
    | apply mensures_bind; intros ?
    | match goal with |- context [if ?b then _ else _] => destruct b end ].
Qed.

Lemma svc_returns {A} now (m : M Sys A) sw x a sw' :
  m sw = Returns (a, sw') ->
  svc now m (sw, x)
  = Returns (a, (sw', fold_left (dispatch now) (drop (length (w_events sw.2)) (w_events sw'.2)) x)).
Proof. intros H. unfold svc. by rewrite H. Qed.

(** Routing depends on the method and the path only. *)
Lemma route_at rq m p :
  rq_method rq = m -> rq_path rq = p ->
  route rq = route (mkRequest m p [] (TextFile [])).
Proof. intros <- <-. reflexivity. Qed.

(** The entry [onServiceLogMessage] appends. *)
Definition log_entry (now level message : string) : QJsonObject :=
  obj_build [("timestamp", QString now); ("level", QString level); ("message", QString message)].

(** C23: Whatever request the server answers, the log buffer fed by the
    service's signals stays within [m_maxLogs] entries. *)
Theorem serve_log_bounded env env' now secs rq ws r ws' :
  bounded ws.2 -> serve env env' now secs rq ws = Returns (r, ws') -> bounded ws'.2.
Proof.
  unfold serve. destruct (route rq); [apply run_handler_keeps|].
  intros H [=]; subst; exact H.
Qed.

(** Appending to a buffer within its bound keeps the [m_maxLogs]
    newest entries, oldest first: [removeFirst] drops exactly the oldest. *)
Theorem append_log_keeps_newest e x :
  bounded x -> m_logs (append_log e x) = lastn (m_maxLogs x) (m_logs x ++ [e]).
Proof.
  unfold bounded, lastn, append_log; simpl. rewrite length_app; simpl. intros H.
  destruct (Nat.ltb_spec (m_maxLogs x) (length (m_logs x) + 1)) as [Hlt|Hge].
  - replace (length (m_logs x) + 1 - m_maxLogs x)%nat with 1%nat by lia.
    by destruct (m_logs x).
  - by replace (length (m_logs x) + 1 - m_maxLogs x)%nat with 0%nat by lia.
Qed.

(** Every answer of a matched API route carries the CORS headers;
    only the page of [handleGetWebUI] and a 404 go without. *)
Theorem api_answers_cors env env' now secs rq ws r ws' h :
  route rq = Some h -> h <> GetWebUI ->
  serve env env' now secs rq ws = Returns (r, ws') -> has_cors r.
Proof. intros Hr Hh. unfold serve. rewrite Hr. apply (run_handler_cors _ _ _ _ _ _ Hh). Qed.

(** A POST to [/api/start], [/api/restart], [/api/config] or
    [/api/import] whose [content-type] header is not exactly
    [application/json] is answered 400 ["Invalid JSON request"] and
    touches neither the service nor the server. *)
Theorem json_post_needs_content_type env env' now secs rq ws :
  rq_method rq = Post ->
  rq_path rq ∈ ["/api/start"; "/api/restart"; "/api/config"; "/api/import"]%string ->
  validateJsonRequest rq = false ->
  serve env env' now secs rq ws
  = Returns (addCorsHeaders (errorResponse "Invalid JSON request" 400), ws).
Proof.
  intros Hm Hp Hv. unfold serve.
  repeat rewrite elem_of_cons in Hp. rewrite elem_of_nil in Hp.
  destruct Hp as [Hp|[Hp|[Hp|[Hp|[]]]]]; rewrite (route_at rq _ _ Hm Hp); simpl;
    unfold handlePostStart, handlePostRestart, handlePostConfig, handlePostImport,
      with_profile_id; rewrite Hv; reflexivity.
Qed.

(** C22: Starting, stopping and starting the server again leaves the
    service's [logMessage] connected twice: each message is logged twice. *)
Theorem restarted_server_logs_twice now level message x p1 p2 :
  m_connections x = 0%nat -> (length (m_logs x) + 2 <= m_maxLogs x)%nat ->
  m_logs (dispatch now (start p2 true true (stop (start p1 true true x).2)).2
                   (logMessage level message))
  = m_logs x ++ [log_entry now level message; log_entry now level message].
Proof.
  intros H0 Hb. unfold dispatch. cbn [start stop negb fst snd m_connections]. rewrite H0.
  cbn -[append_log obj_build]. unfold onServiceLogMessage.
  rewrite append_log_below; rewrite ?append_log_below; cbn [m_logs m_maxLogs];
    rewrite ?length_app; simpl; try lia.
  by rewrite <- app_assoc.
Qed.

(** The signals of a service call between two states, passed to the slots. *)
Definition relay (now : string) (sw sw' : Sys) (x : t) : t :=
  fold_left (dispatch now) (drop (length (w_events sw.2)) (w_events sw'.2)) x.

(** C11: [POST /api/start] with a JSON body [{"profile_id": id}] is
    [loadProfile id] followed by [startProxy] on the service: when both
    succeed, the answer is 200 with [success], the message and the id, the
    service is in the state [startProxy] left, and the server has logged
    the signals of both calls in order. *)
Theorem post_start_runs_service env env' now secs rq sw x id sw1 sw2 :
  rq_method rq = Post -> rq_path rq = "/api/start"%string -> validateJsonRequest rq = true ->
  obj_find "profile_id" (parseRequestBody rq) = Some (QDouble id) ->
  INT_MIN <= id <= INT_MAX ->
  loadProfile id sw = Returns (true, sw1) -> startProxy env sw1 = Returns (true, sw2) ->
  serve env env' now secs rq (sw, x)
  = Returns (addCorsHeaders (jsonResponse (obj_build
               [("success", QBool true); ("message", QString "Proxy started successfully");
                ("profile_id", QDouble id)]) 200),
             (sw2, relay now sw1 sw2 (relay now sw sw1 x))).
Proof.
  intros Hm Hp Hv Hf Hid Hl Hs. unfold serve.
  rewrite (route_at rq _ _ Hm Hp). simpl.
  unfold handlePostStart, with_profile_id, obj_contains, obj_value.
  rewrite Hv, Hf. cbn [negb qj_toInt].
  replace ((INT_MIN <=? id) && (id <=? INT_MAX)) with true
    by (symmetry; apply andb_true_iff; split; apply Z.leb_le; lia).
  unfold mbind at 1. rewrite (svc_returns _ _ _ _ _ _ Hl). cbn [negb].
  unfold mbind. rewrite (svc_returns _ _ _ _ _ _ Hs). reflexivity.
Qed.

(** ** Examples on the installation of [Scenario] *)

(** The server started on port 8080, attached to the service. *)
Definition srv_started : t := (start 8080 true true create).2.

Definition rq_stop : Request := mkRequest Post "/api/stop" [] (TextFile []).
Definition rq_start : Request :=
  mkRequest Post "/api/start" [("content-type", "application/json")]
    (JsonFile (QObject [("profile_id", QDouble 1)])).

Lemma serve_log_bounded_witness :
  match serve Scenario.env_linux Scenario.env_linux "2026-01-01T00:00:00" 0 rq_stop
          (Scenario.sys_running, srv_started) with
  | Returns (_, ws') => bounded ws'.2
  | Deadlock => False
  end.
Proof.
  destruct (serve Scenario.env_linux Scenario.env_linux "2026-01-01T00:00:00" 0 rq_stop
              (Scenario.sys_running, srv_started)) as [[r ws']|] eqn:E; [|vm_compute in E; discriminate].
  refine (serve_log_bounded _ _ _ _ _ _ r ws' _ E). unfold bounded; vm_compute; lia.
Defined.

Lemma append_log_keeps_newest_witness :
  let x := mk true 8080 true 1 [[("n", QDouble 1)]; [("n", QDouble 2)]] 2 [] [] in
  bounded x /\ m_logs (append_log [("n", QDouble 3)] x) = [[("n", QDouble 2)]; [("n", QDouble 3)]].
Proof.
  intros x. split; [unfold bounded; simpl; lia|].
  rewrite (append_log_keeps_newest _ x); [reflexivity | unfold bounded; simpl; lia].
Defined.

Lemma api_answers_cors_witness :
  route rq_stop = Some PostStop /\
  match serve Scenario.env_linux Scenario.env_linux "2026-01-01T00:00:00" 0 rq_stop
          (Scenario.sys_running, srv_started) with
  | Returns (r, _) => has_cors r
  | Deadlock => False
  end.
Proof.
  split; [reflexivity|].
  destruct (serve Scenario.env_linux Scenario.env_linux "2026-01-01T00:00:00" 0 rq_stop
              (Scenario.sys_running, srv_started)) as [[r ws']|] eqn:E; [|vm_compute in E; discriminate].
  refine (api_answers_cors _ _ _ _ _ _ _ _ PostStop _ _ E); [reflexivity | discriminate].
Defined.

(** A client sending [application/json; charset=utf-8] is refused. *)
Lemma json_post_needs_content_type_witness :
  let rq := mkRequest Post "/api/start" [("content-type", "application/json; charset=utf-8")]
              (JsonFile (QObject [("profile_id", QDouble 1)])) in
  serve Scenario.env_linux Scenario.env_linux "2026-01-01T00:00:00" 0 rq
    (Scenario.sys_running, srv_started)
  = Returns (addCorsHeaders (errorResponse "Invalid JSON request" 400),
             (Scenario.sys_running, srv_started)).
Proof.
  intros rq. apply json_post_needs_content_type;
    [reflexivity | decide_closed | reflexivity].
Defined.

Lemma restarted_server_logs_twice_witness :
  m_logs (dispatch "2026-01-01T00:00:00" (start 8080 true true (stop (start 8080 true true create).2)).2
            (logMessage "info" "Proxy started"))
  = [log_entry "2026-01-01T00:00:00" "info" "Proxy started";
     log_entry "2026-01-01T00:00:00" "info" "Proxy started"].
Proof.
  apply (restarted_server_logs_twice _ _ _ create 8080 8080); simpl; lia.
Defined.

Lemma post_start_runs_service_witness :
  let sw0 := (Scenario.svc0, Scenario.world0 Scenario.fs_install) in
  let sw1 := match loadProfile 1 sw0 with Returns (_, s) => s | Deadlock => sw0 end in
  let sw2 := match startProxy Scenario.env_linux sw1 with Returns (_, s) => s | Deadlock => sw1 end in
  serve Scenario.env_linux Scenario.env_linux "2026-01-01T00:00:00" 0 rq_start (sw0, srv_started)
  = Returns (addCorsHeaders (jsonResponse (obj_build
               [("success", QBool true); ("message", QString "Proxy started successfully");
                ("profile_id", QDouble 1)]) 200),
             (sw2, relay "2026-01-01T00:00:00" sw1 sw2 (relay "2026-01-01T00:00:00" sw0 sw1 srv_started))).
Proof.
  intros sw0 sw1 sw2.
  apply (post_start_runs_service _ _ _ _ _ _ _ 1 sw1 sw2);
    [reflexivity | reflexivity | vm_compute; reflexivity | vm_compute; reflexivity
    | unfold INT_MIN, INT_MAX; lia | vm_compute; reflexivity | vm_compute; reflexivity].
Defined.

End WebApiFacts.
