(* ===== verification/SimpleWeb.v ===== *)
(** * The raw-socket HTTP server: [NekoWeb::SimpleWebServer]

    [src/nekoray/web/SimpleWebServer.cpp] (declared in
    [SimpleWebServer.hpp]): a [QTcpServer] that reads a request from a
    client socket, parses the request line and a JSON body itself, routes
    on the path and writes the answer to the socket.  Unlike [WebApi], it
    connects none of the service's signals.

    The server's state is the record [t] (listening flag, host, port, the
    client sockets by id, the signals it emitted).  Answering a request is
    [handleHttpRequest], a call over the service's state whose result is
    what was written to the socket, in order, as a list of [Write]s
    ([write] of bytes, [flush], [disconnectFromHost]).  Text is handled as
    Latin-1 strings, so [QString::fromUtf8] and [toUtf8] are the identity
    and [body.size()] is the string's length.

    Qt's JSON text codec is not modelled: [QJsonDocument::fromJson] and
    [toJson] are the Section's [fromJson] and [toJson].  The page
    [getWebInterface] returns is the Section's [page]. *)

From S2P Require Import Prelude QJson Platform OutputRelay ConfigManager CoreManager TunManager Safety NekoService WebApi.
From Stdlib Require Import Ascii.

Local Open Scope Z_scope.

Module SimpleWeb.
Import NekoService.

(** ** Qt string operations the parser uses *)

Definition cr : ascii := ascii_of_nat 13.
Definition lf : ascii := ascii_of_nat 10.
Definition crlf : string := String cr (String lf EmptyString).

(** [QString::split("\r\n")]: keeps empty parts, never empty. *)
Fixpoint split_crlf_go (s cur : string) : list string :=
  match s with
  | EmptyString => [cur]
  | String c s' =>
      if Ascii.eqb c cr then
        match s' with
        | String c' s'' =>
            if Ascii.eqb c' lf then cur :: split_crlf_go s'' EmptyString
            else split_crlf_go s' (cur +:+ String c EmptyString)%string
        | EmptyString => [cur +:+ String c EmptyString]%string
        end
      else split_crlf_go s' (cur +:+ String c EmptyString)%string
  end.
Definition split_crlf (s : string) : list string := split_crlf_go s EmptyString.

(** [QString::split(" ")]: keeps empty parts. *)
Fixpoint split_space_go (s cur : string) : list string :=
  match s with
  | EmptyString => [cur]
  | String c s' =>
      if Ascii.eqb c " "%char then cur :: split_space_go s' EmptyString
      else split_space_go s' (cur +:+ String c EmptyString)%string
  end.
Definition split_space (s : string) : list string := split_space_go s EmptyString.

(** [QString::indexOf(pat)]: the first position of [pat], or [-1]. *)
Fixpoint index_of_go (pat s : string) (i : Z) : Z :=
  if String.prefix pat s then i
  else match s with
       | EmptyString => -1
       | String _ s' => index_of_go pat s' (i + 1)
       end.
Definition index_of (pat s : string) : Z := index_of_go pat s 0.

(** [QString::mid(n)]: the text from position [n] on. *)
Definition mid (s : string) (n : Z) : string :=
  String.substring (Z.to_nat n) (String.length s - Z.to_nat n) s.

(** [QJsonValue::toInt(d)]: an [int] number, else [d]. *)
Definition qj_toInt_or (d : Z) (v : QJsonValue) : Z :=
  match v with
  | QDouble n => if (INT_MIN <=? n) && (n <=? INT_MAX) then n else d
  | _ => d
  end.

(** ** Sockets and signals *)

Inductive Write : Type :=
| Data (bytes : string)         (** [socket->write(bytes)] *)
| Flush                         (** [socket->flush()] *)
| Disconnect.                   (** [socket->disconnectFromHost()] *)

Inductive Signal : Type :=
| clientConnected (address : string)
| requestReceived (method path : string)
| errorOccurred (error : string).

(** The members of [SimpleWebServer]. *)
Record t : Type := mk {
  m_listening : bool;              (** [m_server->isListening()] *)
  m_host : string;
  m_port : Z;
  m_clients : list Z;              (** the client sockets, by id *)
  m_signals : list Signal
}.

(** [SimpleWebServer::SimpleWebServer]. *)
Definition create : t := mk false EmptyString 0 [] [].

(** [SimpleWebServer::stop()]: the listener closed, every client
    disconnected and forgotten. *)
Definition stop (x : t) : t := mk false (m_host x) (m_port x) [] (m_signals x).

(** [SimpleWebServer::start(host, port)]: [listen] answers the bound port
    or the error text of [errorString()]. *)
Definition start (host : string) (listen : string + Z) (x : t) : bool * t :=
  let x := if m_listening x then stop x else x in
  match listen with
  | inl err => (false, mk (m_listening x) (m_host x) (m_port x) (m_clients x)
                         (m_signals x ++ [errorOccurred ("Failed to start server: " +:+ err)%string]))
  | inr bound => (true, mk true host bound (m_clients x) (m_signals x))
  end.

(** [SimpleWebServer::isRunning()]. *)
Definition isRunning (x : t) : bool := m_listening x.

(** [SimpleWebServer::onNewConnection()]: each pending socket (id and
    peer address) is recorded and announced. *)
Definition onNewConnection (pending : list (Z * string)) (x : t) : t :=
  fold_left (fun y '(sock, address) =>
               mk (m_listening y) (m_host y) (m_port y) (m_clients y ++ [sock])
                  (m_signals y ++ [clientConnected address]))
            pending x.

(** [SimpleWebServer::onClientDisconnected()]: [removeAll] of the sender. *)
Definition onClientDisconnected (sender : option Z) (x : t) : t :=
  match sender with
  | Some sock => mk (m_listening x) (m_host x) (m_port x)
                    (filter (fun c => c <> sock) (m_clients x)) (m_signals x)
  | None => x
  end.

(** ** Writing answers *)

Definition cors_lines : string :=
  ("Access-Control-Allow-Origin: *" +:+ crlf +:+
   "Access-Control-Allow-Methods: GET, POST, PUT, DELETE, OPTIONS" +:+ crlf +:+
   "Access-Control-Allow-Headers: Content-Type, Authorization" +:+ crlf)%string.

(** [SimpleWebServer::sendResponse]: the status line says [OK] whatever
    the code. *)
Definition sendResponse (statusCode : Z) (contentType body : string) : list Write :=
  [Data ("HTTP/1.1 " +:+ z_to_string statusCode +:+ " OK" +:+ crlf +:+
         "Content-Type: " +:+ contentType +:+ crlf +:+
         "Content-Length: " +:+ z_to_string (Z.of_nat (String.length body)) +:+ crlf +:+
         cors_lines +:+ crlf)%string;
   Data body; Flush; Disconnect].

(** [SimpleWebServer::sendCorsHeaders]. *)
Definition sendCorsHeaders : list Write := [Data cors_lines].

Section Answers.
Context (toJson : QJsonObject -> string).

(** [SimpleWebServer::sendJsonResponse]. *)
Definition sendJsonResponse (data : QJsonObject) (statusCode : Z) : list Write :=
  sendResponse statusCode "application/json" (toJson data).

(** [SimpleWebServer::sendErrorResponse]. *)
Definition sendErrorResponse (error : string) (statusCode : Z) : list Write :=
  sendJsonResponse (obj_build [("error", QString error); ("success", QBool false)]) statusCode.

End Answers.

(** ** The API handlers

    Each builds the JSON object it returns; [env] answers the OS for the
    service calls, [now] is [QDateTime::currentDateTime()] as ISO text. *)
Section Handlers.
Context (env : Env) (now : string).

Definition failure (error : string) : QJsonObject :=
  obj_build [("success", QBool false); ("error", QString error)].

(** [SimpleWebServer::handleApiStatus]. *)
Definition handleApiStatus : M Sys QJsonObject :=
  s <- gets id ;;
  mret (obj_build
    [("success", QBool true); ("status", QString (getStatusString (m_status s)));
     ("current_profile", QDouble (m_currentProfileId s));
     ("socks_address", QString (getSocksAddress s)); ("socks_port", QDouble (getSocksPort s));
     ("http_address", QString (getHttpAddress s)); ("http_port", QDouble (getHttpPort s));
     ("tun_running", QBool (isTunModeRunning s));
     ("upload_bytes", QDouble (m_uploadBytes s)); ("download_bytes", QDouble (m_downloadBytes s));
     ("timestamp", QString now)]).

(** [SimpleWebServer::handleApiStart]: [profile_id] defaults to 1 and
    [tun_mode] to false. *)
Definition handleApiStart (params : QJsonObject) : M Sys QJsonObject :=
  let profileId := qj_toInt_or 1 (obj_value "profile_id" params) in
  let tunMode := qj_toBool (obj_value "tun_mode" params) in
  loaded <- loadProfile profileId ;;
  if negb loaded then mret (failure "Failed to load profile") else
  started <- startProxy env ;;
  if negb started then mret (failure "Failed to start proxy") else
  tunStarted <- (if tunMode then startTunMode env else mret true) ;;
  if negb tunStarted then mret (failure "Failed to start TUN mode") else
  s <- gets id ;;
  mret (obj_build [("success", QBool true); ("message", QString "Proxy started successfully");
                   ("profile_id", QDouble profileId);
                   ("tun_mode", QBool (tunMode && isTunModeRunning s))]).

(** [SimpleWebServer::handleApiStop]: [stopTunMode] after [stopProxy],
    whatever [stopProxy] answered. *)
Definition handleApiStop : M Sys QJsonObject :=
  success <- stopProxy env ;;
  stopTunMode env ;;;
  mret (obj_build [("success", QBool success);
                   ("message", QString (if success then "Proxy stopped successfully"
                                        else "Failed to stop proxy"))]).

(** [SimpleWebServer::handleApiRestart]. *)
Definition handleApiRestart (params : QJsonObject) : M Sys QJsonObject :=
  stopped <- stopProxy env ;;
  if negb stopped then mret (failure "Failed to stop proxy")
  else handleApiStart params.

(** [SimpleWebServer::handleApiProfiles]: one sample profile. *)
Definition handleApiProfiles : M Sys QJsonObject :=
  mret (obj_build [("success", QBool true);
                   ("profiles", QArray [QObject (obj_build
                      [("id", QDouble 1); ("name", QString "Sample Profile");
                       ("type", QString "direct"); ("server", QString EmptyString)])])]).

(** [SimpleWebServer::handleApiConfig]. *)
Definition handleApiConfig : M Sys QJsonObject :=
  s <- gets id ;;
  mret (obj_build [("success", QBool true); ("config", QObject (getCurrentConfig s))]).

(** [SimpleWebServer::handleApiTraffic]. *)
Definition handleApiTraffic : M Sys QJsonObject :=
  s <- gets id ;;
  mret (obj_build [("success", QBool true); ("upload", QDouble (m_uploadBytes s));
                   ("download", QDouble (m_downloadBytes s)); ("timestamp", QString now)]).

(** ** Parsing and routing a request *)

Context (fromJson : string -> option QJsonValue) (toJson : QJsonObject -> string) (page : string).

Definition double_crlf : string := (crlf +:+ crlf)%string.

(** The JSON body of a [POST] or [PUT]: what follows the first blank
    line, when it parses; the empty object otherwise. *)
Definition request_params (method requestStr : string) : QJsonObject :=
  if String.eqb method "POST" || String.eqb method "PUT" then
    let bodyStart := index_of double_crlf requestStr in
    if 0 <? bodyStart then
      match fromJson (mid requestStr (bodyStart + 4)) with
      | Some doc => doc_object doc
      | None => []
      end
    else []
  else [].

(** One API route: the handler when the method is the route's, else 405. *)
Definition api_route (method want : string) (h : M Sys QJsonObject) : M Sys (list Write) :=
  if String.eqb method want then r <- h ;; mret (sendJsonResponse toJson r 200)
  else mret (sendErrorResponse toJson "Method not allowed" 405).

(** The routing of [handleHttpRequest], by path. *)
Definition route (method path : string) (params : QJsonObject) : M Sys (list Write) :=
  if String.eqb path "/" || String.prefix "/index" path then
    mret (sendResponse 200 "text/html" page)
  else if String.eqb path "/api/status" then api_route method "GET" handleApiStatus
  else if String.eqb path "/api/start" then api_route method "POST" (handleApiStart params)
  else if String.eqb path "/api/stop" then api_route method "POST" handleApiStop
  else if String.eqb path "/api/restart" then api_route method "POST" (handleApiRestart params)
  else if String.eqb path "/api/profiles" then api_route method "GET" handleApiProfiles
  else if String.eqb path "/api/config" then api_route method "GET" handleApiConfig
  else if String.eqb path "/api/traffic" then api_route method "GET" handleApiTraffic
  else mret (sendErrorResponse toJson "Not found" 404).

(** [SimpleWebServer::handleHttpRequest]: the signals emitted and the
    writes to the socket. *)
Definition handleHttpRequest (requestStr : string) : M Sys (list Signal * list Write) :=
  let lines := split_crlf requestStr in
  match lines with
  | [] => mret ([], sendErrorResponse toJson "Invalid request" 400)
  | line0 :: _ =>
      match split_space line0 with
      | method :: path :: _ :: _ =>
          let sig := [requestReceived method path] in
          if String.eqb method "OPTIONS" then
            mret (sig, sendResponse 200 "text/plain" "OK" ++ sendCorsHeaders)
          else
            ws <- route method path (request_params method requestStr) ;;
            mret (sig, ws)
      | _ => mret ([], sendErrorResponse toJson "Invalid request line" 400)
      end
  end.

(** [SimpleWebServer::onReadyRead()]: the sender's bytes answered, its
    signals added to the server's. *)
Definition onReadyRead (sender : option Z) (request : string) (x : t)
    : M Sys (list Write * t) :=
  match sender with
  | None => mret ([], x)
  | Some _ =>
      r <- handleHttpRequest request ;;
      mret (r.2, mk (m_listening x) (m_host x) (m_port x) (m_clients x) (m_signals x ++ r.1))
  end.

End Handlers.

End SimpleWeb.

Module SimpleWebFacts.
Import NekoService SimpleWeb.

(** The API paths and the method each accepts. *)
Definition api_routes : list (string * string) :=
  [("/api/status", "GET"); ("/api/start", "POST"); ("/api/stop", "POST");
   ("/api/restart", "POST"); ("/api/profiles", "GET"); ("/api/config", "GET");
   ("/api/traffic", "GET")].

Lemma split_crlf_go_nonempty s cur : split_crlf_go s cur <> [].
Proof.
  revert cur; induction s as [|c s IH]; intros cur; simpl; [done|].
  destruct (Ascii.eqb c cr); [|apply IH].
  destruct s as [|c' s']; [done|]. destruct (Ascii.eqb c' lf); [done|apply IH].
Qed.

(** The first line of a request and how [handleHttpRequest] reads it. *)
Lemma handleHttpRequest_line env now fromJson toJson page req sw method path ver rest :
  split_space (hd EmptyString (split_crlf req)) = method :: path :: ver :: rest ->
  handleHttpRequest env now fromJson toJson page req sw
  = (if String.eqb method "OPTIONS" then
       mret ([requestReceived method path], sendResponse 200 "text/plain" "OK" ++ sendCorsHeaders)
     else
       ws <- route env now toJson page method path (request_params fromJson method req) ;;
       mret ([requestReceived method path], ws)) sw.
Proof.
  intros H. unfold handleHttpRequest.
  pose proof (split_crlf_go_nonempty req EmptyString) as Hne.
  unfold split_crlf in *. destruct (split_crlf_go req EmptyString) as [|l0 ls]; [done|].
  simpl in H. rewrite H. reflexivity.
Qed.

(** A CORS preflight ([OPTIONS]) is answered with a complete response
    ([Content-Length: 2], body [OK]), a flush and [disconnectFromHost], and
    then the CORS header lines are written once more: bytes past the
    announced length, after the disconnect. *)
Theorem options_writes_after_disconnect env now fromJson toJson page req sw path ver rest :
  split_space (hd EmptyString (split_crlf req)) = "OPTIONS" :: path :: ver :: rest ->
  exists head,
    handleHttpRequest env now fromJson toJson page req sw
    = Returns ([requestReceived "OPTIONS" path],
               [Data head; Data "OK"; Flush; Disconnect; Data cors_lines], sw).
Proof.
  intros H. eexists. rewrite (handleHttpRequest_line _ _ _ _ _ _ _ _ _ _ _ H). reflexivity.
Qed.

(** On an API path, a method other than the route's gets 405 ["Method
    not allowed"] and no service call is made. *)
Theorem wrong_method_405 env now fromJson toJson page req sw method path ver rest want :
  split_space (hd EmptyString (split_crlf req)) = method :: path :: ver :: rest ->
  (path, want) ∈ api_routes -> method <> want -> method <> "OPTIONS"%string ->
  handleHttpRequest env now fromJson toJson page req sw
  = Returns ([requestReceived method path], sendErrorResponse toJson "Method not allowed" 405, sw).
Proof.
  intros H Hr Hw Ho. rewrite (handleHttpRequest_line _ _ _ _ _ _ _ _ _ _ _ H).
  apply String.eqb_neq in Hw, Ho. rewrite Ho.
  unfold api_routes in Hr. repeat rewrite elem_of_cons in Hr. rewrite elem_of_nil in Hr.
  destruct Hr as [[=-> ->]|[[=-> ->]|[[=-> ->]|[[=-> ->]|[[=-> ->]|[[=-> ->]|[[=-> ->]|[]]]]]]]];
    unfold route, api_route; simpl; rewrite Hw; reflexivity.
Qed.

(** The two HTTP servers disagree on a start request without
    [profile_id]: [WebApiServer] answers 400 ["Missing profile_id"] and
    leaves the service alone, [SimpleWebServer] loads profile 1 and starts
    the proxy. *)
Theorem missing_profile_id_diverges env env' now secs rq x params sw sw1 sw2 :
  WebApi.rq_method rq = WebApi.Post -> WebApi.rq_path rq = "/api/start"%string ->
  WebApi.validateJsonRequest rq = true ->
  obj_find "profile_id" (WebApi.parseRequestBody rq) = None ->
  obj_find "profile_id" params = None -> obj_find "tun_mode" params = None ->
  loadProfile 1 sw = Returns (true, sw1) -> startProxy env sw1 = Returns (true, sw2) ->
  WebApi.serve env env' now secs rq (sw, x)
  = Returns (WebApi.addCorsHeaders (WebApi.errorResponse "Missing profile_id" 400), (sw, x)) /\
  handleApiStart env params sw
  = Returns (obj_build [("success", QBool true); ("message", QString "Proxy started successfully");
                        ("profile_id", QDouble 1); ("tun_mode", QBool false)], sw2).
Proof.
  intros Hm Hp Hv Hf Hp' Ht Hl Hs. split.
  - unfold WebApi.serve. rewrite (WebApi.WebApiFacts.route_at rq _ _ Hm Hp). simpl.
    unfold WebApi.handlePostStart, WebApi.with_profile_id, obj_contains.
    rewrite Hv, Hf. reflexivity.
  - unfold handleApiStart, obj_value. rewrite Hp', Ht. cbn [qj_toInt_or qj_toBool].
    unfold mbind at 1. rewrite Hl. cbn [negb].
    unfold mbind at 1. rewrite Hs. by destruct sw2.
Qed.

(** ** Examples *)

Definition get_line (method path : string) : string :=
  (method +:+ " " +:+ path +:+ " HTTP/1.1" +:+ crlf +:+ "Host: localhost" +:+ crlf +:+ crlf)%string.

Lemma options_writes_after_disconnect_witness :
  exists head,
    handleHttpRequest Scenario.env_linux "2026-01-01T00:00:00" (fun _ => None) (fun _ => EmptyString)
      EmptyString (get_line "OPTIONS" "/api/start") (Scenario.svc0, Scenario.world0 Scenario.fs_install)
    = Returns ([requestReceived "OPTIONS" "/api/start"],
               [Data head; Data "OK"; Flush; Disconnect; Data cors_lines],
               (Scenario.svc0, Scenario.world0 Scenario.fs_install)).
Proof.
  apply (options_writes_after_disconnect _ _ _ _ _ _ _ "/api/start" "HTTP/1.1" []).
  vm_compute. reflexivity.
Defined.

Lemma wrong_method_405_witness :
  handleHttpRequest Scenario.env_linux "2026-01-01T00:00:00" (fun _ => None) (fun _ => EmptyString)
    EmptyString (get_line "GET" "/api/stop") Scenario.sys_running
  = Returns ([requestReceived "GET" "/api/stop"],
             sendErrorResponse (fun _ => EmptyString) "Method not allowed" 405, Scenario.sys_running).
Proof.
  apply (wrong_method_405 _ _ _ _ _ _ _ "GET" "/api/stop" "HTTP/1.1" [] "POST");
    [vm_compute; reflexivity | decide_closed | discriminate | discriminate].
Defined.

Lemma missing_profile_id_diverges_witness :
  let sw0 := (Scenario.svc0, Scenario.world0 Scenario.fs_install) in
  let sw1 := match loadProfile 1 sw0 with Returns (_, s) => s | Deadlock => sw0 end in
  let sw2 := match startProxy Scenario.env_linux sw1 with Returns (_, s) => s | Deadlock => sw1 end in
  let rq := WebApi.mkRequest WebApi.Post "/api/start" [("content-type", "application/json")]
              (JsonFile (QObject [])) in
  WebApi.serve Scenario.env_linux Scenario.env_linux "2026-01-01T00:00:00" 0 rq (sw0, WebApi.create)
  = Returns (WebApi.addCorsHeaders (WebApi.errorResponse "Missing profile_id" 400),
             (sw0, WebApi.create)) /\
  handleApiStart Scenario.env_linux [] sw0
  = Returns (obj_build [("success", QBool true); ("message", QString "Proxy started successfully");
                        ("profile_id", QDouble 1); ("tun_mode", QBool false)], sw2).
Proof.
  intros sw0 sw1 sw2 rq.
  apply (missing_profile_id_diverges _ _ _ _ _ _ _ _ sw1 sw2);
    [reflexivity | reflexivity | vm_compute; reflexivity .. ].
Defined.

End SimpleWebFacts.
