(* ===== verification/Daemon.v ===== *)
(** * The daemon: [DaemonApplication] of [src/nekoray/daemon/main_daemon.cpp]

    The daemon initialises the service, connects three printing slots to
    it, starts the [WebApi] server on the service, prints where it
    listens, arms the single-shot timers of [--auto-start] (after 1 s) and
    [--tun] (after 2 s) and enters the event loop; [aboutToQuit] runs
    [cleanup].  Its state [DState] is the service, the web server and the
    lines printed.  A service call made by the daemon or by a request to
    the web server goes through [call], which passes the call's signals
    both to the daemon's slots and to the web server's.

    [run] ends in [Exit code] or in [Loop timers], the event loop with the
    armed timers in the order they fire.  The event loop's inputs are the
    [Input]s: a timer firing, an HTTP request, a quit. *)

From S2P Require Import Prelude QJson Platform OutputRelay ConfigManager CoreManager TunManager Safety NekoService Invariant Cli WebApi.

Local Open Scope Z_scope.

Module Daemon.
Import NekoService.

(** The options [QCommandLineParser] recognised. *)
Record Options : Type := mkOptions {
  o_config : string;
  o_port : string;              (** default ["8080"] *)
  o_verbose : bool;
  o_autoStart : option string;  (** [-a profile_id] *)
  o_tun : bool;
  o_bind : string               (** default ["0.0.0.0"], never used *)
}.

Abbreviation DState := (Sys * WebApi.t * list Cli.Out)%type.

(** ** The slots connected in [run]; [ts] is the clock as
    [yyyy-MM-dd hh:mm:ss]. *)

Definition onLogMessage (verbose : bool) (ts level message : string) : list Cli.Out :=
  if verbose || String.eqb level "error" || String.eqb level "warn" then
    [Cli.Stdout ("[" +:+ ts +:+ "] [" +:+ Cli.qstring_toUpper level +:+ "] " +:+ message)%string]
  else [].

Definition onError (ts error : string) : list Cli.Out :=
  [Cli.Stderr ("[" +:+ ts +:+ "] ERROR: " +:+ error)%string].

(** [onStatusChanged]: the slot reads the service when the signal is
    emitted; [setStatus] has stored [status] by then, and the endpoints
    and the TUN state do not change after [startProxy]'s
    [setStatus(Running)], so [s] is the service after the call. *)
Definition onStatusChanged (verbose : bool) (ts : string) (s : t) (status : ServiceStatus.t)
    : list Cli.Out :=
  (if verbose then
     [Cli.Stdout ("[" +:+ ts +:+ "] Status changed to: " +:+ getStatusString status)%string]
   else []) ++
  (if bool_decide (status = ServiceStatus.Running) then
     [Cli.Stdout "Proxy service is now running:";
      Cli.Stdout ("  SOCKS5: " +:+ getSocksAddress s +:+ ":" +:+ z_to_string (getSocksPort s))%string;
      Cli.Stdout ("  HTTP: " +:+ getHttpAddress s +:+ ":" +:+ z_to_string (getHttpPort s))%string] ++
     (if isTunModeRunning s then [Cli.Stdout "  TUN: Enabled"] else [])
   else []).

Definition echo (verbose : bool) (ts : string) (s : t) (e : Event) : list Cli.Out :=
  match e with
  | logMessage level message => onLogMessage verbose ts level message
  | errorOccurred error => onError ts error
  | statusChanged st => onStatusChanged verbose ts s st
  | _ => []
  end.

(** The signals a call emitted, between the trace before and after. *)
Definition new_events (sw sw' : Sys) : list Event :=
  drop (length (w_events sw.2)) (w_events sw'.2).

(** A call of the service with both sets of slots connected. *)
Definition call {A} (verbose : bool) (ts now : string) (m : M Sys A) : M DState A :=
  fun '(sw, x, out) =>
    match m sw with
    | Returns (a, sw') =>
        Returns (a, (sw', fold_left (WebApi.dispatch now) (new_events sw sw') x,
                     out ++ flat_map (echo verbose ts sw'.1) (new_events sw sw')))
    | Deadlock => Deadlock
    end.

Definition print (o : Cli.Out) : M DState unit :=
  fun '(sw, x, out) => Returns (tt, (sw, x, out ++ [o])).

Definition with_web {A} (f : WebApi.t -> A * WebApi.t) : M DState A :=
  fun '(sw, x, out) => let '(a, x') := f x in Returns (a, (sw, x', out)).

(** A call before the slots are connected: nothing is printed. *)
Definition call_unconnected {A} (m : M Sys A) : M DState A :=
  fun '(sw, x, out) =>
    match m sw with
    | Returns (a, sw') => Returns (a, (sw', x, out))
    | Deadlock => Deadlock
    end.

(** ** [run] *)

Inductive Timer : Type := AutoStartProxy (profileId : Z) | AutoStartTun.

Inductive RunResult : Type :=
| Exit (code : Z)                     (** [run] returned *)
| Loop (timers : list Timer).         (** [exec()] with the armed timers, in firing order *)

(** [DaemonApplication::run()] after [parser.process]; [listen_ok] is the
    answer of the web server's [listen]. *)
Definition run (env : Env) (o : Options) (listen_ok : bool) : M DState RunResult :=
  ok <- call_unconnected (initialize env (o_config o)) ;;
  if negb ok then print (Cli.Stderr "Failed to initialize service") ;;; mret (Exit 1) else
  let webPort := (qstring_toInt (o_port o)).1 in
  started <- with_web (WebApi.start webPort true listen_ok) ;;
  if negb started then print (Cli.Stderr "Failed to start web server") ;;; mret (Exit 1) else
  print (Cli.Stdout "NekoRay Daemon started successfully") ;;;
  print (Cli.Stdout ("Web interface: http://localhost:" +:+ z_to_string webPort)%string) ;;;
  print (Cli.Stdout ("Configuration directory: " +:+
                     (if String.eqb (o_config o) EmptyString then "default" else o_config o))%string) ;;;
  proxyTimer <-
    (match o_autoStart o with
     | None => mret []
     | Some v =>
         let '(profileId, okId) := qstring_toInt v in
         if okId then mret [AutoStartProxy profileId]
         else print (Cli.Stderr ("Invalid profile ID for auto-start: " +:+ Cli.quoted v)%string) ;;;
              mret []
     end) ;;
  mret (Loop (proxyTimer ++ (if o_tun o then [AutoStartTun] else []))).

(** ** The event loop's slots *)

Section Loop.
Context (env : Env) (verbose : bool) (ts now : string).

(** [autoStartProxy(profileId)]. *)
Definition autoStartProxy (profileId : Z) : M DState unit :=
  print (Cli.Stdout ("Auto-starting proxy with profile " +:+ z_to_string profileId +:+ "...")%string) ;;;
  loaded <- call verbose ts now (loadProfile profileId) ;;
  if negb loaded then
    print (Cli.Stderr ("Failed to load profile for auto-start: " +:+ z_to_string profileId)%string)
  else
    started <- call verbose ts now (startProxy env) ;;
    if negb started then print (Cli.Stderr "Failed to auto-start proxy")
    else print (Cli.Stdout "Proxy auto-started successfully").

(** [autoStartTun()]. *)
Definition autoStartTun : M DState unit :=
  print (Cli.Stdout "Auto-starting TUN mode...") ;;;
  started <- call verbose ts now (startTunMode env) ;;
  if negb started then print (Cli.Stderr "Failed to auto-start TUN mode")
  else print (Cli.Stdout "TUN mode auto-started successfully").

Definition fire (tm : Timer) : M DState unit :=
  match tm with
  | AutoStartProxy profileId => autoStartProxy profileId
  | AutoStartTun => autoStartTun
  end.

(** [cleanup()], on [aboutToQuit]. *)
Definition cleanup : M DState unit :=
  print (Cli.Stdout "Shutting down daemon...") ;;;
  call verbose ts now (shutdown env) ;;;
  with_web (fun x => (tt, WebApi.stop x)) ;;;
  print (Cli.Stdout "Daemon shutdown complete").

End Loop.

(** What reaches the running daemon. *)
Inductive Input : Type :=
| TimerFires                            (** the next armed timer fires *)
| Request (rq : WebApi.Request)         (** a client of the web API *)
| Quit.                                 (** SIGINT or SIGTERM: [quit()], then [cleanup] *)

(** An HTTP request: [serve] on the service and the server, the
    daemon's slots printing the signals of its service calls. *)
Definition http (env : Env) (verbose : bool) (ts now : string) (secs : Z) (rq : WebApi.Request)
    : M DState WebApi.Response :=
  fun '(sw, x, out) =>
    match WebApi.serve env env now secs rq (sw, x) with
    | Returns (r, (sw', x')) =>
        Returns (r, (sw', x', out ++ flat_map (echo verbose ts sw'.1) (new_events sw sw')))
    | Deadlock => Deadlock
    end.

(** One input handled by the event loop, given the timers still armed;
    the result is the timers armed afterwards. *)
Definition handle (env : Env) (verbose : bool) (ts now : string) (secs : Z)
    (timers : list Timer) (i : Input) : M DState (list Timer) :=
  match i with
  | TimerFires =>
      match timers with
      | [] => mret []
      | tm :: rest => fire env verbose ts now tm ;;; mret rest
      end
  | Request rq => http env verbose ts now secs rq ;;; mret timers
  | Quit => cleanup env verbose ts now ;;; mret []
  end.

End Daemon.

Module DaemonFacts.
Import NekoService Daemon.

(** On a configuration directory without [groups/nekobox.json] the
    daemon never gets past [initialize]: the web server is never started
    and nothing is printed. *)
Theorem run_fresh_blocks env o listen_ok s w x out :
  m_locked s = false -> o_config o <> EmptyString -> fs_unmakeable (w_fs w) = ∅ ->
  fs_files (w_fs w) !! (o_config o +:+ "/groups/nekobox.json")%string = None ->
  run env o listen_ok (s, w, x, out) = Deadlock.
Proof.
  intros Hl Hd Hu Hf. unfold run, mbind at 1, call_unconnected.
  rewrite (Lifecycle.initialize_fresh_blocks env (o_config o) s w Hl Hd Hu Hf). reflexivity.
Qed.

(** C32: On SIGINT or SIGTERM, from any state of the service invariant,
    [cleanup] returns: the service ends [Stopped] in an invariant state,
    the web server no longer listens, no timer stays armed, and the output
    goes from ["Shutting down daemon..."] to ["Daemon shutdown complete"]. *)
Theorem quit_shuts_down env verbose ts now secs timers s w x out :
  ServiceInvariant.inv s ->
  exists s' w' x' mid,
    handle env verbose ts now secs timers Quit (s, w, x, out)
    = Returns ([], (s', w', x', out ++ Cli.Stdout "Shutting down daemon..." :: mid ++
                                 [Cli.Stdout "Daemon shutdown complete"])) /\
    ServiceInvariant.inv s' /\ m_status s' = ServiceStatus.Stopped /\ WebApi.isRunning x' = false.
Proof.
  intros Hi. pose proof (ServiceInvariant.shutdown_stopped env s w Hi) as (s' & w' & Hr & Hi' & Hst).
  unfold handle, cleanup, mbind, print, call, with_web. cbv beta iota zeta. rewrite Hr.
  cbv beta iota zeta. unfold mret.
  exists s', w', (WebApi.stop (fold_left (WebApi.dispatch now) (new_events (s, w) (s', w')) x)),
    (flat_map (echo verbose ts s') (new_events (s, w) (s', w'))). split.
  - by rewrite <- !app_assoc.
  - done.
Qed.

(** ** Examples *)

Definition opts (config : string) : Options := mkOptions config "8080" false None false "0.0.0.0".

Lemma run_fresh_blocks_witness :
  run Scenario.env_linux (opts Scenario.cfg_dir) true
    (Scenario.svc0, Scenario.world0 Scenario.fs_install, WebApi.create, []) = Deadlock.
Proof.
  apply run_fresh_blocks; [vm_compute; reflexivity | discriminate | vm_compute; reflexivity ..].
Defined.

Lemma quit_shuts_down_witness :
  exists s' w' x' mid,
    handle Scenario.env_linux false "2026-01-01 00:00:00" "2026-01-01T00:00:00" 0 [AutoStartTun] Quit
      (Scenario.sys_running.1, Scenario.sys_running.2, WebApi.WebApiFacts.srv_started, [])
    = Returns ([], (s', w', x', [] ++ Cli.Stdout "Shutting down daemon..." :: mid ++
                                  [Cli.Stdout "Daemon shutdown complete"])) /\
    ServiceInvariant.inv s' /\ m_status s' = ServiceStatus.Stopped /\ WebApi.isRunning x' = false.
Proof.
  apply quit_shuts_down.
  split; vm_compute; try reflexivity; intros; first [reflexivity|discriminate].
Defined.

End DaemonFacts.
