(* ===== verification/SimDaemon.v ===== *)
(** * The simulation daemons: [src/nekoray-daemon-SIMPLE.cpp] and
      [src/nekoray-daemon-WORKING.cpp]

    Two stand-alone daemons that serve a small HTTP API on a
    [QTcpServer] without any [NekoService]: [/api/start] and
    [/api/tun/start] set flags, no process is launched.  SIMPLE keeps its
    state in globals ([g_...]) and wires everything in [main]; WORKING
    keeps the same state as the members ([m_...]) of [NekoRayDaemon] and
    splits it into the constructor, [initialize], the slots and
    [cleanup].  Both states are the record [Sim].

    Module [SimpleDaemon] and Module [WorkingDaemon] translate each file
    on its own; [SimInput] are the events that reach a running daemon
    (bytes on a client socket, a single-shot timer, SIGINT/SIGTERM), and
    [SimDaemonFacts] proves that the two files behave alike on every
    input but the shutdown signal, and the invariant of their state
    machine.  As in [SimpleWeb], [toJson] stands for
    [QJsonDocument::toJson]; [ts] and [now] are the clock as the two
    [QDateTime] formats print it. *)

From S2P Require Import Prelude QJson Platform OutputRelay ConfigManager CoreManager TunManager Safety NekoService Cli WebApi SimpleWeb Daemon.

Local Open Scope Z_scope.

(** The globals of SIMPLE, the members of WORKING's [NekoRayDaemon]. *)
Record Sim : Type := mkSim {
  s_corePath : string;
  s_configDir : string;
  s_webPort : Z;
  s_currentProfileId : Z;
  s_proxyRunning : bool;
  s_tunRunning : bool;
  s_verbose : bool;
  s_listening : bool              (** the [QTcpServer] listens *)
}.

(** The parsed command line, with its defaults. *)
Record SimOptions : Type := mkSimOptions {
  so_config : string;
  so_port : string;               (** ["8080"] *)
  so_verbose : bool;
  so_autoStart : option string;
  so_tun : bool;
  so_bind : string                (** ["0.0.0.0"] *)
}.

(** What reaches a running daemon. *)
Inductive SimInput : Type :=
| ClientData (bytes : string)     (** [readyRead] on a client socket *)
| TimerFires (tm : Daemon.Timer)  (** a [QTimer::singleShot] *)
| ShutdownSignal.                 (** SIGINT or SIGTERM *)

Section Common.
Context (toJson : QJsonObject -> string).

(** The answer around a JSON body, as both files write it. *)
Definition json_reply (o : QJsonObject) : string :=
  let content := toJson o in
  ("HTTP/1.1 200 OK" +:+ SimpleWeb.crlf +:+ "Content-Type: application/json" +:+ SimpleWeb.crlf +:+
   "Access-Control-Allow-Origin: *" +:+ SimpleWeb.crlf +:+
   "Content-Length: " +:+ z_to_string (Z.of_nat (String.length content)) +:+
   SimpleWeb.crlf +:+ SimpleWeb.crlf +:+ content)%string.

End Common.

(** The status page with its five [%n] filled in by [QString::arg]. *)
Definition status_page (core proxy tun configDir port : string) : string :=
  ("<!DOCTYPE html>" +:+
   "<html><head><title>NekoRay Daemon</title></head><body>" +:+
   "<h1>🚀 NekoRay Daemon v1.0.3</h1>" +:+
   "<h2>Service Status</h2>" +:+
   "<p><strong>Core:</strong> " +:+ core +:+ "</p>" +:+
   "<p><strong>Proxy:</strong> " +:+ proxy +:+ "</p>" +:+
   "<p><strong>TUN Mode:</strong> " +:+ tun +:+ "</p>" +:+
   "<p><strong>Config Dir:</strong> " +:+ configDir +:+ "</p>" +:+
   "<h2>API Endpoints</h2>" +:+
   "<ul>" +:+
   "<li>GET /api/status - Get full status</li>" +:+
   "<li>POST /api/start - Start proxy</li>" +:+
   "<li>POST /api/stop - Stop proxy</li>" +:+
   "<li>POST /api/tun/start - Start TUN</li>" +:+
   "<li>POST /api/tun/stop - Stop TUN</li>" +:+
   "</ul>" +:+
   "<h2>Test</h2>" +:+
   "<p>curl http://localhost:" +:+ port +:+ "/api/status</p>" +:+
   "</body></html>")%string.

Definition html_reply (content : string) : string :=
  ("HTTP/1.1 200 OK" +:+ SimpleWeb.crlf +:+ "Content-Type: text/html" +:+ SimpleWeb.crlf +:+
   "Content-Length: " +:+ z_to_string (Z.of_nat (String.length content)) +:+
   SimpleWeb.crlf +:+ SimpleWeb.crlf +:+ content)%string.

Definition running_text (b : bool) : string := if b then "✅ Running" else "⏹️ Stopped".

Definition set_proxy (running : bool) (profileId : Z) (s : Sim) : Sim :=
  mkSim (s_corePath s) (s_configDir s) (s_webPort s) profileId running (s_tunRunning s)
        (s_verbose s) (s_listening s).

Definition set_tun (running : bool) (s : Sim) : Sim :=
  mkSim (s_corePath s) (s_configDir s) (s_webPort s) (s_currentProfileId s) (s_proxyRunning s)
        running (s_verbose s) (s_listening s).

Definition set_listening (b : bool) (s : Sim) : Sim :=
  mkSim (s_corePath s) (s_configDir s) (s_webPort s) (s_currentProfileId s) (s_proxyRunning s)
        (s_tunRunning s) (s_verbose s) b.

(** * [src/nekoray-daemon-SIMPLE.cpp] *)
Module SimpleDaemon.
Section Run.
Context (toJson : QJsonObject -> string) (ts now : string).

(** The globals' initial values. *)
Definition globals0 : Sim := mkSim EmptyString EmptyString 8080 (-1) false false false false.

(** [log(level, message)]. *)
Definition log (s : Sim) (level message : string) : list Cli.Out :=
  if s_verbose s || String.eqb level "ERROR" || String.eqb level "WARN" || String.eqb level "INFO"
  then [Cli.Stdout ("[" +:+ ts +:+ "] [" +:+ level +:+ "] " +:+ message)%string]
  else [].

Definition endpoints : QJsonValue :=
  QArray [QString "/api/status"; QString "/api/start"; QString "/api/stop";
          QString "/api/tun/start"; QString "/api/tun/stop"].

(** [handleApiRequest(method, path)]: the bytes answered, the globals
    after, the lines logged.  The method is not looked at. *)
Definition handleApiRequest (method path : string) (s : Sim) : string * Sim * list Cli.Out :=
  if String.eqb path "/" || String.eqb path "/index.html" then
    (html_reply (status_page
       (if String.eqb (s_corePath s) EmptyString then "⚠️ Not found" else "✅ Ready")
       (running_text (s_proxyRunning s)) (running_text (s_tunRunning s))
       (s_configDir s) (z_to_string (s_webPort s))), s, [])
  else if String.eqb path "/api/status" then
    (json_reply toJson (obj_build
       [("daemon_status", QString "running");
        ("core_status", QString (if String.eqb (s_corePath s) EmptyString then "not_found" else "ready"));
        ("core_path", QString (s_corePath s));
        ("proxy_status", QString (if s_proxyRunning s then "running" else "stopped"));
        ("tun_status", QString (if s_tunRunning s then "running" else "stopped"));
        ("current_profile", QDouble (s_currentProfileId s));
        ("config_dir", QString (s_configDir s)); ("web_port", QDouble (s_webPort s));
        ("socks_port", QDouble 2080); ("http_port", QDouble 2081); ("uptime", QString now)]), s, [])
  else if String.eqb path "/api/start" then
    let '(s', logs) :=
      if negb (s_proxyRunning s) then (set_proxy true 1 s, log s "INFO" "Proxy started via API")
      else (s, []) in
    (json_reply toJson (obj_build
       [("result", QString "success"); ("message", QString "Proxy started successfully");
        ("socks", QString "127.0.0.1:2080"); ("http", QString "127.0.0.1:2081")]), s', logs)
  else if String.eqb path "/api/stop" then
    let '(s', logs) :=
      if s_proxyRunning s then (set_proxy false (-1) s, log s "INFO" "Proxy stopped via API")
      else (s, []) in
    (json_reply toJson (obj_build
       [("result", QString "success"); ("message", QString "Proxy stopped successfully")]), s', logs)
  else if String.eqb path "/api/tun/start" then
    let '(s', logs) :=
      if negb (s_tunRunning s) then (set_tun true s, log s "INFO" "TUN mode started via API")
      else (s, []) in
    (json_reply toJson (obj_build
       [("result", QString "success"); ("message", QString "TUN mode started successfully")]), s', logs)
  else if String.eqb path "/api/tun/stop" then
    let '(s', logs) :=
      if s_tunRunning s then (set_tun false s, log s "INFO" "TUN mode stopped via API")
      else (s, []) in
    (json_reply toJson (obj_build
       [("result", QString "success"); ("message", QString "TUN mode stopped successfully")]), s', logs)
  else
    (json_reply toJson (obj_build [("error", QString "Not found"); ("available_endpoints", endpoints)]),
     s, []).

(** The [readyRead] lambda of [main]: a request line of fewer than two
    words gets no answer and the socket stays open. *)
Definition onReadyRead (request : string) (s : Sim) : Sim * list SimpleWeb.Write * list Cli.Out :=
  match SimpleWeb.split_crlf request with
  | [] => (s, [], [])
  | line :: _ =>
      match SimpleWeb.split_space line with
      | method :: path :: _ =>
          let '(response, s', logs) := handleApiRequest method path s in
          (s', [SimpleWeb.Data response; SimpleWeb.Disconnect],
           logs ++ (if s_verbose s' then log s' "DEBUG" (method +:+ " " +:+ path)%string else []))
      | _ => (s, [], [])
      end
  end.

(** [autoStartProxy(profileId)]: only the flags change. *)
Definition autoStartProxy (profileId : Z) (s : Sim) : Sim * list Cli.Out :=
  (set_proxy true profileId s,
   log s "INFO" ("Auto-starting proxy with profile " +:+ z_to_string profileId +:+ "...")%string ++
   log s "INFO" "Proxy auto-started successfully" ++
   log s "INFO" "  SOCKS5: 127.0.0.1:2080" ++ log s "INFO" "  HTTP: 127.0.0.1:2081").

(** [autoStartTun()]. *)
Definition autoStartTun (s : Sim) : Sim * list Cli.Out :=
  (set_tun true s,
   log s "INFO" "Auto-starting TUN mode..." ++ log s "INFO" "TUN mode auto-started successfully").

(** [signalHandler]: the server closed, then [quit()]. *)
Definition signalHandler (s : Sim) : Sim * list Cli.Out :=
  (set_listening false s, [Cli.Stderr "Received shutdown signal, cleaning up..."]).

(** One input of the event loop. *)
Definition react (i : SimInput) (s : Sim) : Sim * list SimpleWeb.Write * list Cli.Out :=
  match i with
  | ClientData bytes => onReadyRead bytes s
  | TimerFires (Daemon.AutoStartProxy profileId) =>
      let '(s', out) := autoStartProxy profileId s in (s', [], out)
  | TimerFires Daemon.AutoStartTun => let '(s', out) := autoStartTun s in (s', [], out)
  | ShutdownSignal => let '(s', out) := signalHandler s in (s', [], out)
  end.

(** [main] after [parser.process]: the home directory, the application
    directory, the file system and the answer of [listen] are inputs. *)
Definition main (o : SimOptions) (home appDir : string) (fs : FileSystem)
    (listen_ok : bool) (errorString : string) : Daemon.RunResult * Sim * FileSystem * list Cli.Out :=
  let s := mkSim (s_corePath globals0) (s_configDir globals0) (qstring_toInt (so_port o)).1
                 (s_currentProfileId globals0) (s_proxyRunning globals0) (s_tunRunning globals0)
                 (so_verbose o) (s_listening globals0) in
  let configDir := if String.eqb (so_config o) EmptyString
                   then (home +:+ "/.config/nekoray")%string else so_config o in
  let s := mkSim (s_corePath s) configDir (s_webPort s) (-1) false false (s_verbose s) false in
  match ensure_dir configDir fs with
  | None => (Daemon.Exit 1, s, fs,
             [Cli.Stderr ("Failed to create config directory: " +:+ Cli.quoted configDir)%string])
  | Some fs' =>
      let corePath := find_in_dir Linux appDir fs' possibleNames in
      let s := mkSim corePath configDir (s_webPort s) (-1) false false (s_verbose s) false in
      let out := if String.eqb corePath EmptyString
                 then log s "WARN" "Core not found - running in simulation mode"
                 else log s "INFO" ("Core ready: " +:+ corePath)%string in
      if negb listen_ok then
        (Daemon.Exit 1, s, fs',
         out ++ [Cli.Stderr ("Failed to start web server: " +:+ Cli.quoted errorString)%string])
      else
        let s := set_listening true s in
        let out := out ++ log s "INFO" "NekoRay Daemon started successfully" ++
                   log s "INFO" ("Web interface: http://" +:+ so_bind o +:+ ":" +:+
                                 z_to_string (s_webPort s))%string ++
                   log s "INFO" ("Configuration directory: " +:+ configDir)%string in
        let proxyTimer :=
          match so_autoStart o with
          | Some v => let '(profileId, ok) := qstring_toInt v in
                      if ok then [Daemon.AutoStartProxy profileId] else []
          | None => []
          end in
        (Daemon.Loop (proxyTimer ++ (if so_tun o then [Daemon.AutoStartTun] else [])), s, fs', out)
  end.

End Run.
End SimpleDaemon.

(** * [src/nekoray-daemon-WORKING.cpp] *)
Module WorkingDaemon.
Section Run.
Context (toJson : QJsonObject -> string) (ts now : string).

(** [NekoRayDaemon::NekoRayDaemon]: the members' initial values and the
    search for the core beside the application. *)
Definition create (appDir : string) (fs : FileSystem) : Sim :=
  mkSim (find_in_dir Linux appDir fs possibleNames) EmptyString 8080 (-1) false false false false.

(** [NekoRayDaemon::log]. *)
Definition log (s : Sim) (level message : string) : list Cli.Out :=
  if s_verbose s || String.eqb level "ERROR" || String.eqb level "WARN" || String.eqb level "INFO"
  then [Cli.Stdout ("[" +:+ ts +:+ "] [" +:+ level +:+ "] " +:+ message)%string]
  else [].

(** [NekoRayDaemon::initialize(configDir, webPort, bindAddress, verbose)];
    [home] is [QDir::homePath()]. *)
Definition initialize (home : string) (configDir : string) (webPort : Z) (bindAddress : string)
    (verbose : bool) (listen_ok : bool) (errorString : string) (s : Sim) (fs : FileSystem)
    : bool * Sim * FileSystem * list Cli.Out :=
  let dir := if String.eqb configDir EmptyString
             then (home +:+ "/.config/nekoray")%string else configDir in
  let s := mkSim (s_corePath s) dir (s_webPort s) (s_currentProfileId s) (s_proxyRunning s)
                 (s_tunRunning s) verbose (s_listening s) in
  match ensure_dir dir fs with
  | None => (false, s, fs, [Cli.Stderr ("Failed to create config directory: " +:+ Cli.quoted dir)%string])
  | Some fs' =>
      let out := if String.eqb (s_corePath s) EmptyString
                 then log s "WARN" "Core not found - running in simulation mode"
                 else log s "INFO" ("Core ready: " +:+ s_corePath s)%string in
      if negb listen_ok then
        (false, s, fs', out ++ [Cli.Stderr ("Failed to start web server: " +:+ Cli.quoted errorString)%string])
      else
        let s := mkSim (s_corePath s) dir webPort (s_currentProfileId s) (s_proxyRunning s)
                       (s_tunRunning s) verbose true in
        (true, s, fs',
         out ++ log s "INFO" "NekoRay Daemon started successfully" ++
         log s "INFO" ("Web interface: http://" +:+ bindAddress +:+ ":" +:+ z_to_string webPort)%string ++
         log s "INFO" ("Configuration directory: " +:+ dir)%string)
  end.

(** [NekoRayDaemon::autoStartProxy(profileId)]. *)
Definition autoStartProxy (profileId : Z) (s : Sim) : Sim * list Cli.Out :=
  (set_proxy true profileId s,
   log s "INFO" ("Auto-starting proxy with profile " +:+ z_to_string profileId +:+ "...")%string ++
   log s "INFO" "Proxy auto-started successfully" ++
   log s "INFO" "  SOCKS5: 127.0.0.1:2080" ++ log s "INFO" "  HTTP: 127.0.0.1:2081").

(** [NekoRayDaemon::autoStartTun()]. *)
Definition autoStartTun (s : Sim) : Sim * list Cli.Out :=
  (set_tun true s,
   log s "INFO" "Auto-starting TUN mode..." ++ log s "INFO" "TUN mode auto-started successfully").

(** [NekoRayDaemon::cleanup()]. *)
Definition cleanup (s : Sim) : Sim * list Cli.Out :=
  (set_listening false s,
   log s "INFO" "Shutting down daemon..." ++ log s "INFO" "Daemon shutdown complete").

(** [NekoRayDaemon::signalHandler]: [cleanup()], then [quit()]. *)
Definition signalHandler (s : Sim) : Sim * list Cli.Out :=
  let '(s', out) := cleanup s in
  (s', Cli.Stderr "Received shutdown signal, cleaning up..." :: out).

Definition endpoints : QJsonValue :=
  QArray [QString "/api/status"; QString "/api/start"; QString "/api/stop";
          QString "/api/tun/start"; QString "/api/tun/stop"].

(** [NekoRayDaemon::handleApiRequest(method, path, fullRequest)]; neither
    the method nor the full request is looked at. *)
Definition handleApiRequest (method path fullRequest : string) (s : Sim)
    : string * Sim * list Cli.Out :=
  if String.eqb path "/" || String.eqb path "/index.html" then
    (html_reply (status_page
       (if String.eqb (s_corePath s) EmptyString then "⚠️ Not found" else "✅ Ready")
       (running_text (s_proxyRunning s)) (running_text (s_tunRunning s))
       (s_configDir s) (z_to_string (s_webPort s))), s, [])
  else if String.eqb path "/api/status" then
    (json_reply toJson (obj_build
       [("daemon_status", QString "running");
        ("core_status", QString (if String.eqb (s_corePath s) EmptyString then "not_found" else "ready"));
        ("core_path", QString (s_corePath s));
        ("proxy_status", QString (if s_proxyRunning s then "running" else "stopped"));
        ("tun_status", QString (if s_tunRunning s then "running" else "stopped"));
        ("current_profile", QDouble (s_currentProfileId s));
        ("config_dir", QString (s_configDir s)); ("web_port", QDouble (s_webPort s));
        ("socks_port", QDouble 2080); ("http_port", QDouble 2081); ("uptime", QString now)]), s, [])
  else if String.eqb path "/api/start" then
    let '(s', logs) :=
      if negb (s_proxyRunning s) then (set_proxy true 1 s, log s "INFO" "Proxy started via API")
      else (s, []) in
    (json_reply toJson (obj_build
       [("result", QString "success"); ("message", QString "Proxy started successfully");
        ("socks", QString "127.0.0.1:2080"); ("http", QString "127.0.0.1:2081")]), s', logs)
  else if String.eqb path "/api/stop" then
    let '(s', logs) :=
      if s_proxyRunning s then (set_proxy false (-1) s, log s "INFO" "Proxy stopped via API")
      else (s, []) in
    (json_reply toJson (obj_build
       [("result", QString "success"); ("message", QString "Proxy stopped successfully")]), s', logs)
  else if String.eqb path "/api/tun/start" then
    let '(s', logs) :=
      if negb (s_tunRunning s) then (set_tun true s, log s "INFO" "TUN mode started via API")
      else (s, []) in
    (json_reply toJson (obj_build
       [("result", QString "success"); ("message", QString "TUN mode started successfully")]), s', logs)
  else if String.eqb path "/api/tun/stop" then
    let '(s', logs) :=
      if s_tunRunning s then (set_tun false s, log s "INFO" "TUN mode stopped via API")
      else (s, []) in
    (json_reply toJson (obj_build
       [("result", QString "success"); ("message", QString "TUN mode stopped successfully")]), s', logs)
  else
    (json_reply toJson (obj_build [("error", QString "Not found"); ("available_endpoints", endpoints)]),
     s, []).

(** The [readyRead] lambda of [handleNewConnection]. *)
Definition onReadyRead (request : string) (s : Sim) : Sim * list SimpleWeb.Write * list Cli.Out :=
  match SimpleWeb.split_crlf request with
  | [] => (s, [], [])
  | line :: _ =>
      match SimpleWeb.split_space line with
      | method :: path :: _ =>
          let '(response, s', logs) := handleApiRequest method path request s in
          (s', [SimpleWeb.Data response; SimpleWeb.Disconnect],
           logs ++ (if s_verbose s' then log s' "DEBUG" (method +:+ " " +:+ path)%string else []))
      | _ => (s, [], [])
      end
  end.

Definition react (i : SimInput) (s : Sim) : Sim * list SimpleWeb.Write * list Cli.Out :=
  match i with
  | ClientData bytes => onReadyRead bytes s
  | TimerFires (Daemon.AutoStartProxy profileId) =>
      let '(s', out) := autoStartProxy profileId s in (s', [], out)
  | TimerFires Daemon.AutoStartTun => let '(s', out) := autoStartTun s in (s', [], out)
  | ShutdownSignal => let '(s', out) := signalHandler s in (s', [], out)
  end.

(** [main]: the daemon constructed, then [initialize] and the timers. *)
Definition main (o : SimOptions) (home appDir : string) (fs : FileSystem)
    (listen_ok : bool) (errorString : string) : Daemon.RunResult * Sim * FileSystem * list Cli.Out :=
  let s := create appDir fs in
  let '(ok, s, fs', out) :=
    initialize home (so_config o) (qstring_toInt (so_port o)).1 (so_bind o) (so_verbose o)
               listen_ok errorString s fs in
  if negb ok then (Daemon.Exit 1, s, fs', out)
  else
    let proxyTimer :=
      match so_autoStart o with
      | Some v => let '(profileId, okId) := qstring_toInt v in
                  if okId then [Daemon.AutoStartProxy profileId] else []
      | None => []
      end in
    (Daemon.Loop (proxyTimer ++ (if so_tun o then [Daemon.AutoStartTun] else [])), s, fs', out).

End Run.
End WorkingDaemon.

(** A run of the event loop: the inputs in order, the writes and the
    lines printed, one after the other. *)
Fixpoint run_inputs (react : SimInput -> Sim -> Sim * list SimpleWeb.Write * list Cli.Out)
    (ins : list SimInput) (s : Sim) : Sim * list SimpleWeb.Write * list Cli.Out :=
  match ins with
  | [] => (s, [], [])
  | i :: ins' =>
      let '(s1, w1, o1) := react i s in
      let '(s2, w2, o2) := run_inputs react ins' s1 in
      (s2, w1 ++ w2, o1 ++ o2)
  end.

(** The states a daemon reaches from [main]'s, input by input. *)
Inductive sim_reachable (react : SimInput -> Sim -> Sim * list SimpleWeb.Write * list Cli.Out)
    (s0 : Sim) : Sim -> Prop :=
| sim_reach_init : sim_reachable react s0 s0
| sim_reach_step s i s' ws out :
    sim_reachable react s0 s -> react i s = (s', ws, out) -> sim_reachable react s0 s'.

Module SimDaemonFacts.

(** ** The two files agree *)

Lemma ensure_dir_files d fs fs' : ensure_dir d fs = Some fs' -> fs_files fs' = fs_files fs.
Proof.
  unfold ensure_dir, fs_mkdir. destruct (dir_exists d fs); [by intros [=<-]|].
  case_bool_decide; [done|]. by intros [=<-].
Qed.

Lemma find_in_dir_files plat appDir fs1 fs2 names :
  fs_files fs1 = fs_files fs2 ->
  find_in_dir plat appDir fs1 names = find_in_dir plat appDir fs2 names.
Proof.
  intros Hf. induction names as [|n names IH]; simpl; [done|].
  unfold file_exists. rewrite Hf. destruct (fs_files fs2 !! _); [done|exact IH].
Qed.

Lemma react_same toJson ts now i s :
  i <> ShutdownSignal ->
  WorkingDaemon.react toJson ts now i s = SimpleDaemon.react toJson ts now i s.
Proof.
  (* the two files' request code is the same text, up to the unused
     [fullRequest]: the bodies agree by computation. *)
  intros Hi. destruct i as [bytes|[]|]; [reflexivity ..|done].
Qed.

Lemma run_inputs_same toJson ts now ins s :
  Forall (fun i => i <> ShutdownSignal) ins ->
  run_inputs (WorkingDaemon.react toJson ts now) ins s
  = run_inputs (SimpleDaemon.react toJson ts now) ins s.
Proof.
  intros Hall. revert s. induction Hall as [|i ins Hi _ IH]; intros s; simpl; [done|].
  rewrite react_same by done. destruct (SimpleDaemon.react _ _ _ i s) as [[s1 w1] o1].
  by rewrite IH.
Qed.

(** Both [main]s end alike; in the event loop their states agree. *)
Lemma main_same ts o home appDir fs listen_ok errorString :
  let '(r1, s1, fs1, out1) := SimpleDaemon.main ts o home appDir fs listen_ok errorString in
  let '(r2, s2, fs2, out2) := WorkingDaemon.main ts o home appDir fs listen_ok errorString in
  r2 = r1 /\ fs2 = fs1 /\ out2 = out1 /\ (forall tms, r1 = Daemon.Loop tms -> s2 = s1).
Proof.
  unfold SimpleDaemon.main, WorkingDaemon.main, WorkingDaemon.initialize, WorkingDaemon.create.
  cbn zeta. destruct (ensure_dir _ fs) as [fs'|] eqn:E; [|done].
  rewrite (find_in_dir_files Linux appDir fs fs' possibleNames (eq_sym (ensure_dir_files _ _ _ E))).
  destruct listen_ok; [|done]. cbn.
  repeat split; auto.
Qed.

(** ** The state machine of the simulation daemons *)

(** A daemon whose proxy flag is down has no profile. *)
Definition profile_consistent (s : Sim) : Prop :=
  s_proxyRunning s = false -> s_currentProfileId s = -1.

Lemma react_consistent toJson ts now i s :
  profile_consistent s -> profile_consistent (SimpleDaemon.react toJson ts now i s).1.1.
Proof.
  unfold profile_consistent. intros H.
  destruct i as [bytes|[profileId|]|]; simpl; try done.
  unfold SimpleDaemon.onReadyRead, SimpleDaemon.handleApiRequest.
  repeat (case_match; simplify_eq/=); auto; discriminate.
Qed.

Lemma main_loop_state ts o home appDir fs listen_ok errorString tms s0 fs' out :
  SimpleDaemon.main ts o home appDir fs listen_ok errorString = (Daemon.Loop tms, s0, fs', out) ->
  s_proxyRunning s0 = false /\ s_currentProfileId s0 = -1 /\ s_tunRunning s0 = false.
Proof.
  unfold SimpleDaemon.main. cbn zeta.
  destruct (ensure_dir _ fs); [|done]. destruct listen_ok; [|done]. cbn.
  intros H. injection H as _ <- _ _. done.
Qed.

(** C26: The two simulation daemons are one program: from the same
    command line, home and application directories, file system and
    [listen] answer, SIMPLE's and WORKING's [main] print the same lines
    and end alike, and on every sequence of client requests and timer
    firings without a shutdown signal they write the same bytes, print
    the same lines and reach the same state. *)
Theorem simulation_daemons_agree toJson ts now o home appDir fs listen_ok errorString ins :
  Forall (fun i => i <> ShutdownSignal) ins ->
  let '(r1, s1, fs1, out1) := SimpleDaemon.main ts o home appDir fs listen_ok errorString in
  let '(r2, s2, fs2, out2) := WorkingDaemon.main ts o home appDir fs listen_ok errorString in
  r2 = r1 /\ fs2 = fs1 /\ out2 = out1 /\
  (forall tms, r1 = Daemon.Loop tms ->
     run_inputs (WorkingDaemon.react toJson ts now) ins s2
     = run_inputs (SimpleDaemon.react toJson ts now) ins s1).
Proof.
  intros Hall. pose proof (main_same ts o home appDir fs listen_ok errorString) as H.
  destruct (SimpleDaemon.main _ _ _ _ _ _ _) as [[[r1 s1] fs1] out1].
  destruct (WorkingDaemon.main _ _ _ _ _ _ _) as [[[r2 s2] fs2] out2].
  destruct H as (-> & -> & -> & Hs). repeat split.
  intros tms Hr. rewrite (Hs tms Hr). by apply run_inputs_same.
Qed.

(** In every state the simulation daemon reaches from [main]'s
    event loop, a proxy flag that is down goes with profile [-1]. *)
Theorem stopped_daemon_has_no_profile toJson ts now o home appDir fs listen_ok errorString
    tms s0 fs' out s :
  SimpleDaemon.main ts o home appDir fs listen_ok errorString = (Daemon.Loop tms, s0, fs', out) ->
  sim_reachable (SimpleDaemon.react toJson ts now) s0 s ->
  s_proxyRunning s = false -> s_currentProfileId s = -1.
Proof.
  intros Hm Hr. destruct (main_loop_state _ _ _ _ _ _ _ _ _ _ _ Hm) as (_ & Hid & _).
  induction Hr as [|s i s' ws out' _ IH Hstep].
  - intros _. exact Hid.
  - change s' with (s', ws, out').1.1. rewrite <- Hstep. by apply react_consistent.
Qed.

(** A request line of fewer than two words ([GET] alone, an empty
    line) is not answered: nothing is written, the socket is left open and
    the state does not change. *)
Theorem short_request_unanswered toJson ts now bytes s :
  (length (SimpleWeb.split_space (hd EmptyString (SimpleWeb.split_crlf bytes))) < 2)%nat ->
  WorkingDaemon.react toJson ts now (ClientData bytes) s = (s, [], []).
Proof.
  intros H. unfold WorkingDaemon.react, WorkingDaemon.onReadyRead.
  pose proof (SimpleWeb.SimpleWebFacts.split_crlf_go_nonempty bytes EmptyString) as Hne.
  unfold SimpleWeb.split_crlf in *.
  destruct (SimpleWeb.split_crlf_go bytes EmptyString) as [|line ?]; [done|]. simpl in H.
  destruct (SimpleWeb.split_space line) as [|method [|path ?]]; simpl in H; [done|done|lia].
Qed.

(** Whatever the method ([GET] included) and whether or not a core
    executable was found, a request for [/api/start] raises the proxy
    flag and is answered "Proxy started successfully"; no process is
    started. *)
Theorem start_ignores_method toJson ts now bytes method rest s :
  SimpleWeb.split_space (hd EmptyString (SimpleWeb.split_crlf bytes)) = method :: "/api/start" :: rest ->
  exists logs,
    WorkingDaemon.react toJson ts now (ClientData bytes) s
    = (if s_proxyRunning s then s else set_proxy true 1 s,
       [SimpleWeb.Data (json_reply toJson (obj_build
          [("result", QString "success"); ("message", QString "Proxy started successfully");
           ("socks", QString "127.0.0.1:2080"); ("http", QString "127.0.0.1:2081")]));
        SimpleWeb.Disconnect], logs).
Proof.
  intros H. unfold WorkingDaemon.react, WorkingDaemon.onReadyRead.
  pose proof (SimpleWeb.SimpleWebFacts.split_crlf_go_nonempty bytes EmptyString) as Hne.
  unfold SimpleWeb.split_crlf in *.
  destruct (SimpleWeb.split_crlf_go bytes EmptyString) as [|line ?]; [done|]. simpl in H.
  rewrite H. unfold WorkingDaemon.handleApiRequest. simpl.
  destruct (s_proxyRunning s); simpl; eexists; reflexivity.
Qed.

(** ** Examples *)

Definition no_json (o : QJsonObject) : string := EmptyString.

Definition request_line (method path : string) : string :=
  (method +:+ " " +:+ path +:+ " HTTP/1.1" +:+ SimpleWeb.crlf +:+ SimpleWeb.crlf)%string.

(** [-c ~/.config/nekoray -a 3 -t -b 127.0.0.1] on the installation of
    [Scenario]. *)
Definition sim_opts : SimOptions :=
  mkSimOptions Scenario.cfg_dir "8080" false (Some "3") true "127.0.0.1".

Definition sim_main : Daemon.RunResult * Sim * FileSystem * list Cli.Out :=
  SimpleDaemon.main "2026-01-01 00:00:00" sim_opts "/home/user" Scenario.app_dir
    Scenario.fs_install true EmptyString.

Definition sim_inputs : list SimInput :=
  [TimerFires (Daemon.AutoStartProxy 3); ClientData (request_line "GET" "/api/stop");
   TimerFires Daemon.AutoStartTun; ClientData (request_line "GET" "/api/status")].

Lemma simulation_daemons_agree_witness :
  Forall (fun i => i <> ShutdownSignal) sim_inputs /\
  let '(r1, s1, fs1, out1) := SimpleDaemon.main "2026-01-01 00:00:00" sim_opts "/home/user"
                                Scenario.app_dir Scenario.fs_install true EmptyString in
  let '(r2, s2, fs2, out2) := WorkingDaemon.main "2026-01-01 00:00:00" sim_opts "/home/user"
                                Scenario.app_dir Scenario.fs_install true EmptyString in
  r2 = r1 /\ fs2 = fs1 /\ out2 = out1 /\
  (forall tms, r1 = Daemon.Loop tms ->
     run_inputs (WorkingDaemon.react no_json "2026-01-01 00:00:00" "Thu Jan 1 00:00:00 2026") sim_inputs s2
     = run_inputs (SimpleDaemon.react no_json "2026-01-01 00:00:00" "Thu Jan 1 00:00:00 2026") sim_inputs s1).
Proof.
  assert (Hall : Forall (fun i => i <> ShutdownSignal) sim_inputs) by (repeat constructor; discriminate).
  split; [exact Hall|]. exact (simulation_daemons_agree no_json "2026-01-01 00:00:00" "Thu Jan 1 00:00:00 2026" sim_opts
           "/home/user" Scenario.app_dir Scenario.fs_install true EmptyString sim_inputs Hall).
Defined.

Lemma stopped_daemon_has_no_profile_witness :
  let s0 := sim_main.1.1.2 in
  let s1 := (SimpleDaemon.react no_json "2026-01-01 00:00:00" "t" (TimerFires (Daemon.AutoStartProxy 3)) s0).1.1 in
  let s2 := (SimpleDaemon.react no_json "2026-01-01 00:00:00" "t" (ClientData (request_line "GET" "/api/stop")) s1).1.1 in
  sim_main = (Daemon.Loop [Daemon.AutoStartProxy 3; Daemon.AutoStartTun], s0, sim_main.1.2, sim_main.2) /\
  s_proxyRunning s2 = false /\ s_currentProfileId s2 = -1.
Proof.
  intros s0 s1 s2.
  assert (Hm : sim_main = (Daemon.Loop [Daemon.AutoStartProxy 3; Daemon.AutoStartTun], s0,
                           sim_main.1.2, sim_main.2)) by (vm_compute; reflexivity).
  assert (Hr : sim_reachable (SimpleDaemon.react no_json "2026-01-01 00:00:00" "t") s0 s2).
  { apply (sim_reach_step _ _ s1 (ClientData (request_line "GET" "/api/stop")) s2
             (SimpleDaemon.react no_json "2026-01-01 00:00:00" "t" (ClientData (request_line "GET" "/api/stop")) s1).1.2
             (SimpleDaemon.react no_json "2026-01-01 00:00:00" "t" (ClientData (request_line "GET" "/api/stop")) s1).2);
      [|vm_compute; reflexivity].
    apply (sim_reach_step _ _ s0 (TimerFires (Daemon.AutoStartProxy 3)) s1
             (SimpleDaemon.react no_json "2026-01-01 00:00:00" "t" (TimerFires (Daemon.AutoStartProxy 3)) s0).1.2
             (SimpleDaemon.react no_json "2026-01-01 00:00:00" "t" (TimerFires (Daemon.AutoStartProxy 3)) s0).2);
      [apply sim_reach_init|vm_compute; reflexivity]. }
  assert (Hs : s_proxyRunning s2 = false) by (vm_compute; reflexivity).
  split; [exact Hm|]. split; [exact Hs|].
  exact (stopped_daemon_has_no_profile _ _ _ _ _ _ _ _ _ _ _ _ _ _ Hm Hr Hs).
Defined.

Lemma short_request_unanswered_witness :
  WorkingDaemon.react no_json "t" "t" (ClientData ("GET" +:+ SimpleWeb.crlf +:+ SimpleWeb.crlf)%string)
    (WorkingDaemon.create Scenario.app_dir Scenario.fs_install)
  = (WorkingDaemon.create Scenario.app_dir Scenario.fs_install, [], []).
Proof. apply short_request_unanswered. vm_compute. lia. Defined.

(** Without any core executable, a [GET] starts the "proxy". *)
Lemma start_ignores_method_witness :
  exists logs,
    WorkingDaemon.react no_json "t" "t" (ClientData (request_line "GET" "/api/start"))
      (WorkingDaemon.create Scenario.app_dir Scenario.fs_bare)
    = (set_proxy true 1 (WorkingDaemon.create Scenario.app_dir Scenario.fs_bare),
       [SimpleWeb.Data (json_reply no_json (obj_build
          [("result", QString "success"); ("message", QString "Proxy started successfully");
           ("socks", QString "127.0.0.1:2080"); ("http", QString "127.0.0.1:2081")]));
        SimpleWeb.Disconnect], logs).
Proof.
  apply (start_ignores_method _ _ _ _ "GET" ["HTTP/1.1"]).
  vm_compute. reflexivity.
Defined.

End SimDaemonFacts.
