(* ===== verification/Codec.v ===== *)
(** * Qt's string and byte codecs used by the profile beans

    The share-link code of [src/nekoray/fmt] builds and parses links with
    a handful of Qt library routines; this file translates each of them
    from Qt's implementation, so that the beans' theorems rest on what
    the library really does:

    - [QStr]: [QString::indexOf(QChar)], [lastIndexOf(QChar)], [left],
      [mid], [startsWith], and the single-argument [QString::arg] with
      its escape search ([findArgEscapes]: the lowest [%n]/[%nn]/[%Ln]
      escape of the whole string is replaced, every occurrence of it);
    - [QString::number(int)] ([z_to_string] of [Platform]) and its
      inverse [QString::toInt] ([qstring_toInt] of [Safety]);
    - [QByteArray::toBase64] (three bytes to a 24-bit chunk, four
      alphabet indices, [=] padding) and [QByteArray::fromBase64] (a
      bit accumulator [buf] with [nbits] pending bits, skipping every
      character outside the alphabet);
    - [QUrl::toPercentEncoding] (everything but [A-Za-z0-9-._~] becomes
      [%HH]) and [QUrl::fromPercentEncoding] (no hex validation: a [%]
      followed by two characters is always decoded).

    Strings are byte strings: a [QString] holds the UTF-8 bytes
    [toUtf8()] would give, so [toUtf8]/[fromUtf8] are the identity.

    Theorems: the three codecs round-trip ([fromBase64 (toBase64 s) = s],
    [fromPercentEncoding (toPercentEncoding s) = s],
    [qstring_toInt (z_to_string n) = (n, true)] on [int]), and the
    character classes each encoder emits, which the link parsers rely
    on.  They are library lemmas: Qt is not code of the repository. *)

From S2P Require Import Prelude QJson Platform OutputRelay Safety.
From Stdlib Require Import Ascii DecimalString DecimalPos.

Local Open Scope Z_scope.

(** ** Bytes *)

(** The unsigned value of a byte: [uchar(c)]. *)
Definition byte (c : ascii) : Z := Z.of_N (N_of_ascii c).

(** The byte an [int] is stored as: [(char)v], the low 8 bits. *)
Definition byte_of (v : Z) : ascii := ascii_of_N (Z.to_N (Z.land v 255)).

Lemma byte_range (c : ascii) : 0 <= byte c < 256.
Proof.
  unfold byte. pose proof (N_ascii_bounded c). lia.
Qed.

Lemma byte_of_byte (c : ascii) : byte_of (byte c) = c.
Proof.
  unfold byte_of, byte. pose proof (byte_range c) as Hr. unfold byte in Hr.
  rewrite (Z.land_ones _ 8) by lia. rewrite Z.mod_small by (simpl; lia).
  rewrite N2Z.id. apply ascii_N_embedding.
Qed.

(** Every character of [s] satisfies [f]. *)
Fixpoint str_forall (f : ascii -> bool) (s : string) : bool :=
  match s with
  | EmptyString => true
  | String c s' => f c && str_forall f s'
  end.

(** [c] does not occur in [s]. *)
Definition lacks (c : ascii) (s : string) : bool := str_forall (fun x => negb (Ascii.eqb x c)) s.

Lemma str_forall_app f (a b : string) :
  str_forall f (a +:+ b) = str_forall f a && str_forall f b.
Proof. induction a as [|x a IH]; simpl; [done|]. by rewrite IH, andb_assoc. Qed.

Lemma str_forall_impl (f g : ascii -> bool) (s : string) :
  (forall c, f c = true -> g c = true) -> str_forall f s = true -> str_forall g s = true.
Proof.
  intros Hfg. induction s as [|x s IH]; simpl; [done|].
  intros [Hx Hs]%andb_true_iff. rewrite (Hfg x Hx). by apply IH.
Qed.

Lemma lacks_of_forall f c s :
  f c = false -> str_forall f s = true -> lacks c s = true.
Proof.
  intros Hc. apply str_forall_impl. intros x Hx. apply negb_true_iff.
  apply Ascii.eqb_neq. intros ->. congruence.
Qed.

#[export] Hint Rewrite str_forall_app : neko_rw.

(** ** [QString] operations *)

Module QStr.

(** [QString::indexOf(QChar c)]: the first position of [c], or [-1]. *)
Fixpoint indexOf_go (c : ascii) (s : string) (i : Z) : Z :=
  match s with
  | EmptyString => -1
  | String x s' => if Ascii.eqb x c then i else indexOf_go c s' (i + 1)
  end.
Definition indexOf (s : string) (c : ascii) : Z := indexOf_go c s 0.

(** [QString::lastIndexOf(QChar c)]: the last position of [c], or [-1]. *)
Fixpoint lastIndexOf_go (c : ascii) (s : string) (i found : Z) : Z :=
  match s with
  | EmptyString => found
  | String x s' => lastIndexOf_go c s' (i + 1) (if Ascii.eqb x c then i else found)
  end.
Definition lastIndexOf (s : string) (c : ascii) : Z := lastIndexOf_go c s 0 (-1).

(** [QString::left(n)]: the whole string when [n] is negative or not
    below the size ([uint(n) >= uint(size())]). *)
Definition left (s : string) (n : Z) : string :=
  if (n <? 0) || (Z.of_nat (String.length s) <=? n) then s
  else String.substring 0 (Z.to_nat n) s.

(** [QString::mid(n)] for [0 <= n]: the text from position [n] on. *)
Definition mid (s : string) (n : Z) : string :=
  String.substring (Z.to_nat n) (String.length s - Z.to_nat n) s.

(** [QString::startsWith(p)]. *)
Definition startsWith (s p : string) : bool := String.prefix p s.

(** *** [QString::arg(a)] *)

(** The escapes [findArgEscapes] sees: a [%], an optional [L], one digit
    and an optional second digit.  [TChar] is any other character. *)
Inductive ArgTok : Type :=
| TChar (c : ascii)
| TEsc (locale : bool) (n : Z) (text : string).

Definition digit_value (c : ascii) : option Z :=
  let n := byte c in if (48 <=? n) && (n <=? 57) then Some (n - 48) else None.

(** The scan of [findArgEscapes]: after a [%] (and an [L]) that is not
    followed by a digit the scan resumes at the next character. *)
Fixpoint arg_tokens (s : string) : list ArgTok :=
  match s with
  | EmptyString => []
  | String c s1 =>
      if Ascii.eqb c "%" then
        match s1 with
        | EmptyString => [TChar c]
        | String l s2 =>
            if Ascii.eqb l "L" then
              match s2 with
              | EmptyString => [TChar c; TChar l]
              | String d s3 =>
                  match digit_value d, s3 with
                  | Some v, String d2 s4 =>
                      match digit_value d2 with
                      | Some v2 => TEsc true (10 * v + v2) (String c (String l (String d (String d2 EmptyString))))
                                   :: arg_tokens s4
                      | None => TEsc true v (String c (String l (String d EmptyString))) :: arg_tokens s3
                      end
                  | Some v, EmptyString => [TEsc true v (String c (String l (String d EmptyString)))]
                  | None, _ => TChar c :: TChar l :: arg_tokens s2
                  end
              end
            else
              match digit_value l, s2 with
              | Some v, String d2 s3 =>
                  match digit_value d2 with
                  | Some v2 => TEsc false (10 * v + v2) (String c (String l (String d2 EmptyString)))
                               :: arg_tokens s3
                  | None => TEsc false v (String c (String l EmptyString)) :: arg_tokens s2
                  end
              | Some v, EmptyString => [TEsc false v (String c (String l EmptyString))]
              | None, _ => TChar c :: arg_tokens s1
              end
        end
      else TChar c :: arg_tokens s1
  end.

(** [d.min_escape]: the lowest escape number, if any. *)
Fixpoint min_escape (ts : list ArgTok) : option Z :=
  match ts with
  | [] => None
  | TChar _ :: ts' => min_escape ts'
  | TEsc _ n _ :: ts' =>
      match min_escape ts' with Some m => Some (Z.min n m) | None => Some n end
  end.

(** [replaceArgEscapes]: each escape numbered [m] becomes [a]. *)
Fixpoint render (m : Z) (a : string) (ts : list ArgTok) : string :=
  match ts with
  | [] => EmptyString
  | TChar c :: ts' => String c (render m a ts')
  | TEsc _ n txt :: ts' => ((if Z.eqb n m then a else txt) +:+ render m a ts')%string
  end.

(** [QString::arg(const QString &a)] (and [arg(int)] through
    [QString::number]): with no escape Qt warns "Argument missing" and
    returns the string unchanged. *)
Definition arg (s a : string) : string :=
  let ts := arg_tokens s in
  match min_escape ts with
  | None => s
  | Some m => render m a ts
  end.

End QStr.

(** ** Lemmas on the [QString] operations *)

Section QStrFacts.
Import QStr.

Lemma str_length_app (a b : string) :
  String.length (a +:+ b) = (String.length a + String.length b)%nat.
Proof. induction a as [|x a IH]; simpl; [done|]. by rewrite IH. Qed.

Lemma substring_app_l (a b : string) : String.substring 0 (String.length a) (a +:+ b) = a.
Proof. induction a as [|x a IH]; simpl; [by destruct b|]. by rewrite IH. Qed.

Lemma substring_app_r (a b : string) m :
  String.substring (String.length a) m (a +:+ b) = String.substring 0 m b.
Proof. induction a as [|x a IH]; simpl; [done|]. apply IH. Qed.

Lemma substring_all (b : string) : String.substring 0 (String.length b) b = b.
Proof. induction b as [|x b IH]; simpl; [done|]. by rewrite IH. Qed.

Lemma left_app (a b : string) : left (a +:+ b) (Z.of_nat (String.length a)) = a.
Proof.
  unfold left. rewrite str_length_app, Nat2Z.id. destruct b as [|x b].
  - by rewrite str_app_nil_r, Nat.add_0_r, Z.leb_refl, orb_true_r.
  - rewrite (proj2 (Z.ltb_ge _ 0)) by lia. simpl.
    rewrite (proj2 (Z.leb_gt _ _)) by lia. apply substring_app_l.
Qed.

Lemma mid_app (a b : string) : mid (a +:+ b) (Z.of_nat (String.length a)) = b.
Proof.
  unfold mid. rewrite Nat2Z.id, str_length_app, substring_app_r.
  replace (String.length a + String.length b - String.length a)%nat with (String.length b) by lia.
  apply substring_all.
Qed.

Lemma mid_app_sep (a b : string) c :
  mid (a +:+ String c b) (Z.of_nat (String.length a) + 1) = b.
Proof.
  replace (Z.of_nat (String.length a) + 1) with (Z.of_nat (String.length (a +:+ String c EmptyString))).
  - replace (a +:+ String c b) with ((a +:+ String c EmptyString) +:+ b) by apply str_app_assoc.
    apply mid_app.
  - rewrite str_length_app. simpl. lia.
Qed.

Lemma indexOf_go_lacks c s i : lacks c s = true -> indexOf_go c s i = -1.
Proof.
  revert i. induction s as [|x s IH]; intros i; simpl; [done|].
  intros [Hx Hs]%andb_true_iff. apply negb_true_iff in Hx. rewrite Hx. by apply IH.
Qed.

Lemma indexOf_go_app c a b i :
  lacks c a = true -> indexOf_go c (a +:+ String c b) i = i + Z.of_nat (String.length a).
Proof.
  revert i. induction a as [|x a IH]; intros i; simpl.
  - rewrite Ascii.eqb_refl. lia.
  - intros [Hx Ha]%andb_true_iff. apply negb_true_iff in Hx. rewrite Hx, IH by done. lia.
Qed.

Lemma indexOf_app c a b :
  lacks c a = true -> indexOf (a +:+ String c b) c = Z.of_nat (String.length a).
Proof. intros H. unfold indexOf. rewrite indexOf_go_app by done. lia. Qed.

Lemma indexOf_lacks c s : lacks c s = true -> indexOf s c = -1.
Proof. apply indexOf_go_lacks. Qed.

Lemma lastIndexOf_go_app c a b i f :
  lastIndexOf_go c (a +:+ b) i f =
  lastIndexOf_go c b (i + Z.of_nat (String.length a)) (lastIndexOf_go c a i f).
Proof.
  revert i f. induction a as [|x a IH]; intros i f; simpl; [by rewrite Z.add_0_r|].
  rewrite IH. f_equal. lia.
Qed.

Lemma lastIndexOf_go_lacks c s i f : lacks c s = true -> lastIndexOf_go c s i f = f.
Proof.
  revert i f. induction s as [|x s IH]; intros i f; simpl; [done|].
  intros [Hx Hs]%andb_true_iff. apply negb_true_iff in Hx. rewrite Hx. by apply IH.
Qed.

Lemma lastIndexOf_app c a b :
  lacks c b = true -> lastIndexOf (a +:+ String c b) c = Z.of_nat (String.length a).
Proof.
  intros H. unfold lastIndexOf. rewrite lastIndexOf_go_app. simpl.
  rewrite Ascii.eqb_refl. by apply lastIndexOf_go_lacks.
Qed.

Lemma startsWith_app p s : startsWith (p +:+ s) p = true.
Proof. unfold startsWith. induction p as [|x p IH]; simpl; [by destruct s|]. by destruct (ascii_dec x x). Qed.

End QStrFacts.

(** ** [QString::arg] on a text without [%] *)

Section ArgFacts.
Import QStr.

Fixpoint lit_tokens (s : string) : list ArgTok :=
  match s with
  | EmptyString => []
  | String c s' => TChar c :: lit_tokens s'
  end.

Lemma arg_tokens_lit (x y : string) :
  lacks "%" x = true -> arg_tokens (x +:+ y) = lit_tokens x ++ arg_tokens y.
Proof.
  induction x as [|c x IH]; simpl; [done|].
  intros [Hc Hx]%andb_true_iff. apply negb_true_iff in Hc. rewrite Hc, IH by done. done.
Qed.

Lemma min_escape_lit x ts : min_escape (lit_tokens x ++ ts) = min_escape ts.
Proof. induction x; simpl; auto. Qed.

Lemma render_lit m a x ts : render m a (lit_tokens x ++ ts) = (x +:+ render m a ts)%string.
Proof. induction x as [|c x IH]; simpl; [done|]. by rewrite IH. Qed.

(** A text without [%] in front of the template is copied: [arg] only
    looks at the escapes, which all lie after it. *)
Lemma arg_prefix (x y a : string) :
  lacks "%" x = true -> arg (x +:+ y) a = (x +:+ arg y a)%string.
Proof.
  intros Hx. unfold arg. rewrite arg_tokens_lit, min_escape_lit by done.
  destruct (min_escape (arg_tokens y)); [apply render_lit|done].
Qed.

End ArgFacts.

(** ** [QString::number] and [QString::toInt] *)

Section Numbers.

(** Evaluates the character codes of literal characters. *)
Ltac eval_char_codes :=
  repeat match goal with
  | |- context [Z.of_nat (nat_of_ascii ?c)] =>
      let v := eval vm_compute in (Z.of_nat (nat_of_ascii c)) in
      change (Z.of_nat (nat_of_ascii c)) with v
  end.

Lemma digits_value_acc (d : Decimal.uint) (p : positive) :
  digits_value (NilEmpty.string_of_uint d) (Zpos p) = Some (Zpos (Pos.of_uint_acc d p)).
Proof.
  revert p. induction d; intros p; simpl; try done; eval_char_codes;
    match goal with
    | |- digits_value _ ?e = Some (Zpos (Pos.of_uint_acc _ ?q)) =>
        replace e with (Zpos q) by lia; apply IHd
    end.
Qed.

Lemma digits_value_uint (d : Decimal.uint) :
  digits_value (NilEmpty.string_of_uint d) 0 = Some (Z.of_N (Pos.of_uint d)).
Proof.
  induction d; simpl; try done; rewrite <- digits_value_acc; f_equal.
Qed.

Lemma digits_nonspace (d : Decimal.uint) :
  str_forall (fun c => negb (qt_is_space c) && negb (Ascii.eqb c "-") && negb (Ascii.eqb c "+"))
    (NilEmpty.string_of_uint d) = true.
Proof. induction d; simpl; auto. Qed.

Lemma rtrim_nonspace s :
  str_forall (fun c => negb (qt_is_space c)) s = true -> rtrim s = s.
Proof.
  induction s as [|c s IH]; simpl; [done|].
  intros [Hc Hs]%andb_true_iff. rewrite IH by done. apply negb_true_iff in Hc.
  destruct s; [by rewrite Hc|done].
Qed.

Lemma trimmed_nonspace s :
  str_forall (fun c => negb (qt_is_space c)) s = true -> trimmed s = s.
Proof.
  intros H. unfold trimmed.
  assert (ltrim s = s) as ->; [|by apply rtrim_nonspace].
  destruct s as [|c s']; simpl in *; [done|].
  apply andb_true_iff in H as [Hc _]. apply negb_true_iff in Hc. by rewrite Hc.
Qed.

(** The digits [QString::number] prints for a positive number. *)
Lemma string_of_pos (p : positive) :
  NilZero.string_of_uint (Pos.to_uint p) = NilEmpty.string_of_uint (Pos.to_uint p).
Proof. pose proof (DecimalPos.Unsigned.to_uint_nonnil p). by destruct (Pos.to_uint p). Qed.

Lemma toInt_digits (p : positive) s :
  s = NilEmpty.string_of_uint (Pos.to_uint p) ->
  digits_value s 0 = Some (Zpos p) /\ str_forall (fun c => negb (qt_is_space c)) s = true /\
  exists c s', s = String c s' /\ Ascii.eqb c "-" = false /\ Ascii.eqb c "+" = false.
Proof.
  intros ->. pose proof (digits_nonspace (Pos.to_uint p)) as Hd.
  pose proof (DecimalPos.Unsigned.to_uint_nonnil p) as Hn.
  split; [by rewrite digits_value_uint, DecimalPos.Unsigned.of_to|]. split.
  - eapply str_forall_impl; [|exact Hd].
    intros c Hc. by apply andb_true_iff in Hc as [[? ?]%andb_true_iff ?].
  - destruct (Pos.to_uint p); try done; (eexists _, _; split; [reflexivity|done]).
Qed.

Lemma int_range_true n : INT_MIN <= n <= INT_MAX -> (INT_MIN <=? n) && (n <=? INT_MAX) = true.
Proof. intros [H1 H2]. apply andb_true_iff. split; by apply Z.leb_le. Qed.

(** [QString::toInt] reads back what [QString::number] printed, for
    every [int]. *)
Lemma toInt_number (n : Z) : INT_MIN <= n <= INT_MAX -> qstring_toInt (z_to_string n) = (n, true).
Proof.
  intros Hn. unfold qstring_toInt, z_to_string.
  destruct n as [|p|p]; [reflexivity| |]; simpl Z.to_int; simpl NilZero.string_of_int;
    rewrite string_of_pos;
    destruct (toInt_digits p _ eq_refl) as (Hv & Hsp & c & s' & Hs & Hm & Hp).
  - rewrite trimmed_nonspace, Hs, Hm, Hp, <- Hs, Hv by done. cbv iota. by rewrite int_range_true.
  - rewrite trimmed_nonspace by (simpl; by rewrite Hsp). cbv beta iota zeta.
    rewrite Hs, <- Hs, Hv. simpl option_map. rewrite Ascii.eqb_refl. cbv iota. by rewrite int_range_true.
Qed.

End Numbers.

(** A decimal digit [0-9]. *)
Definition is_digit (c : ascii) : bool := (48 <=? byte c) && (byte c <=? 57).

Lemma number_digits (n : Z) : 0 <= n -> str_forall is_digit (z_to_string n) = true.
Proof.
  intros Hn. unfold z_to_string. destruct n as [|p|p]; [reflexivity| |lia].
  simpl. rewrite string_of_pos. induction (Pos.to_uint p); simpl; auto.
Qed.

(** ** [QByteArray::toBase64] *)

Definition alphabet_base64 : string :=
  "ABCDEFGHIJKLMNOPQRSTUVWXYZabcdefghijklmnopqrstuvwxyz0123456789+/".

(** [alphabet[j]]. *)
Definition alphabet_at (j : Z) : ascii :=
  match String.get (Z.to_nat j) alphabet_base64 with Some c => c | None => "="%char end.

(** The four characters of one chunk; [padlen] of them at the end are
    [=] ([options] without [OmitTrailingEquals]). *)
Definition b64_quad (chunk padlen : Z) : string :=
  let j := Z.shiftr (Z.land chunk 0x00fc0000) 18 in
  let k := Z.shiftr (Z.land chunk 0x0003f000) 12 in
  let l := Z.shiftr (Z.land chunk 0x00000fc0) 6 in
  let m := Z.land chunk 0x0000003f in
  String (alphabet_at j) (String (alphabet_at k)
    (String (if 1 <? padlen then "="%char else alphabet_at l)
      (String (if 0 <? padlen then "="%char else alphabet_at m) EmptyString))).

(** The loop of [toBase64]: three bytes at a time, the last chunk
    shorter with [padlen] 2 or 1. *)
Fixpoint toBase64 (s : string) : string :=
  match s with
  | EmptyString => EmptyString
  | String a EmptyString => b64_quad (Z.shiftl (byte a) 16) 2
  | String a (String b EmptyString) =>
      b64_quad (Z.lor (Z.shiftl (byte a) 16) (Z.shiftl (byte b) 8)) 1
  | String a (String b (String c rest)) =>
      (b64_quad (Z.lor (Z.lor (Z.shiftl (byte a) 16) (Z.shiftl (byte b) 8)) (byte c)) 0
       +:+ toBase64 rest)%string
  end.

(** ** [QByteArray::fromBase64] *)

(** The value [d] of a character, [-1] outside the alphabet ([=]
    included). *)
Definition b64_digit (ch : ascii) : Z :=
  let n := byte ch in
  if (65 <=? n) && (n <=? 90) then n - 65
  else if (97 <=? n) && (n <=? 122) then n - 97 + 26
  else if (48 <=? n) && (n <=? 57) then n - 48 + 52
  else if n =? 43 then 62
  else if n =? 47 then 63
  else -1.

(** The body of [if (d != -1)]: six more bits, and a byte out when
    eight are pending. *)
Definition b64_push (buf nbits d : Z) : option Z * Z * Z :=
  let buf := Z.lor (Z.shiftl buf 6) d in
  let nbits := nbits + 6 in
  if 8 <=? nbits then
    let nbits := nbits - 8 in
    (Some (Z.shiftr buf nbits), Z.land buf (Z.shiftl 1 nbits - 1), nbits)
  else (None, buf, nbits).

Fixpoint fromBase64_go (s : string) (buf nbits : Z) : string :=
  match s with
  | EmptyString => EmptyString
  | String ch s' =>
      let d := b64_digit ch in
      if d =? -1 then fromBase64_go s' buf nbits
      else match b64_push buf nbits d with
           | (Some o, buf', nbits') => String (byte_of o) (fromBase64_go s' buf' nbits')
           | (None, buf', nbits') => fromBase64_go s' buf' nbits'
           end
  end.

Definition fromBase64 (s : string) : string := fromBase64_go s 0 0.

(** ** The base64 round trip *)

Section Base64Facts.

Lemma land_mul_pow2_low (x d n : Z) :
  0 <= n -> 0 <= d < 2 ^ n -> Z.land (x * 2 ^ n) d = 0.
Proof.
  intros Hn Hd. apply Z.bits_inj'. intros i Hi. rewrite Z.land_spec, Z.bits_0.
  destruct (Z.lt_ge_cases i n).
  - by rewrite Z.mul_pow2_bits_low by lia.
  - rewrite <- (Z.mod_small d (2 ^ n)), Z.mod_pow2_bits_high by lia. apply andb_false_r.
Qed.

(** [(x << n) | d] is [x * 2^n + d] when [d] fits in [n] bits. *)
Lemma lor_shiftl_add (x d n : Z) :
  0 <= n -> 0 <= d < 2 ^ n -> Z.lor (Z.shiftl x n) d = x * 2 ^ n + d.
Proof.
  intros Hn Hd. rewrite Z.shiftl_mul_pow2 by lia.
  rewrite <- Z.lxor_lor, <- Z.add_nocarry_lxor; auto using land_mul_pow2_low.
Qed.

(** [(x & (ones w << p)) >> p] is the [w]-bit field at [p]. *)
Lemma field_extract (x w p : Z) :
  0 <= w -> 0 <= p -> Z.shiftr (Z.land x (Z.shiftl (Z.ones w) p)) p = (x / 2 ^ p) mod 2 ^ w.
Proof.
  intros Hw Hp. rewrite Z.shiftr_land, Z.shiftr_shiftl_l by lia.
  rewrite Z.sub_diag, Z.shiftl_0_r, Z.land_ones, Z.shiftr_div_pow2 by lia. done.
Qed.

Lemma chunk_value (A B C : Z) :
  0 <= B < 256 -> 0 <= C < 256 ->
  Z.lor (Z.lor (Z.shiftl A 16) (Z.shiftl B 8)) C = A * 65536 + B * 256 + C.
Proof.
  intros HB HC. replace (Z.shiftl A 16) with (Z.shiftl (Z.shiftl A 8) 8)
    by (rewrite Z.shiftl_shiftl; [done|lia]).
  rewrite <- Z.shiftl_lor, !lor_shiftl_add; simpl; lia.
Qed.

Lemma b64_digit_alphabet (j : Z) : 0 <= j < 64 -> b64_digit (alphabet_at j) = j.
Proof.
  intros Hj.
  assert (H : forallb (fun j => Z.eqb (b64_digit (alphabet_at j)) j) (seqZ 0 64) = true)
    by (vm_compute; reflexivity).
  rewrite forallb_forall in H. apply Z.eqb_eq, H, list_elem_of_In, elem_of_seqZ. lia.
Qed.

(** The push of one digit, in arithmetic. *)
Lemma b64_push_spec (buf nbits d : Z) :
  0 <= buf -> 0 <= d < 64 -> 0 <= nbits ->
  b64_push buf nbits d =
  if 8 <=? nbits + 6 then
    (Some ((buf * 64 + d) / 2 ^ (nbits - 2)), (buf * 64 + d) mod 2 ^ (nbits - 2), nbits - 2)
  else (None, buf * 64 + d, nbits + 6).
Proof.
  intros Hb Hd Hn. unfold b64_push. rewrite lor_shiftl_add by (simpl; lia).
  destruct (Z.leb_spec 8 (nbits + 6)); [|done].
  replace (nbits + 6 - 8) with (nbits - 2) by lia.
  rewrite Z.shiftr_div_pow2, Z.shiftl_1_l, Z.sub_1_r, <- Z.ones_equiv, Z.land_ones by lia. done.
Qed.

Lemma fromBase64_go_digit ch s buf nbits :
  0 <= b64_digit ch < 64 ->
  fromBase64_go (String ch s) buf nbits =
  match b64_push buf nbits (b64_digit ch) with
  | (Some o, buf', nbits') => String (byte_of o) (fromBase64_go s buf' nbits')
  | (None, buf', nbits') => fromBase64_go s buf' nbits'
  end.
Proof. intros Hd. simpl. by rewrite (proj2 (Z.eqb_neq _ _)) by lia. Qed.

Lemma b64_quad_digits (A B C padlen : Z) :
  0 <= A < 256 -> 0 <= B < 256 -> 0 <= C < 256 ->
  b64_quad (A * 65536 + B * 256 + C) padlen =
  String (alphabet_at (A / 4)) (String (alphabet_at ((A mod 4) * 16 + B / 16))
    (String (if 1 <? padlen then "="%char else alphabet_at ((B mod 16) * 4 + C / 64))
      (String (if 0 <? padlen then "="%char else alphabet_at (C mod 64)) EmptyString))).
Proof.
  intros HA HB HC. unfold b64_quad.
  change 0x00fc0000 with (Z.shiftl (Z.ones 6) 18). change 0x0003f000 with (Z.shiftl (Z.ones 6) 12).
  change 0x00000fc0 with (Z.shiftl (Z.ones 6) 6). change 0x0000003f with (Z.ones 6).
  rewrite !field_extract, Z.land_ones by lia. set (x := A * 65536 + B * 256 + C).
  assert (E1 : (x / 2 ^ 18) mod 2 ^ 6 = A / 4) by (simpl Z.pow; Z.div_mod_to_equations; lia).
  assert (E2 : (x / 2 ^ 12) mod 2 ^ 6 = (A mod 4) * 16 + B / 16)
    by (simpl Z.pow; Z.div_mod_to_equations; lia).
  assert (E3 : (x / 2 ^ 6) mod 2 ^ 6 = (B mod 16) * 4 + C / 64)
    by (simpl Z.pow; Z.div_mod_to_equations; lia).
  assert (E4 : x mod 2 ^ 6 = C mod 64) by (simpl Z.pow; Z.div_mod_to_equations; lia).
  by rewrite E1, E2, E3, E4.
Qed.

Lemma fromBase64_go_alpha j s buf nbits :
  0 <= j < 64 -> 0 <= buf -> 0 <= nbits ->
  fromBase64_go (String (alphabet_at j) s) buf nbits =
  if 8 <=? nbits + 6 then
    String (byte_of ((buf * 64 + j) / 2 ^ (nbits - 2)))
      (fromBase64_go s ((buf * 64 + j) mod 2 ^ (nbits - 2)) (nbits - 2))
  else fromBase64_go s (buf * 64 + j) (nbits + 6).
Proof.
  intros Hj Hb Hn. rewrite fromBase64_go_digit, b64_digit_alphabet, b64_push_spec by (try rewrite b64_digit_alphabet; lia).
  destruct (8 <=? nbits + 6); reflexivity.
Qed.

Lemma fromBase64_go_alpha_0 j s buf :
  0 <= j < 64 -> 0 <= buf ->
  fromBase64_go (String (alphabet_at j) s) buf 0 = fromBase64_go s (buf * 64 + j) 6.
Proof. intros. by rewrite fromBase64_go_alpha by lia. Qed.

Lemma fromBase64_go_alpha_emit j s buf nbits :
  0 <= j < 64 -> 0 <= buf -> 2 <= nbits ->
  fromBase64_go (String (alphabet_at j) s) buf nbits =
  String (byte_of ((buf * 64 + j) / 2 ^ (nbits - 2)))
    (fromBase64_go s ((buf * 64 + j) mod 2 ^ (nbits - 2)) (nbits - 2)).
Proof. intros. rewrite fromBase64_go_alpha by lia. by rewrite (proj2 (Z.leb_le _ _)) by lia. Qed.

Lemma byte_of_eq v c : v = byte c -> byte_of v = c.
Proof. intros ->. apply byte_of_byte. Qed.

Lemma fromBase64_full a b c rest :
  fromBase64_go (toBase64 (String a (String b (String c rest)))) 0 0 =
  String a (String b (String c (fromBase64_go (toBase64 rest) 0 0))).
Proof.
  cbn [toBase64]. pose proof (byte_range a). pose proof (byte_range b). pose proof (byte_range c).
  rewrite chunk_value, b64_quad_digits by done. rewrite !str_app_cons, str_app_nil_l. cbv [Z.ltb Z.compare Pos.compare Pos.compare_cont].
  rewrite fromBase64_go_alpha_0 by (Z.div_mod_to_equations; lia).
  do 3 (rewrite fromBase64_go_alpha_emit by (Z.div_mod_to_equations; lia)).
  change (6 - 2) with 4. change (4 - 2) with 2. change (2 - 2) with 0.
  change (2 ^ 4) with 16. change (2 ^ 2) with 4. change (2 ^ 0) with 1.
  rewrite Z.mod_1_r. repeat f_equal; apply byte_of_eq; Z.div_mod_to_equations; lia.
Qed.

Lemma fromBase64_go_skip ch s buf nbits :
  b64_digit ch = -1 -> fromBase64_go (String ch s) buf nbits = fromBase64_go s buf nbits.
Proof. intros Hd. simpl. by rewrite Hd. Qed.

Lemma fromBase64_one a : fromBase64_go (toBase64 (String a EmptyString)) 0 0 = String a EmptyString.
Proof.
  cbn [toBase64]. pose proof (byte_range a).
  replace (Z.shiftl (byte a) 16) with (byte a * 65536 + 0 * 256 + 0)
    by (rewrite Z.shiftl_mul_pow2; simpl; lia).
  rewrite b64_quad_digits by lia. cbv [Z.ltb Z.compare Pos.compare Pos.compare_cont].
  rewrite fromBase64_go_alpha_0, fromBase64_go_alpha_emit, !fromBase64_go_skip
    by (reflexivity || Z.div_mod_to_equations; lia).
  change (6 - 2) with 4. change (2 ^ 4) with 16. cbn [fromBase64_go].
  f_equal. apply byte_of_eq. Z.div_mod_to_equations; lia.
Qed.

Lemma fromBase64_two a b :
  fromBase64_go (toBase64 (String a (String b EmptyString))) 0 0 = String a (String b EmptyString).
Proof.
  cbn [toBase64]. pose proof (byte_range a). pose proof (byte_range b).
  rewrite <- (Z.lor_0_r (Z.lor _ _)), chunk_value, b64_quad_digits by lia. cbv [Z.ltb Z.compare Pos.compare Pos.compare_cont].
  rewrite fromBase64_go_alpha_0 by (Z.div_mod_to_equations; lia).
  do 2 (rewrite fromBase64_go_alpha_emit by (Z.div_mod_to_equations; lia)).
  rewrite fromBase64_go_skip by reflexivity.
  change (6 - 2) with 4. change (4 - 2) with 2. change (2 ^ 4) with 16. change (2 ^ 2) with 4.
  cbn [fromBase64_go]. repeat f_equal; apply byte_of_eq; Z.div_mod_to_equations; lia.
Qed.

(** Induction following the three-byte chunks of [toBase64]. *)
Lemma string_ind3 (P : string -> Prop) :
  P EmptyString -> (forall a, P (String a EmptyString)) ->
  (forall a b, P (String a (String b EmptyString))) ->
  (forall a b c rest, P rest -> P (String a (String b (String c rest)))) ->
  forall s, P s.
Proof.
  intros H0 H1 H2 H3 s. remember (String.length s) as n eqn:Hn.
  revert s Hn. induction n as [n IH] using lt_wf_ind. intros s Hn.
  destruct s as [|a [|b [|c rest]]]; auto. apply H3, (IH (String.length rest)); [simpl in Hn; lia|done].
Qed.

End Base64Facts.

(** [QByteArray::fromBase64] inverts [QByteArray::toBase64], the padded
    last chunk of one or two bytes included. *)
Lemma fromBase64_toBase64 (s : string) : fromBase64 (toBase64 s) = s.
Proof.
  unfold fromBase64. induction s using string_ind3;
    [done | apply fromBase64_one | apply fromBase64_two | by rewrite fromBase64_full, IHs].
Qed.

(** ** [QUrl::toPercentEncoding] and [QUrl::fromPercentEncoding] *)

(** The characters [QByteArray::toPercentEncoding] leaves alone:
    ALPHA / DIGIT / [-] / [.] / [_] / [~] (no [exclude] list). *)
Definition is_unreserved (c : ascii) : bool :=
  let n := byte c in
  ((0x61 <=? n) && (n <=? 0x7A)) || ((0x41 <=? n) && (n <=? 0x5A)) ||
  ((0x30 <=? n) && (n <=? 0x39)) || (n =? 0x2D) || (n =? 0x2E) || (n =? 0x5F) || (n =? 0x7E).

(** [QtMiscUtils::toHexUpper]. *)
Definition toHexUpper (v : Z) : ascii :=
  match String.get (Z.to_nat (Z.land v 15)) "0123456789ABCDEF" with Some c => c | None => "0"%char end.

Fixpoint toPercentEncoding (s : string) : string :=
  match s with
  | EmptyString => EmptyString
  | String c s' =>
      if is_unreserved c then String c (toPercentEncoding s')
      else String "%" (String (toHexUpper (Z.shiftr (Z.land (byte c) 0xf0) 4))
             (String (toHexUpper (Z.land (byte c) 0xf)) (toPercentEncoding s')))
  end.

(** [char] is signed: the value [int a = inputPtr[i]] of a byte. *)
Definition sbyte (c : ascii) : Z := let n := byte c in if 128 <=? n then n - 256 else n.

(** The digit conversion of [q_fromPercentEncoding]; a character that is
    not a hex digit keeps its own value. *)
Definition hex_value (a : Z) : Z :=
  if (48 <=? a) && (a <=? 57) then a - 48
  else if (97 <=? a) && (a <=? 102) then a - 97 + 10
  else if (65 <=? a) && (a <=? 70) then a - 65 + 10
  else a.

(** [QByteArray::fromPercentEncoding]: a [%] with two more characters
    ([i + 2 < len]) is replaced by [(char)((a << 4) | b)]. *)
Fixpoint fromPercentEncoding (s : string) : string :=
  match s with
  | EmptyString => EmptyString
  | String c s1 =>
      if Ascii.eqb c "%" then
        match s1 with
        | String a (String b rest) =>
            String (byte_of (Z.lor (Z.shiftl (hex_value (sbyte a)) 4) (hex_value (sbyte b))))
              (fromPercentEncoding rest)
        | _ => String c (fromPercentEncoding s1)
        end
      else String c (fromPercentEncoding s1)
  end.

Section PercentFacts.

Lemma percent_byte (c : ascii) :
  byte_of (Z.lor (Z.shiftl (hex_value (sbyte (toHexUpper (Z.shiftr (Z.land (byte c) 0xf0) 4)))) 4)
                 (hex_value (sbyte (toHexUpper (Z.land (byte c) 0xf))))) = c.
Proof. destruct c as [[] [] [] [] [] [] [] []]; vm_compute; reflexivity. Qed.

Lemma unreserved_not_percent c : is_unreserved c = true -> Ascii.eqb c "%" = false.
Proof. destruct c as [[] [] [] [] [] [] [] []]; vm_compute; done. Qed.

(** What [toPercentEncoding] emits: unreserved characters and [%]. *)
Definition pct_char (c : ascii) : bool := is_unreserved c || Ascii.eqb c "%".

Lemma toPercentEncoding_chars s : str_forall pct_char (toPercentEncoding s) = true.
Proof.
  induction s as [|c s IH]; simpl; [done|]. destruct (is_unreserved c) eqn:E; simpl.
  - unfold pct_char at 1. by rewrite E, IH.
  - rewrite IH. by destruct c as [[] [] [] [] [] [] [] []].
Qed.

End PercentFacts.

(** [QUrl::fromPercentEncoding] inverts [QUrl::toPercentEncoding]
    on every byte string: the name a share link carries after [#] comes
    back unchanged. *)
Theorem fromPercentEncoding_toPercentEncoding (s : string) :
  fromPercentEncoding (toPercentEncoding s) = s.
Proof.
  induction s as [|c s IH]; [done|]. simpl. destruct (is_unreserved c) eqn:E.
  - simpl. by rewrite unreserved_not_percent, IH.
  - simpl. by rewrite percent_byte, IH.
Qed.

(** ** The characters [toBase64] emits *)

(** An alphabet character or the padding [=]. *)
Definition b64_char (c : ascii) : bool := negb (b64_digit c =? -1) || Ascii.eqb c "=".

Lemma alphabet_at_char (j : Z) : b64_char (alphabet_at j) = true.
Proof.
  unfold alphabet_at. generalize (Z.to_nat j) as n. intros n.
  do 64 (destruct n as [|n]; [reflexivity|]). reflexivity.
Qed.

Lemma b64_quad_chars chunk padlen : str_forall b64_char (b64_quad chunk padlen) = true.
Proof.
  unfold b64_quad. cbn [str_forall]. rewrite !alphabet_at_char.
  by destruct (1 <? padlen), (0 <? padlen); rewrite ?alphabet_at_char.
Qed.

Lemma toBase64_chars s : str_forall b64_char (toBase64 s) = true.
Proof.
  induction s using string_ind3; cbn [toBase64]; rewrite ?str_forall_app, ?b64_quad_chars; done.
Qed.
