(* ===== verification/GRPC.v ===== *)
(** * The core's command channel: [NekoCore::SimpleGRPCClient] of
      [src/nekoray/rpc/gRPC_Headless.cpp]

    Despite its name the client speaks plain TCP: each command is the
    compact JSON [{"command": c, "data": d}] behind a four-byte length
    prefix.  Its state is the socket's state, the traffic timer, the
    last error, the server's address and port, the traffic counters and
    the core's running flag and profile.  The socket's signals reach the
    client's own slots at once (direct connections): the [connected],
    [disconnected] and [errorOccurred] a [waitForConnected] or a
    [disconnectFromHost] raises run their slots inside that call.

    A call is a function of the monad [M GState] over the client and the
    trace of what it did ([Event]: a signal, a [qDebug] line, bytes
    written).  What the network answers is an argument of the call
    ([ConnectAnswer], whether a write succeeds); the random numbers of
    [testLatency] and [updateTrafficStats] are arguments within their
    bounds.  [step] is the client's event loop: a public call, the peer
    closing the connection, a socket error, data, or a timer tick.

    The bytes a command writes are [lengthPrefix + payload], the payload
    being the compact JSON of the message.  The code computes the prefix
    as [reinterpret_cast<const char*>(&payload.size())], the address of a
    temporary, which does not compile; what the prefix is meant to be is
    not decided here: the whole frame written for a message is a section
    parameter ([frame]), and no theorem depends on its bytes. *)

From S2P Require Import Prelude QJson Platform OutputRelay CoreManager Codec.
From Stdlib Require Import Ascii.

Local Open Scope Z_scope.

Module GRPC.

Inductive SocketState : Type := Unconnected | Connected.

(** The members of [SimpleGRPCClient]. *)
Record Client : Type := mkClient {
  m_socket : SocketState;
  m_timerActive : bool;             (** [m_trafficTimer->isActive()] *)
  m_lastError : string;
  m_serverAddress : string;
  m_serverPort : Z;
  m_uploadBytes : Z;
  m_downloadBytes : Z;
  m_lastUpload : Z;
  m_lastDownload : Z;
  m_coreRunning : bool;
  m_currentProfileId : Z
}.

Inductive Signal : Type :=
| connected
| disconnected
| statusChanged (status : QJsonObject)
| trafficUpdated (upload download : Z)
| errorOccurred (error : string).

Inductive Event : Type :=
| Sig (s : Signal)
| Debug (line : string)             (** [qDebug]/[qWarning] *)
| Sent (bytes : string).            (** [m_socket->write] *)

Abbreviation GState := (Client * list Event)%type.

(** What [waitForConnected(3000)] ends with. *)
Inductive ConnectAnswer : Type :=
| Connects
| Fails (errorString : string).

(** ** Plumbing *)

Definition client : M GState Client := fun s => Returns (s.1, s).
Definition update (f : Client -> Client) : M GState unit := fun '(c, t) => Returns (tt, (f c, t)).
Definition record (e : Event) : M GState unit := fun '(c, t) => Returns (tt, (c, t ++ [e])).

Definition set_socket (x : SocketState) (c : Client) : Client :=
  mkClient x (m_timerActive c) (m_lastError c) (m_serverAddress c) (m_serverPort c) (m_uploadBytes c)
           (m_downloadBytes c) (m_lastUpload c) (m_lastDownload c) (m_coreRunning c) (m_currentProfileId c).
Definition set_timer (b : bool) (c : Client) : Client :=
  mkClient (m_socket c) b (m_lastError c) (m_serverAddress c) (m_serverPort c) (m_uploadBytes c)
           (m_downloadBytes c) (m_lastUpload c) (m_lastDownload c) (m_coreRunning c) (m_currentProfileId c).
Definition set_error (e : string) (c : Client) : Client :=
  mkClient (m_socket c) (m_timerActive c) e (m_serverAddress c) (m_serverPort c) (m_uploadBytes c)
           (m_downloadBytes c) (m_lastUpload c) (m_lastDownload c) (m_coreRunning c) (m_currentProfileId c).
Definition set_server (address : string) (port : Z) (c : Client) : Client :=
  mkClient (m_socket c) (m_timerActive c) (m_lastError c) address port (m_uploadBytes c)
           (m_downloadBytes c) (m_lastUpload c) (m_lastDownload c) (m_coreRunning c) (m_currentProfileId c).
Definition set_traffic (up down : Z) (c : Client) : Client :=
  mkClient (m_socket c) (m_timerActive c) (m_lastError c) (m_serverAddress c) (m_serverPort c) up down
           (m_lastUpload c) (m_lastDownload c) (m_coreRunning c) (m_currentProfileId c).
Definition set_last (up down : Z) (c : Client) : Client :=
  mkClient (m_socket c) (m_timerActive c) (m_lastError c) (m_serverAddress c) (m_serverPort c)
           (m_uploadBytes c) (m_downloadBytes c) up down (m_coreRunning c) (m_currentProfileId c).
Definition set_running (b : bool) (c : Client) : Client :=
  mkClient (m_socket c) (m_timerActive c) (m_lastError c) (m_serverAddress c) (m_serverPort c)
           (m_uploadBytes c) (m_downloadBytes c) (m_lastUpload c) (m_lastDownload c) b (m_currentProfileId c).
Definition set_profile (id : Z) (c : Client) : Client :=
  mkClient (m_socket c) (m_timerActive c) (m_lastError c) (m_serverAddress c) (m_serverPort c)
           (m_uploadBytes c) (m_downloadBytes c) (m_lastUpload c) (m_lastDownload c) (m_coreRunning c) id.

(** [qDebug() << QString]: in double quotes. *)
Definition dquoted (s : string) : string := (String (ascii_of_nat 34) s +:+ String (ascii_of_nat 34) EmptyString)%string.

(** ** The member functions *)

(** The constructor. *)
Definition create : Client :=
  mkClient Unconnected false EmptyString EmptyString 50051 0 0 0 0 false (-1).

Definition isConnected (c : Client) : bool :=
  match m_socket c with Connected => true | Unconnected => false end.

(** [onSocketConnected()]. *)
Definition onSocketConnected : M GState unit :=
  record (Debug "Connected to core server") ;;; record (Sig connected).

(** [onSocketDisconnected()]. *)
Definition onSocketDisconnected : M GState unit :=
  record (Debug "Disconnected from core server") ;;;
  update (set_running false) ;;;
  c <- client ;;
  (if m_timerActive c then update (set_timer false) else mret tt) ;;;
  record (Sig disconnected).

(** [onSocketError()]: [errorString] is the socket's. *)
Definition onSocketError (errorString : string) : M GState unit :=
  update (set_error errorString) ;;;
  record (Debug ("Socket error: " +:+ dquoted errorString)%string) ;;;
  record (Sig (errorOccurred errorString)).

(** [connectToCore(address, port)]. *)
Definition connectToCore (address : string) (port : Z) (answer : ConnectAnswer) : M GState bool :=
  c <- client ;;
  if isConnected c then mret true else
  update (set_server address port) ;;;
  record (Debug ("Connecting to core at " +:+ dquoted address +:+ " : " +:+ z_to_string port)%string) ;;;
  match answer with
  | Connects => update (set_socket Connected) ;;; onSocketConnected ;;; mret true
  | Fails err => onSocketError err ;;; update (set_error err) ;;; mret false
  end.

(** [disconnectFromCore()]: [disconnectFromHost] of a connected socket
    with nothing pending disconnects at once and runs the slot. *)
Definition disconnectFromCore : M GState unit :=
  c <- client ;;
  (if isConnected c then update (set_socket Unconnected) ;;; onSocketDisconnected else mret tt) ;;;
  c <- client ;;
  (if m_timerActive c then update (set_timer false) else mret tt) ;;;
  update (set_running false) ;;;
  update (set_profile (-1)).

Section Commands.
(** [lengthPrefix + doc.toJson(QJsonDocument::Compact)] of a message. *)
Context (frame : QJsonObject -> string).

(** [sendCommand(command, data)]; [written] tells whether the write of
    the frame succeeds. *)
Definition sendCommand (command : string) (data : QJsonObject) (written : bool) : M GState bool :=
  c <- client ;;
  if negb (isConnected c) then update (set_error "Not connected") ;;; mret false else
  if written then
    record (Sent (frame (obj_build [("command", QString command); ("data", QObject data)]))) ;;;
    record (Debug ("Sent command: " +:+ dquoted command)%string) ;;;
    mret true
  else update (set_error "Failed to send data") ;;; mret false.

(** [startCore(config)]. *)
Definition startCore (config : QJsonObject) (written : bool) : M GState bool :=
  c <- client ;;
  if negb (isConnected c) then update (set_error "Not connected to core") ;;; mret false else
  ok <- sendCommand "start" config written ;;
  if ok then
    update (set_running true) ;;; update (set_timer true) ;;;
    record (Sig (statusChanged (obj_build [("running", QBool true); ("config", QObject config)]))) ;;;
    record (Debug "Core started successfully") ;;;
    mret true
  else mret false.

(** [stopCore()]. *)
Definition stopCore (written : bool) : M GState bool :=
  c <- client ;;
  if negb (isConnected c) then update (set_error "Not connected to core") ;;; mret false else
  ok <- sendCommand "stop" [] written ;;
  if ok then
    update (set_running false) ;;; update (set_timer false) ;;;
    record (Sig (statusChanged (obj_build [("running", QBool false)]))) ;;;
    record (Debug "Core stopped successfully") ;;;
    mret true
  else mret false.

(** [restartCore(config)]: [&&] skips the start when the stop fails. *)
Definition restartCore (config : QJsonObject) (written_stop written_start : bool) : M GState bool :=
  ok <- stopCore written_stop ;;
  if ok then startCore config written_start else mret false.

(** [updateConfig(config)]. *)
Definition updateConfig (config : QJsonObject) (written : bool) : M GState bool :=
  c <- client ;;
  if negb (isConnected c) then update (set_error "Not connected to core") ;;; mret false else
  sendCommand "update_config" config written.

(** [selectProfile(profileId)]. *)
Definition selectProfile (profileId : Z) (written : bool) : M GState bool :=
  c <- client ;;
  if negb (isConnected c) then update (set_error "Not connected to core") ;;; mret false else
  ok <- sendCommand "select_profile" (obj_build [("profile_id", QDouble profileId)]) written ;;
  if ok then update (set_profile profileId) ;;; mret true else mret false.

End Commands.

(** [getStatus()]. *)
Definition getStatus (c : Client) : QJsonObject :=
  obj_build [("running", QBool (m_coreRunning c)); ("current_profile", QDouble (m_currentProfileId c));
             ("upload_bytes", QDouble (m_uploadBytes c)); ("download_bytes", QDouble (m_downloadBytes c));
             ("connected", QBool (isConnected c))].

(** [getTrafficStats()]: the speeds since the last call, which it
    records. *)
Definition getTrafficStats : M GState QJsonObject :=
  c <- client ;;
  update (set_last (m_uploadBytes c) (m_downloadBytes c)) ;;;
  mret (obj_build [("upload", QDouble (m_uploadBytes c)); ("download", QDouble (m_downloadBytes c));
                   ("upload_speed", QDouble (m_uploadBytes c - m_lastUpload c));
                   ("download_speed", QDouble (m_downloadBytes c - m_lastDownload c))]).

(** [testLatency(profileId)]: [latency] is the draw in [[50, 300)]. *)
Definition testLatency (latency : Z) : M GState bool :=
  c <- client ;;
  if negb (isConnected c) then mret false else
  record (Debug ("Latency test result: " +:+ z_to_string latency +:+ " ms")%string) ;;; mret true.

(** [onDataReceived()]: the bytes are logged and dropped. *)
Definition onDataReceived (data : string) : M GState unit :=
  record (Debug ("Received data from core: " +:+ dquoted data)%string).

(** [updateTrafficStats()]: [up] and [down] are the draws in
    [[1000, 5000)] and [[2000, 10000)]. *)
Definition updateTrafficStats (up down : Z) : M GState unit :=
  c <- client ;;
  if negb (m_coreRunning c) then mret tt else
  update (set_traffic (m_uploadBytes c + up) (m_downloadBytes c + down)) ;;;
  c <- client ;;
  record (Sig (trafficUpdated (m_uploadBytes c) (m_downloadBytes c))).

(** [receiveResponse()]: a constant. *)
Definition receiveResponse : QJsonObject := obj_build [("success", QBool true); ("message", QString "OK")].

(** [InitializeGRPC()] and [CleanupGRPC()] on the global [grpcClient]. *)
Definition InitializeGRPC (g : option Client) : bool * option Client :=
  match g with Some c => (true, Some c) | None => (true, Some create) end.

Definition CleanupGRPC (g : option Client) : list Event * option Client :=
  match g with
  | Some c => match disconnectFromCore (c, []) with
              | Returns (_, (_, t)) => (t, None)
              | Deadlock => ([], None)
              end
  | None => ([], None)
  end.

(** ** The event loop *)

Inductive Input : Type :=
| CallConnect (address : string) (port : Z) (answer : ConnectAnswer)
| CallDisconnect
| CallStart (config : QJsonObject) (written : bool)
| CallStop (written : bool)
| CallRestart (config : QJsonObject) (written_stop written_start : bool)
| CallUpdateConfig (config : QJsonObject) (written : bool)
| CallSelect (profileId : Z) (written : bool)
| CallStats
| CallLatency (latency : Z)
| PeerClosed                        (** the server closes the connection *)
| SocketError (errorString : string)
| DataArrives (data : string)
| TimerTick (up down : Z).

(** The inputs that can happen: a tick only while the timer runs, the
    peer closing only an open connection, draws within their bounds. *)
Definition possible (c : Client) (i : Input) : Prop :=
  match i with
  | TimerTick up down => m_timerActive c = true /\ 1000 <= up < 5000 /\ 2000 <= down < 10000
  | PeerClosed => m_socket c = Connected
  | CallLatency l => 50 <= l < 300
  | _ => True
  end.

Definition react (frame : QJsonObject -> string) (i : Input) : M GState unit :=
  match i with
  | CallConnect a p ans => connectToCore a p ans ;;; mret tt
  | CallDisconnect => disconnectFromCore
  | CallStart cfg w => startCore frame cfg w ;;; mret tt
  | CallStop w => stopCore frame w ;;; mret tt
  | CallRestart cfg w1 w2 => restartCore frame cfg w1 w2 ;;; mret tt
  | CallUpdateConfig cfg w => updateConfig frame cfg w ;;; mret tt
  | CallSelect id w => selectProfile frame id w ;;; mret tt
  | CallStats => getTrafficStats ;;; mret tt
  | CallLatency l => testLatency l ;;; mret tt
  | PeerClosed => update (set_socket Unconnected) ;;; onSocketDisconnected
  | SocketError e => onSocketError e
  | DataArrives d => onDataReceived d
  | TimerTick up down => updateTrafficStats up down
  end.

Inductive step (frame : QJsonObject -> string) : GState -> GState -> Prop :=
| step_react i s s' : possible s.1 i -> react frame i s = Returns (tt, s') -> step frame s s'.

Inductive reachable (frame : QJsonObject -> string) : GState -> Prop :=
| reach_create : reachable frame (create, [])
| reach_step s s' : reachable frame s -> step frame s s' -> reachable frame s'.

End GRPC.

(** ** Properties of the client *)

Module GRPCFacts.
Import GRPC.

(** The client's invariant. *)
Definition inv (c : Client) : Prop :=
  m_timerActive c = m_coreRunning c /\ (m_coreRunning c = true -> m_socket c = Connected) /\
  0 <= m_lastUpload c <= m_uploadBytes c /\ 0 <= m_lastDownload c <= m_downloadBytes c.
Abbreviation keeps_inv m := (mkeeps (fun s : GState => inv s.1) m).

(** An operation keeps the invariant: unfold it over a client whose
    flags are split, and compute. *)
Ltac op_inv :=
  intros [[[] [] ? ? ? ? ? ? ? [] ?] ?] ? [? ?]; unfold inv; simpl;
  intros (Ht & Hc & Hu & Hd); try discriminate;
  unfold connectToCore, disconnectFromCore, startCore, stopCore, updateConfig, selectProfile,
    sendCommand, getTrafficStats, testLatency, updateTrafficStats, onSocketDisconnected, onSocketError,
    onDataReceived, onSocketConnected, client, update, record in *; simpl in *;
  repeat (case_match; simpl in *); intros; simplify_eq; simpl; intuition (try lia; try discriminate).

Lemma connectToCore_inv a p ans : keeps_inv (connectToCore a p ans).
Proof. op_inv. Qed.
Lemma disconnectFromCore_inv : keeps_inv disconnectFromCore.
Proof. op_inv. Qed.
Lemma startCore_inv frame cfg w : keeps_inv (startCore frame cfg w).
Proof. op_inv. Qed.
Lemma stopCore_inv frame w : keeps_inv (stopCore frame w).
Proof. op_inv. Qed.
Lemma updateConfig_inv frame cfg w : keeps_inv (updateConfig frame cfg w).
Proof. op_inv. Qed.
Lemma selectProfile_inv frame id w : keeps_inv (selectProfile frame id w).
Proof. op_inv. Qed.
Lemma getTrafficStats_inv : keeps_inv getTrafficStats.
Proof. op_inv. Qed.
Lemma testLatency_inv l : keeps_inv (testLatency l).
Proof. op_inv. Qed.
Lemma peer_closed_inv : keeps_inv (update (set_socket Unconnected) ;;; onSocketDisconnected).
Proof. op_inv. Qed.
Lemma onSocketError_inv e : keeps_inv (onSocketError e).
Proof. op_inv. Qed.
Lemma onDataReceived_inv d : keeps_inv (onDataReceived d).
Proof. op_inv. Qed.
Lemma updateTrafficStats_inv up down : 0 <= up -> 0 <= down -> keeps_inv (updateTrafficStats up down).
Proof. intros ??. op_inv. Qed.

Create HintDb grpc.
#[local] Hint Resolve connectToCore_inv disconnectFromCore_inv startCore_inv stopCore_inv updateConfig_inv
  selectProfile_inv getTrafficStats_inv testLatency_inv peer_closed_inv onSocketError_inv
  onDataReceived_inv mkeeps_ret : grpc.

Lemma restartCore_inv frame cfg w1 w2 : keeps_inv (restartCore frame cfg w1 w2).
Proof. apply mkeeps_bind; [auto with grpc|]. intros []; auto with grpc. Qed.
#[local] Hint Resolve restartCore_inv : grpc.

Lemma react_inv frame i c t s' :
  inv c -> possible c i -> react frame i (c, t) = Returns (tt, s') -> inv s'.1.
Proof.
  intros Hi Hp. revert t s'.
  enough (Hk : keeps_inv (react frame i)) by (intros t s' H; exact (Hk (c, t) tt s' Hi H)).
  destruct i; simpl in Hp; cbn [react];
    first [ solve [auto with grpc] | apply updateTrafficStats_inv; lia
          | apply mkeeps_bind; [auto with grpc | intros; auto with grpc] ].
Qed.

(** C13: In every state the client reaches from its constructor, the
    traffic timer runs exactly while the core runs, the core runs only
    over a connected socket, and the speeds [getTrafficStats] reports
    are not negative. *)
Theorem client_reachable_inv frame s : reachable frame s -> inv s.1.
Proof.
  induction 1 as [|s s' _ IH Hs]; [cbv; intuition (lia || discriminate)|].
  destruct Hs as [i [c t] s' Hp H]. exact (react_inv frame i c t s' IH Hp H).
Qed.

Section Send.
Context (frame : QJsonObject -> string).

(** C7: Without a connection every core command ([startCore],
    [stopCore], [restartCore], [updateConfig], [selectProfile]) returns
    false, records "Not connected to core" as the last error and does
    nothing else. *)
Theorem commands_need_connection c t cfg id w :
  isConnected c = false ->
  let c' := set_error "Not connected to core" c in
  startCore frame cfg w (c, t) = Returns (false, (c', t)) /\
  stopCore frame w (c, t) = Returns (false, (c', t)) /\
  restartCore frame cfg w w (c, t) = Returns (false, (c', t)) /\
  updateConfig frame cfg w (c, t) = Returns (false, (c', t)) /\
  selectProfile frame id w (c, t) = Returns (false, (c', t)).
Proof.
  intros Hc. unfold restartCore, startCore, stopCore, updateConfig, selectProfile, client, update.
  simpl. rewrite Hc. by split_and!.
Qed.
End Send.

(** ** Witnesses *)

(** A frame for the witnesses: any will do. *)
Definition compact (o : QJsonObject) : string := "{}".

Ltac step_with i :=
  apply (step_react _ i); [cbn; repeat split; try reflexivity; try lia | reflexivity].

(** Connect, start the core, one tick of the timer, read the stats. *)
Ltac reach_session :=
  eapply reach_step; [eapply reach_step; [eapply reach_step; [eapply reach_step;
    [apply reach_create | step_with (CallConnect "127.0.0.1" 50051 Connects)]
    | step_with (CallStart [] true)] | step_with (TimerTick 1500 2500)] | step_with CallStats].

Lemma client_reachable_inv_witness : exists s, reachable compact s /\ m_coreRunning s.1 = true /\ inv s.1.
Proof.
  eexists. split; [reach_session | split; [reflexivity |]].
  apply (client_reachable_inv compact). reach_session.
Defined.

Lemma commands_need_connection_witness :
  isConnected create = false /\
  (let c' := set_error "Not connected to core" create in
  startCore compact [] true (create, []) = Returns (false, (c', [])) /\
  stopCore compact true (create, []) = Returns (false, (c', [])) /\
  restartCore compact [] true true (create, []) = Returns (false, (c', [])) /\
  updateConfig compact [] true (create, []) = Returns (false, (c', [])) /\
  selectProfile compact 3 true (create, []) = Returns (false, (c', []))).
Proof. split; [reflexivity | apply commands_need_connection; reflexivity]. Defined.

End GRPCFacts.
