(* ===== verification/HeadlessCli.v ===== *)
(** * The headless command-line front end: [CliApplication] of
      [src/nekoray/cli/main_cli_headless.cpp]

    The same commands as [src/cli/main_cli.cpp] over the same service
    ([NekoService_Headless.hpp] declares the service of
    [src/core/NekoService_Fixed.cpp], the one implementation that does not
    need the GUI's globals), with other slots, another safety gate and
    other handlers, and with the global command channel of
    [gRPC_Headless.cpp] set up after the service and torn down before the
    run returns.

    A run is a computation of [M HState]: the service and the printed
    lines of [Cli] ([CliState]) with the global [grpcClient].  Service
    calls made after the slots are connected go through [Cli.svc_with]
    with this file's slots; [QThread::msleep] is the service world's
    clock. *)

From S2P Require Import Prelude QJson Platform OutputRelay ConfigManager CoreManager TunManager Safety NekoService Cli Codec GRPC.
From Stdlib Require Import Ascii.

Local Open Scope Z_scope.

Module HeadlessCli.
Import NekoService Cli.

(** The options [QCommandLineParser] recognised. *)
Record Options : Type := mkOptions {
  o_config : string;
  o_daemon : bool;
  o_tun : bool;
  o_dryRun : bool;
  o_force : bool;
  o_safe : bool;
  o_port : string;
  o_args : list string
}.

Abbreviation HState := (CliState * option GRPC.Client)%type.

(** A step of the front end that does not touch the global client. *)
Definition lift {A} (m : M CliState A) : M HState A :=
  fun '(cs, g) => match m cs with
                  | Returns (a, cs') => Returns (a, (cs', g))
                  | Deadlock => Deadlock
                  end.

(** A step on the global client alone. *)
Definition on_grpc {A} (f : option GRPC.Client -> A * option GRPC.Client) : M HState A :=
  fun '(cs, g) => let '(a, g') := f g in Returns (a, (cs, g')).

(** ** The slots connected in [run] *)

Definition onStatusChanged (st : ServiceStatus.t) : list Out :=
  [Stdout ("Status changed to: " +:+ getStatusString st)%string].

Definition onErrorOccurred (error : string) : list Out := [Stderr ("Error: " +:+ error)%string].

Definition onLogMessage (level message : string) : list Out :=
  [Stdout ("[" +:+ level +:+ "] " +:+ message)%string].

(** What the connected slots print for one signal.  [onStatusChanged]
    prints [m_service->getStatusString()], which [setStatus] has already
    set to the emitted status. *)
Definition echo (e : Event) : list Out :=
  match e with
  | logMessage level message => onLogMessage level message
  | errorOccurred error => onErrorOccurred error
  | statusChanged st => onStatusChanged st
  | _ => []
  end.

Definition call {A} (m : M Sys A) : M CliState A := svc_with echo m.

(** ** The handlers *)

Section Handlers.
Context (env : Env).

(** [handleStart(args, enableTun, dryRun)]: [toInt()] is 0 on a
    malformed number. *)
Definition handleStart (args : list string) (enableTun dryRun : bool) : M CliState Z :=
  match args with
  | _ :: a1 :: _ =>
      let profileId := (qstring_toInt a1).1 in
      if profileId <=? 0 then fail "Error: Invalid profile ID" else
      if dryRun then
        print (Stdout ("DRY RUN: Would start proxy with profile " +:+ z_to_string profileId +:+
                       (if enableTun then " (TUN mode enabled)" else EmptyString))%string) ;;;
        mret 0
      else
        print (Stdout ("Starting proxy with profile " +:+ z_to_string profileId +:+ "...")%string) ;;;
        okLoad <- call (loadProfile profileId) ;;
        if negb okLoad then fail ("Error: Failed to load profile " +:+ z_to_string profileId)%string else
        okStart <- call (startProxy env) ;;
        if negb okStart then fail "Error: Failed to start proxy" else
        (if enableTun then
           okTun <- call (startTunMode env) ;;
           if okTun then print (Stdout "TUN mode enabled")
           else print (Stderr "Warning: Failed to start TUN mode")
         else mret tt) ;;;
        print (Stdout "Proxy started successfully") ;;;
        mret 0
  | _ => fail "Error: Profile ID required for start command"
  end.

(** [handleStop(dryRun)]. *)
Definition handleStop (dryRun : bool) : M CliState Z :=
  if dryRun then print (Stdout "DRY RUN: Would stop proxy") ;;; mret 0 else
  print (Stdout "Stopping proxy...") ;;;
  ok <- call (stopProxy env) ;;
  if ok then print (Stdout "Proxy stopped successfully") ;;; mret 0
  else fail "Error: Failed to stop proxy".

(** [handleRestart(args, enableTun, dryRun)]. *)
Definition handleRestart (args : list string) (enableTun dryRun : bool) : M CliState Z :=
  r <- handleStop dryRun ;;
  if negb (r =? 0) then mret 1 else
  call (modify_world (wait_ms 500)) ;;;
  handleStart args enableTun dryRun.

(** [handleStatus()]. *)
Definition handleStatus : M CliState Z :=
  s <- peek fst ;;
  print (Stdout "=== NekoRay Status ===") ;;;
  print (Stdout ("Status: " +:+ getStatusString (m_status s))%string) ;;;
  print (Stdout ("Profile: " +:+ z_to_string (m_currentProfileId s))%string) ;;;
  print (Stdout ("SOCKS: " +:+ getSocksAddress s +:+ ":" +:+ z_to_string (getSocksPort s))%string) ;;;
  print (Stdout ("HTTP: " +:+ getHttpAddress s +:+ ":" +:+ z_to_string (getHttpPort s))%string) ;;;
  print (Stdout ("TUN Mode: " +:+ (if isTunModeRunning s then "Running" else "Stopped"))%string) ;;;
  print (Stdout ("Upload: " +:+ z_to_string (m_uploadBytes s) +:+ " bytes")%string) ;;;
  print (Stdout ("Download: " +:+ z_to_string (m_downloadBytes s) +:+ " bytes")%string) ;;;
  mret 0.

(** [handleList()]: sample data. *)
Definition handleList : M CliState Z :=
  print (Stdout "=== Available Profiles ===") ;;;
  print (Stdout "1. Sample SOCKS5 Profile (127.0.0.1:1080)") ;;;
  print (Stdout "2. Sample HTTP Profile (127.0.0.1:8080)") ;;;
  print (Stdout "3. Sample Shadowsocks Profile") ;;;
  mret 0.

(** [handleDaemon(port)]: prints and returns. *)
Definition handleDaemon (port : Z) : M CliState Z :=
  print (Stdout ("Starting daemon mode on port " +:+ z_to_string port +:+ "...")%string) ;;;
  print (Stdout ("Web interface will be available at http://127.0.0.1:" +:+ z_to_string port)%string) ;;;
  print (Stdout "Note: Use nekoray-web for full web interface support") ;;;
  mret 0.

(** [handleTunStart(dryRun)]. *)
Definition handleTunStart (dryRun : bool) : M CliState Z :=
  if dryRun then print (Stdout "DRY RUN: Would start TUN mode") ;;; mret 0 else
  print (Stdout "Starting TUN mode...") ;;;
  ok <- call (startTunMode env) ;;
  if ok then print (Stdout "TUN mode started successfully") ;;; mret 0
  else fail "Error: Failed to start TUN mode".

(** [handleTunStop(dryRun)]. *)
Definition handleTunStop (dryRun : bool) : M CliState Z :=
  if dryRun then print (Stdout "DRY RUN: Would stop TUN mode") ;;; mret 0 else
  print (Stdout "Stopping TUN mode...") ;;;
  ok <- call (stopTunMode env) ;;
  if ok then print (Stdout "TUN mode stopped successfully") ;;; mret 0
  else fail "Error: Failed to stop TUN mode".

(** [handleImport(args)]. *)
Definition handleImport (args : list string) : M CliState Z :=
  match args with
  | _ :: source :: _ =>
      print (Stdout ("Importing from: " +:+ source)%string) ;;;
      print (Stdout "Note: Import functionality not yet implemented") ;;;
      mret 0
  | _ => fail "Error: URL or file path required for import command"
  end.

(** [handleConfig()]. *)
Definition handleConfig : M CliState Z :=
  s <- peek fst ;;
  print (Stdout "=== Current Configuration ===") ;;;
  print (ConfigDump (getCurrentConfig s)) ;;;
  mret 0.

(** The [if]/[else if] chain of [run]. *)
Definition dispatch (o : Options) (command : string) : M CliState Z :=
  let args := o_args o in
  if String.eqb command "start" then handleStart args (o_tun o) (o_dryRun o)
  else if String.eqb command "stop" then handleStop (o_dryRun o)
  else if String.eqb command "restart" then handleRestart args (o_tun o) (o_dryRun o)
  else if String.eqb command "status" then handleStatus
  else if String.eqb command "list" then handleList
  else if String.eqb command "daemon" then handleDaemon (qstring_toInt (o_port o)).1
  else if String.eqb command "tun-start" then handleTunStart (o_dryRun o)
  else if String.eqb command "tun-stop" then handleTunStop (o_dryRun o)
  else if String.eqb command "import" then handleImport args
  else if String.eqb command "config" then handleConfig
  else fail ("Error: Unknown command '" +:+ command +:+ "'")%string.

End Handlers.

(** Whether [run] consults [SafetyUtils::isSafeTestEnvironment]. *)
Definition checks_safety (o : Options) : bool := o_safe o || (negb (o_force o) && negb (o_dryRun o)).

(** [CliApplication::run(arguments)], after [parser.process]. *)
Definition run (env : Env) (probe : Probe) (o : Options) : M HState Z :=
  match o_args o with
  | [] => lift (fail "Error: No command specified. Use --help for usage information.")
  | command :: _ =>
      ok <- lift (svc_unconnected (initialize env (o_config o))) ;;
      if negb ok then lift (fail "Error: Failed to initialize NekoRay service") else
      okg <- on_grpc GRPC.InitializeGRPC ;;
      if negb okg then lift (fail "Error: Failed to initialize gRPC client") else
      safe <- lift (peek (fun sw => SafetyUtils.isSafeTestEnvironment probe (w_fs sw.2))) ;;
      if checks_safety o && negb safe && negb (o_force o) then
        lift (print (Stderr "Warning: Potentially unsafe environment detected.") ;;;
              fail "Use --force to bypass or --safe for additional checks.")
      else
        (if checks_safety o && negb safe then
           lift (print (Stderr "Warning: Potentially unsafe environment detected.") ;;;
                 print (Stderr "Use --force to bypass or --safe for additional checks."))
         else mret tt) ;;;
        result <- lift (dispatch env o command) ;;
        on_grpc (fun g => (tt, (GRPC.CleanupGRPC g).2)) ;;;
        mret result
  end.

End HeadlessCli.

(** ** Properties of the headless front end *)

Module HeadlessCliFacts.
Import NekoService Lifecycle Cli CliFacts HeadlessCli.

(** A service call's result and the lines its signals printed. *)
Lemma call_run {A} (m : M Sys A) sw out a sw' :
  m sw = Returns (a, sw') ->
  call m (sw, out) = Returns (a, (sw', out ++ flat_map echo (drop (length (w_events sw.2)) (w_events sw'.2)))).
Proof. destruct sw. simpl. by intros ->. Qed.

(** [CleanupGRPC] of the client [InitializeGRPC] made releases it. *)
Lemma cleanup_fresh : (GRPC.CleanupGRPC (Some GRPC.create)).2 = None.
Proof. reflexivity. Qed.

(** The two lines of the failed safety check. *)
Definition warnings : list Out :=
  [Stderr "Warning: Potentially unsafe environment detected.";
   Stderr "Use --force to bypass or --safe for additional checks."].

(** [run] once [initialize] has returned [true]: the safety gate, then
    the command between [InitializeGRPC] and [CleanupGRPC]. *)
Lemma run_after_initialize env probe o command rest sw out sw1 :
  o_args o = command :: rest ->
  initialize env (o_config o) sw = Returns (true, sw1) ->
  let unsafe := checks_safety o && negb (SafetyUtils.isSafeTestEnvironment probe (w_fs sw1.2)) in
  run env probe o ((sw, out), None) =
    if unsafe && negb (o_force o) then Returns (1, ((sw1, out ++ warnings), Some GRPC.create))
    else match dispatch env o command (sw1, out ++ (if unsafe then warnings else [])) with
         | Returns (r, cs) => Returns (r, (cs, None))
         | Deadlock => Deadlock
         end.
Proof.
  intros Ho Hi unsafe. unfold run. rewrite Ho. destruct sw as [s w].
  cbn [mbind lift svc_unconnected]. rewrite Hi. destruct sw1 as [s1 w1].
  subst unsafe. unfold warnings. cbn. destruct (checks_safety o), (SafetyUtils.isSafeTestEnvironment _ _), (o_force o);
    cbn; rewrite <- ?app_assoc; cbn [app]; try reflexivity;
    rewrite ?app_nil_r; match goal with |- context [dispatch ?e ?o ?c ?st] =>
      destruct (dispatch e o c st) as [[? ?]|] end; reflexivity.
Qed.


(** C6: The safety gate of the headless CLI: with [--safe], or with
    neither [--force] nor [--dry-run], an environment
    [isSafeTestEnvironment] rejects ends the run with exit code 1 after
    the two warnings, before any command runs, and leaves the global
    command channel allocated; otherwise the command runs (after the two
    warnings when [--force] overrides the rejection) and the channel is
    released before [run] returns. *)
Theorem safety_gate env probe o command rest sw out sw1 :
  o_args o = command :: rest ->
  initialize env (o_config o) sw = Returns (true, sw1) ->
  let unsafe := checks_safety o && negb (SafetyUtils.isSafeTestEnvironment probe (w_fs sw1.2)) in
  (unsafe = true -> o_force o = false ->
     run env probe o ((sw, out), None) = Returns (1, ((sw1, out ++ warnings), Some GRPC.create))) /\
  (unsafe && negb (o_force o) = false -> forall r cs,
     dispatch env o command (sw1, out ++ (if unsafe then warnings else [])) = Returns (r, cs) ->
     run env probe o ((sw, out), None) = Returns (r, (cs, None))).
Proof.
  intros Ho Hi unsafe. rewrite (run_after_initialize env probe o command rest sw out sw1 Ho Hi). fold unsafe.
  split; [intros -> ->; reflexivity | intros -> r cs ->; reflexivity].
Qed.

#[local] Arguments loadProfile : simpl never.

(** C34: The dry run of [start] validates nothing but the sign of the
    id: without [--safe] it skips the safety check, prints that it would
    start the proxy with any positive id and exits with 0, while the real
    [start] of an id above 100 fails in [NekoService::loadProfile] and
    exits with 1 (the spec asks the dry run to check the id's range). *)
Theorem dry_run_start_unchecked env probe o a1 rest sw out sw1 :
  o_args o = "start" :: a1 :: rest -> o_dryRun o = true -> o_safe o = false ->
  0 < (qstring_toInt a1).1 ->
  initialize env (o_config o) sw = Returns (true, sw1) ->
  run env probe o ((sw, out), None) =
    Returns (0, ((sw1, out ++ [Stdout ("DRY RUN: Would start proxy with profile " +:+
                   z_to_string (qstring_toInt a1).1 +:+
                   (if o_tun o then " (TUN mode enabled)" else EmptyString))%string]), None)) /\
  (100 < (qstring_toInt a1).1 -> m_locked sw1.1 = false ->
   handleStart env ("start" :: a1 :: rest) (o_tun o) false (sw1, out) =
     Returns (1, ((sw1.1, emit (errorOccurred ("Invalid profile ID: " +:+ z_to_string (qstring_toInt a1).1)%string) sw1.2),
       out ++ [Stdout ("Starting proxy with profile " +:+ z_to_string (qstring_toInt a1).1 +:+ "...")%string;
               Stderr ("Error: Invalid profile ID: " +:+ z_to_string (qstring_toInt a1).1)%string;
               Stderr ("Error: Failed to load profile " +:+ z_to_string (qstring_toInt a1).1)%string]))).
Proof.
  intros Ho Hd Hs Hid Hi. split.
  - rewrite (run_after_initialize env probe o "start" (a1 :: rest) sw out sw1 Ho Hi).
    unfold checks_safety. rewrite Hd, Hs. destruct (o_force o); simpl; unfold dispatch; rewrite Ho; simpl; unfold handleStart;
    rewrite (proj2 (Z.leb_gt _ _) Hid), Hd, app_nil_r; by destruct sw1.
  - intros Hr Hl. destruct sw1 as [s1 w1]. unfold handleStart.
    rewrite (proj2 (Z.leb_gt _ _) Hid). cbn [mbind print].
    rewrite (call_run _ _ _ _ _ (loadProfile_out_of_range (qstring_toInt a1).1 s1 w1 Hl ltac:(lia))).
    simpl. rewrite drop_app_length. unfold fail. simpl. by rewrite <- !app_assoc.
Qed.

(** The signals a service call added to the world. *)
Definition new_events (sw sw' : Sys) : list Event := drop (length (w_events sw.2)) (w_events sw'.2).

(** C12: [start <id>] refines the service: once [loadProfile] has
    succeeded, the exit code is 0 exactly when [startProxy] succeeds, the
    service ends in the state [startProxy] left, and the output is the
    "Starting" line, the slots' lines for the signals of both calls in
    order, then the success line or the error. *)
Theorem start_refines_service env a1 rest sw out sw1 sw2 ok :
  0 < (qstring_toInt a1).1 ->
  loadProfile (qstring_toInt a1).1 sw = Returns (true, sw1) -> startProxy env sw1 = Returns (ok, sw2) ->
  handleStart env ("start" :: a1 :: rest) false false (sw, out) =
    Returns (if ok then 0 else 1,
      (sw2, out ++ [Stdout ("Starting proxy with profile " +:+ z_to_string (qstring_toInt a1).1 +:+ "...")%string]
                ++ flat_map echo (new_events sw sw1) ++ flat_map echo (new_events sw1 sw2)
                ++ [if ok then Stdout "Proxy started successfully" else Stderr "Error: Failed to start proxy"])).
Proof.
  intros Hid Hl Hs. unfold handleStart. rewrite (proj2 (Z.leb_gt _ _) Hid). cbn [mbind].
  destruct sw as [s w]. cbn [print]. rewrite (call_run _ _ _ _ _ Hl). cbn [negb mbind].
  rewrite (call_run _ _ _ _ _ Hs). unfold new_events.
  destruct ok; unfold fail; destruct sw2; simpl; by rewrite <- !app_assoc.
Qed.

(** ** Witnesses on the installation of [Scenario] *)

Definition sw0 : Sys := (Scenario.svc0, Scenario.world0 Scenario.fs_configured).
Definition sw_init : Sys :=
  match initialize Scenario.env_linux Scenario.cfg_dir sw0 with Returns (_, s) => s | Deadlock => sw0 end.

Definition opts (dryRun force : bool) (args : list string) : Options :=
  mkOptions Scenario.cfg_dir false false dryRun force false "8080" args.

Lemma safety_gate_witness :
  o_args (opts false false ["status"]) = ["status"] /\
  initialize Scenario.env_linux Scenario.cfg_dir sw0 = Returns (true, sw_init) /\
  let unsafe := checks_safety (opts false false ["status"]) &&
                negb (SafetyUtils.isSafeTestEnvironment Scenario.probe_laptop (w_fs sw_init.2)) in
  (unsafe = true -> o_force (opts false false ["status"]) = false ->
     run Scenario.env_linux Scenario.probe_laptop (opts false false ["status"]) ((sw0, []), None)
     = Returns (1, ((sw_init, [] ++ warnings), Some GRPC.create))) /\
  (unsafe && negb (o_force (opts false false ["status"])) = false -> forall r cs,
     dispatch Scenario.env_linux (opts false false ["status"]) "status"
       (sw_init, [] ++ (if unsafe then warnings else [])) = Returns (r, cs) ->
     run Scenario.env_linux Scenario.probe_laptop (opts false false ["status"]) ((sw0, []), None)
     = Returns (r, (cs, None))).
Proof.
  split; [reflexivity | split; [vm_compute; reflexivity |]].
  apply (safety_gate _ _ _ _ []); [reflexivity | vm_compute; reflexivity].
Defined.

Lemma dry_run_start_unchecked_witness :
  let o := opts true false ["start"; "150"] in
  o_args o = ["start"; "150"] /\ o_dryRun o = true /\ o_safe o = false /\ 0 < (qstring_toInt "150").1 /\
  initialize Scenario.env_linux (o_config o) sw0 = Returns (true, sw_init) /\
  (run Scenario.env_linux Scenario.probe_laptop o ((sw0, []), None) =
    Returns (0, ((sw_init, [] ++ [Stdout ("DRY RUN: Would start proxy with profile " +:+
                   z_to_string (qstring_toInt "150").1 +:+
                   (if o_tun o then " (TUN mode enabled)" else EmptyString))%string]), None)) /\
  (100 < (qstring_toInt "150").1 -> m_locked sw_init.1 = false ->
   handleStart Scenario.env_linux ["start"; "150"] (o_tun o) false (sw_init, []) =
     Returns (1, ((sw_init.1, emit (errorOccurred ("Invalid profile ID: " +:+ z_to_string (qstring_toInt "150").1)%string) sw_init.2),
       [] ++ [Stdout ("Starting proxy with profile " +:+ z_to_string (qstring_toInt "150").1 +:+ "...")%string;
               Stderr ("Error: Invalid profile ID: " +:+ z_to_string (qstring_toInt "150").1)%string;
               Stderr ("Error: Failed to load profile " +:+ z_to_string (qstring_toInt "150").1)%string])))).
Proof.
  intros o. do 3 (split; [reflexivity|]). do 2 (split; [vm_compute; reflexivity|]).
  apply (dry_run_start_unchecked _ _ o "150" []); first [reflexivity | vm_compute; reflexivity].
Defined.

Lemma start_refines_service_witness :
  let sw1 := match loadProfile 1 (Scenario.svc0, Scenario.world0 Scenario.fs_install) with
             | Returns (_, s) => s | Deadlock => sw0 end in
  let sw2 := match startProxy Scenario.env_linux sw1 with Returns (_, s) => s | Deadlock => sw1 end in
  0 < (qstring_toInt "1").1 /\
  loadProfile (qstring_toInt "1").1 (Scenario.svc0, Scenario.world0 Scenario.fs_install) = Returns (true, sw1) /\
  startProxy Scenario.env_linux sw1 = Returns (true, sw2) /\
  handleStart Scenario.env_linux ["start"; "1"] false false ((Scenario.svc0, Scenario.world0 Scenario.fs_install), []) =
    Returns (0, (sw2, [] ++ [Stdout ("Starting proxy with profile " +:+ z_to_string (qstring_toInt "1").1 +:+ "...")%string]
                ++ flat_map echo (new_events (Scenario.svc0, Scenario.world0 Scenario.fs_install) sw1)
                ++ flat_map echo (new_events sw1 sw2) ++ [Stdout "Proxy started successfully"])).
Proof.
  intros sw1 sw2. split_and!; [vm_compute; reflexivity .. |].
  apply (start_refines_service _ _ _ _ _ sw1 sw2 true); vm_compute; reflexivity.
Defined.

End HeadlessCliFacts.
