(* ===== verification/WebComplete.v ===== *)
(** * The single-file web consoles: [src/nekoray-web-COMPLETE.cpp] and
      [src/nekoray-web-COMPLETE-FIXED.cpp]

    Two programs that serve a web page and a small JSON API on a raw
    [QTcpServer], with their state in globals ([g_...]) and no service
    behind them: [/api/start] sets a flag and a profile id, nothing is
    launched.  The FIXED file differs from the other in three places: the
    page ([getMainHTML]), the way the list of endpoints is built, and one
    more log line in [main].

    The globals are the record [Globals]; [handleRequest] returns the
    bytes it answers, the globals after and the lines logged; the
    [readyRead] lambda of [main] is [onReadyRead].  The request arrives
    as bytes and becomes a [QString] by [QString::fromUtf8]: the model
    decodes it into UTF-16 code units ([fromUtf8]), because the code
    looks the blank line up in the [QString] and cuts the body out of the
    bytes.  Qt's JSON text codec is not modelled ([fromJson], [toJson]
    are parameters, as in [SimpleWeb]); [ts] and [now] are the clock as
    the two [QDateTime] formats print it; the page is the parameter
    [page]. *)

From S2P Require Import Prelude QJson Platform OutputRelay ConfigManager CoreManager TunManager Safety NekoService Cli WebApi SimpleWeb Codec.
From Stdlib Require Import Ascii.

Local Open Scope Z_scope.

(** ** [QString::fromUtf8] and [QString::indexOf] on code units *)

Module QUtf8.

Definition cont (c : ascii) : bool := (128 <=? byte c) && (byte c <? 192).

Definition REPLACEMENT : Z := 65533.

(** [QString::fromUtf8]: the UTF-16 code units of a byte string.  A
    malformed sequence becomes one U+FFFD per byte (Qt's overlong and
    surrogate checks are not modelled: the requests the theorems use are
    well formed). *)
Fixpoint fromUtf8 (s : string) : list Z :=
  match s with
  | EmptyString => []
  | String a s1 =>
      let b := byte a in
      if b <? 128 then b :: fromUtf8 s1
      else if (194 <=? b) && (b <? 224) then
        match s1 with
        | String c1 s2 =>
            if cont c1 then Z.lor (Z.shiftl (Z.land b 31) 6) (Z.land (byte c1) 63) :: fromUtf8 s2
            else REPLACEMENT :: fromUtf8 s1
        | EmptyString => [REPLACEMENT]
        end
      else if (224 <=? b) && (b <? 240) then
        match s1 with
        | String c1 (String c2 s3) =>
            if cont c1 && cont c2 then
              Z.lor (Z.shiftl (Z.land b 15) 12)
                    (Z.lor (Z.shiftl (Z.land (byte c1) 63) 6) (Z.land (byte c2) 63)) :: fromUtf8 s3
            else REPLACEMENT :: fromUtf8 s1
        | _ => REPLACEMENT :: fromUtf8 s1
        end
      else if (240 <=? b) && (b <? 245) then
        match s1 with
        | String c1 (String c2 (String c3 s4)) =>
            if cont c1 && cont c2 && cont c3 then
              let u := Z.lor (Z.shiftl (Z.land b 7) 18)
                         (Z.lor (Z.shiftl (Z.land (byte c1) 63) 12)
                           (Z.lor (Z.shiftl (Z.land (byte c2) 63) 6) (Z.land (byte c3) 63))) - 65536 in
              (55296 + Z.shiftr u 10) :: (56320 + Z.land u 1023) :: fromUtf8 s4
            else REPLACEMENT :: fromUtf8 s1
        | _ => REPLACEMENT :: fromUtf8 s1
        end
      else REPLACEMENT :: fromUtf8 s1
  end.

(** [QString::indexOf(pat)] on code units: the first position, or [-1]. *)
Fixpoint index_of_go (pat s : list Z) (i : Z) : Z :=
  if bool_decide (pat `prefix_of` s) then i
  else match s with
       | [] => -1
       | _ :: s' => index_of_go pat s' (i + 1)
       end.
Definition index_of (pat s : list Z) : Z := index_of_go pat s 0.

(** ["\r\n\r\n"] as code units. *)
Definition double_crlf_units : list Z := [13; 10; 13; 10].

End QUtf8.

(** ** The globals *)

Record Globals : Type := mkGlobals {
  g_corePath : string;
  g_configDir : string;
  g_port : Z;
  g_verbose : bool;
  g_proxyRunning : bool;
  g_tunRunning : bool;
  g_currentProfileId : Z;
  g_currentGroupName : string;
  g_profiles : list QJsonValue;
  g_groups : list QJsonValue;
  g_listening : bool                (** [g_server] listens *)
}.

(** The globals' initial values. *)
Definition globals0 : Globals :=
  mkGlobals EmptyString EmptyString 8080 false false false (-1) "Default" [] [] false.

Definition set_proxy (running : bool) (profileId : Z) (g : Globals) : Globals :=
  mkGlobals (g_corePath g) (g_configDir g) (g_port g) (g_verbose g) running (g_tunRunning g)
            profileId (g_currentGroupName g) (g_profiles g) (g_groups g) (g_listening g).
Definition set_tun (running : bool) (g : Globals) : Globals :=
  mkGlobals (g_corePath g) (g_configDir g) (g_port g) (g_verbose g) (g_proxyRunning g) running
            (g_currentProfileId g) (g_currentGroupName g) (g_profiles g) (g_groups g) (g_listening g).
Definition set_data (groups profiles : list QJsonValue) (g : Globals) : Globals :=
  mkGlobals (g_corePath g) (g_configDir g) (g_port g) (g_verbose g) (g_proxyRunning g)
            (g_tunRunning g) (g_currentProfileId g) (g_currentGroupName g) profiles groups (g_listening g).

(** The parsed command line: [--port] ("8080"), [--host] ("0.0.0.0"),
    [--verbose], [--config]. *)
Record WebOptions : Type := mkWebOptions {
  wo_port : string;
  wo_host : string;
  wo_verbose : bool;
  wo_config : string
}.

(** How [main] ends: [return 1], or [app.exec()] serving requests. *)
Inductive WebRun : Type :=
| WebExit (code : Z)
| WebServing.

(** The header of every JSON answer, up to the length. *)
Definition json_head : string :=
  ("HTTP/1.1 200 OK" +:+ SimpleWeb.crlf +:+
   "Content-Type: application/json; charset=UTF-8" +:+ SimpleWeb.crlf +:+
   "Access-Control-Allow-Origin: *" +:+ SimpleWeb.crlf +:+
   "Content-Length: ")%string.

(** The header of the page, up to the length. *)
Definition html_head : string :=
  ("HTTP/1.1 200 OK" +:+ SimpleWeb.crlf +:+
   "Content-Type: text/html; charset=UTF-8" +:+ SimpleWeb.crlf +:+
   "Content-Length: ")%string.

(** [head + QByteArray::number(content.length()) + "\r\n\r\n" + content]. *)
Definition frame_response (head content : string) : string :=
  (head +:+ z_to_string (Z.of_nat (String.length content)) +:+
   SimpleWeb.crlf +:+ SimpleWeb.crlf +:+ content)%string.

(** "Extract body for POST requests": the position of the blank line in
    the decoded [QString], applied to the bytes by [QByteArray::mid]. *)
Definition request_body (requestData : string) : string :=
  let bodyStart := QUtf8.index_of QUtf8.double_crlf_units (QUtf8.fromUtf8 requestData) in
  if Z.eqb bodyStart (-1) then EmptyString else SimpleWeb.mid requestData (bodyStart + 4).

(** * [src/nekoray-web-COMPLETE.cpp] *)
Module WebComplete.
Section Server.
Context (fromJson : string -> option QJsonValue) (toJson : QJsonObject -> string)
        (ts now page : string).

(** [log(level, message)]: [ERROR] and [INFO] always, the rest when
    verbose; [arg(timestamp, level, message)] fills the three markers at
    once. *)
Definition log (g : Globals) (level message : string) : list Cli.Out :=
  if g_verbose g || String.eqb level "ERROR" || String.eqb level "INFO"
  then [Cli.Stdout ("[" +:+ ts +:+ "] [" +:+ level +:+ "] " +:+ message)%string]
  else [].

Definition defaultGroup : QJsonValue :=
  QObject (obj_build [("id", QDouble 1); ("name", QString "Default"); ("url", QString EmptyString);
                      ("type", QString "subscription")]).

Definition profile1 : QJsonValue :=
  QObject (obj_build [("id", QDouble 1); ("group_id", QDouble 1); ("name", QString "SOCKS5 Profile");
                      ("type", QString "socks"); ("address", QString "127.0.0.1"); ("port", QDouble 1080);
                      ("username", QString EmptyString); ("password", QString EmptyString);
                      ("latency", QDouble 0); ("upload", QDouble 0); ("download", QDouble 0);
                      ("created", QString now)]).

Definition profile2 : QJsonValue :=
  QObject (obj_build [("id", QDouble 2); ("group_id", QDouble 1); ("name", QString "VMess Profile");
                      ("type", QString "vmess"); ("address", QString "example.com"); ("port", QDouble 443);
                      ("uuid", QString "uuid-placeholder"); ("security", QString "auto");
                      ("latency", QDouble 0); ("upload", QDouble 0); ("download", QDouble 0);
                      ("created", QString now)]).

(** [initializeDefaultData()]. *)
Definition initializeDefaultData (g : Globals) : Globals :=
  set_data [defaultGroup] [profile1; profile2] g.

Definition endpoints : QJsonValue :=
  QArray [QString "/"; QString "/api/status"; QString "/api/profiles"; QString "/api/groups";
          QString "/api/start"; QString "/api/stop"; QString "/api/tun/start"; QString "/api/tun/stop"].

(** [handleRequest(method, path, body)]: the bytes answered, the globals
    after, the lines logged.  The method is not looked at. *)
Definition handleRequest (method path body : string) (g : Globals) : string * Globals * list Cli.Out :=
  if String.eqb path "/" || String.eqb path "/index.html" then (frame_response html_head page, g, [])
  else
  let '(response, g', logs) :=
    if String.eqb path "/api/status" then
      (obj_build [("daemon_status", QString "running");
                  ("core_status", QString (if String.eqb (g_corePath g) EmptyString then "not_found" else "ready"));
                  ("core_path", QString (g_corePath g));
                  ("proxy_status", QString (if g_proxyRunning g then "running" else "stopped"));
                  ("tun_status", QString (if g_tunRunning g then "running" else "stopped"));
                  ("current_profile", QDouble (g_currentProfileId g));
                  ("current_group", QString (g_currentGroupName g));
                  ("socks_port", QDouble 2080); ("http_port", QDouble 2081);
                  ("config_dir", QString (g_configDir g))], g, [])
    else if String.eqb path "/api/profiles" then
      (obj_build [("profiles", QArray (g_profiles g)); ("current_group", QString (g_currentGroupName g))], g, [])
    else if String.eqb path "/api/groups" then
      (obj_build [("groups", QArray (g_groups g))], g, [])
    else if String.eqb path "/api/start" then
      let req := match fromJson body with Some doc => doc_object doc | None => [] end in
      let profileId := SimpleWeb.qj_toInt_or 1 (obj_value "profile_id" req) in
      let g' := set_proxy true profileId g in
      (obj_build [("result", QString "success"); ("message", QString "Proxy started successfully");
                  ("profile_id", QDouble profileId); ("socks", QString "127.0.0.1:2080");
                  ("http", QString "127.0.0.1:2081")], g',
       log g' "INFO" (QStr.arg "Proxy started with profile %1" (z_to_string profileId)))
    else if String.eqb path "/api/stop" then
      let g' := set_proxy false (-1) g in
      (obj_build [("result", QString "success"); ("message", QString "Proxy stopped successfully")], g',
       log g' "INFO" "Proxy stopped")
    else if String.eqb path "/api/tun/start" then
      let g' := set_tun true g in
      (obj_build [("result", QString "success"); ("message", QString "TUN mode started successfully")], g',
       log g' "INFO" "TUN mode started")
    else if String.eqb path "/api/tun/stop" then
      let g' := set_tun false g in
      (obj_build [("result", QString "success"); ("message", QString "TUN mode stopped successfully")], g',
       log g' "INFO" "TUN mode stopped")
    else
      (obj_build [("error", QString "Endpoint not found"); ("available_endpoints", endpoints)], g, []) in
  (frame_response json_head (toJson response), g', logs).

(** The [readyRead] lambda: the request line split on spaces (fewer
    than two words: no answer, the socket stays open), the body
    ([request_body]), the answer written, then [disconnectFromHost]. *)
Definition onReadyRead (requestData : string) (g : Globals)
    : Globals * list SimpleWeb.Write * list Cli.Out :=
  match SimpleWeb.split_crlf requestData with
  | [] => (g, [], [])
  | requestLine :: _ =>
      match SimpleWeb.split_space requestLine with
      | method :: path :: _ =>
          let '(response, g', logs) := handleRequest method path (request_body requestData) g in
          (g', [SimpleWeb.Data response; SimpleWeb.Disconnect],
           logs ++ (if g_verbose g' then log g' "DEBUG" (method +:+ " " +:+ path)%string else []))
      | _ => (g, [], [])
      end
  end.

(** The requests of a session, in order: the globals after, what was
    written and what was logged. *)
Fixpoint serve (requests : list string) (g : Globals) : Globals * list SimpleWeb.Write * list Cli.Out :=
  match requests with
  | [] => (g, [], [])
  | r :: rs =>
      let '(g1, w1, o1) := onReadyRead r g in
      let '(g2, w2, o2) := serve rs g1 in
      (g2, w1 ++ w2, o1 ++ o2)
  end.

(** [main] after [parser.process]: the home and application
    directories, the file system and the answer of [listen] are inputs. *)
Definition main (o : WebOptions) (home appDir : string) (fs : FileSystem)
    (listen_ok : bool) (errorString : string) : WebRun * Globals * list Cli.Out :=
  let g := globals0 in
  let g := mkGlobals (g_corePath g)
             (if String.eqb (wo_config o) EmptyString then (home +:+ "/.config/nekoray")%string
              else wo_config o)
             (qstring_toInt (wo_port o)).1 (wo_verbose o) (g_proxyRunning g) (g_tunRunning g)
             (g_currentProfileId g) (g_currentGroupName g) (g_profiles g) (g_groups g) (g_listening g) in
  let g := mkGlobals (find_in_dir Linux appDir fs possibleNames) (g_configDir g) (g_port g)
             (g_verbose g) (g_proxyRunning g) (g_tunRunning g) (g_currentProfileId g)
             (g_currentGroupName g) (g_profiles g) (g_groups g) (g_listening g) in
  let g := initializeDefaultData g in
  if negb listen_ok then
    (WebExit 1, g, [Cli.Stderr ("Failed to start server: " +:+ Cli.quoted errorString)%string])
  else
    let g := mkGlobals (g_corePath g) (g_configDir g) (g_port g) (g_verbose g) (g_proxyRunning g)
               (g_tunRunning g) (g_currentProfileId g) (g_currentGroupName g) (g_profiles g)
               (g_groups g) true in
    (WebServing, g,
     log g "INFO" (QStr.arg (QStr.arg "NekoRay Web Console started on %1:%2" (wo_host o))
                            (z_to_string (g_port g))) ++
     log g "INFO" (QStr.arg "Access: http://localhost:%1" (z_to_string (g_port g)))).

End Server.
End WebComplete.

(** * [src/nekoray-web-COMPLETE-FIXED.cpp] *)
Module WebCompleteFixed.
Section Server.
Context (fromJson : string -> option QJsonValue) (toJson : QJsonObject -> string)
        (ts now page : string).

(** [log(level, message)]: [ERROR] and [INFO] always, the rest when
    verbose; [arg(timestamp, level, message)] fills the three markers at
    once. *)
Definition log (g : Globals) (level message : string) : list Cli.Out :=
  if g_verbose g || String.eqb level "ERROR" || String.eqb level "INFO"
  then [Cli.Stdout ("[" +:+ ts +:+ "] [" +:+ level +:+ "] " +:+ message)%string]
  else [].

Definition defaultGroup : QJsonValue :=
  QObject (obj_build [("id", QDouble 1); ("name", QString "Default"); ("url", QString EmptyString);
                      ("type", QString "subscription")]).

Definition profile1 : QJsonValue :=
  QObject (obj_build [("id", QDouble 1); ("group_id", QDouble 1); ("name", QString "SOCKS5 Profile");
                      ("type", QString "socks"); ("address", QString "127.0.0.1"); ("port", QDouble 1080);
                      ("username", QString EmptyString); ("password", QString EmptyString);
                      ("latency", QDouble 0); ("upload", QDouble 0); ("download", QDouble 0);
                      ("created", QString now)]).

Definition profile2 : QJsonValue :=
  QObject (obj_build [("id", QDouble 2); ("group_id", QDouble 1); ("name", QString "VMess Profile");
                      ("type", QString "vmess"); ("address", QString "example.com"); ("port", QDouble 443);
                      ("uuid", QString "uuid-placeholder"); ("security", QString "auto");
                      ("latency", QDouble 0); ("upload", QDouble 0); ("download", QDouble 0);
                      ("created", QString now)]).

(** [initializeDefaultData()]. *)
Definition initializeDefaultData (g : Globals) : Globals :=
  set_data [defaultGroup] [profile1; profile2] g.

(** [QJsonArray endpoints] and its eight [append]s. *)
Definition endpoints : QJsonValue :=
  QArray (fold_left (fun a e => a ++ [QString e])
            ["/"; "/api/status"; "/api/profiles"; "/api/groups";
             "/api/start"; "/api/stop"; "/api/tun/start"; "/api/tun/stop"] []).

(** [handleRequest(method, path, body)]: the bytes answered, the globals
    after, the lines logged.  The method is not looked at. *)
Definition handleRequest (method path body : string) (g : Globals) : string * Globals * list Cli.Out :=
  if String.eqb path "/" || String.eqb path "/index.html" then (frame_response html_head page, g, [])
  else
  let '(response, g', logs) :=
    if String.eqb path "/api/status" then
      (obj_build [("daemon_status", QString "running");
                  ("core_status", QString (if String.eqb (g_corePath g) EmptyString then "not_found" else "ready"));
                  ("core_path", QString (g_corePath g));
                  ("proxy_status", QString (if g_proxyRunning g then "running" else "stopped"));
                  ("tun_status", QString (if g_tunRunning g then "running" else "stopped"));
                  ("current_profile", QDouble (g_currentProfileId g));
                  ("current_group", QString (g_currentGroupName g));
                  ("socks_port", QDouble 2080); ("http_port", QDouble 2081);
                  ("config_dir", QString (g_configDir g))], g, [])
    else if String.eqb path "/api/profiles" then
      (obj_build [("profiles", QArray (g_profiles g)); ("current_group", QString (g_currentGroupName g))], g, [])
    else if String.eqb path "/api/groups" then
      (obj_build [("groups", QArray (g_groups g))], g, [])
    else if String.eqb path "/api/start" then
      let req := match fromJson body with Some doc => doc_object doc | None => [] end in
      let profileId := SimpleWeb.qj_toInt_or 1 (obj_value "profile_id" req) in
      let g' := set_proxy true profileId g in
      (obj_build [("result", QString "success"); ("message", QString "Proxy started successfully");
                  ("profile_id", QDouble profileId); ("socks", QString "127.0.0.1:2080");
                  ("http", QString "127.0.0.1:2081")], g',
       log g' "INFO" (QStr.arg "Proxy started with profile %1" (z_to_string profileId)))
    else if String.eqb path "/api/stop" then
      let g' := set_proxy false (-1) g in
      (obj_build [("result", QString "success"); ("message", QString "Proxy stopped successfully")], g',
       log g' "INFO" "Proxy stopped")
    else if String.eqb path "/api/tun/start" then
      let g' := set_tun true g in
      (obj_build [("result", QString "success"); ("message", QString "TUN mode started successfully")], g',
       log g' "INFO" "TUN mode started")
    else if String.eqb path "/api/tun/stop" then
      let g' := set_tun false g in
      (obj_build [("result", QString "success"); ("message", QString "TUN mode stopped successfully")], g',
       log g' "INFO" "TUN mode stopped")
    else
      (obj_build [("error", QString "Endpoint not found"); ("available_endpoints", endpoints)], g, []) in
  (frame_response json_head (toJson response), g', logs).

(** The [readyRead] lambda: the request line split on spaces (fewer
    than two words: no answer, the socket stays open), the body
    ([request_body]), the answer written, then [disconnectFromHost]. *)
Definition onReadyRead (requestData : string) (g : Globals)
    : Globals * list SimpleWeb.Write * list Cli.Out :=
  match SimpleWeb.split_crlf requestData with
  | [] => (g, [], [])
  | requestLine :: _ =>
      match SimpleWeb.split_space requestLine with
      | method :: path :: _ =>
          let '(response, g', logs) := handleRequest method path (request_body requestData) g in
          (g', [SimpleWeb.Data response; SimpleWeb.Disconnect],
           logs ++ (if g_verbose g' then log g' "DEBUG" (method +:+ " " +:+ path)%string else []))
      | _ => (g, [], [])
      end
  end.

(** The requests of a session, in order: the globals after, what was
    written and what was logged. *)
Fixpoint serve (requests : list string) (g : Globals) : Globals * list SimpleWeb.Write * list Cli.Out :=
  match requests with
  | [] => (g, [], [])
  | r :: rs =>
      let '(g1, w1, o1) := onReadyRead r g in
      let '(g2, w2, o2) := serve rs g1 in
      (g2, w1 ++ w2, o1 ++ o2)
  end.

(** [main] after [parser.process]: the home and application
    directories, the file system and the answer of [listen] are inputs. *)
Definition main (o : WebOptions) (home appDir : string) (fs : FileSystem)
    (listen_ok : bool) (errorString : string) : WebRun * Globals * list Cli.Out :=
  let g := globals0 in
  let g := mkGlobals (g_corePath g)
             (if String.eqb (wo_config o) EmptyString then (home +:+ "/.config/nekoray")%string
              else wo_config o)
             (qstring_toInt (wo_port o)).1 (wo_verbose o) (g_proxyRunning g) (g_tunRunning g)
             (g_currentProfileId g) (g_currentGroupName g) (g_profiles g) (g_groups g) (g_listening g) in
  let g := mkGlobals (find_in_dir Linux appDir fs possibleNames) (g_configDir g) (g_port g)
             (g_verbose g) (g_proxyRunning g) (g_tunRunning g) (g_currentProfileId g)
             (g_currentGroupName g) (g_profiles g) (g_groups g) (g_listening g) in
  let g := initializeDefaultData g in
  if negb listen_ok then
    (WebExit 1, g, [Cli.Stderr ("Failed to start server: " +:+ Cli.quoted errorString)%string])
  else
    let g := mkGlobals (g_corePath g) (g_configDir g) (g_port g) (g_verbose g) (g_proxyRunning g)
               (g_tunRunning g) (g_currentProfileId g) (g_currentGroupName g) (g_profiles g)
               (g_groups g) true in
    (WebServing, g,
     log g "INFO" (QStr.arg (QStr.arg "NekoRay Web Console started on %1:%2" (wo_host o))
                            (z_to_string (g_port g))) ++
     log g "INFO" (QStr.arg "Access: http://localhost:%1" (z_to_string (g_port g))) ++
     log g "INFO" "Complete GUI functionality migration ready").

End Server.
End WebCompleteFixed.

(** * Properties of the web consoles *)

Module WebCompleteFacts.

(** The bytes of a string as numbers, and the requests made of ASCII
    bytes only. *)
Fixpoint bytes (s : string) : list Z :=
  match s with EmptyString => [] | String c s' => byte c :: bytes s' end.
Definition ascii_only (s : string) : bool := forallb (fun z => z <? 128) (bytes s).

(** No suffix of [s] starts [pat] or is a beginning of [pat]: whatever
    follows [s], no occurrence of [pat] starts inside it. *)
Fixpoint clean (pat s : string) : bool :=
  match s with
  | EmptyString => true
  | String c s' => negb (String.prefix pat s) && negb (String.prefix s pat) && clean pat s'
  end.

(** A request head with five two-byte characters in a header. *)
Definition sample_head : string :=
  ("POST /api/start HTTP/1.1" +:+ SimpleWeb.crlf +:+
   "X-Client: Zürich, München, Genève, Besançon, Malmö")%string.

(** ** UTF-8 and positions *)

Lemma fromUtf8_ascii s : ascii_only s = true -> QUtf8.fromUtf8 s = bytes s.
Proof.
  unfold ascii_only. induction s as [|c s IH]; simpl; [done|].
  intros [Hc Hs]%andb_true_iff. rewrite Hc. f_equal. by apply IH.
Qed.

Lemma byte_inj c d : byte c = byte d -> c = d.
Proof. intros H. by rewrite <- (byte_of_byte c), <- (byte_of_byte d), H. Qed.

Lemma prefix_bytes p s : String.prefix p s = bool_decide (bytes p `prefix_of` bytes s).
Proof.
  revert s. induction p as [|a p IH]; intros [|b s]; simpl.
  1-3: first [done | symmetry; apply bool_decide_true, prefix_nil
               | symmetry; apply bool_decide_false, prefix_nil_not].
  destruct (ascii_dec a b) as [<-|Hab].
  - rewrite IH. apply bool_decide_ext. split; [apply prefix_cons|apply prefix_cons_inv_2].
  - symmetry. apply bool_decide_false. intros H%prefix_cons_inv_1. by apply Hab, byte_inj.
Qed.

(** On ASCII text the position in code units is the position in bytes. *)
Lemma index_of_bytes pat s i :
  QUtf8.index_of_go (bytes pat) (bytes s) i = SimpleWeb.index_of_go pat s i.
Proof.
  revert i. induction s as [|c s IH]; intros i;
    cbn [QUtf8.index_of_go SimpleWeb.index_of_go bytes]; rewrite prefix_bytes; [done|].
  change (bytes (String c s)) with (byte c :: bytes s). case_bool_decide; [done|]. apply IH.
Qed.

Lemma mid_after (a b : string) : SimpleWeb.mid (a +:+ b) (Z.of_nat (String.length a)) = b.
Proof. exact (mid_app a b). Qed.

(** ** The body of a request *)

(** For a request of ASCII bytes, the body handed to
    [QJsonDocument::fromJson] is exactly what follows the first blank
    line: the position found in the decoded [QString] is the position in
    the bytes. *)
Theorem ascii_request_body head body :
  ascii_only (head +:+ SimpleWeb.double_crlf +:+ body) = true ->
  SimpleWeb.index_of SimpleWeb.double_crlf (head +:+ SimpleWeb.double_crlf +:+ body) =
    Z.of_nat (String.length head) ->
  request_body (head +:+ SimpleWeb.double_crlf +:+ body) = body.
Proof.
  intros Ha Hi. unfold request_body. rewrite fromUtf8_ascii by exact Ha.
  change QUtf8.double_crlf_units with (bytes SimpleWeb.double_crlf).
  unfold QUtf8.index_of. rewrite index_of_bytes. unfold SimpleWeb.index_of in Hi. rewrite Hi.
  rewrite (proj2 (Z.eqb_neq _ _)) by lia.
  replace (head +:+ SimpleWeb.double_crlf +:+ body)%string
    with ((head +:+ SimpleWeb.double_crlf) +:+ body)%string by apply str_app_assoc.
  replace (Z.of_nat (String.length head) + 4)
    with (Z.of_nat (String.length (head +:+ SimpleWeb.double_crlf))) by (rewrite str_length_app; simpl; lia).
  apply mid_after.
Qed.

(** C31: The body is cut at the wrong place when a header is not ASCII:
    the blank line is looked up in the decoded [QString], whose
    positions count UTF-16 units, and the position is applied to the
    bytes.  With five two-byte characters in the head, the position is
    five bytes short, and what [QJsonDocument::fromJson] receives starts
    with the last byte of the head (the second byte of the final [ö])
    and the blank line, whatever the body: not a JSON document. *)
Theorem non_ascii_header_shifts_body body :
  SimpleWeb.index_of SimpleWeb.double_crlf (sample_head +:+ SimpleWeb.double_crlf +:+ body) =
    Z.of_nat (String.length sample_head) /\
  request_body (sample_head +:+ SimpleWeb.double_crlf +:+ body) =
    String "182"%char (SimpleWeb.double_crlf +:+ body).
Proof.
  split; [destruct body; vm_compute; reflexivity|]. unfold request_body.
  replace (QUtf8.index_of QUtf8.double_crlf_units (QUtf8.fromUtf8 (sample_head +:+ SimpleWeb.double_crlf +:+ body)))
    with 76 by (destruct body; vm_compute; reflexivity).
  replace (sample_head +:+ SimpleWeb.double_crlf +:+ body)%string
    with (String.substring 0 80 sample_head +:+ String "182"%char (SimpleWeb.double_crlf +:+ body))%string
    by reflexivity.
  apply (mid_after (String.substring 0 80 sample_head)).
Qed.

(** ** Framing of the answers *)

Lemma prefix_self p s : String.prefix p (p +:+ s) = true.
Proof.
  induction p as [|a p IH]; simpl; [by destruct s|].
  destruct (ascii_dec a a); [exact IH|done].
Qed.

Lemma prefix_app_false p t x :
  String.prefix p t = false -> String.prefix t p = false -> String.prefix p (t +:+ x) = false.
Proof.
  revert p. induction t as [|c t IH]; intros [|a p]; simpl; try done.
  destruct (ascii_dec a c) as [->|]; [|done].
  destruct (ascii_dec c c); [apply IH|done].
Qed.

Lemma index_of_go_clean pat hd x i :
  clean pat hd = true ->
  SimpleWeb.index_of_go pat (hd +:+ x) i = SimpleWeb.index_of_go pat x (i + Z.of_nat (String.length hd)).
Proof.
  revert i. induction hd as [|c hd IH]; intros i Hc; [simpl; by rewrite Z.add_0_r|].
  cbn [clean] in Hc. apply andb_true_iff in Hc as [[H1 H2]%andb_true_iff H3].
  apply negb_true_iff in H1, H2.
  pose proof (prefix_app_false _ (String c hd) x H1 H2) as Hf.
  change (String c hd +:+ x)%string with (String c (hd +:+ x)) in Hf |- *.
  cbn [SimpleWeb.index_of_go]. rewrite Hf.
  rewrite IH by done. f_equal. simpl. lia.
Qed.

Lemma clean_cons a pat c s : a <> c -> clean (String a pat) (String c s) = clean (String a pat) s.
Proof.
  intros Hac. cbn [clean String.prefix].
  destruct (ascii_dec a c); [contradiction|]. destruct (ascii_dec c a); [congruence|done].
Qed.

Lemma clean_digits n : 0 <= n -> clean SimpleWeb.double_crlf (z_to_string n) = true.
Proof.
  intros Hn. generalize (number_digits n Hn). generalize (z_to_string n) as s.
  induction s as [|c s IH]; [done|]. cbn [str_forall]. intros [Hc Hs]%andb_true_iff.
  change SimpleWeb.double_crlf
    with (String SimpleWeb.cr (String SimpleWeb.lf (String SimpleWeb.cr (String SimpleWeb.lf EmptyString)))).
  rewrite clean_cons; [exact (IH Hs)|]. intros <-. discriminate Hc.
Qed.

(** The first blank line of a frame_response answer ends its head. *)
Lemma framed_index head content :
  clean SimpleWeb.double_crlf head = true ->
  SimpleWeb.index_of SimpleWeb.double_crlf (frame_response head content) =
    Z.of_nat (String.length (head +:+ z_to_string (Z.of_nat (String.length content)))).
Proof.
  intros Hh. unfold SimpleWeb.index_of, frame_response.
  rewrite index_of_go_clean by exact Hh.
  rewrite index_of_go_clean by (apply clean_digits; lia).
  replace (SimpleWeb.crlf +:+ SimpleWeb.crlf +:+ content)%string
    with (SimpleWeb.double_crlf +:+ content)%string by reflexivity.
  destruct SimpleWeb.double_crlf eqn:E; [discriminate|]. rewrite <- E. simpl.
  rewrite E, <- E, prefix_self, str_length_app. lia.
Qed.

Lemma framed_spec hd content :
  clean SimpleWeb.double_crlf hd = true ->
  SimpleWeb.mid (frame_response hd content) (SimpleWeb.index_of SimpleWeb.double_crlf (frame_response hd content) + 4) = content.
Proof.
  intros Hc. rewrite framed_index by exact Hc. unfold frame_response.
  set (h := (hd +:+ z_to_string (Z.of_nat (String.length content)))%string).
  replace (hd +:+ z_to_string (Z.of_nat (String.length content)) +:+ SimpleWeb.crlf +:+ SimpleWeb.crlf +:+ content)%string
    with ((h +:+ SimpleWeb.double_crlf) +:+ content)%string
    by (subst h; unfold SimpleWeb.double_crlf; rewrite <- !str_app_assoc; reflexivity).
  replace (Z.of_nat (String.length h) + 4) with (Z.of_nat (String.length (h +:+ SimpleWeb.double_crlf)))
    by (rewrite str_length_app; simpl; lia).
  apply mid_after.
Qed.


(** ** The two files *)

Lemma serve_fixed fromJson toJson ts page reqs g :
  WebCompleteFixed.serve fromJson toJson ts page reqs g = WebComplete.serve fromJson toJson ts page reqs g.
Proof. reflexivity. Qed.

(** C27: The FIXED console is the other one with one more log line: on
    the same command line and installation its [main] ends the same way
    with the same globals and prints the same lines, then "Complete GUI
    functionality migration ready" when it serves; and on every sequence
    of requests the two write the same bytes, log the same lines and
    reach the same globals (the list of endpoints built by eight
    [append]s is the literal list), given the same page. *)
Theorem fixed_console_equivalent fromJson toJson ts now page o home appDir fs listen_ok errorString :
  (let '(r, g, out) := WebComplete.main ts now o home appDir fs listen_ok errorString in
   WebCompleteFixed.main ts now o home appDir fs listen_ok errorString =
     (r, g, out ++ (if listen_ok then WebComplete.log ts g "INFO" "Complete GUI functionality migration ready"
                    else []))) /\
  (forall reqs g, WebCompleteFixed.serve fromJson toJson ts page reqs g =
                  WebComplete.serve fromJson toJson ts page reqs g).
Proof.
  split; [|apply serve_fixed].
  unfold WebComplete.main, WebCompleteFixed.main. destruct listen_ok; simpl; [|done].
  by rewrite <- app_assoc.
Qed.

(** ** The state of a session *)

(** What every request keeps: the data [initializeDefaultData] set, the
    settings [main] set, and a stopped proxy has no profile. *)
Definition session_inv (g0 g : Globals) : Prop :=
  g_profiles g = g_profiles g0 /\ g_groups g = g_groups g0 /\ g_corePath g = g_corePath g0 /\
  g_configDir g = g_configDir g0 /\ g_verbose g = g_verbose g0 /\ g_listening g = g_listening g0 /\
  (g_proxyRunning g = false -> g_currentProfileId g = -1).

Lemma handleRequest_inv fromJson toJson ts page method path body g0 g :
  session_inv g0 g -> session_inv g0 (WebComplete.handleRequest fromJson toJson ts page method path body g).1.2.
Proof.
  intros Hi. pose proof Hi as (H1 & H2 & H3 & H4 & H5 & H6 & H7). unfold WebComplete.handleRequest.
  destruct (_ || _); [exact Hi|].
  lazymatch goal with
  | |- context [match ?X with (_, _) => _ end] =>
      assert (HX : session_inv g0 X.1.2); [|destruct X as [[r g'] l]; exact HX]
  end.
  repeat case_match; unfold session_inv; simpl; split_and!; first [done | intros; congruence | auto].
Qed.

Lemma onReadyRead_inv fromJson toJson ts page r g0 g :
  session_inv g0 g -> session_inv g0 (WebComplete.onReadyRead fromJson toJson ts page r g).1.1.
Proof.
  intros Hi. unfold WebComplete.onReadyRead.
  destruct (SimpleWeb.split_crlf r) as [|line ?]; [exact Hi|].
  destruct (SimpleWeb.split_space line) as [|m [|p ?]]; [exact Hi|exact Hi|].
  pose proof (handleRequest_inv fromJson toJson ts page m p (request_body r) g0 g Hi) as HX.
  destruct (WebComplete.handleRequest _ _ _ _ _ _ _ _) as [[resp g'] logs]. exact HX.
Qed.

Lemma serve_inv fromJson toJson ts page reqs g0 g :
  session_inv g0 g -> session_inv g0 (WebComplete.serve fromJson toJson ts page reqs g).1.1.
Proof.
  revert g. induction reqs as [|r reqs IH]; intros g Hi; simpl; [done|].
  pose proof (onReadyRead_inv fromJson toJson ts page r g0 g Hi) as H1.
  destruct (WebComplete.onReadyRead _ _ _ _ r g) as [[g1 w1] o1]. simpl in H1.
  specialize (IH g1 H1). destruct (WebComplete.serve _ _ _ _ reqs g1) as [[g2 w2] o2]. exact IH.
Qed.

(** Whatever requests a session of the console receives, in any
    order and with any method, the profiles and groups stay the two
    default profiles and the default group [initializeDefaultData] made,
    the core path, directory and verbosity stay those [main] set, and
    whenever the proxy is reported stopped no profile is current. *)
Theorem session_keeps_data fromJson toJson ts now page o home appDir fs errorString reqs g0 out0 :
  WebComplete.main ts now o home appDir fs true errorString = (WebServing, g0, out0) ->
  let g := (WebComplete.serve fromJson toJson ts page reqs g0).1.1 in
  g_profiles g = [WebComplete.profile1 now; WebComplete.profile2 now] /\
  g_groups g = [WebComplete.defaultGroup] /\
  g_configDir g = (if String.eqb (wo_config o) EmptyString then (home +:+ "/.config/nekoray")%string
                   else wo_config o) /\
  (g_proxyRunning g = false -> g_currentProfileId g = -1).
Proof.
  intros Hm g. unfold WebComplete.main in Hm. simpl in Hm. injection Hm as <- _.
  destruct (serve_inv fromJson toJson ts page reqs
              (mkGlobals (find_in_dir Linux appDir fs possibleNames)
                 (if String.eqb (wo_config o) EmptyString then (home +:+ "/.config/nekoray")%string
                  else wo_config o) (qstring_toInt (wo_port o)).1 (wo_verbose o) false false (-1) "Default"
                 [WebComplete.profile1 now; WebComplete.profile2 now] [WebComplete.defaultGroup] true) _
              ltac:(by split_and!))
    as (H1 & H2 & _ & H4 & _ & _ & H7).
  subst g. split_and!; assumption.
Qed.

Lemma ascii_request_body_witness :
  ascii_only ("POST /api/start HTTP/1.1" +:+ SimpleWeb.double_crlf +:+ "{}")%string = true /\
  SimpleWeb.index_of SimpleWeb.double_crlf ("POST /api/start HTTP/1.1" +:+ SimpleWeb.double_crlf +:+ "{}")%string =
    Z.of_nat (String.length "POST /api/start HTTP/1.1") /\
  request_body ("POST /api/start HTTP/1.1" +:+ SimpleWeb.double_crlf +:+ "{}")%string = "{}"%string.
Proof.
  split_and!; [reflexivity|reflexivity|].
  apply ascii_request_body; reflexivity.
Defined.

Lemma session_keeps_data_witness :
  (WebComplete.main "2026-01-01 00:00:00" "Thu Jan 1 2026" (mkWebOptions "8080" "0.0.0.0" false EmptyString) "/root" "/opt/nekoray" (mkFileSystem {[("/opt/nekoray/sing-box")%string := TextFile []]} ∅ ∅ ∅ ∅) true "busy") = (WebServing, (WebComplete.main "2026-01-01 00:00:00" "Thu Jan 1 2026" (mkWebOptions "8080" "0.0.0.0" false EmptyString) "/root" "/opt/nekoray" (mkFileSystem {[("/opt/nekoray/sing-box")%string := TextFile []]} ∅ ∅ ∅ ∅) true "busy").1.2, (WebComplete.main "2026-01-01 00:00:00" "Thu Jan 1 2026" (mkWebOptions "8080" "0.0.0.0" false EmptyString) "/root" "/opt/nekoray" (mkFileSystem {[("/opt/nekoray/sing-box")%string := TextFile []]} ∅ ∅ ∅ ∅) true "busy").2) /\
  let g := (WebComplete.serve (fun _ => None) (fun _ => EmptyString) "2026-01-01 00:00:00" EmptyString
              ["GET /api/start HTTP/1.1"; "POST /api/stop HTTP/1.1"; "GET /api/tun/start HTTP/1.1"]
              (WebComplete.main "2026-01-01 00:00:00" "Thu Jan 1 2026" (mkWebOptions "8080" "0.0.0.0" false EmptyString) "/root" "/opt/nekoray" (mkFileSystem {[("/opt/nekoray/sing-box")%string := TextFile []]} ∅ ∅ ∅ ∅) true "busy").1.2).1.1 in
  g_profiles g = [WebComplete.profile1 "Thu Jan 1 2026"; WebComplete.profile2 "Thu Jan 1 2026"] /\
  g_groups g = [WebComplete.defaultGroup] /\
  g_configDir g = (if String.eqb (wo_config (mkWebOptions "8080" "0.0.0.0" false EmptyString)) EmptyString then ("/root" +:+ "/.config/nekoray")%string
                   else wo_config (mkWebOptions "8080" "0.0.0.0" false EmptyString)) /\
  (g_proxyRunning g = false -> g_currentProfileId g = -1).
Proof.
  split; [vm_compute; reflexivity|].
  apply (session_keeps_data _ _ _ _ _ _ _ _ _ _ _ _ _ (ltac:(vm_compute; reflexivity) :
           (WebComplete.main "2026-01-01 00:00:00" "Thu Jan 1 2026" (mkWebOptions "8080" "0.0.0.0" false EmptyString) "/root" "/opt/nekoray" (mkFileSystem {[("/opt/nekoray/sing-box")%string := TextFile []]} ∅ ∅ ∅ ∅) true "busy") = (WebServing, (WebComplete.main "2026-01-01 00:00:00" "Thu Jan 1 2026" (mkWebOptions "8080" "0.0.0.0" false EmptyString) "/root" "/opt/nekoray" (mkFileSystem {[("/opt/nekoray/sing-box")%string := TextFile []]} ∅ ∅ ∅ ∅) true "busy").1.2, (WebComplete.main "2026-01-01 00:00:00" "Thu Jan 1 2026" (mkWebOptions "8080" "0.0.0.0" false EmptyString) "/root" "/opt/nekoray" (mkFileSystem {[("/opt/nekoray/sing-box")%string := TextFile []]} ∅ ∅ ∅ ∅) true "busy").2))).
Defined.

End WebCompleteFacts.
