(* ===== verification/Dashboard.v ===== *)
(** * The browser side of the web consoles: the page scripts of
      [src/nekoray-web-COMPLETE.cpp] and [src/nekoray-web-COMPLETE-FIXED.cpp]

    Both consoles serve one page whose script polls the server and drives
    it: [apiCall] fetches an endpoint and parses the answer, [loadStatus]
    fills the four status boxes, [loadProfiles] rebuilds the profile
    table, and the buttons call [startProfile], [stopProxy] and the like.
    The script is modelled as functions over the page ([Page]: the
    script's globals and the parts of the DOM it writes) and the server's
    state, the server being reached through an interface:

    - [JsonText]: the JSON text between the two sides ([toJson] and
      [fromJson] of Qt, [JSON.stringify] and [response.json()] of the
      browser) with the two round-trip laws the page relies on;
    - [Console]: what the page can ask of a server ([request]) and what
      it can observe of it; [ConsoleSpec]: what each endpoint the script
      calls promises.  The client theorems are proved against
      [ConsoleSpec]; [WebComplete.handleRequest] and
      [WebCompleteFixed.handleRequest] discharge it.

    JavaScript values are [QJsonValue]s ([QUndefined] is [undefined]);
    property reads, truthiness, [===], [> 0] and the text a value gives in
    a string are written out for them.  A row of the table is kept as its
    cells' text and the arguments of its buttons, not as its markup.
    Each handler runs to completion before the next event (the [await]s
    of two handlers do not interleave). *)

From S2P Require Import Prelude QJson Platform OutputRelay ConfigManager CoreManager TunManager Safety NekoService Cli WebApi SimpleWeb Codec WebComplete.
From stdpp Require Import countable.
From Stdlib Require Import Ascii.

Local Open Scope Z_scope.

(** ** JavaScript values *)

(** [null] and [undefined]: reading a property of them throws. *)
Definition js_nullish (v : QJsonValue) : bool :=
  match v with QNull | QUndefined => true | _ => false end.

(** [v.k] on a value that is not nullish. *)
Definition js_prop (v : QJsonValue) (k : string) : QJsonValue :=
  match v with QObject o => obj_value k o | _ => QUndefined end.

(** [if (v)]. *)
Definition js_truthy (v : QJsonValue) : bool :=
  match v with
  | QNull | QUndefined => false
  | QBool b => b
  | QDouble n => negb (n =? 0)
  | QString s => negb (String.eqb s EmptyString)
  | QArray _ | QObject _ => true
  end.

(** [a === b]: two objects or arrays read from two answers are never
    the same reference. *)
Definition js_strict_eq (a b : QJsonValue) : bool :=
  match a, b with
  | QUndefined, QUndefined | QNull, QNull => true
  | QBool x, QBool y => Bool.eqb x y
  | QDouble x, QDouble y => x =? y
  | QString x, QString y => String.eqb x y
  | _, _ => false
  end.

(** [v > 0]; a string is read as a decimal integer ([NaN] otherwise),
    an array or an object as not positive. *)
Definition js_gt0 (v : QJsonValue) : bool :=
  match v with
  | QDouble n => 0 <? n
  | QBool b => b
  | QString s => let '(n, ok) := qstring_toInt s in ok && (0 <? n)
  | _ => false
  end.

(** The text of a value in a template literal or after [+ '']. *)
Fixpoint js_text (v : QJsonValue) : string :=
  match v with
  | QUndefined => "undefined"
  | QNull => "null"
  | QBool b => if b then "true" else "false"
  | QDouble n => z_to_string n
  | QString s => s
  | QObject _ => "[object Object]"
  | QArray l =>
      (fix join (l : list QJsonValue) : string :=
         match l with
         | [] => EmptyString
         | [x] => if js_nullish x then EmptyString else js_text x
         | x :: l' => ((if js_nullish x then EmptyString else js_text x) +:+ "," +:+ join l')%string
         end) l
  end.

(** ** The JSON text between server and browser *)

Class JsonText : Type := {
  qt_toJson : QJsonObject -> string;            (** [QJsonDocument(obj).toJson()] *)
  qt_fromJson : string -> option QJsonValue;    (** [QJsonDocument::fromJson] *)
  js_stringify : QJsonObject -> string;         (** [JSON.stringify] *)
  js_parse : string -> option QJsonValue;       (** [response.json()] *)
  js_parse_error : string;                      (** the message of its [SyntaxError] *)
  js_parse_qt : forall o, js_parse (qt_toJson o) = Some (QObject o);
  qt_parse_js : forall o, qt_fromJson (js_stringify o) = Some (QObject o)
}.

(** ** What the page asks of a server *)

Class Console (S : Type) : Type := {
  request : string -> string -> string -> S -> string * S;   (** method, path, body *)
  core_ready : S -> bool;
  proxy_running : S -> bool;
  tun_running : S -> bool;
  current_profile : S -> Z;
  profiles : S -> list QJsonValue
}.

(** The body of an HTTP answer: what follows the blank line. *)
Definition http_body (answer : string) : string :=
  SimpleWeb.mid answer (SimpleWeb.index_of SimpleWeb.double_crlf answer + 4).

Section Api.
Context `{JsonText}.

(** What [response.json()] resolves to, or the object [apiCall]'s
    [catch] returns. *)
Definition answer_of (answer : string) : QJsonValue :=
  match js_parse (http_body answer) with
  | Some v => v
  | None => QObject [("error", QString js_parse_error)]
  end.

(** An answer object with the given entries and no [error]. *)
Definition answers (v : QJsonValue) (entries : list (string * QJsonValue)) : Prop :=
  exists o, v = QObject o /\ obj_value "error" o = QUndefined /\
    Forall (fun kv => obj_value kv.1 o = kv.2) entries.

(** The state after a command: the named observations changed, the
    others kept. *)
Definition keeps {S} `{Console S} (s s' : S) : Prop :=
  core_ready s' = core_ready s /\ profiles s' = profiles s.

Class ConsoleSpec (S : Type) `{Console S} : Prop := {
  spec_status : forall m b s,
    (request m "/api/status" b s).2 = s /\
    answers (answer_of (request m "/api/status" b s).1)
      [("core_status", QString (if core_ready s then "ready" else "not_found"));
       ("proxy_status", QString (if proxy_running s then "running" else "stopped"));
       ("tun_status", QString (if tun_running s then "running" else "stopped"));
       ("current_profile", QDouble (current_profile s))];
  spec_profiles : forall m b s,
    (request m "/api/profiles" b s).2 = s /\
    answers (answer_of (request m "/api/profiles" b s).1) [("profiles", QArray (profiles s))];
  spec_start : forall m id s, INT_MIN <= id <= INT_MAX ->
    let r := request m "/api/start" (js_stringify (obj_build [("profile_id", QDouble id)])) s in
    answers (answer_of r.1) [("result", QString "success")] /\ keeps s r.2 /\
    proxy_running r.2 = true /\ current_profile r.2 = id /\ tun_running r.2 = tun_running s;
  spec_start_runs : forall m b s, proxy_running (request m "/api/start" b s).2 = true;
  spec_stop : forall m b s,
    let r := request m "/api/stop" b s in
    answers (answer_of r.1) [("result", QString "success")] /\ keeps s r.2 /\
    proxy_running r.2 = false /\ current_profile r.2 = -1 /\ tun_running r.2 = tun_running s;
  spec_tun : forall m b s (up : bool),
    let r := request m (if up then "/api/tun/start" else "/api/tun/stop") b s in
    answers (answer_of r.1) [("result", QString "success")] /\ keeps s r.2 /\
    tun_running r.2 = up /\ proxy_running r.2 = proxy_running s /\ current_profile r.2 = current_profile s
}.

End Api.

(** ** The page *)

(** A button: its label, the function its [onclick] calls and the
    argument text. *)
Abbreviation Button := (string * (string * string))%type.

(** A row of [profilesTableBody]: an empty row ([insertRow()], then a
    throw while its [innerHTML] was computed), or the text of its cells
    and its buttons (label and the argument text of the call). *)
Inductive Row : Type :=
| RowEmpty
| RowCells (name type endpoint : string) (active : bool) (latency : string)
           (buttons : list Button).

(** The script's globals and what it writes into the DOM: the text and
    class of the three status boxes, the current profile's text, the
    table's rows, and the [alert]s shown. *)
Record Page : Type := mkPage {
  p_section : string;
  p_statusData : QJsonValue;
  p_profilesData : QJsonValue;
  p_core : string * string;
  p_proxy : string * string;
  p_tun : string * string;
  p_current : string;
  p_rows : list Row;
  p_alerts : list string
}.

Definition set_rows (pd : QJsonValue) (rows : list Row) (p : Page) : Page :=
  mkPage (p_section p) (p_statusData p) pd (p_core p) (p_proxy p) (p_tun p) (p_current p) rows (p_alerts p).
Definition set_section (section : string) (p : Page) : Page :=
  mkPage section (p_statusData p) (p_profilesData p) (p_core p) (p_proxy p) (p_tun p) (p_current p)
         (p_rows p) (p_alerts p).
Definition alert (msg : string) (p : Page) : Page :=
  mkPage (p_section p) (p_statusData p) (p_profilesData p) (p_core p) (p_proxy p) (p_tun p) (p_current p)
         (p_rows p) (p_alerts p ++ [msg]).

(** The body of [loadStatus] after its guard: [statusData] and the four
    boxes. *)
Definition show_status (status : QJsonValue) (p : Page) : Page :=
  let core := js_strict_eq (js_prop status "core_status") (QString "ready") in
  let proxy := js_strict_eq (js_prop status "proxy_status") (QString "running") in
  let tun := js_strict_eq (js_prop status "tun_status") (QString "running") in
  let cur := js_prop status "current_profile" in
  mkPage (p_section p) status (p_profilesData p)
    (if core then "Ready" else "Not Found", ("status-value " +:+ if core then "ready" else "stopped")%string)
    (if proxy then "Running" else "Stopped", ("status-value " +:+ if proxy then "running" else "stopped")%string)
    (if tun then "Running" else "Stopped", ("status-value " +:+ if tun then "running" else "stopped")%string)
    (if js_gt0 cur then ("Profile " +:+ js_text cur)%string else "None")
    (p_rows p) (p_alerts p).

(** The [forEach] of [loadProfiles]: one row per profile; a profile that
    is [null] or whose [type] is not a string ([toUpperCase] throws)
    leaves an empty row and ends the loop ([false]). *)
Fixpoint render_rows (buttons : QJsonValue -> list Button) (statusData : QJsonValue)
    (l : list QJsonValue) : list Row * bool :=
  match l with
  | [] => ([], true)
  | profile :: l' =>
      if js_nullish profile then ([RowEmpty], false) else
      match js_prop profile "type" with
      | QString t =>
          let row := RowCells (js_text (js_prop profile "name")) (Cli.qstring_toUpper t)
                       (js_text (js_prop profile "address") +:+ ":" +:+ js_text (js_prop profile "port"))%string
                       (js_strict_eq (js_prop profile "id") (js_prop statusData "current_profile"))
                       (js_text (js_prop profile "latency") +:+ "ms")%string
                       (buttons (js_prop profile "id")) in
          let '(rows, ok) := render_rows buttons statusData l' in (row :: rows, ok)
      | _ => ([RowEmpty], false)
      end
  end.

(** A handler's run: the page, the server, and whether it returned
    ([false]: an exception ended it). *)
Abbreviation JsRun S := (Page * S * bool)%type.

Section Script.
Context `{JsonText} {S : Type} `{Console S}.

(** [apiCall(endpoint, method, data)]: the body is [JSON.stringify(data)]
    when there is data. *)
Definition apiCall (endpoint method : string) (data : option QJsonObject) (s : S) : QJsonValue * S :=
  let r := request method endpoint (match data with Some d => js_stringify d | None => EmptyString end) s in
  (answer_of r.1, r.2).

(** [loadStatus()]. *)
Definition loadStatus (p : Page) (s : S) : JsRun S :=
  let '(status, s') := apiCall "/api/status" "GET" None s in
  if js_nullish status then (p, s', false) else
  if js_truthy (js_prop status "error") then (p, s', true) else
  (show_status status p, s', true).

(** [loadProfiles()], with the buttons of each row. *)
Definition loadProfiles (buttons : QJsonValue -> list Button) (p : Page) (s : S) : JsRun S :=
  let '(profiles, s') := apiCall "/api/profiles" "GET" None s in
  if js_nullish profiles then (p, s', false) else
  if js_truthy (js_prop profiles "error") then (p, s', true) else
  let pd := let v := js_prop profiles "profiles" in if js_truthy v then v else QArray [] in
  match pd with
  | QArray l => let '(rows, ok) := render_rows buttons (p_statusData p) l in (set_rows pd rows p, s', ok)
  | _ => (set_rows pd [] p, s', false)
  end.

(** [await loadStatus(); await loadProfiles();]: the second runs only if
    the first returned. *)
Definition reload (buttons : QJsonValue -> list Button) (p : Page) (s : S) : JsRun S :=
  let '(p1, s1, ok) := loadStatus p s in
  if ok then loadProfiles buttons p1 s1 else (p1, s1, false).

(** A command: [apiCall(endpoint, 'POST', data)], then, on
    [result.result === 'success'], the refresh [after]. *)
Definition command (endpoint : string) (data : option QJsonObject)
    (after : Page -> S -> JsRun S) (p : Page) (s : S) : JsRun S :=
  let '(result, s1) := apiCall endpoint "POST" data s in
  if js_nullish result then (p, s1, false) else
  if js_strict_eq (js_prop result "result") (QString "success") then after p s1 else (p, s1, true).

Definition profile_id_body (id : Z) : QJsonObject := obj_build [("profile_id", QDouble id)].

End Script.

(** How the argument text of an [onclick] call evaluates: an integer
    literal, [undefined] or [null]; any other text is an identifier that
    is not defined ([None]: a [ReferenceError]). *)
Definition js_arg (arg : string) : option QJsonValue :=
  if String.eqb arg "undefined" then Some QUndefined
  else if String.eqb arg "null" then Some QNull
  else let '(n, ok) := qstring_toInt arg in if ok then Some (QDouble n) else None.

(** The body [{profile_id: id}] of [startProfile(id)]: [JSON.stringify]
    leaves out an [undefined] member. *)
Definition start_data (id : QJsonValue) : QJsonObject :=
  match id with QUndefined => [] | _ => [("profile_id", id)] end.

(** The buttons of a row. *)
Definition row_buttons (r : Row) : list Button :=
  match r with RowCells _ _ _ _ _ bs => bs | RowEmpty => [] end.

(** * The page of [nekoray-web-COMPLETE.cpp] *)
Module CompletePage.
Section Script.
Context `{JsonText} {S : Type} `{Console S}.

(** The page as served: the boxes' initial text and class. *)
Definition page0 : Page :=
  mkPage "profiles" (QObject []) (QArray []) ("Ready", "status-value") ("Stopped", "status-value")
         ("Stopped", "status-value") "None" [] [].

(** The buttons of a row (the template literal of [loadProfiles]). *)
Definition buttons (id : QJsonValue) : list Button :=
  [("Start", ("startProfile", js_text id)); ("Edit", ("editProfile", js_text id));
   ("Delete", ("deleteProfile", js_text id))].

(** The buttons and menu items of the markup. *)
Definition markup : list Button :=
  [("Profiles", ("showSection", "profiles")); ("Groups", ("showSection", "groups"));
   ("Settings", ("showSection", "settings")); ("Routes", ("showSection", "routes"));
   ("Logs", ("showSection", "logs")); ("About", ("showSection", "about"));
   ("Add Profile", ("addProfile", EmptyString)); ("Import from Clipboard", ("importFromClipboard", EmptyString));
   ("Update All Groups", ("updateAllGroups", EmptyString)); ("Add Group", ("addGroup", EmptyString));
   ("Save Settings", ("saveSettings", EmptyString))].

(** The functions the script defines. *)
Definition functions : list string :=
  ["showSection"; "apiCall"; "loadStatus"; "loadProfiles"; "startProfile"; "stopProxy"; "init";
   "addProfile"; "editProfile"; "deleteProfile"; "importFromClipboard"; "updateAllGroups";
   "loadGroups"; "loadLogs"; "saveSettings"].

(** [showSection(section)]: [loadGroups] and [loadLogs] only log to the
    console. *)
Definition showSection (section : string) (p : Page) (s : S) : JsRun S :=
  let p1 := set_section section p in
  if String.eqb section "profiles" then loadProfiles buttons p1 s else (p1, s, true).

(** [startProfile(id)]. *)
Definition startProfile (id : QJsonValue) : Page -> S -> JsRun S :=
  command "/api/start" (Some (start_data id)) (reload buttons).

(** [stopProxy()]. *)
Definition stopProxy : Page -> S -> JsRun S := command "/api/stop" None (reload buttons).

(** [init()]: the timer is set once both loads have returned. *)
Definition init : Page -> S -> JsRun S := reload buttons.

(** The timer's callback every 5 s: neither call is awaited, so a throw
    of the first does not stop the second. *)
Definition tick (p : Page) (s : S) : JsRun S :=
  let '(p1, s1, _) := loadStatus p s in
  if String.eqb (p_section p1) "profiles" then loadProfiles buttons p1 s1 else (p1, s1, true).

(** An [onclick] call: [None] when the function is not defined. *)
Definition call (f arg : string) : option (Page -> S -> JsRun S) :=
  if String.eqb f "showSection" then Some (showSection arg)
  else if String.eqb f "startProfile" then option_map startProfile (js_arg arg)
  else if String.eqb f "stopProxy" then Some stopProxy
  else if String.eqb f "addProfile" then Some (fun p s => (alert "Add profile functionality will be implemented" p, s, true))
  else if String.eqb f "editProfile" then
    option_map (fun id p s => (alert ("Edit profile " +:+ js_text id +:+ " functionality will be implemented")%string p, s, true)) (js_arg arg)
  else if String.eqb f "deleteProfile" then
    option_map (fun id p s => (alert ("Delete profile " +:+ js_text id +:+ " functionality will be implemented")%string p, s, true)) (js_arg arg)
  else if String.eqb f "importFromClipboard" then Some (fun p s => (alert "Import from clipboard functionality will be implemented" p, s, true))
  else if String.eqb f "updateAllGroups" then Some (fun p s => (alert "Update all groups functionality will be implemented" p, s, true))
  else if String.eqb f "saveSettings" then Some (fun p s => (alert "Save settings functionality will be implemented" p, s, true))
  else None.

(** What can happen on the page: a click on a button of the markup or of
    a row, the timer, and [init] (which runs once, at load; letting it
    run at any time only adds behaviours). *)
Inductive step : Page * S -> Page * S -> Prop :=
| step_click p s label f arg act p' s' ok :
    In (label, (f, arg)) (markup ++ flat_map row_buttons (p_rows p)) ->
    call f arg = Some act -> act p s = (p', s', ok) -> step (p, s) (p', s')
| step_click_undefined p s label f arg :
    In (label, (f, arg)) (markup ++ flat_map row_buttons (p_rows p)) ->
    call f arg = None -> step (p, s) (p, s)
| step_tick p s p' s' ok : tick p s = (p', s', ok) -> step (p, s) (p', s')
| step_init p s p' s' ok : init p s = (p', s', ok) -> step (p, s) (p', s').

End Script.
End CompletePage.

(** * The page of [nekoray-web-COMPLETE-FIXED.cpp] *)
Module FixedPage.
Section Script.
Context `{JsonText} {S : Type} `{Console S}.

Definition page0 : Page :=
  mkPage "profiles" (QObject []) (QArray []) ("Ready", "status-value ready")
         ("Stopped", "status-value stopped") ("Stopped", "status-value stopped") "None" [] [].

(** The buttons of a row (the concatenation of [loadProfiles]). *)
Definition buttons (id : QJsonValue) : list Button :=
  [("Start", ("startProfile", js_text id)); ("Delete", ("deleteProfile", js_text id))].

Definition markup : list Button :=
  [("Start Proxy", ("startProxy", EmptyString)); ("Stop Proxy", ("stopProxy", EmptyString));
   ("Start TUN", ("startTun", EmptyString)); ("Stop TUN", ("stopTun", EmptyString));
   ("Refresh", ("refreshStatus", EmptyString));
   ("Profiles", ("showSection", "profiles")); ("Groups", ("showSection", "groups"));
   ("Settings", ("showSection", "settings")); ("Routes", ("showSection", "routes"));
   ("Logs", ("showSection", "logs")); ("About", ("showSection", "about"));
   ("Add Profile", ("addProfile", EmptyString)); ("Import from Clipboard", ("importFromClipboard", EmptyString));
   ("Test Latency", ("testLatency", EmptyString)); ("Add Group", ("addGroup", EmptyString));
   ("Update All", ("updateAllGroups", EmptyString)); ("Save Settings", ("saveSettings", EmptyString));
   ("Clear Logs", ("clearLogs", EmptyString))].

Definition functions : list string :=
  ["apiCall"; "showSection"; "loadStatus"; "loadProfiles"; "startProxy"; "stopProxy"; "startTun";
   "stopTun"; "startProfile"; "refreshStatus"; "addProfile"; "deleteProfile"; "importFromClipboard";
   "testLatency"; "addGroup"; "updateAllGroups"; "saveSettings"; "clearLogs"; "init"].

Definition showSection (section : string) (p : Page) (s : S) : JsRun S :=
  let p1 := set_section section p in
  if String.eqb section "profiles" then loadProfiles buttons p1 s else (p1, s, true).

Definition startProfile (id : QJsonValue) : Page -> S -> JsRun S :=
  command "/api/start" (Some (start_data id)) (reload buttons).

(** [startProxy()]: profile 1. *)
Definition startProxy : Page -> S -> JsRun S :=
  command "/api/start" (Some (profile_id_body 1)) (reload buttons).

Definition stopProxy : Page -> S -> JsRun S := command "/api/stop" None (reload buttons).

(** [startTun()], [stopTun()]: only the status is reloaded. *)
Definition startTun : Page -> S -> JsRun S := command "/api/tun/start" None loadStatus.
Definition stopTun : Page -> S -> JsRun S := command "/api/tun/stop" None loadStatus.

Definition init : Page -> S -> JsRun S := reload buttons.

(** [setInterval(loadStatus, 3000)]. *)
Definition tick : Page -> S -> JsRun S := loadStatus.

(** [clearLogs()] empties [logsContent], which the model does not keep. *)
Definition call (f arg : string) : option (Page -> S -> JsRun S) :=
  if String.eqb f "showSection" then Some (showSection arg)
  else if String.eqb f "startProfile" then option_map startProfile (js_arg arg)
  else if String.eqb f "startProxy" then Some startProxy
  else if String.eqb f "stopProxy" then Some stopProxy
  else if String.eqb f "startTun" then Some startTun
  else if String.eqb f "stopTun" then Some stopTun
  else if String.eqb f "refreshStatus" then Some loadStatus
  else if String.eqb f "addProfile" then Some (fun p s => (alert "Add profile: Feature migrated from GUI - will be implemented" p, s, true))
  else if String.eqb f "deleteProfile" then
    option_map (fun id p s => (alert ("Delete profile " +:+ js_text id +:+ ": Feature migrated from GUI")%string p, s, true)) (js_arg arg)
  else if String.eqb f "importFromClipboard" then Some (fun p s => (alert "Import from clipboard: Original GUI feature" p, s, true))
  else if String.eqb f "testLatency" then Some (fun p s => (alert "Test latency: Original GUI feature" p, s, true))
  else if String.eqb f "addGroup" then Some (fun p s => (alert "Add group: Original GUI feature" p, s, true))
  else if String.eqb f "updateAllGroups" then Some (fun p s => (alert "Update all groups: Original GUI feature" p, s, true))
  else if String.eqb f "saveSettings" then Some (fun p s => (alert "Save settings: Original GUI feature" p, s, true))
  else if String.eqb f "clearLogs" then Some (fun p s => (p, s, true))
  else None.

Inductive step : Page * S -> Page * S -> Prop :=
| step_click p s label f arg act p' s' ok :
    In (label, (f, arg)) (markup ++ flat_map row_buttons (p_rows p)) ->
    call f arg = Some act -> act p s = (p', s', ok) -> step (p, s) (p', s')
| step_click_undefined p s label f arg :
    In (label, (f, arg)) (markup ++ flat_map row_buttons (p_rows p)) ->
    call f arg = None -> step (p, s) (p, s)
| step_tick p s p' s' ok : tick p s = (p', s', ok) -> step (p, s) (p', s')
| step_init p s p' s' ok : init p s = (p', s', ok) -> step (p, s) (p', s').

End Script.
End FixedPage.

(** * The two consoles behind the interface *)
Module Servers.
Section Servers.
Context `{JsonText} (ts page : string).

(** [handleRequest] of [nekoray-web-COMPLETE.cpp] seen by the browser:
    the bytes answered and the globals after (the log goes to stdout). *)
#[local] Instance complete_console : Console Globals := {|
  request m path b g := (WebComplete.handleRequest qt_fromJson qt_toJson ts page m path b g).1;
  core_ready g := negb (String.eqb (g_corePath g) EmptyString);
  proxy_running := g_proxyRunning;
  tun_running := g_tunRunning;
  current_profile := g_currentProfileId;
  profiles := g_profiles
|}.

#[local] Instance fixed_console : Console Globals := {|
  request m path b g := (WebCompleteFixed.handleRequest qt_fromJson qt_toJson ts page m path b g).1;
  core_ready g := negb (String.eqb (g_corePath g) EmptyString);
  proxy_running := g_proxyRunning;
  tun_running := g_tunRunning;
  current_profile := g_currentProfileId;
  profiles := g_profiles
|}.

End Servers.
End Servers.

(** * Properties of the pages *)

Module DashboardFacts.
Import WebCompleteFacts.

Section Facts.
Context `{JsonText}.

(** What the browser reads from a framed JSON answer. *)
Lemma answer_framed o : answer_of (frame_response json_head (qt_toJson o)) = QObject o.
Proof.
  unfold answer_of, http_body. rewrite framed_spec by (vm_compute; reflexivity). by rewrite js_parse_qt.
Qed.

Lemma answers_intro o entries :
  obj_value "error" o = QUndefined -> Forall (fun kv => obj_value kv.1 o = kv.2) entries ->
  answers (QObject o) entries.
Proof. intros. by exists o. Qed.

(** [handleRequest] of the COMPLETE console keeps every promise of
    [ConsoleSpec]. *)
Lemma complete_console_spec ts page : @ConsoleSpec _ Globals (Servers.complete_console ts page).
Proof.
  split; intros; cbn [request Servers.complete_console]; unfold WebComplete.handleRequest; simpl.
  - split; [done|]. rewrite answer_framed. apply answers_intro; [reflexivity|].
    repeat constructor; simpl; by repeat case_match.
  - split; [done|]. rewrite answer_framed. apply answers_intro; [reflexivity|]. repeat constructor.
  - rewrite qt_parse_js. simpl. 
    replace ((INT_MIN <=? id) && (id <=? INT_MAX)) with true by (symmetry; apply andb_true_iff; split; apply Z.leb_le; lia).
    rewrite answer_framed. split; [apply answers_intro; [reflexivity | repeat constructor]|].
    unfold keeps. simpl. done.
  - by repeat case_match.
  - rewrite answer_framed. split; [apply answers_intro; [reflexivity | repeat constructor]|]. unfold keeps. simpl. done.
  - destruct up; simpl; rewrite answer_framed; (split; [apply answers_intro; [reflexivity | repeat constructor]|]); unfold keeps; simpl; done.
Qed.

(** So does the FIXED console's: its [handleRequest] is the same function. *)
Lemma fixed_console_spec ts page : @ConsoleSpec _ Globals (Servers.fixed_console ts page).
Proof. exact (complete_console_spec ts page). Qed.


Context {S : Type} {C : Console S} {HS : ConsoleSpec S}.

Lemma answers_elim v entries :
  answers v entries -> exists o, v = QObject o /\ obj_value "error" o = QUndefined /\
    Forall (fun kv => obj_value kv.1 o = kv.2) entries.
Proof. done. Qed.

Lemma loadStatus_spec p s :
  exists o, loadStatus p s = (show_status (QObject o) p, s, true) /\
    obj_value "core_status" o = QString (if core_ready s then "ready" else "not_found") /\
    obj_value "proxy_status" o = QString (if proxy_running s then "running" else "stopped") /\
    obj_value "tun_status" o = QString (if tun_running s then "running" else "stopped") /\
    obj_value "current_profile" o = QDouble (current_profile s).
Proof.
  destruct (spec_status "GET" EmptyString s) as [Hs (o & Ho & He & Hf)].
  exists o. unfold loadStatus, apiCall. simpl. rewrite Ho, Hs. simpl. rewrite He.
  rewrite !list.Forall_cons in Hf. simpl in Hf. destruct Hf as (?&?&?&?&_). by split_and!.
Qed.

Lemma loadProfiles_spec buttons p s :
  loadProfiles buttons p s =
    let '(rows, ok) := render_rows buttons (p_statusData p) (profiles s) in
    (set_rows (QArray (profiles s)) rows p, s, ok).
Proof.
  destruct (spec_profiles "GET" EmptyString s) as [Hs (o & Ho & He & Hf)].
  unfold loadProfiles, apiCall. simpl. rewrite Ho, Hs. simpl. rewrite He.
  rewrite list.Forall_cons in Hf. simpl in Hf. rewrite (proj1 Hf). simpl.
  by destruct (render_rows _ _ _).
Qed.

Lemma render_rows_status buttons sd1 sd2 l :
  js_prop sd1 "current_profile" = js_prop sd2 "current_profile" ->
  render_rows buttons sd1 l = render_rows buttons sd2 l.
Proof. intros E. induction l as [|x l IH]; simpl; [done|]. by rewrite E, IH. Qed.

(** [startProfile(id)] against the interface: the proxy runs with [id],
    the boxes say so and the table is redrawn with [id] as the current
    profile. *)
Lemma start_reload buttons id p s :
  INT_MIN <= id <= INT_MAX ->
  let '(p', s', ok) := command "/api/start" (Some (profile_id_body id)) (reload buttons) p s in
  proxy_running s' = true /\ current_profile s' = id /\ tun_running s' = tun_running s /\
  keeps s s' /\
  p_proxy p' = ("Running", "status-value running") /\
  p_current p' = (if 0 <? id then ("Profile " +:+ z_to_string id)%string else "None") /\
  (p_rows p', ok) = render_rows buttons (QObject [("current_profile", QDouble id)]) (profiles s).
Proof.
  intros Hid. pose proof (spec_start "POST" id s Hid) as Hst. cbv zeta in Hst.
  unfold command, apiCall.
  destruct (request "POST" "/api/start" _ s) as [a s1] eqn:Er. simpl in Hst.
  destruct Hst as ((o & Ho & He & Hf) & [Hk1 Hk2] & Hp & Hc & Ht).
  cbn [fst snd]. rewrite Ho. rewrite list.Forall_cons in Hf. simpl in Hf. cbn [js_nullish js_prop].
  rewrite (proj1 Hf). cbn. unfold reload.
  destruct (loadStatus_spec p s1) as (o1 & -> & _ & Hp1 & _ & Hc1).
  rewrite loadProfiles_spec. cbn [p_statusData show_status].
  rewrite (render_rows_status _ (QObject o1) (QObject [("current_profile", QDouble id)]))
    by (cbn; by rewrite Hc1, Hc).
  rewrite Hk2. destruct (render_rows _ _ _) as [rows ok]. cbn.
  rewrite Hp1, Hp, Hc1, Hc. cbn. unfold keeps. by split_and!.
Qed.

(** The invariant of the COMPLETE page's runs: the proxy runs and no
    row offers a call of [stopProxy]. *)
Definition inv_running (p : Page) (s : S) : Prop :=
  proxy_running s = true /\ Forall (fun b : Button => b.2.1 <> "stopProxy") (flat_map row_buttons (p_rows p)).

Definition keeps_running (f : Page -> S -> JsRun S) : Prop :=
  forall p s p' s' ok, inv_running p s -> f p s = (p', s', ok) -> inv_running p' s'.

Lemma render_rows_buttons buttons sd l :
  (forall id, Forall (fun b : Button => b.2.1 <> "stopProxy") (buttons id)) ->
  Forall (fun b : Button => b.2.1 <> "stopProxy") (flat_map row_buttons (render_rows buttons sd l).1).
Proof.
  intros Hb. induction l as [|x l IH]; simpl; [constructor|].
  destruct (js_nullish x); [simpl; constructor|].
  destruct (js_prop x "type"); simpl; try constructor.
  destruct (render_rows buttons sd l) as [rows ok]. simpl in *. apply Forall_app. auto.
Qed.

Lemma loadStatus_keeps : keeps_running loadStatus.
Proof.
  intros p s p' s' ok Hi E. destruct (loadStatus_spec p s) as (o & E' & _). rewrite E' in E. by simplify_eq.
Qed.

Lemma loadProfiles_keeps buttons :
  (forall id, Forall (fun b : Button => b.2.1 <> "stopProxy") (buttons id)) -> keeps_running (loadProfiles buttons).
Proof.
  intros Hb p s p' s' ok [Hr _] E. rewrite loadProfiles_spec in E.
  pose proof (render_rows_buttons buttons (p_statusData p) (profiles s) Hb) as Hf.
  destruct (render_rows _ _ _) as [rows ok']. simplify_eq. by split.
Qed.

Lemma reload_keeps buttons :
  (forall id, Forall (fun b : Button => b.2.1 <> "stopProxy") (buttons id)) -> keeps_running (reload buttons).
Proof.
  intros Hb p s p' s' ok Hi E. unfold reload in E.
  destruct (loadStatus p s) as [[p1 s1] ok1] eqn:E1. pose proof (loadStatus_keeps _ _ _ _ _ Hi E1).
  destruct ok1; [|by simplify_eq]. exact (loadProfiles_keeps buttons Hb _ _ _ _ _ H0 E).
Qed.

Lemma start_keeps data after : keeps_running after -> keeps_running (command "/api/start" data after).
Proof.
  intros Ha p s p' s' ok [_ Hr] E. unfold command, apiCall in E.
  pose proof (spec_start_runs "POST" (match data with Some d => js_stringify d | None => EmptyString end) s) as Hs.
  destruct (request _ _ _ s) as [a s1]. simpl in E, Hs.
  assert (Hi : inv_running p s1) by done.
  repeat case_match; simplify_eq; eauto.
Qed.

Lemma alert_keeps msg : keeps_running (fun p s => (alert msg p, s, true)).
Proof. intros p s p' s' ok Hi E. by simplify_eq. Qed.

Lemma complete_buttons_ok id : Forall (fun b : Button => b.2.1 <> "stopProxy") (CompletePage.buttons id).
Proof. repeat constructor; discriminate. Qed.

Lemma complete_showSection_keeps section : keeps_running (CompletePage.showSection section).
Proof.
  intros p s p' s' ok Hi E. unfold CompletePage.showSection in E. case_match; [|simplify_eq; exact Hi].
  refine (loadProfiles_keeps _ complete_buttons_ok _ _ _ _ _ _ E). exact Hi.
Qed.

Lemma complete_call_keeps f arg act :
  f <> "stopProxy" -> CompletePage.call f arg = Some act -> keeps_running act.
Proof.
  intros Hf. unfold CompletePage.call.
  pose proof (reload_keeps _ complete_buttons_ok) as Hr.
  repeat (case_match; [rewrite ?String.eqb_eq in *; subst|]); intros; simplify_eq;
    try (destruct (js_arg arg); simpl in *; simplify_eq); try done;
    try apply alert_keeps; try (apply start_keeps; exact Hr); apply complete_showSection_keeps.
Qed.

Lemma complete_markup_ok : Forall (fun b : Button => b.2.1 <> "stopProxy") CompletePage.markup.
Proof. repeat constructor; discriminate. Qed.

Lemma complete_step_keeps p s p' s' :
  CompletePage.step (p, s) (p', s') -> inv_running p s -> inv_running p' s'.
Proof.
  intros Hs Hi. inversion Hs as [? ? label f arg act ? ? ok Hin Hc Ha| ? ? label f arg Hin Hc| ? ? ? ? ok Ht| ? ? ? ? ok Hn]; subst.
  - refine (complete_call_keeps f arg act _ Hc p s p' s' ok Hi Ha).
    apply in_app_or in Hin as [Hin|Hin].
    + exact (proj1 (List.Forall_forall _ _) complete_markup_ok _ Hin).
    + exact (proj1 (List.Forall_forall _ _) (proj2 Hi) _ Hin).
  - done.
  - unfold CompletePage.tick in Ht. destruct (loadStatus p s) as [[p1 s1] ok1] eqn:E1.
    pose proof (loadStatus_keeps _ _ _ _ _ Hi E1) as Hi1.
    case_match; [|simplify_eq; exact Hi1].
    exact (loadProfiles_keeps _ complete_buttons_ok _ _ _ _ _ Hi1 Ht).
  - exact (reload_keeps _ complete_buttons_ok _ _ _ _ _ Hi Hn).
Qed.

(** [stopProxy()] against the interface. *)
Lemma stop_reload buttons p s :
  let '(p', s', ok) := command "/api/stop" None (reload buttons) p s in
  proxy_running s' = false /\ current_profile s' = -1 /\ keeps s s' /\
  p_proxy p' = ("Stopped", "status-value stopped") /\ p_current p' = "None".
Proof.
  pose proof (spec_stop "POST" EmptyString s) as Hst. cbv zeta in Hst.
  unfold command, apiCall. cbn [request].
  destruct (request "POST" "/api/stop" EmptyString s) as [a s1] eqn:Er. simpl in Hst.
  destruct Hst as ((o & Ho & He & Hf) & Hk & Hp & Hc & Ht).
  cbn [fst snd]. rewrite Ho. rewrite list.Forall_cons in Hf. simpl in Hf. cbn [js_nullish js_prop].
  rewrite (proj1 Hf). cbn. unfold reload.
  destruct (loadStatus_spec p s1) as (o1 & -> & _ & Hp1 & _ & Hc1).
  rewrite loadProfiles_spec. destruct (render_rows _ _ _) as [rows ok]. cbn.
  rewrite Hp1, Hp, Hc1, Hc. by split_and!.
Qed.



Lemma complete_rtc_keeps p s p' s' :
  rtc CompletePage.step (p, s) (p', s') -> inv_running p s -> inv_running p' s'.
Proof.
  intros Hr. remember (p, s) as x eqn:Ex. remember (p', s') as y eqn:Ey. revert p s Ex.
  induction Hr as [x|x [p1 s1] z Hst _ IH]; intros p s Ex Hi; subst; [by simplify_eq|].
  exact (IH eq_refl p1 s1 eq_refl (complete_step_keeps _ _ _ _ Hst Hi)).
Qed.

(** C30: Nothing the COMPLETE page lets a user do stops a running proxy:
    its markup has no Stop button and its rows offer Start, Edit and
    Delete, so along any run of clicks, timer ticks and reloads against a
    server that keeps [ConsoleSpec], a proxy that runs keeps running
    ([stopProxy] is defined but never called). *)
Theorem complete_page_never_stops s0 p s :
  rtc CompletePage.step (CompletePage.page0, s0) (p, s) -> proxy_running s0 = true -> proxy_running s = true.
Proof.
  intros Hr H0. apply (complete_rtc_keeps _ _ _ _ Hr). split; [done | constructor].
Qed.

(** The FIXED page, by contrast, has a Stop Proxy button, and one click
    on it stops the proxy and says so. *)
Theorem fixed_stop_button p s :
  In ("Stop Proxy", ("stopProxy", EmptyString)) FixedPage.markup /\
  exists p' s', FixedPage.step (p, s) (p', s') /\ proxy_running s' = false /\
    p_proxy p' = ("Stopped", "status-value stopped").
Proof.
  split; [simpl; tauto|]. pose proof (stop_reload FixedPage.buttons p s) as Hs.
  destruct (command "/api/stop" None (reload FixedPage.buttons) p s) as [[p' s'] ok] eqn:E.
  destruct Hs as (Hp & _ & _ & Hb & _). exists p', s'. split_and!; [|done|done].
  apply (FixedPage.step_click p s "Stop Proxy" "stopProxy" EmptyString FixedPage.stopProxy p' s' ok);
    [apply in_or_app; left; simpl; tauto | reflexivity | exact E].
Qed.

(** The COMPLETE page's Add Group button calls a function its script
    does not define: the click raises a [ReferenceError]. *)
Theorem complete_add_group_undefined :
  In ("Add Group", ("addGroup", EmptyString)) CompletePage.markup /\
  ~ In "addGroup" CompletePage.functions /\ CompletePage.call (S:=S) "addGroup" EmptyString = None.
Proof. split_and!; [simpl; tauto | simpl; intuition discriminate | reflexivity]. Qed.

End Facts.

(** C29: Clicking Start on the COMPLETE console's page: for any id in the
    [int] range, [startProfile(id)] over [handleRequest] leaves the
    server running the proxy with that profile and the profiles kept, the
    proxy box reads Running, the current-profile box reads Profile id (for
    a positive id), and the table is redrawn from the server's profiles
    with exactly the rows whose id is [id] marked Active. *)
Theorem complete_start_click `{JsonText} ts page id p g :
  INT_MIN <= id <= INT_MAX ->
  let '(p', g', ok) := @CompletePage.startProfile _ Globals (Servers.complete_console ts page) (QDouble id) p g in
  g_proxyRunning g' = true /\ g_currentProfileId g' = id /\ g_profiles g' = g_profiles g /\
  p_proxy p' = ("Running", "status-value running") /\
  p_current p' = (if 0 <? id then ("Profile " +:+ z_to_string id)%string else "None") /\
  (p_rows p', ok) = render_rows CompletePage.buttons (QObject [("current_profile", QDouble id)]) (g_profiles g).
Proof.
  intros Hid. pose proof (complete_console_spec ts page) as HS.
  pose proof (start_reload (C:=Servers.complete_console ts page) CompletePage.buttons id p g Hid) as Hs.
  unfold CompletePage.startProfile. cbn [start_data].
  destruct (command _ _ _ p g) as [[p' g'] ok]. unfold keeps in Hs. cbn in Hs.
  destruct Hs as (Hp & Hc & _ & [_ Hk] & Hb & Hcur & Hr). by split_and!.
Qed.


(** ** Examples: a JSON text and the COMPLETE console *)

(** A text for the examples: an injective encoding of the value and its
    decoder, which keeps both laws of [JsonText]. *)
Fixpoint to_tree (v : QJsonValue) : gen_tree (nat + (bool + (Z + string))) :=
  match v with
  | QNull => GenLeaf (inl 0%nat)
  | QUndefined => GenLeaf (inl 1%nat)
  | QBool b => GenLeaf (inr (inl b))
  | QDouble n => GenLeaf (inr (inr (inl n)))
  | QString s => GenLeaf (inr (inr (inr s)))
  | QArray a => GenNode 0 (map to_tree a)
  | QObject o => GenNode 1 (map (fun kv => GenNode 2 [GenLeaf (inr (inr (inr kv.1))); to_tree kv.2]) o)
  end.

Fixpoint of_tree (t : gen_tree (nat + (bool + (Z + string)))) : QJsonValue :=
  match t with
  | GenLeaf (inl 0%nat) => QNull
  | GenLeaf (inl _) => QUndefined
  | GenLeaf (inr (inl b)) => QBool b
  | GenLeaf (inr (inr (inl n))) => QDouble n
  | GenLeaf (inr (inr (inr s))) => QString s
  | GenNode 0 ts => QArray (map of_tree ts)
  | GenNode 1 ts =>
      QObject (map (fun t => match t with
                             | GenNode _ [GenLeaf (inr (inr (inr k))); v] => (k, of_tree v)
                             | _ => (EmptyString, QNull)
                             end) ts)
  | GenNode _ _ => QNull
  end.

Lemma of_to_tree v : of_tree (to_tree v) = v.
Proof.
  revert v. fix IH 1. intros [| | | |a|o|]; simpl; try reflexivity.
  - f_equal. induction a as [|x a IHa]; simpl; [done|]. by rewrite IH, IHa.
  - f_equal. induction o as [|[k x] o IHo]; simpl; [done|]. by rewrite IH, IHo.
Qed.

Fixpoint pos_text (p : positive) : string :=
  match p with
  | xH => "H"
  | xO q => String "O"%char (pos_text q)
  | xI q => String "I"%char (pos_text q)
  end.

Fixpoint text_pos (s : string) : option positive :=
  match s with
  | String "H"%char EmptyString => Some xH
  | String "O"%char r => xO <$> text_pos r
  | String "I"%char r => xI <$> text_pos r
  | _ => None
  end.

Lemma text_pos_text p : text_pos (pos_text p) = Some p.
Proof. induction p; simpl; by rewrite ?IHp. Qed.

Definition tree_text (v : QJsonValue) : string := pos_text (encode (to_tree v)).
Definition text_tree (s : string) : option QJsonValue :=
  match text_pos s with
  | Some p => match decode p with Some t => Some (of_tree t) | None => None end
  | None => None
  end.

Lemma text_tree_text v : text_tree (tree_text v) = Some v.
Proof. unfold text_tree, tree_text. rewrite text_pos_text. simpl. by rewrite decode_encode, of_to_tree. Qed.

#[local] Instance tree_json : JsonText := {|
  qt_toJson o := tree_text (QObject o);
  qt_fromJson := text_tree;
  js_stringify o := tree_text (QObject o);
  js_parse := text_tree;
  js_parse_error := "SyntaxError";
  js_parse_qt o := text_tree_text (QObject o);
  qt_parse_js o := text_tree_text (QObject o)
|}.


Definition g_running : Globals :=
  set_proxy true 1 (WebComplete.initializeDefaultData "2026-01-01" globals0).

Definition console0 : Console Globals := Servers.complete_console "2026-01-01T00:00:00" "<html></html>".

Lemma complete_start_click_witness :
  INT_MIN <= 2 <= INT_MAX /\
  let '(p', g', ok) := @CompletePage.startProfile _ Globals console0 (QDouble 2) CompletePage.page0 g_running in
  g_proxyRunning g' = true /\ g_currentProfileId g' = 2 /\ g_profiles g' = g_profiles g_running /\
  p_proxy p' = ("Running", "status-value running") /\
  p_current p' = (if 0 <? 2 then ("Profile " +:+ z_to_string 2)%string else "None") /\
  (p_rows p', ok) = render_rows CompletePage.buttons (QObject [("current_profile", QDouble 2)]) (g_profiles g_running).
Proof.
  split; [unfold INT_MIN, INT_MAX; lia|].
  apply (complete_start_click "2026-01-01T00:00:00" "<html></html>" 2). unfold INT_MIN, INT_MAX; lia.
Defined.

(** The page loads, then the user clicks Start on the second row. *)
Definition run_init : JsRun Globals := @CompletePage.init _ Globals console0 CompletePage.page0 g_running.
Definition run_click : JsRun Globals :=
  @CompletePage.startProfile _ Globals console0 (QDouble 2) run_init.1.1 run_init.1.2.

Lemma complete_page_never_stops_witness :
  rtc (@CompletePage.step _ Globals console0) (CompletePage.page0, g_running) (run_click.1.1, run_click.1.2) /\
  g_proxyRunning g_running = true /\ g_proxyRunning run_click.1.2 = true.
Proof.
  assert (Hr : rtc (@CompletePage.step _ Globals console0) (CompletePage.page0, g_running)
                 (run_click.1.1, run_click.1.2)).
  { apply (rtc_l _ _ (run_init.1.1, run_init.1.2)).
    - apply (@CompletePage.step_init _ Globals console0 _ _ run_init.1.1 run_init.1.2 run_init.2). unfold run_init.
      destruct (CompletePage.init _ _) as [[a b] c]; reflexivity.
    - apply (rtc_l _ _ (run_click.1.1, run_click.1.2)); [|apply rtc_refl].
      apply (@CompletePage.step_click _ Globals console0 _ _ "Start" "startProfile" "2"
               (@CompletePage.startProfile _ Globals console0 (QDouble 2)) _ _ run_click.2).
      + apply list_elem_of_In. apply (bool_decide_unpack _). vm_compute. reflexivity.
      + reflexivity.
      + unfold run_click. destruct (CompletePage.startProfile _ _ _) as [[a b] c]; reflexivity. }
  split; [exact Hr|]. split; [reflexivity|].
  exact (complete_page_never_stops (HS := complete_console_spec _ _) g_running _ _ Hr eq_refl).
Defined.

End DashboardFacts.
