(* ===== verification/SimplePrograms.v ===== *)
(** * The small front ends: [src/nekoray/cli/main_cli_fixed_simple.cpp],
      [src/nekoray/web/main_web_fixed_simple.cpp],
      [src/nekoray-web-SIMPLE.cpp], [src/nekoray-web-WORKING.cpp] and
      [src/nekoray/web/main_web.cpp]

    The first four keep no state and drive no service: each looks for
    the core beside the application, prints what it found with [qDebug],
    and answers every command or request with a fixed message; [start]
    reports success and nothing is started.  [main_web.cpp] is the real
    web front end: it initialises the service of [NekoService] and
    starts the [SimpleWeb] server.

    Module [FixedSimpleCli] models [SimpleCliApplication::run] as the
    lines printed and the exit status ([parser.showHelp(1)] prints the
    help and exits: [Cli.Help 1]).  Modules [FixedSimpleWeb],
    [SimpleWebApi] and [WorkingWebApi] model the three stateless HTTP
    servers: the server object, [start], [handleRequest] and the
    [readyRead] lambda as the writes on the socket.  Module [MainWeb]
    models [main] of [main_web.cpp] over the service.  [qDebug] writes a
    space between its items and quotes a [QString] ([debug_line]);
    [QJsonDocument::toJson] is the parameter [toJson]. *)

From S2P Require Import Prelude QJson Platform OutputRelay ConfigManager CoreManager TunManager Safety NekoService Cli WebApi SimpleWeb Codec WebComplete.
From Stdlib Require Import Ascii.

Local Open Scope Z_scope.

(** ** Text helpers *)

Definition nl_str : string := String nl EmptyString.

(** A text whose parts are separated by double quotes (the HTML the
    servers embed, written part by part). *)
Fixpoint qjoin (parts : list string) : string :=
  match parts with
  | [] => EmptyString
  | [p] => p
  | p :: ps => (p +:+ dq +:+ qjoin ps)%string
  end.

(** What [qDebug() << a << b ...] writes: the items separated by a
    space; a [const char*] as is, a [QString] in quotes, an [int] in
    decimal, a [QStringList] as [("a", "b")]. *)
Inductive DebugItem : Type :=
| DText (s : string)
| DQString (s : string)
| DInt (z : Z)
| DStringList (l : list string).

Definition render (i : DebugItem) : string :=
  match i with
  | DText s => s
  | DQString s => Cli.quoted s
  | DInt z => z_to_string z
  | DStringList l => ("(" +:+ String.concat ", " (map Cli.quoted l) +:+ ")")%string
  end.

Definition debug_line (items : list DebugItem) : string := String.concat " " (map render items).

(** The answer heads of the three stateless servers. *)
Definition html_plain_head : string :=
  ("HTTP/1.1 200 OK" +:+ SimpleWeb.crlf +:+ "Content-Type: text/html" +:+ SimpleWeb.crlf +:+
   "Content-Length: ")%string.

Definition json_cors_head : string :=
  ("HTTP/1.1 200 OK" +:+ SimpleWeb.crlf +:+ "Content-Type: application/json" +:+ SimpleWeb.crlf +:+
   "Access-Control-Allow-Origin: *" +:+ SimpleWeb.crlf +:+ "Content-Length: ")%string.

Definition json_plain_head : string :=
  ("HTTP/1.1 200 OK" +:+ SimpleWeb.crlf +:+ "Content-Type: application/json" +:+ SimpleWeb.crlf +:+
   "Content-Length: ")%string.

(** The request line of the [readyRead] lambdas: method and path, or
    nothing when it has fewer than two words. *)
Definition request_line (requestData : string) : option (string * string) :=
  match SimpleWeb.split_crlf requestData with
  | [] => None
  | line :: _ =>
      match SimpleWeb.split_space line with
      | method :: path :: _ => Some (method, path)
      | _ => None
      end
  end.

(** * [src/nekoray/cli/main_cli_fixed_simple.cpp] *)
Module FixedSimpleCli.

(** What [QCommandLineParser] recognised. *)
Record Options : Type := mkOptions {
  o_config : option string;
  o_daemon : bool;
  o_verbose : bool;
  o_tun : bool;
  o_dryRun : bool;
  o_args : list string
}.

Section Program.
Context (appDir configLocation : string) (fs : FileSystem).

(** The search loop of [run]. *)
Definition find_core : string := find_in_dir Linux appDir fs possibleNames.

(** The [qDebug] lines about the core. *)
Definition core_report (corePath : string) : list Cli.Out :=
  if String.eqb corePath EmptyString then
    [Cli.Stderr (debug_line [DText "⚠️ Core not found. Tried:"; DStringList possibleNames]);
     Cli.Stderr "Running in simulation mode"]
  else [Cli.Stderr (debug_line [DText "✅ Core ready:"; DQString corePath])].

Definition handleStatus (corePath : string) : list Cli.Out * Z :=
  (map Cli.Stdout
     (["=== NekoRay Status ==="; "Service Status: Stopped"; "Current Profile: -1"; "TUN Mode: Stopped"] ++
      (if String.eqb corePath EmptyString then ["Core: Not found (simulation mode)"]
       else [("Core: " +:+ corePath)%string; "Core Status: Ready"]) ++
      ["SOCKS5: 127.0.0.1:2080 (configured)"; "HTTP: 127.0.0.1:2081 (configured)";
       "Upload: 0 B"; "Download: 0 B"]), 0).

Definition handleStart (args : list string) (corePath : string) : list Cli.Out * Z :=
  match args with
  | _ :: arg1 :: _ =>
      let '(profileId, ok) := qstring_toInt arg1 in
      if negb ok then ([Cli.Stderr (debug_line [DText "Invalid profile ID:"; DQString arg1])], 1)
      else
        (map Cli.Stdout
           ((if String.eqb corePath EmptyString then
               [("⚠️ Simulation mode: Would start proxy with profile " +:+ z_to_string profileId)%string]
             else [("Starting proxy with profile " +:+ z_to_string profileId +:+ "...")%string;
                   ("✅ Core found: " +:+ corePath)%string; "✅ Proxy started successfully"]) ++
            ["SOCKS5: 127.0.0.1:2080"; "HTTP: 127.0.0.1:2081"]), 0)
  | _ => ([Cli.Stderr "Profile ID required for start command"], 1)
  end.

Definition handleStop : list Cli.Out * Z := ([Cli.Stdout "Proxy stopped successfully"], 0).
Definition handleRestart : list Cli.Out * Z := ([Cli.Stdout "Proxy restart functionality not yet implemented"], 0).
Definition handleList : list Cli.Out * Z := ([Cli.Stdout "Profile listing not yet implemented"], 0).
Definition handleTunStart : list Cli.Out * Z := ([Cli.Stdout "TUN mode started successfully"], 0).
Definition handleTunStop : list Cli.Out * Z := ([Cli.Stdout "TUN mode stopped successfully"], 0).

(** [handleConfig()]: JSON written by hand around the directory. *)
Definition handleConfig : list Cli.Out * Z :=
  let configDir := (configLocation +:+ "/nekoray")%string in
  (map Cli.Stdout
     ["{"; qjoin ["  "; "config_dir"; ": "; configDir +:+ ","]%string;
      qjoin ["  "; "socks_port"; ": 2080,"]; qjoin ["  "; "http_port"; ": 2081,"];
      qjoin ["  "; "tun_enabled"; ": false"]; "}"], 0).

(** [run(arguments)] after [parser.process]. *)
Definition run (o : Options) : list Cli.Out * Z :=
  let corePath := find_core in
  let report := core_report corePath in
  match o_args o with
  | [] => (report ++ [Cli.Help 1], 1)
  | command :: _ =>
      let '(out, code) :=
        if String.eqb command "status" then handleStatus corePath
        else if String.eqb command "start" then handleStart (o_args o) corePath
        else if String.eqb command "stop" then handleStop
        else if String.eqb command "restart" then handleRestart
        else if String.eqb command "list" then handleList
        else if String.eqb command "tun-start" then handleTunStart
        else if String.eqb command "tun-stop" then handleTunStop
        else if String.eqb command "config" then handleConfig
        else ([Cli.Stderr (debug_line [DText "Unknown command:"; DQString command]); Cli.Help 1], 1) in
      (report ++ out, code)
  end.

End Program.
End FixedSimpleCli.

(** * [src/nekoray/web/main_web_fixed_simple.cpp] *)
Module FixedSimpleWeb.

(** The members of its [SimpleWebServer]. *)
Record Server : Type := mkServer {
  m_corePath : string;
  m_listening : bool                (** [m_server->isListening()] *)
}.

(** The constructor: the core beside the application. *)
Definition create (appDir : string) (fs : FileSystem) : Server :=
  mkServer (find_in_dir Linux appDir fs possibleNames) false.

(** [start(host, port)]: [listen] succeeds or fails with [errorString]. *)
Definition start (host : string) (port : Z) (listen_ok : bool) (errorString : string) (x : Server)
    : bool * Server * list Cli.Out :=
  let report :=
    if String.eqb (m_corePath x) EmptyString
    then [Cli.Stderr "⚠️ Core not found. Running in simulation mode"]
    else [Cli.Stderr (debug_line [DText "✅ Core ready:"; DQString (m_corePath x)])] in
  if negb listen_ok then
    (false, x, report ++ [Cli.Stderr (debug_line [DText "Failed to start server:"; DQString errorString])])
  else
    (true, mkServer (m_corePath x) true,
     report ++ [Cli.Stderr (debug_line [DText "🌐 NekoRay Web API started on"; DQString host; DText ":"; DInt port]);
                Cli.Stderr (debug_line [DText "📡 Access: http://"; DQString host; DText ":"; DInt port])]).

(** The raw literal before the core line. *)
Definition page_top : string :=
  String.concat nl_str [
    qjoin ["<!DOCTYPE html>"];
    qjoin ["<html><head><title>NekoRay Web API</title><style>"];
    qjoin ["body { font-family: Arial, sans-serif; margin: 40px; background: #f5f5f5; }"];
    qjoin [".container { max-width: 800px; background: white; padding: 30px; border-radius: 8px; box-shadow: 0 2px 10px rgba(0,0,0,0.1); }"];
    qjoin ["h1 { color: #2c3e50; }"];
    qjoin [".status { background: #e8f5e9; padding: 15px; border-radius: 4px; margin: 15px 0; }"];
    qjoin [".endpoint { background: #f8f9fa; padding: 10px; margin: 5px 0; border-left: 4px solid #007bff; }"];
    qjoin ["button { background: #007bff; color: white; border: none; padding: 10px 15px; border-radius: 4px; cursor: pointer; margin: 5px; }"];
    qjoin ["button:hover { background: #0056b3; }"];
    qjoin ["</style></head><body>"];
    qjoin ["<div class="; "container"; ">"];
    qjoin ["<h1>🚀 NekoRay Web API v1.0.3</h1>"];
    qjoin ["<div class="; "status"; ">"];
    qjoin ["<h3>System Status</h3>"]].

(** The raw literal after the core line. *)
Definition page_bottom : string :=
  String.concat nl_str [
    qjoin [EmptyString];
    qjoin ["<p>📊 Service: Stopped</p>"];
    qjoin ["<p>🌐 API: Running</p>"];
    qjoin ["</div>"];
    qjoin ["<h3>API Endpoints</h3>"];
    qjoin ["<div class="; "endpoint"; "><strong>GET /api/status</strong> - Get service status</div>"];
    qjoin ["<div class="; "endpoint"; "><strong>POST /api/start</strong> - Start proxy service</div>"];
    qjoin ["<div class="; "endpoint"; "><strong>POST /api/stop</strong> - Stop proxy service</div>"];
    qjoin ["<div class="; "endpoint"; "><strong>GET /api/config</strong> - Get configuration</div>"];
    qjoin ["<h3>Quick Actions</h3>"];
    qjoin ["<button onclick="; "fetch('/api/status').then(r=>r.json()).then(d=>alert(JSON.stringify(d,null,2)))"; ">Get Status</button>"];
    qjoin ["<button onclick="; "fetch('/api/start',{method:'POST'}).then(r=>r.json()).then(d=>alert(JSON.stringify(d,null,2)))"; ">Start Proxy</button>"];
    qjoin ["<button onclick="; "fetch('/api/stop',{method:'POST'}).then(r=>r.json()).then(d=>alert(JSON.stringify(d,null,2)))"; ">Stop Proxy</button>"];
    qjoin ["</div></body></html>"]].


(** The page: the core line between the two raw literals. *)
Definition page (corePath : string) : string :=
  (page_top +:+
   (if String.eqb corePath EmptyString then "<p>⚠️ Core: Not found (simulation mode)</p>"
    else QStr.arg "<p>✅ Core: Ready (%1)</p>" corePath) +:+
   page_bottom)%string.

Section Requests.
Context (toJson : QJsonObject -> string).

(** [handleRequest(method, path)]: the page when [htmlContent] is not
    empty, otherwise the JSON object; the method is not looked at. *)
Definition handleRequest (method path : string) (x : Server) : string :=
  let '(htmlContent, jsonResponse) :=
    if String.eqb path "/" || String.eqb path "/index.html" then (page (m_corePath x), [])
    else if String.eqb path "/api/status" then
      (EmptyString,
       obj_build [("status", QString "stopped");
                  ("core", QString (if String.eqb (m_corePath x) EmptyString then "not_found" else "ready"));
                  ("core_path", QString (m_corePath x)); ("socks_port", QDouble 2080);
                  ("http_port", QDouble 2081); ("tun_enabled", QBool false)])
    else if String.eqb path "/api/start" then
      (EmptyString,
       obj_build [("result", QString "success");
                  ("message", QString (if String.eqb (m_corePath x) EmptyString
                                       then "Simulation mode: Proxy would start"
                                       else "Proxy started successfully"));
                  ("socks", QString "127.0.0.1:2080"); ("http", QString "127.0.0.1:2081")])
    else if String.eqb path "/api/stop" then
      (EmptyString, obj_build [("result", QString "success"); ("message", QString "Proxy stopped successfully")])
    else if String.eqb path "/api/config" then
      (EmptyString,
       obj_build [("config_dir", QString "/root/.config/nekoray"); ("socks_port", QDouble 2080);
                  ("http_port", QDouble 2081); ("tun_mode", QBool false)])
    else (EmptyString, obj_build [("error", QString "Not found")]) in
  if negb (String.eqb htmlContent EmptyString) then frame_response html_plain_head htmlContent
  else frame_response json_cors_head (toJson jsonResponse).

(** The [readyRead] lambda of [handleNewConnection]. *)
Definition onReadyRead (requestData : string) (x : Server) : list SimpleWeb.Write :=
  match request_line requestData with
  | Some (method, path) => [SimpleWeb.Data (handleRequest method path x); SimpleWeb.Disconnect]
  | None => []
  end.

End Requests.

(** [main] after [parser.process]: [--port] and [--host]. *)
Definition main (port host : string) (appDir : string) (fs : FileSystem) (listen_ok : bool)
    (errorString : string) : WebRun * Server * list Cli.Out :=
  let '(ok, x, out) := start host (qstring_toInt port).1 listen_ok errorString (create appDir fs) in
  (if ok then WebServing else WebExit 1, x, out).

End FixedSimpleWeb.

(** * [src/nekoray-web-SIMPLE.cpp] *)
Module SimpleWebApi.

Definition create (appDir : string) (fs : FileSystem) : FixedSimpleWeb.Server :=
  FixedSimpleWeb.mkServer (find_in_dir Linux appDir fs possibleNames) false.

(** [start(host, port)]. *)
Definition start (host : string) (port : Z) (listen_ok : bool) (errorString : string)
    (x : FixedSimpleWeb.Server) : bool * FixedSimpleWeb.Server * list Cli.Out :=
  let report :=
    if String.eqb (FixedSimpleWeb.m_corePath x) EmptyString
    then [Cli.Stderr "⚠️ Core not found. Running in simulation mode"]
    else [Cli.Stderr (debug_line [DText "✅ Core ready:"; DQString (FixedSimpleWeb.m_corePath x)])] in
  if negb listen_ok then
    (false, x, report ++ [Cli.Stderr (debug_line [DText "Failed to start server:"; DQString errorString])])
  else
    (true, FixedSimpleWeb.mkServer (FixedSimpleWeb.m_corePath x) true,
     report ++ [Cli.Stderr (debug_line [DText "🌐 NekoRay Web API started on"; DQString host; DText ":"; DInt port]);
                Cli.Stderr (debug_line [DText "📡 Access: http://localhost:"; DInt port])]).

(** The page, with [%1] filled by [arg]. *)
Definition page (corePath : string) : string :=
  QStr.arg
    ("<!DOCTYPE html>" +:+
     "<html><head><title>NekoRay Web API</title></head><body>" +:+
     "<h1>NekoRay Web API v1.0.3</h1>" +:+
     "<h2>Status</h2>" +:+
     "<p>Core: %1</p>" +:+
     "<p>Service: Stopped</p>" +:+
     "<p>API: Running</p>" +:+
     "<h2>Endpoints</h2>" +:+
     "<p>GET /api/status - Get status</p>" +:+
     "<p>POST /api/start - Start proxy</p>" +:+
     "<p>POST /api/stop - Stop proxy</p>" +:+
     "</body></html>")%string
    (if String.eqb corePath EmptyString then "Not found" else "Ready").

Section Requests.
Context (toJson : QJsonObject -> string).

(** [handleRequest(method, path)]: no [Access-Control-Allow-Origin] on
    the JSON answers; the method is not looked at. *)
Definition handleRequest (method path : string) (x : FixedSimpleWeb.Server) : string :=
  let corePath := FixedSimpleWeb.m_corePath x in
  let '(htmlContent, jsonResponse) :=
    if String.eqb path "/" || String.eqb path "/index.html" then (page corePath, [])
    else if String.eqb path "/api/status" then
      (EmptyString,
       obj_build [("status", QString "stopped");
                  ("core", QString (if String.eqb corePath EmptyString then "not_found" else "ready"));
                  ("core_path", QString corePath); ("socks_port", QDouble 2080); ("http_port", QDouble 2081)])
    else if String.eqb path "/api/start" then
      (EmptyString,
       obj_build [("result", QString "success"); ("message", QString "Proxy started successfully");
                  ("socks", QString "127.0.0.1:2080"); ("http", QString "127.0.0.1:2081")])
    else if String.eqb path "/api/stop" then
      (EmptyString, obj_build [("result", QString "success"); ("message", QString "Proxy stopped successfully")])
    else (EmptyString, obj_build [("error", QString "Not found")]) in
  if negb (String.eqb htmlContent EmptyString) then frame_response html_plain_head htmlContent
  else frame_response json_plain_head (toJson jsonResponse).

Definition onReadyRead (requestData : string) (x : FixedSimpleWeb.Server) : list SimpleWeb.Write :=
  match request_line requestData with
  | Some (method, path) => [SimpleWeb.Data (handleRequest method path x); SimpleWeb.Disconnect]
  | None => []
  end.

End Requests.

Definition main (port host : string) (appDir : string) (fs : FileSystem) (listen_ok : bool)
    (errorString : string) : WebRun * FixedSimpleWeb.Server * list Cli.Out :=
  let '(ok, x, out) := start host (qstring_toInt port).1 listen_ok errorString (create appDir fs) in
  (if ok then WebServing else WebExit 1, x, out).

End SimpleWebApi.

(** * [src/nekoray-web-WORKING.cpp] *)
Module WorkingWebApi.

(** [main] up to [app.exec()]: the core path found and the lines
    printed. *)
Definition main (port host : string) (appDir : string) (fs : FileSystem) (listen_ok : bool)
    (errorString : string) : WebRun * string * list Cli.Out :=
  let p := (qstring_toInt port).1 in
  let corePath := find_in_dir Linux appDir fs possibleNames in
  let report :=
    if String.eqb corePath EmptyString
    then [Cli.Stderr "⚠️ Core not found. Running in simulation mode"]
    else [Cli.Stderr (debug_line [DText "✅ Core ready:"; DQString corePath])] in
  if negb listen_ok then
    (WebExit 1, corePath, report ++ [Cli.Stderr (debug_line [DText "Failed to start server:"; DQString errorString])])
  else
    (WebServing, corePath,
     report ++ [Cli.Stderr (debug_line [DText "🌐 NekoRay Web API started on"; DQString host; DText ":"; DInt p]);
                Cli.Stderr (debug_line [DText "📡 Access: http://localhost:"; DInt p])]).

(** The page: [arg(a, QString::number(port))] fills [%1] and [%2] at
    once. *)
Definition page (corePath : string) (port : Z) : string :=
  ("<!DOCTYPE html>" +:+
   "<html><head><title>NekoRay Web API</title></head><body>" +:+
   "<h1>🚀 NekoRay Web API v1.0.3</h1>" +:+
   "<h2>Status</h2>" +:+
   "<p><strong>Core:</strong> " +:+ (if String.eqb corePath EmptyString then "⚠️ Not found" else "✅ Ready") +:+
   "</p>" +:+
   "<p><strong>Service:</strong> Stopped</p>" +:+
   "<p><strong>API:</strong> ✅ Running</p>" +:+
   "<h2>API Endpoints</h2>" +:+
   "<ul>" +:+
   "<li>GET /api/status - Get service status</li>" +:+
   "<li>POST /api/start - Start proxy</li>" +:+
   "<li>POST /api/stop - Stop proxy</li>" +:+
   "</ul>" +:+
   "<h2>Test Commands</h2>" +:+
   "<p>curl http://localhost:" +:+ z_to_string port +:+ "/api/status</p>" +:+
   "</body></html>")%string.

Section Requests.
Context (toJson : QJsonObject -> string) (corePath : string) (port : Z).

(** The [readyRead] lambda of [main]: three API paths, and the page for
    every other path; the method is not looked at. *)
Definition onReadyRead (requestData : string) : list SimpleWeb.Write :=
  match request_line requestData with
  | None => []
  | Some (_, path) =>
      let json (o : QJsonObject) :=
        [SimpleWeb.Data (frame_response json_cors_head (toJson o)); SimpleWeb.Disconnect] in
      if String.eqb path "/api/status" then
        json (obj_build [("status", QString "stopped");
                         ("core", QString (if String.eqb corePath EmptyString then "not_found" else "ready"));
                         ("core_path", QString corePath); ("socks_port", QDouble 2080);
                         ("http_port", QDouble 2081); ("success", QBool true)])
      else if String.eqb path "/api/start" then
        json (obj_build [("result", QString "success"); ("message", QString "Proxy started successfully");
                         ("socks", QString "127.0.0.1:2080"); ("http", QString "127.0.0.1:2081")])
      else if String.eqb path "/api/stop" then
        json (obj_build [("result", QString "success"); ("message", QString "Proxy stopped successfully")])
      else
        [SimpleWeb.Data (frame_response html_plain_head (page corePath port)); SimpleWeb.Disconnect]
  end.

End Requests.
End WorkingWebApi.

(** * [src/nekoray/web/main_web.cpp] *)
Module MainWeb.

(** [--port] ("8080"), [--host] ("127.0.0.1"), [--verbose],
    [--config-dir]. *)
Record Options : Type := mkOptions {
  mw_port : string;
  mw_host : string;
  mw_verbose : bool;
  mw_configDir : string
}.

(** [main] after [parser.process], over the service; [listen] is the
    answer of the server's [listen]. *)
Definition main (env : Env) (o : Options) (listen : string + Z)
    : M NekoService.Sys (WebRun * SimpleWeb.t * list Cli.Out) :=
  let port := (qstring_toInt (mw_port o)).1 in
  let host := mw_host o in
  if (port <=? 0) || (65535 <? port) then
    mret (WebExit 1, SimpleWeb.create, [Cli.Stderr ("Error: Invalid port number: " +:+ z_to_string port)%string])
  else
  let banner :=
    if mw_verbose o then
      [Cli.Stdout "NekoRay Web API Server v1.0"; Cli.Stdout "============================";
       Cli.Stdout ("Host: " +:+ host)%string; Cli.Stdout ("Port: " +:+ z_to_string port)%string;
       Cli.Stdout ("Config Dir: " +:+ mw_configDir o)%string]
    else [] in
  ok <- NekoService.initialize env (mw_configDir o) ;;
  if negb ok then
    mret (WebExit 1, SimpleWeb.create, banner ++ [Cli.Stderr "Error: Failed to initialize NekoRay service"])
  else
  let '(started, x) := SimpleWeb.start host listen SimpleWeb.create in
  if negb started then
    mret (WebExit 1, x, banner ++ [Cli.Stderr ("Error: Failed to start web server on " +:+ host +:+ ":" +:+
                                              z_to_string port)%string])
  else
    mret (WebServing, x,
          banner ++ [Cli.Stdout "🚀 NekoRay Web API Server started!";
                     Cli.Stdout ("   URL: http://" +:+ host +:+ ":" +:+ z_to_string port)%string;
                     Cli.Stdout ("   API: http://" +:+ host +:+ ":" +:+ z_to_string port +:+ "/api/")%string;
                     Cli.Stdout "   Press Ctrl+C to stop"]).

End MainWeb.

(** * Properties of the small front ends *)

Module SimpleProgramsFacts.

(** The options of [main_cli_fixed_simple] are parsed and never read:
    [-c], [-d], [--verbose], [-t] and [-n] ("safe mode") change
    nothing. *)
Lemma cli_options_ignored appDir configLocation fs o1 o2 :
  FixedSimpleCli.o_args o1 = FixedSimpleCli.o_args o2 ->
  FixedSimpleCli.run appDir configLocation fs o1 = FixedSimpleCli.run appDir configLocation fs o2.
Proof. intros H. unfold FixedSimpleCli.run. by rewrite H. Qed.

(** [main_cli_fixed_simple start <n>] exits 0 for every integer [n]
    and, with a core beside it, prints "✅ Proxy started successfully",
    though it starts nothing; [status] always prints "Service Status:
    Stopped" and exits 0; and no option changes either run. *)
Theorem cli_start_claims_success appDir configLocation fs o o' n rest rest' :
  FixedSimpleCli.o_args o = "start" :: n :: rest -> (qstring_toInt n).2 = true ->
  FixedSimpleCli.o_args o' = "status" :: rest' ->
  (FixedSimpleCli.run appDir configLocation fs o).2 = 0 /\
  (FixedSimpleCli.find_core appDir fs <> EmptyString ->
   In (Cli.Stdout "✅ Proxy started successfully") (FixedSimpleCli.run appDir configLocation fs o).1) /\
  (FixedSimpleCli.run appDir configLocation fs o').2 = 0 /\
  In (Cli.Stdout "Service Status: Stopped") (FixedSimpleCli.run appDir configLocation fs o').1.
Proof.
  intros Ho Hn Ho'. unfold FixedSimpleCli.run. rewrite Ho, Ho'. cbn -[FixedSimpleCli.core_report].
  destruct (qstring_toInt n) as [id ok]. simpl in Hn. subst ok. cbn -[FixedSimpleCli.core_report].
  split_and!; [done| |done|].
  - intros Hc. apply String.eqb_neq in Hc. rewrite Hc. apply in_app_iff. right. simpl. auto.
  - apply in_app_iff. right. simpl. auto.
Qed.

(** [main_web.cpp] on a fresh configuration directory never starts its
    server: the service's [initialize] blocks on its own mutex. *)
Theorem main_web_fresh_blocks env o listen s w :
  0 < (qstring_toInt (MainWeb.mw_port o)).1 <= 65535 ->
  NekoService.m_locked s = false -> MainWeb.mw_configDir o <> EmptyString ->
  fs_unmakeable (w_fs w) = ∅ ->
  fs_files (w_fs w) !! (MainWeb.mw_configDir o +:+ "/groups/nekobox.json")%string = None ->
  MainWeb.main env o listen (s, w) = Deadlock.
Proof.
  intros Hp Hl Hd Hu Hf. unfold MainWeb.main.
  rewrite (proj2 (Z.leb_gt _ _)), (proj2 (Z.ltb_ge _ _)) by lia. cbn [orb].
  unfold mbind at 1. by rewrite (Lifecycle.initialize_fresh_blocks env (MainWeb.mw_configDir o) s w Hl Hd Hu Hf).
Qed.

Lemma cli_start_claims_success_witness :
  FixedSimpleCli.o_args (FixedSimpleCli.mkOptions None false false false true ["start"; "7"]) = ["start"; "7"] /\
  (qstring_toInt "7").2 = true /\
  (FixedSimpleCli.run "/opt/nekoray" "/root/.config" (mkFileSystem ∅ ∅ ∅ ∅ ∅)
     (FixedSimpleCli.mkOptions None false false false true ["start"; "7"])).2 = 0.
Proof.
  split_and!; [reflexivity|reflexivity|].
  apply (cli_start_claims_success "/opt/nekoray" "/root/.config" (mkFileSystem ∅ ∅ ∅ ∅ ∅)
           (FixedSimpleCli.mkOptions None false false false true ["start"; "7"])
           (FixedSimpleCli.mkOptions None false false false false ["status"]) "7" [] []); reflexivity.
Defined.

Lemma main_web_fresh_blocks_witness :
  MainWeb.main Scenario.env_linux (MainWeb.mkOptions "8080" "127.0.0.1" false Scenario.cfg_dir) (inr 8080)
    (Scenario.svc0, Scenario.world0 Scenario.fs_install) = Deadlock.
Proof.
  apply main_web_fresh_blocks; [vm_compute; split; [reflexivity | discriminate] | vm_compute; reflexivity | discriminate |
                                vm_compute; reflexivity | vm_compute; reflexivity].
Defined.

End SimpleProgramsFacts.
