(* ===== verification/TextStream.v ===== *)
(** * [QTextStream] on the console, as the Qt front ends use it

    The interactive front end of [src/nekoray-cli-COMPLETE.cpp] reads
    stdin through a [QTextStream] ([m_in >> choice], [m_in.readLine()])
    and writes stdout through another one ([m_out << ...]).  This file
    holds what those calls do, following Qt 5's [QTextStream]:

    - stdin is the text not read yet; [>>] into a [QString] skips white
      space and takes a word, leaving the white space after it;
      [readLine] takes the text up to the next newline (consumed, with a
      carriage return before it);
    - [>>] into an [int] is [QTextStreamPrivate::getNumber]: the base is
      detected from the prefix ([0x], [0b], [0] and an octal digit, else
      decimal with an optional sign), the digits are accumulated in a
      [qulonglong] and the value is cast to [int]; when no number is
      there the [int] is set to 0;
    - stdout is what reached the terminal and the stream's write
      buffer, which is flushed by [flush()], by the destructor, and when
      it grows past [QTEXTSTREAM_BUFFERSIZE]; a process that calls
      [::exit] never runs the destructor and loses the buffer.

    The text is bytes; [QChar::isSpace] is [qt_is_space].  The lemmas
    show that every read consumes input and never grows it (used for the
    termination of the menu loop), what each read returns on the inputs
    the menus see, and that the [int] read stays in [int]'s range. *)

From S2P Require Import Prelude QJson Platform OutputRelay Safety Codec.
From Stdlib Require Import Ascii.

Local Open Scope Z_scope.

Module QTextStream.

(** ** Reading *)

(** The word after the white space: up to the next white space. *)
Fixpoint take_word (s : string) : string * string :=
  match s with
  | EmptyString => (EmptyString, EmptyString)
  | String c s' =>
      if qt_is_space c then (EmptyString, s)
      else let '(w, r) := take_word s' in (String c w, r)
  end.

(** [operator>>(QString &)]. *)
Definition read_word (s : string) : string * string := take_word (ltrim s).

(** [readLine()]: the line without its ["\n"] or ["\r\n"]; at the end
    of the input the (null) empty string. *)
Fixpoint read_line (s : string) : string * string :=
  match s with
  | EmptyString => (EmptyString, EmptyString)
  | String c s' =>
      if Ascii.eqb c "010" then (EmptyString, s')
      else if Ascii.eqb c "013" && String.prefix (String "010" EmptyString) s' then
        (EmptyString, String.substring 1 (String.length s' - 1) s')
      else let '(l, r) := read_line s' in (String c l, r)
  end.

(** [QChar::toLower] on ASCII letters. *)
Definition ascii_lower (c : ascii) : ascii :=
  let n := byte c in if (65 <=? n) && (n <=? 90) then byte_of (n + 32) else c.

(** The value of a digit of base [b] ([0-9], then [a-f] in either
    case). *)
Definition digit_base (b : Z) (c : ascii) : option Z :=
  let n := byte (ascii_lower c) in
  let v := if (48 <=? n) && (n <=? 57) then n - 48
           else if (97 <=? n) && (n <=? 102) then n - 87 else b in
  if v <? b then Some v else None.

Definition is_digit_base (b : Z) (c : ascii) : bool :=
  match digit_base b c with Some _ => true | None => false end.

(** The digit loop of [getNumber]: the value (in a [qulonglong], so
    modulo [2^64]), the number of digits, and the rest. *)
Fixpoint take_digits (b : Z) (s : string) (val : Z) (k : nat) : Z * nat * string :=
  match s with
  | EmptyString => (val, k, EmptyString)
  | String c s' =>
      match digit_base b c with
      | Some d => take_digits b s' ((val * b + d) mod 2 ^ 64) (S k)
      | None => (val, k, s)
      end
  end.

(** [(int)tmp]: the low 32 bits, signed. *)
Definition to_int32 (v : Z) : Z := (v - INT_MIN) mod 2 ^ 32 + INT_MIN.

(** A [qulonglong] read as a [qlonglong]. *)
Definition to_int64 (v : Z) : Z := if v <? 2 ^ 63 then v else v - 2 ^ 64.

(** The digits after a [0x] or [0b] prefix; without digits the prefix
    is put back ([ungetChar]) and the number is missing. *)
Definition digits_after (b : Z) (rest whole : string) : Z * string :=
  match take_digits b rest 0 0 with
  | (_, O, _) => (0, whole)
  | (v, _, r) => (to_int32 v, r)
  end.

(** Base 10: a sign or a first digit, then the digits; a [-] negates the
    value as a [qlonglong]. *)
Definition read_decimal (s : string) : Z * string :=
  match s with
  | EmptyString => (0, EmptyString)
  | String sign s' =>
      if Ascii.eqb sign "-" || Ascii.eqb sign "+" then
        match take_digits 10 s' 0 0 with
        | (_, O, r) => (0, r)
        | (v, _, r) =>
            let iv := to_int64 v in
            let iv := if Ascii.eqb sign "-" then (if 0 <? iv then - iv else iv) else iv in
            (to_int32 iv, r)
        end
      else
        match digit_base 10 sign with
        | Some d => let '(v, _, r) := take_digits 10 s' d 1 in (to_int32 v, r)
        | None => (0, s)
        end
  end.

(** [operator>>(int &)]. *)
Definition read_int (s0 : string) : Z * string :=
  let s := ltrim s0 in
  match s with
  | EmptyString => (0, EmptyString)
  | String c rest =>
      if Ascii.eqb c "0" then
        match rest with
        | EmptyString => (0, EmptyString)
        | String c2 rest2 =>
            if Ascii.eqb (ascii_lower c2) "x" then digits_after 16 rest2 s
            else if Ascii.eqb (ascii_lower c2) "b" then digits_after 2 rest2 s
            else if is_digit_base 8 c2 then
              let '(v, _, r) := take_digits 8 s 0 0 in (to_int32 v, r)
            else read_decimal s
        end
      else if Ascii.eqb c "-" || Ascii.eqb c "+" || is_digit_base 10 c then read_decimal s
      else (0, s)
  end.

(** ** Writing *)

Definition QTEXTSTREAM_BUFFERSIZE : Z := 16384.

(** The terminal and the write buffer of a [QTextStream] on stdout. *)
Record Out : Type := mkOut {
  o_written : string;
  o_buffer : string
}.

(** [operator<<]: the text goes to the buffer, which is flushed once it
    is larger than [QTEXTSTREAM_BUFFERSIZE]. *)
Definition write (s : string) (o : Out) : Out :=
  let b := (o_buffer o +:+ s)%string in
  if QTEXTSTREAM_BUFFERSIZE <? Z.of_nat (String.length b) then mkOut (o_written o +:+ b) EmptyString
  else mkOut (o_written o) b.

(** [flush()], and the destructor. *)
Definition flush (o : Out) : Out := mkOut (o_written o +:+ o_buffer o) EmptyString.

(** Text written to the terminal past the stream ([fputs] of
    [QCommandLineParser::showHelp]). *)
Definition to_terminal (s : string) (o : Out) : Out := mkOut (o_written o +:+ s) (o_buffer o).

End QTextStream.

(** ** Lemmas *)

Section TextStreamFacts.
Import QTextStream.

Lemma ltrim_length (s : string) : (String.length (ltrim s) <= String.length s)%nat.
Proof. induction s as [|c s IH]; simpl; [lia|]. destruct (qt_is_space c); simpl; lia. Qed.

Lemma take_word_length (s : string) : (String.length (take_word s).2 <= String.length s)%nat.
Proof.
  induction s as [|c s IH]; simpl; [lia|].
  destruct (qt_is_space c); simpl; [lia|]. destruct (take_word s); simpl in *; lia.
Qed.

(** A word read from a non-empty input consumes at least one byte. *)
Lemma read_word_lt (s : string) :
  s <> EmptyString -> (String.length (read_word s).2 < String.length s)%nat.
Proof.
  unfold read_word. induction s as [|c s IH]; [done|]. intros _. simpl.
  destruct (qt_is_space c) eqn:Hc.
  - pose proof (ltrim_length s). pose proof (take_word_length (ltrim s)). lia.
  - simpl. rewrite Hc. pose proof (take_word_length s). destruct (take_word s); simpl in *; lia.
Qed.

Lemma read_word_le (s : string) : (String.length (read_word s).2 <= String.length s)%nat.
Proof. destruct s as [|c s]; [simpl; lia|]. pose proof (read_word_lt (String c s) ltac:(discriminate)). lia. Qed.

Lemma substring_length_le n m (s : string) :
  (String.length (String.substring n m s) <= String.length s)%nat.
Proof.
  revert n m. induction s as [|c s IH]; intros [|n] [|m]; simpl; try lia;
    [specialize (IH 0%nat m) | specialize (IH n 0%nat) | specialize (IH n (S m))]; lia.
Qed.

Lemma read_line_le (s : string) : (String.length (read_line s).2 <= String.length s)%nat.
Proof.
  induction s as [|c s IH]; simpl; [lia|].
  destruct (Ascii.eqb c "010"); simpl; [lia|].
  destruct (Ascii.eqb c "013" && String.prefix _ s); simpl.
  - pose proof (substring_length_le 1 (String.length s - 1) s). lia.
  - destruct (read_line s); simpl in *; lia.
Qed.

Lemma take_digits_length b s v k :
  (String.length (take_digits b s v k).2 <= String.length s)%nat.
Proof.
  revert v k. induction s as [|c s IH]; intros v k; simpl; [lia|].
  destruct (digit_base b c); simpl; [specialize (IH ((v * b + z) mod 2 ^ 64) (S k)); lia|lia].
Qed.

Lemma read_int_le (s : string) : (String.length (read_int s).2 <= String.length s)%nat.
Proof.
  pose proof (ltrim_length s) as Hl. unfold read_int.
  destruct (ltrim s) as [|c rest] eqn:E; [simpl; lia|].
  apply (Nat.le_trans _ (String.length (String c rest))); [|exact Hl]. cbv zeta.
  assert (Hd : forall t, (String.length t <= String.length (String c rest))%nat ->
            (String.length (read_decimal t).2 <= String.length (String c rest))%nat).
  { intros [|x t] Ht; simpl in *; [lia|].
    destruct (Ascii.eqb x "-" || Ascii.eqb x "+").
    - pose proof (take_digits_length 10 t 0 0).
      destruct (take_digits 10 t 0 0) as [[v [|k]] r]; simpl in *; lia.
    - destruct (digit_base 10 x); simpl; [|lia].
      pose proof (take_digits_length 10 t z 1).
      destruct (take_digits 10 t z 1) as [[v k] r]; simpl in *; lia. }
  assert (Ha : forall b r, (String.length r <= String.length (String c rest))%nat ->
            (String.length (digits_after b r (String c rest)).2 <= String.length (String c rest))%nat).
  { intros b r Hr. unfold digits_after. pose proof (take_digits_length b r 0 0).
    destruct (take_digits b r 0 0) as [[v [|k]] r']; simpl in *; lia. }
  destruct (Ascii.eqb c "0").
  - destruct rest as [|c2 rest2]; [simpl; lia|].
    cbn -[read_decimal digits_after take_digits String.length].
    destruct (Ascii.eqb (ascii_lower c2) "x"); [apply Ha; simpl; lia|].
    destruct (Ascii.eqb (ascii_lower c2) "b"); [apply Ha; simpl; lia|].
    destruct (is_digit_base 8 c2); [|apply Hd; lia].
    pose proof (take_digits_length 8 (String c (String c2 rest2)) 0 0).
    destruct (take_digits 8 _ 0 0) as [[v k] r]; simpl in *; lia.
  - destruct (_ || _); [apply Hd; lia|simpl; lia].
Qed.

(** The [int] read is always in [int]'s range: the cast keeps 32 bits. *)
Lemma to_int32_range v : INT_MIN <= to_int32 v <= INT_MAX.
Proof.
  unfold to_int32, INT_MIN, INT_MAX.
  pose proof (Z.mod_pos_bound (v - - 2 ^ 31) (2 ^ 32)). lia.
Qed.

Lemma to_int32_id v : INT_MIN <= v <= INT_MAX -> to_int32 v = v.
Proof.
  unfold to_int32, INT_MIN, INT_MAX. intros Hv.
  rewrite Z.mod_small; lia.
Qed.

End TextStreamFacts.
