(* ===== verification/CompleteCli.v ===== *)
(** * The complete CLI: [CompleteCliApplication] of
      [src/nekoray-cli-COMPLETE.cpp]

    A stand-alone console program that keeps its own settings, profiles
    and groups as three JSON files ([config.json], [profiles.json],
    [groups.json]) under [~/.config/nekoray], answers one command given
    on the command line, or runs a menu loop on stdin.  No proxy is ever
    started: the proxy, TUN, import, log and update commands print a
    line and return 0.

    The class's members are the record [App]; the console (the file
    system, the text not yet read from stdin, the [m_out] stream) is
    [Console]; every member function is a computation of the state
    monad [M] over both.  The program's text is kept as written: its
    string literals are ["\\n"] in C++, a backslash and an [n], and the
    model keeps those two characters.

    [runInteractiveMode]'s [while (true)] loop is [runInteractiveMode]
    with a number of rounds: [Deadlock] there means that the loop did
    not end within the rounds given.  [loop_ends] is the loop as a
    big-step relation, and the lemmas of [CompleteCliFacts] relate the
    two.  [QCommandLineParser] itself is not modelled: [run] takes the
    option [-c] and the positional arguments as it found them, and
    [parser.showHelp(1)] is the help text (a parameter) written to the
    terminal, then [::exit(1)]. *)

From S2P Require Import Prelude QJson Platform OutputRelay Safety Codec TextStream.
From Stdlib Require Import Ascii.

Local Open Scope Z_scope.

Module CompleteCli.
Import QTextStream.

(** ** State *)

(** The members of [CompleteCliApplication]. *)
Record App : Type := mkApp {
  m_configDir : string;
  m_corePath : string;
  m_config : QJsonObject;
  m_profiles : list QJsonValue;
  m_groups : list QJsonValue
}.

(** The console: the files, the text stdin still holds, and [m_out]. *)
Record Console : Type := mkConsole {
  c_fs : FileSystem;
  c_in : string;
  c_out : Out
}.

Abbreviation St := (App * Console)%type.

(** How [run] ends: it returns a code, or [showHelp] calls [::exit]. *)
Inductive Exit : Type :=
| Return (code : Z)
| ExitCalled (code : Z).

Definition set_configDir (d : string) (a : App) : App :=
  mkApp d (m_corePath a) (m_config a) (m_profiles a) (m_groups a).
Definition set_corePath (p : string) (a : App) : App :=
  mkApp (m_configDir a) p (m_config a) (m_profiles a) (m_groups a).
Definition set_config (c : QJsonObject) (a : App) : App :=
  mkApp (m_configDir a) (m_corePath a) c (m_profiles a) (m_groups a).
Definition set_profiles (ps : list QJsonValue) (a : App) : App :=
  mkApp (m_configDir a) (m_corePath a) (m_config a) ps (m_groups a).
Definition set_groups (gs : list QJsonValue) (a : App) : App :=
  mkApp (m_configDir a) (m_corePath a) (m_config a) (m_profiles a) gs.

(** ** Primitive steps *)

Definition app : M St App := fun s => Returns (s.1, s).
Definition modify_app (f : App -> App) : M St unit := fun '(a, c) => Returns (tt, (f a, c)).
Definition fs : M St FileSystem := fun s => Returns (c_fs s.2, s).
Definition modify_fs (f : FileSystem -> FileSystem) : M St unit :=
  fun '(a, c) => Returns (tt, (a, mkConsole (f (c_fs c)) (c_in c) (c_out c))).
Definition modify_out (f : Out -> Out) : M St unit :=
  fun '(a, c) => Returns (tt, (a, mkConsole (c_fs c) (c_in c) (f (c_out c)))).

(** [m_out << s]. *)
Definition out (s : string) : M St unit := modify_out (write s).

(** [m_out.flush()]. *)
Definition flush_out : M St unit := modify_out flush.

(** A read of stdin with one of the [QTextStream] readers. *)
Definition read {A} (r : string -> A * string) : M St A :=
  fun '(a, c) => let '(v, rest) := r (c_in c) in
                 Returns (v, (a, mkConsole (c_fs c) rest (c_out c))).

(** [QDir::mkpath]: the directory exists after, unless the OS refused;
    the result is not checked. *)
Definition mkpath (d : string) (f : FileSystem) : FileSystem :=
  match ensure_dir d f with Some f' => f' | None => f end.

(** [if (file.open(QIODevice::WriteOnly)) file.write(...)]. *)
Definition try_write (p : string) (content : FileContent) (f : FileSystem) : FileSystem :=
  match fs_write p content f with Some f' => f' | None => f end.

(** [QJsonDocument::fromJson(data).object()] and [.array()]: empty
    unless the text parses to an object, or an array. *)
Definition doc_obj (c : FileContent) : QJsonObject :=
  match parse_json c with Some (QObject o) => o | _ => [] end.
Definition doc_arr (c : FileContent) : list QJsonValue :=
  match parse_json c with Some (QArray l) => l | _ => [] end.

(** [QJsonValue::toInt(defaultValue)]. *)
Definition qj_toInt_or (d : Z) (v : QJsonValue) : Z :=
  match v with
  | QDouble n => if (INT_MIN <=? n) && (n <=? INT_MAX) then n else d
  | _ => d
  end.

(** [QJsonValue::toObject()] and [toArray()]. *)
Definition qj_toObject (v : QJsonValue) : QJsonObject :=
  match v with QObject o => o | _ => [] end.
Definition qj_toArray (v : QJsonValue) : list QJsonValue :=
  match v with QArray l => l | _ => [] end.


(** ** Construction, loading and saving *)

Section Program.
Context (homePath appDir helpText : string).

Definition possibleNames : list string := ["nekobox_core"; "nekoray_core"; "sing-box"].

(** [findCore()]: the first of the three names next to the program. *)
Definition findCore : M St unit :=
  f <- fs ;;
  match find (fun p => file_exists p f) (map (fun n => (appDir +:+ "/" +:+ n)%string) possibleNames) with
  | Some p => modify_app (set_corePath p)
  | None => mret tt
  end.

(** [createDefaultConfig()]. *)
Definition createDefaultConfig : QJsonObject :=
  obj_insert "theme" (QString "auto")
  (obj_insert "auto_update" (QBool true)
  (obj_insert "system_proxy" (QBool false)
  (obj_insert "start_on_boot" (QBool false)
  (obj_insert "tun_enabled" (QBool false)
  (obj_insert "current_group" (QDouble 0)
  (obj_insert "log_level" (QString "warning")
  (obj_insert "inbound_http_port" (QDouble 2081)
  (obj_insert "inbound_socks_port" (QDouble 2080) [])))))))).

(** [saveConfiguration()]: the three documents, each written when its
    file opens. *)
Definition saveConfiguration : M St unit :=
  a <- app ;;
  let d := m_configDir a in
  modify_fs (mkpath d) ;;;
  modify_fs (try_write (d +:+ "/config.json") (JsonFile (QObject (m_config a)))) ;;;
  modify_fs (try_write (d +:+ "/profiles.json") (JsonFile (QArray (m_profiles a)))) ;;;
  modify_fs (try_write (d +:+ "/groups.json") (JsonFile (QArray (m_groups a)))).

(** [loadConfiguration()]: [config.json], or the defaults saved at once;
    then [profiles.json] and [groups.json] when they exist and open
    (otherwise the members keep what they held). *)
Definition loadConfiguration : M St unit :=
  a <- app ;;
  let d := m_configDir a in
  modify_fs (mkpath d) ;;;
  f <- fs ;;
  (match fs_read (d +:+ "/config.json") f with
   | Some content => modify_app (set_config (doc_obj content))
   | None => modify_app (set_config createDefaultConfig) ;;; saveConfiguration
   end) ;;;
  f <- fs ;;
  (match fs_read (d +:+ "/profiles.json") f with
   | Some content => modify_app (set_profiles (doc_arr content))
   | None => mret tt
   end) ;;;
  f <- fs ;;
  match fs_read (d +:+ "/groups.json") f with
  | Some content => modify_app (set_groups (doc_arr content))
  | None => mret tt
  end.

(** The constructor: the default directory, loaded, then the core. *)
Definition construct : M St unit :=
  modify_app (fun _ => mkApp (homePath +:+ "/.config/nekoray") EmptyString [] [] []) ;;;
  loadConfiguration ;;;
  findCore.


(** ** Helpers of the table and the status *)

(** [QString::toLower] on ASCII letters. *)
Fixpoint qstring_toLower (s : string) : string :=
  match s with
  | EmptyString => EmptyString
  | String c s' => String (ascii_lower c) (qstring_toLower s')
  end.

Fixpoint spaces (n : nat) : string :=
  match n with O => EmptyString | S n' => String " " (spaces n') end.

(** The padding of [arg(a, fieldWidth)]: to [|fieldWidth|] characters,
    on the left for a positive width, on the right for a negative one. *)
Definition qpad (fieldWidth : Z) (a : string) : string :=
  let n := spaces (Z.to_nat (Z.abs fieldWidth - Z.of_nat (String.length a))) in
  if 0 <? fieldWidth then (n +:+ a)%string else (a +:+ n)%string.

(** [obj[k]] on a non-const [QJsonObject]: a missing key is inserted
    with a null value. *)
Definition obj_at (k : string) (o : QJsonObject) : QJsonValue * QJsonObject :=
  match obj_find k o with
  | Some v => (v, o)
  | None => (QNull, obj_insert k QNull o)
  end.

(** [m_config[key]] on the member. *)
Definition config_at (k : string) : M St QJsonValue :=
  a <- app ;;
  let '(v, o) := obj_at k (m_config a) in
  modify_app (set_config o) ;;; mret v.

(** [QJsonValue::toVariant().toString()]. *)
Definition variant_string (v : QJsonValue) : string :=
  match v with
  | QBool true => "true"
  | QBool false => "false"
  | QDouble n => z_to_string n
  | QString s => s
  | _ => EmptyString
  end.

Definition getServiceStatus : string := "Stopped".
Definition getUploadTraffic : string := "0".
Definition getDownloadTraffic : string := "0".

(** [getCurrentProfile()]: [m_config["current_profile"].toInt(-1)]. *)
Definition getCurrentProfile : M St Z :=
  v <- config_at "current_profile" ;; mret (qj_toInt_or (-1) v).

(** [getTunStatus()]. *)
Definition getTunStatus : M St string :=
  v <- config_at "tun_enabled" ;; mret (if qj_toBool v then "Started" else "Stopped").

(** ** Commands *)

(** [handleStatus()]. *)
Definition handleStatus : M St Z :=
  out "\n=== NekoRay Status ===\n" ;;;
  out (QStr.arg "Service Status: %1\n" getServiceStatus) ;;;
  cur <- getCurrentProfile ;;
  out (QStr.arg "Current Profile: %1\n" (z_to_string cur)) ;;;
  tun <- getTunStatus ;;
  out (QStr.arg "TUN Mode: %1\n" tun) ;;;
  a <- app ;;
  let empty := String.eqb (m_corePath a) EmptyString in
  out (QStr.arg "Core: %1\n" (if empty then "Not Found" else m_corePath a)) ;;;
  out (QStr.arg "Core Status: %1\n" (if empty then "Missing" else "Ready")) ;;;
  socks <- config_at "inbound_socks_port" ;;
  http <- config_at "inbound_http_port" ;;
  out (QStr.arg "SOCKS5: 127.0.0.1:%1 (configured)\n" (z_to_string (qj_toInt_or 2080 socks))) ;;;
  out (QStr.arg "HTTP: 127.0.0.1:%1 (configured)\n" (z_to_string (qj_toInt_or 2081 http))) ;;;
  out (QStr.arg "Upload: %1 B\n" getUploadTraffic) ;;;
  out (QStr.arg "Download: %1 B\n" getDownloadTraffic) ;;;
  mret 0.

(** One row of [listProfiles]: [.arg(i, 3).arg(name.left(20), -20)
    .arg(type.left(15), -15).arg(status, -10)]. *)
Definition profile_row (i : Z) (name type status : string) : string :=
  QStr.arg (QStr.arg (QStr.arg (QStr.arg "│ %1 │ %2 │ %3 │ %4 │\n"
    (qpad 3 (z_to_string i))) (qpad (-20) (QStr.left name 20)))
    (qpad (-15) (QStr.left type 15))) (qpad (-10) status).

(** The [for] loop of [listProfiles], from index [i]. *)
Fixpoint profile_rows (i : Z) (ps : list QJsonValue) : M St unit :=
  match ps with
  | [] => mret tt
  | p :: ps' =>
      let profile := qj_toObject p in
      cur <- getCurrentProfile ;;
      out (profile_row i (qj_toString (obj_value "name" profile))
             (qj_toString (obj_value "protocol" profile))
             (if Z.eqb i cur then "Active" else "Inactive")) ;;;
      profile_rows (i + 1) ps'
  end.

(** [listProfiles()]. *)
Definition listProfiles : M St Z :=
  out "\n=== Profile List ===\n" ;;;
  out "┌─────┬──────────────────────┬─────────────────┬────────────┐\n" ;;;
  out "│  ID │ Name                 │ Type            │ Status     │\n" ;;;
  out "├─────┼──────────────────────┼─────────────────┼────────────┤\n" ;;;
  a <- app ;;
  (match m_profiles a with
   | [] => out "│                    No profiles configured                   │\n"
   | ps => profile_rows 0 ps
   end) ;;;
  out "└─────┴──────────────────────┴─────────────────┴────────────┘\n" ;;;
  mret 0.

(** [addProfile()]: name, protocol, address and port, then the UUID or
    the method and password; appended and saved. *)
Definition addProfile : M St Z :=
  out "\n=== Add New Profile ===\n" ;;;
  out "Profile Name: " ;;; flush_out ;;;
  _ <- read read_line ;;
  name <- read read_line ;;
  let profile := obj_insert "name" (QString name) [] in
  out "Protocol (vmess/vless/shadowsocks/trojan): " ;;; flush_out ;;;
  protocol <- read read_line ;;
  let profile := obj_insert "protocol" (QString protocol) profile in
  out "Server Address: " ;;; flush_out ;;;
  address <- read read_line ;;
  let profile := obj_insert "address" (QString address) profile in
  out "Server Port: " ;;; flush_out ;;;
  input <- read read_word ;;
  let profile := obj_insert "port" (QDouble (qstring_toInt input).1) profile in
  let protocol := qj_toString (obj_value "protocol" profile) in
  profile <- (if String.eqb protocol "vmess" || String.eqb protocol "vless" then
                out "UUID: " ;;; flush_out ;;;
                _ <- read read_line ;;
                uuid <- read read_line ;;
                mret (obj_insert "uuid" (QString uuid) profile)
              else if String.eqb protocol "shadowsocks" then
                out "Method: " ;;; flush_out ;;;
                _ <- read read_line ;;
                method <- read read_line ;;
                let profile := obj_insert "method" (QString method) profile in
                out "Password: " ;;; flush_out ;;;
                password <- read read_line ;;
                mret (obj_insert "password" (QString password) profile)
              else mret profile) ;;
  a <- app ;;
  modify_app (set_profiles (m_profiles a ++ [QObject profile])) ;;;
  saveConfiguration ;;;
  out "✅ Profile added successfully\n" ;;;
  mret 0.

(** [editProfile(id)]: the index checked, the name replaced unless the
    new one is empty, the entry stored back as an object and saved. *)
Definition editProfile (id : Z) : M St Z :=
  a <- app ;;
  if (id <? 0) || (Z.of_nat (length (m_profiles a)) <=? id) then
    out "Invalid profile ID\n" ;;; mret 1
  else
    let profile := qj_toObject (nth (Z.to_nat id) (m_profiles a) QNull) in
    let '(name, profile) := obj_at "name" profile in
    out (QStr.arg "\n=== Edit Profile: %1 ===\n" (qj_toString name)) ;;;
    let '(name, profile) := obj_at "name" profile in
    out (QStr.arg "Current Name: %1\n" (qj_toString name)) ;;;
    out "New Name (Enter to keep current): " ;;; flush_out ;;;
    _ <- read read_line ;;
    newName <- read read_line ;;
    let profile := if String.eqb newName EmptyString then profile
                   else obj_insert "name" (QString newName) profile in
    a <- app ;;
    modify_app (set_profiles (<[Z.to_nat id := QObject profile]> (m_profiles a))) ;;;
    saveConfiguration ;;;
    out "✅ Profile updated successfully\n" ;;;
    mret 0.

(** The commands that only print a line. *)
Definition handleStart (args : list string) : M St Z := out "Starting proxy...\n" ;;; mret 0.
Definition handleStop : M St Z := out "Stopping proxy...\n" ;;; mret 0.
Definition handleRestart (args : list string) : M St Z := out "Restarting proxy...\n" ;;; mret 0.
Definition handleTest (args : list string) : M St Z := out "Testing profile...\n" ;;; mret 0.
Definition handleTunCommand (args : list string) : M St Z := out "TUN command...\n" ;;; mret 0.
Definition handleImportCommand (args : list string) : M St Z := out "Importing...\n" ;;; mret 0.
Definition handleExportCommand (args : list string) : M St Z := out "Exporting...\n" ;;; mret 0.
Definition handleLogsCommand (args : list string) : M St Z := out "Showing logs...\n" ;;; mret 0.
Definition handleStats : M St Z := out "Traffic statistics...\n" ;;; mret 0.
Definition handlePing (args : list string) : M St Z := out "Ping test...\n" ;;; mret 0.
Definition handleDaemon : M St Z := out "Running as daemon...\n" ;;; mret 0.
Definition handleUpdate : M St Z := out "Updating...\n" ;;; mret 0.
Definition interactiveStart : M St unit := out "Interactive start...\n".
Definition interactiveTest : M St unit := out "Interactive test...\n".
Definition showTunMenu : M St unit := out "TUN menu...\n".
Definition showSettingsMenu : M St unit := out "Settings menu...\n".
Definition showImportExportMenu : M St unit := out "Import/Export menu...\n".
Definition showLogsMenu : M St unit := out "Logs menu...\n".
Definition showAdvancedMenu : M St unit := out "Advanced menu...\n".
Definition showProfile (id : Z) : M St Z := out ("Show profile " +:+ z_to_string id +:+ "\n") ;;; mret 0.
Definition deleteProfile (id : Z) : M St Z := out ("Delete profile " +:+ z_to_string id +:+ "\n") ;;; mret 0.
Definition importProfiles : M St Z := out "Import profiles...\n" ;;; mret 0.
Definition exportProfiles : M St Z := out "Export profiles...\n" ;;; mret 0.
Definition addGroup : M St Z := out "Add group...\n" ;;; mret 0.
Definition updateGroup (id : Z) : M St Z := out ("Update group " +:+ z_to_string id +:+ "\n") ;;; mret 0.
Definition deleteGroup (id : Z) : M St Z := out ("Delete group " +:+ z_to_string id +:+ "\n") ;;; mret 0.
Definition setConfig (key value : string) : M St Z :=
  out ("Set " +:+ key +:+ " = " +:+ value +:+ "\n") ;;; mret 0.
Definition editConfig : M St Z := out "Edit config...\n" ;;; mret 0.
Definition resetConfig : M St Z := out "Reset config...\n" ;;; mret 0.

(** [args[1].toInt()]. *)
Definition arg1_int (rest : list string) : Z :=
  match rest with a1 :: _ => (qstring_toInt a1).1 | [] => 0 end.

(** [handleProfileCommand(args)]. *)
Definition handleProfileCommand (args : list string) : M St Z :=
  match args with
  | [] => out "Profile command requires subcommand\n" ;;; mret 1
  | sub :: rest =>
      let more := negb (Nat.eqb (length rest) 0) in
      if String.eqb sub "list" then listProfiles
      else if String.eqb sub "add" then addProfile
      else if String.eqb sub "edit" && more then editProfile (arg1_int rest)
      else if String.eqb sub "delete" && more then deleteProfile (arg1_int rest)
      else if String.eqb sub "show" && more then showProfile (arg1_int rest)
      else if String.eqb sub "import" then importProfiles
      else if String.eqb sub "export" then exportProfiles
      else out "Invalid profile subcommand\n" ;;; mret 1
  end.

(** The [for] loop of [listGroups], from index [i]. *)
Fixpoint group_rows (i : Z) (gs : list QJsonValue) : M St unit :=
  match gs with
  | [] => mret tt
  | g :: gs' =>
      let group := qj_toObject g in
      out (QStr.arg (QStr.arg (QStr.arg "%1. %2 (%3 profiles)\n" (z_to_string i))
             (qj_toString (obj_value "name" group)))
             (z_to_string (Z.of_nat (length (qj_toArray (obj_value "profiles" group)))))) ;;;
      group_rows (i + 1) gs'
  end.

(** [listGroups()]. *)
Definition listGroups : M St Z :=
  out "\n=== Subscription Groups ===\n" ;;;
  a <- app ;; group_rows 0 (m_groups a) ;;; mret 0.

(** [handleGroupCommand(args)]. *)
Definition handleGroupCommand (args : list string) : M St Z :=
  match args with
  | [] => out "Group command requires subcommand\n" ;;; mret 1
  | sub :: rest =>
      let more := negb (Nat.eqb (length rest) 0) in
      if String.eqb sub "list" then listGroups
      else if String.eqb sub "add" then addGroup
      else if String.eqb sub "update" && more then updateGroup (arg1_int rest)
      else if String.eqb sub "delete" && more then deleteGroup (arg1_int rest)
      else out "Invalid group subcommand\n" ;;; mret 1
  end.

(** One line of [showConfig]:
    [QString("%-20s: %1\\n").arg(it.key()).arg(value)]. *)
Definition config_line (key : string) (v : QJsonValue) : string :=
  QStr.arg (QStr.arg "%-20s: %1\n" key) (variant_string v).

(** [showConfig()]: the settings in key order. *)
Definition showConfig : M St Z :=
  out "\n=== System Configuration ===\n" ;;;
  a <- app ;;
  fold_right (fun kv k => out (config_line kv.1 kv.2) ;;; k) (mret tt) (m_config a) ;;;
  mret 0.

(** [handleConfigCommand(args)]. *)
Definition handleConfigCommand (args : list string) : M St Z :=
  match args with
  | [] => showConfig
  | sub :: rest =>
      if String.eqb sub "show" then showConfig
      else if String.eqb sub "set" && (2 <=? length rest)%nat then
        setConfig (nth 0 rest EmptyString) (nth 1 rest EmptyString)
      else if String.eqb sub "edit" then editConfig
      else if String.eqb sub "reset" then resetConfig
      else out "Invalid config subcommand\n" ;;; mret 1
  end.

(** ** The menus *)

(** [showMainMenu()]. *)
Definition showMainMenu : M St unit :=
  out "\n┌─────────────────────────────────────┐\n" ;;;
  out "│         NekoRay CLI Menu            │\n" ;;;
  out "├─────────────────────────────────────┤\n" ;;;
  out "│ 1. Proxy Status & Control           │\n" ;;;
  out "│ 2. Profile Management               │\n" ;;;
  out "│ 3. Group & Subscription Management  │\n" ;;;
  out "│ 4. TUN Mode Control                 │\n" ;;;
  out "│ 5. System Settings                  │\n" ;;;
  out "│ 6. Import/Export                    │\n" ;;;
  out "│ 7. Logs & Statistics                │\n" ;;;
  out "│ 8. Advanced Tools                   │\n" ;;;
  out "│ q. Quit                             │\n" ;;;
  out "└─────────────────────────────────────┘\n".

(** [showProxyMenu()]: an [int] read from stdin picks the action; any
    other number does nothing. *)
Definition showProxyMenu : M St unit :=
  out "\n=== Proxy Control ===\n" ;;;
  out "1. Show Status\n2. Start Proxy\n3. Stop Proxy\n4. Test Profile\n" ;;;
  out "Choice: " ;;; flush_out ;;;
  choice <- read read_int ;;
  if Z.eqb choice 1 then handleStatus ;;; mret tt
  else if Z.eqb choice 2 then interactiveStart
  else if Z.eqb choice 3 then handleStop ;;; mret tt
  else if Z.eqb choice 4 then interactiveTest
  else mret tt.

(** The prompt for an id and the command it runs. *)
Definition ask_id {A} (prompt : string) (k : string -> M St A) : M St A :=
  out prompt ;;; flush_out ;;; id <- read read_word ;; k id.

(** [showProfileMenu()]. *)
Definition showProfileMenu : M St unit :=
  out "\n=== Profile Management ===\n" ;;;
  out "1. List Profiles\n2. Add Profile\n3. Edit Profile\n4. Delete Profile\n5. Import Profile\n" ;;;
  out "Choice: " ;;; flush_out ;;;
  choice <- read read_int ;;
  if Z.eqb choice 1 then handleProfileCommand ["list"] ;;; mret tt
  else if Z.eqb choice 2 then handleProfileCommand ["add"] ;;; mret tt
  else if Z.eqb choice 3 then
    ask_id "Profile ID to edit: " (fun id => handleProfileCommand ["edit"; id] ;;; mret tt)
  else if Z.eqb choice 4 then
    ask_id "Profile ID to delete: " (fun id => handleProfileCommand ["delete"; id] ;;; mret tt)
  else if Z.eqb choice 5 then handleProfileCommand ["import"] ;;; mret tt
  else mret tt.

(** [showGroupMenu()]. *)
Definition showGroupMenu : M St unit :=
  out "\n=== Group Management ===\n" ;;;
  out "1. List Groups\n2. Add Group\n3. Update Group\n4. Delete Group\n" ;;;
  out "Choice: " ;;; flush_out ;;;
  choice <- read read_int ;;
  if Z.eqb choice 1 then handleGroupCommand ["list"] ;;; mret tt
  else if Z.eqb choice 2 then handleGroupCommand ["add"] ;;; mret tt
  else if Z.eqb choice 3 then
    ask_id "Group ID to update: " (fun id => handleGroupCommand ["update"; id] ;;; mret tt)
  else if Z.eqb choice 4 then
    ask_id "Group ID to delete: " (fun id => handleGroupCommand ["delete"; id] ;;; mret tt)
  else mret tt.

(** [handleMenuChoice(choice)]: [switch (choice.toInt())]. *)
Definition handleMenuChoice (choice : string) : M St unit :=
  let n := (qstring_toInt choice).1 in
  if Z.eqb n 1 then showProxyMenu
  else if Z.eqb n 2 then showProfileMenu
  else if Z.eqb n 3 then showGroupMenu
  else if Z.eqb n 4 then showTunMenu
  else if Z.eqb n 5 then showSettingsMenu
  else if Z.eqb n 6 then showImportExportMenu
  else if Z.eqb n 7 then showLogsMenu
  else if Z.eqb n 8 then showAdvancedMenu
  else out "Invalid choice. Please try again.\n".

(** One round of the [while (true)] loop of [runInteractiveMode]:
    [true] when it [break]s. *)
Definition menu_round : M St bool :=
  showMainMenu ;;;
  out "\nSelect option (q to quit): " ;;; flush_out ;;;
  choice <- read read_word ;;
  let lower := qstring_toLower choice in
  if String.eqb lower "q" || String.eqb lower "quit" then
    out "Goodbye!\n" ;;; mret true
  else handleMenuChoice choice ;;; mret false.

(** The loop, for at most [fuel] rounds. *)
Fixpoint menu_loop (fuel : nat) : M St unit :=
  match fuel with
  | O => mdeadlock
  | S fuel' => quit <- menu_round ;; if quit then mret tt else menu_loop fuel'
  end.

(** [runInteractiveMode()]. *)
Definition runInteractiveMode (fuel : nat) : M St Z :=
  out "\n=== NekoRay CLI - Interactive Mode ===\n" ;;;
  out "Complete GUI functionality in terminal\n\n" ;;;
  menu_loop fuel ;;;
  mret 0.

(** ** [run] and [main] *)

(** What [QCommandLineParser] found: [-c]/[--config] and the
    positional arguments. *)
Record Options : Type := mkOptions {
  o_config : option string;
  o_args : list string
}.

(** [parser.showHelp(1)]: the help text, then [::exit]. *)
Definition showHelp (code : Z) : M St Exit :=
  modify_out (to_terminal helpText) ;;; mret (ExitCalled code).

Definition returning (m : M St Z) : M St Exit := c <- m ;; mret (Return c).

(** [run(arguments)] after [parser.process]. *)
Definition run (fuel : nat) (o : Options) : M St Exit :=
  (match o_config o with
   | Some d => modify_app (set_configDir d) ;;; loadConfiguration
   | None => mret tt
   end) ;;;
  match o_args o with
  | [] => returning (runInteractiveMode fuel)
  | command :: args =>
      if String.eqb command "status" then returning handleStatus
      else if String.eqb command "start" then returning (handleStart args)
      else if String.eqb command "stop" then returning handleStop
      else if String.eqb command "restart" then returning (handleRestart args)
      else if String.eqb command "test" then returning (handleTest args)
      else if String.eqb command "profile" then returning (handleProfileCommand args)
      else if String.eqb command "group" then returning (handleGroupCommand args)
      else if String.eqb command "tun" then returning (handleTunCommand args)
      else if String.eqb command "config" then returning (handleConfigCommand args)
      else if String.eqb command "import" then returning (handleImportCommand args)
      else if String.eqb command "export" then returning (handleExportCommand args)
      else if String.eqb command "logs" then returning (handleLogsCommand args)
      else if String.eqb command "stats" then returning handleStats
      else if String.eqb command "ping" then returning (handlePing args)
      else if String.eqb command "interactive" then returning (runInteractiveMode fuel)
      else if String.eqb command "daemon" then returning handleDaemon
      else if String.eqb command "update" then returning handleUpdate
      else out ("Unknown command: " +:+ command +:+ "\n") ;;; showHelp 1
  end.

(** [main]: the application object is built, [run] runs, and its
    destructor flushes [m_out] when [run] returns. *)
Definition main (fuel : nat) (o : Options) : M St Z :=
  construct ;;;
  e <- run fuel o ;;
  match e with
  | Return c => flush_out ;;; mret c
  | ExitCalled c => mret c
  end.

End Program.

End CompleteCli.

(** ** Properties of the complete CLI *)

Module CompleteCliFacts.
Import QTextStream CompleteCli.

(** *** Computations that always return, and what they do to the console *)

Section Steps.
Context (R : Console -> Console -> Prop) `{!Reflexive R} `{!Transitive R}.

(** [m] returns from every state, and moves the console along [R]. *)
Definition steps {A} (m : M St A) : Prop :=
  forall s, exists v s', m s = Returns (v, s') /\ R s.2 s'.2.

Lemma steps_ret {A} (v : A) : steps (mret v).
Proof. intros s. exists v, s. split; [done|reflexivity]. Qed.

Lemma steps_bind {A B} (m : M St A) (k : A -> M St B) :
  steps m -> (forall v, steps (k v)) -> steps (mbind m k).
Proof.
  intros Hm Hk s. destruct (Hm s) as (v & s1 & E1 & R1).
  destruct (Hk v s1) as (w & s2 & E2 & R2). exists w, s2. simpl. rewrite E1.
  split; [done|]. by transitivity s1.2.
Qed.

Lemma steps_app : steps app.
Proof. intros s. eexists _, s. split; [done|reflexivity]. Qed.

Lemma steps_fs : steps fs.
Proof. intros s. eexists _, s. split; [done|reflexivity]. Qed.

Lemma steps_modify_app f : steps (modify_app f).
Proof. intros [a c]. eexists _, _. split; [done|reflexivity]. Qed.

End Steps.

Lemma steps_mono (R R' : Console -> Console -> Prop) {A} (m : M St A) :
  (forall c c', R c c' -> R' c c') -> steps R m -> steps R' m.
Proof.
  intros HR Hm s. destruct (Hm s) as (v & s' & E & HRs). exists v, s'. auto.
Qed.

(** The console relations: stdin untouched, stdin and [m_out] untouched,
    stdin not longer. *)
Definition keeps_in (c c' : Console) : Prop := c_in c' = c_in c.
Definition silent (c c' : Console) : Prop := c_in c' = c_in c /\ c_out c' = c_out c.
Definition consumes (c c' : Console) : Prop := (String.length (c_in c') <= String.length (c_in c))%nat.

#[export] Instance keeps_in_refl : Reflexive keeps_in.
Proof. by intros c. Qed.
#[export] Instance keeps_in_trans : Transitive keeps_in.
Proof. intros c1 c2 c3 H1 H2. unfold keeps_in in *. congruence. Qed.
#[export] Instance silent_refl : Reflexive silent.
Proof. by intros c. Qed.
#[export] Instance silent_trans : Transitive silent.
Proof. intros c1 c2 c3 [H1 H1'] [H2 H2']. split; congruence. Qed.
#[export] Instance consumes_refl : Reflexive consumes.
Proof. intros c. unfold consumes. lia. Qed.
#[export] Instance consumes_trans : Transitive consumes.
Proof. intros c1 c2 c3 H1 H2. unfold consumes in *. lia. Qed.

Lemma silent_keeps_in c c' : silent c c' -> keeps_in c c'.
Proof. by intros [H _]. Qed.
Lemma keeps_in_consumes c c' : keeps_in c c' -> consumes c c'.
Proof. unfold keeps_in, consumes. intros ->. lia. Qed.

Lemma steps_modify_fs R `{!Reflexive R} f :
  (forall c, R c (mkConsole (f (c_fs c)) (c_in c) (c_out c))) -> steps R (modify_fs f).
Proof. intros Hf [a c]. eexists _, _. split; [done|]. apply Hf. Qed.

Lemma steps_modify_out R f :
  (forall c, R c (mkConsole (c_fs c) (c_in c) (f (c_out c)))) -> steps R (modify_out f).
Proof. intros Hf [a c]. eexists _, _. split; [done|]. apply Hf. Qed.

Lemma silent_modify_fs f : steps silent (modify_fs f).
Proof. apply steps_modify_fs; [apply _|]. by intros c. Qed.

Lemma keeps_in_out s : steps keeps_in (out s).
Proof. apply steps_modify_out. by intros c. Qed.

Lemma keeps_in_flush : steps keeps_in flush_out.
Proof. apply steps_modify_out. by intros c. Qed.

Lemma consumes_read {A} (r : string -> A * string) :
  (forall s, (String.length (r s).2 <= String.length s)%nat) -> steps consumes (read r).
Proof.
  intros Hr [a c]. unfold read. specialize (Hr (c_in c)). destruct (r (c_in c)) as [v rest].
  eexists _, _. split; [done|]. exact Hr.
Qed.

Create HintDb cli.
#[export] Hint Resolve steps_ret steps_app steps_fs steps_modify_app silent_modify_fs
  keeps_in_out keeps_in_flush : cli.
#[export] Hint Resolve read_word_le read_line_le read_int_le : cli.

(** Proves [steps R m] through binds, conditionals and matches, from the
    hints and, for [R] coarser than [silent] or [keeps_in], by
    monotonicity. *)
Ltac steps_tac :=
  repeat first
    [ solve [eauto with cli typeclass_instances]
    | solve [eapply steps_mono; [let H := fresh in intros ?? H; apply keeps_in_consumes, H | eauto with cli]]
    | solve [eapply steps_mono;
             [let H := fresh in intros ?? H; apply keeps_in_consumes, silent_keeps_in, H | eauto with cli]]
    | solve [eapply steps_mono; [let H := fresh in intros ?? H; apply silent_keeps_in, H | eauto with cli]]
    | solve [apply consumes_read; eauto with cli]
    | apply steps_bind; [apply _ | | intros ?]
    | match goal with
      | |- steps _ (if ?b then _ else _) => destruct b
      | |- steps _ (match ?x with _ => _ end) => destruct x
      end ].

(** *** What reads stdin and what does not *)

Lemma saveConfiguration_silent : steps silent saveConfiguration.
Proof. unfold saveConfiguration. steps_tac. Qed.

Lemma loadConfiguration_silent : steps silent loadConfiguration.
Proof. unfold loadConfiguration. pose proof saveConfiguration_silent. steps_tac. Qed.

Lemma construct_silent home appDir : steps silent (construct home appDir).
Proof.
  unfold construct, findCore. pose proof loadConfiguration_silent. steps_tac.
Qed.

Lemma config_at_silent k : steps silent (config_at k).
Proof. unfold config_at. steps_tac. Qed.

#[export] Hint Resolve saveConfiguration_silent loadConfiguration_silent config_at_silent : cli.

Lemma profile_rows_keeps_in i ps : steps keeps_in (profile_rows i ps).
Proof.
  revert i. induction ps as [|p ps IH]; intros i; simpl; [steps_tac|].
  unfold getCurrentProfile. steps_tac.
Qed.

Lemma group_rows_keeps_in i gs : steps keeps_in (group_rows i gs).
Proof. revert i. induction gs as [|g gs IH]; intros i; simpl; steps_tac. Qed.

Lemma showConfig_keeps_in : steps keeps_in showConfig.
Proof.
  unfold showConfig. steps_tac. induction (m_config _) as [|kv o IH]; simpl; steps_tac.
Qed.

#[export] Hint Resolve profile_rows_keeps_in group_rows_keeps_in showConfig_keeps_in : cli.

Lemma handleMenuChoice_consumes choice : steps consumes (handleMenuChoice choice).
Proof.
  unfold handleMenuChoice, showProxyMenu, showProfileMenu, showGroupMenu, ask_id,
    handleProfileCommand, handleGroupCommand, handleStatus, listProfiles, listGroups,
    addProfile, editProfile, getCurrentProfile, getTunStatus.
  steps_tac.
Qed.

Lemma showMainMenu_keeps_in : steps keeps_in showMainMenu.
Proof. unfold showMainMenu. steps_tac. Qed.

#[export] Hint Resolve handleMenuChoice_consumes showMainMenu_keeps_in : cli.

(** The prompt of a round, before the word is read. *)
Definition prompt : M St unit :=
  showMainMenu ;;; out "\nSelect option (q to quit): " ;;; flush_out.

Lemma prompt_keeps_in : steps keeps_in prompt.
Proof. unfold prompt. steps_tac. Qed.

(** What a round does after the word is read. *)
Definition answer (choice : string) : M St bool :=
  let lower := qstring_toLower choice in
  if String.eqb lower "q" || String.eqb lower "quit" then out "Goodbye!\n" ;;; mret true
  else handleMenuChoice choice ;;; mret false.

Lemma menu_round_split s :
  menu_round s = mbind prompt (fun _ => mbind (read read_word) answer) s.
Proof. destruct s. reflexivity. Qed.

Lemma answer_consumes choice : steps consumes (answer choice).
Proof. unfold answer. steps_tac. Qed.

(** A round reads a word: unless stdin holds only white space, it
    consumes at least one byte. *)
Lemma menu_round_progress s :
  ltrim (c_in s.2) <> EmptyString ->
  exists b s', menu_round s = Returns (b, s') /\
               (String.length (c_in s'.2) < String.length (c_in s.2))%nat.
Proof.
  intros Hin. rewrite menu_round_split. simpl.
  destruct (prompt_keeps_in s) as ([] & s1 & E1 & K1). rewrite E1.
  destruct s1 as [a1 c1]. unfold keeps_in in K1. simpl in K1.
  assert (Hlt : (String.length (read_word (c_in c1)).2 < String.length (c_in s.2))%nat).
  { rewrite K1. apply read_word_lt. intros E. apply Hin. by rewrite E. }
  simpl. destruct (read_word (c_in c1)) as [w rest] eqn:Ew. simpl in Hlt.
  destruct (answer_consumes w (a1, mkConsole (c_fs c1) rest (c_out c1))) as (b & s2 & E2 & C2).
  exists b, s2. rewrite E2. split; [done|]. unfold consumes in C2. simpl in C2. lia.
Qed.

(** Every round returns. *)
Lemma menu_round_returns s : exists b s', menu_round s = Returns (b, s').
Proof.
  rewrite menu_round_split.
  assert (H : steps consumes (mbind prompt (fun _ => mbind (read read_word) answer))).
  { pose proof prompt_keeps_in. pose proof answer_consumes. steps_tac. }
  destruct (H s) as (b & s' & E & _). eauto.
Qed.

(** With stdin exhausted, a round reads the empty word, rejects it as a
    menu choice and does not quit; stdin stays empty. *)
Lemma menu_round_eof s :
  ltrim (c_in s.2) = EmptyString ->
  exists s', menu_round s = Returns (false, s') /\ c_in s'.2 = EmptyString.
Proof.
  intros Hin. rewrite menu_round_split. simpl.
  destruct (prompt_keeps_in s) as ([] & s1 & E1 & K1). rewrite E1.
  destruct s1 as [a1 c1]. unfold keeps_in in K1. simpl in K1. simpl.
  unfold read_word. rewrite K1, Hin. simpl.
  eexists. split; reflexivity.
Qed.

(** *** The loop as a relation *)

(** The loop ends in [s'] from [s]. *)
Inductive loop_ends : St -> St -> Prop :=
| ends_quit s s' : menu_round s = Returns (true, s') -> loop_ends s s'
| ends_next s s1 s' : menu_round s = Returns (false, s1) -> loop_ends s1 s' -> loop_ends s s'.

(** The loop reaches [s'] from [s] without quitting. *)
Inductive loop_reaches : St -> St -> Prop :=
| reach_here s : loop_reaches s s
| reach_next s s1 s' : menu_round s = Returns (false, s1) -> loop_reaches s1 s' -> loop_reaches s s'.

Lemma menu_loop_ends fuel s s' : menu_loop fuel s = Returns (tt, s') -> loop_ends s s'.
Proof.
  revert s. induction fuel as [|n IH]; intros s; simpl; [done|].
  destruct (menu_round s) as [[[] s1]|] eqn:E; [|eauto using loop_ends|done].
  intros [= <-]. by constructor.
Qed.

Lemma loop_ends_menu_loop s s' : loop_ends s s' -> exists n, menu_loop n s = Returns (tt, s').
Proof.
  induction 1 as [s s' E|s s1 s' E _ [n IH]].
  - exists 1%nat. simpl. by rewrite E.
  - exists (S n). simpl. by rewrite E.
Qed.

Lemma menu_loop_more fuel extra s s' :
  menu_loop fuel s = Returns (tt, s') -> menu_loop (fuel + extra) s = Returns (tt, s').
Proof.
  revert s. induction fuel as [|n IH]; intros s; simpl; [done|].
  destruct (menu_round s) as [[[] s1]|]; auto.
Qed.

Lemma menu_loop_eof fuel s : ltrim (c_in s.2) = EmptyString -> menu_loop fuel s = Deadlock.
Proof.
  revert s. induction fuel as [|n IH]; intros s Hin; simpl; [done|].
  destruct (menu_round_eof s Hin) as (s1 & -> & E1). apply IH. by rewrite E1.
Qed.

(** A computation that keeps stdin, followed by one that never returns
    from the stdin it sees. *)
Lemma bind_keeps_in_deadlock R {A B} (m : M St A) (k : A -> M St B) s :
  steps R m -> (forall c c', R c c' -> keeps_in c c') ->
  (forall v s', c_in s'.2 = c_in s.2 -> k v s' = Deadlock) -> mbind m k s = Deadlock.
Proof.
  intros Hm HR Hk. destruct (Hm s) as (v & s' & E & Rs).
  rewrite (mbind_returns _ _ _ _ _ E). apply Hk. by apply HR.
Qed.

Lemma runInteractiveMode_eof fuel s :
  ltrim (c_in s.2) = EmptyString -> runInteractiveMode fuel s = Deadlock.
Proof.
  intros Hin. unfold runInteractiveMode.
  apply (bind_keeps_in_deadlock keeps_in); [by apply keeps_in_out|done|].
  intros [] s1 E1. apply (bind_keeps_in_deadlock keeps_in); [by apply keeps_in_out|done|].
  intros [] s2 E2. apply mbind_deadlock, menu_loop_eof. congruence.
Qed.

(** C14: Run with no command, [nekoray-cli] enters the menu loop; when
    stdin is exhausted (closed, or only white space left) the loop reads
    the empty word, answers "Invalid choice" and asks again, so for no
    number of rounds does the program exit. *)
Theorem interactive_eof_never_exits home appDir helpText fuel cfg s :
  ltrim (c_in s.2) = EmptyString ->
  main home appDir helpText fuel (mkOptions cfg []) s = Deadlock.
Proof.
  intros Hin. unfold main.
  apply (bind_keeps_in_deadlock silent); [apply construct_silent|by intros ?? []|].
  intros [] s1 E1. apply mbind_deadlock. unfold run.
  apply (bind_keeps_in_deadlock silent); [destruct cfg; steps_tac|by intros ?? []|].
  intros [] s2 E2. apply mbind_deadlock, runInteractiveMode_eof. congruence.
Qed.

Lemma interactive_eof_never_exits_witness :
  ltrim (c_in (mkApp EmptyString EmptyString [] [] [],
               mkConsole (mkFileSystem ∅ ∅ ∅ ∅ ∅) " " (mkOut EmptyString EmptyString)).2) = EmptyString /\
  main "/root" "/opt/nekoray" "Usage" 3 (mkOptions None [])
    (mkApp EmptyString EmptyString [] [] [],
     mkConsole (mkFileSystem ∅ ∅ ∅ ∅ ∅) " " (mkOut EmptyString EmptyString)) = Deadlock.
Proof. split; [reflexivity|]. apply interactive_eof_never_exits. reflexivity. Defined.

(** C15: The menu loop ends or exhausts stdin: from every state, either
    it quits after finitely many rounds, or it reaches, without quitting,
    a state whose stdin holds only white space.  Each round reads a word
    and so consumes input, which bounds the rounds by the input's
    length. *)
Theorem menu_loop_ends_or_eof s :
  (exists s', loop_ends s s') \/
  (exists s1, loop_reaches s s1 /\ ltrim (c_in s1.2) = EmptyString).
Proof.
  remember (String.length (c_in s.2)) as n eqn:En. revert s En.
  induction n as [n IH] using lt_wf_ind. intros s En.
  destruct (ltrim (c_in s.2)) eqn:Ein; [right; eauto using loop_reaches|].
  destruct (menu_round_progress s) as ([] & s1 & E1 & Hlt); [by rewrite Ein|..].
  - left. eauto using loop_ends.
  - destruct (IH (String.length (c_in s1.2)) ltac:(lia) s1 eq_refl) as [(s' & H)|(s2 & H & Heof)].
    + left. eauto using loop_ends.
    + right. eauto using loop_reaches.
Qed.

(** *** The files *)

Lemma fs_read_mkpath d f p : fs_read p (mkpath d f) = fs_read p f.
Proof.
  unfold mkpath, ensure_dir, fs_mkdir, fs_read.
  by repeat (case_match || case_bool_decide); simplify_eq.
Qed.

Lemma mkpath_unwritable d f : fs_unwritable (mkpath d f) = fs_unwritable f.
Proof. unfold mkpath, ensure_dir, fs_mkdir. by repeat (case_match || case_bool_decide); simplify_eq. Qed.

Lemma mkpath_unreadable d f : fs_unreadable (mkpath d f) = fs_unreadable f.
Proof. unfold mkpath, ensure_dir, fs_mkdir. by repeat (case_match || case_bool_decide); simplify_eq. Qed.

Lemma try_write_unwritable p c f : fs_unwritable (try_write p c f) = fs_unwritable f.
Proof. unfold try_write, fs_write. by case_bool_decide. Qed.

Lemma try_write_unreadable p c f : fs_unreadable (try_write p c f) = fs_unreadable f.
Proof. unfold try_write, fs_write. by case_bool_decide. Qed.

Lemma fs_read_try_write_eq p c f :
  p ∉ fs_unwritable f -> p ∉ fs_unreadable f -> fs_read p (try_write p c f) = Some c.
Proof.
  intros Hw Hr. unfold try_write, fs_write. rewrite bool_decide_false by done.
  unfold fs_read. simpl. rewrite bool_decide_false by done. apply lookup_insert_eq.
Qed.

Lemma fs_read_try_write_ne p q c f : q <> p -> fs_read q (try_write p c f) = fs_read q f.
Proof.
  intros Hne. unfold try_write, fs_write. case_bool_decide; [done|].
  unfold fs_read. simpl. case_bool_decide; [done|]. by rewrite lookup_insert_ne.
Qed.

Create Rewrite HintDb cli_fs.
#[export] Hint Rewrite fs_read_mkpath mkpath_unwritable mkpath_unreadable
  try_write_unwritable try_write_unreadable : cli_fs.

Lemma str_app_cancel_l (a x y : string) : (a +:+ x)%string = (a +:+ y)%string -> x = y.
Proof. induction a as [|c a IH]; simpl; [done|]. intros [= H]. by apply IH. Qed.

(** The three files of a directory are distinct. *)
Lemma config_files_distinct d :
  (d +:+ "/profiles.json")%string <> (d +:+ "/config.json")%string /\
  (d +:+ "/groups.json")%string <> (d +:+ "/config.json")%string /\
  (d +:+ "/groups.json")%string <> (d +:+ "/profiles.json")%string.
Proof. split_and!; intros H%str_app_cancel_l; discriminate. Qed.

(** What [saveConfiguration] leaves in the directory [d]. *)
Definition saved (d : string) (cfg : QJsonObject) (ps gs : list QJsonValue) (f : FileSystem)
    : FileSystem :=
  try_write (d +:+ "/groups.json") (JsonFile (QArray gs))
    (try_write (d +:+ "/profiles.json") (JsonFile (QArray ps))
      (try_write (d +:+ "/config.json") (JsonFile (QObject cfg)) (mkpath d f))).

Lemma saveConfiguration_spec a c :
  saveConfiguration (a, c) =
    Returns (tt, (a, mkConsole (saved (m_configDir a) (m_config a) (m_profiles a) (m_groups a) (c_fs c))
                               (c_in c) (c_out c))).
Proof. reflexivity. Qed.

(** Reading back what was saved, when the two array files can be written
    and read. *)
Lemma saved_read d cfg ps gs f :
  (d +:+ "/profiles.json")%string ∉ fs_unwritable f -> (d +:+ "/profiles.json")%string ∉ fs_unreadable f ->
  (d +:+ "/groups.json")%string ∉ fs_unwritable f -> (d +:+ "/groups.json")%string ∉ fs_unreadable f ->
  fs_read (d +:+ "/profiles.json") (saved d cfg ps gs f) = Some (JsonFile (QArray ps)) /\
  fs_read (d +:+ "/groups.json") (saved d cfg ps gs f) = Some (JsonFile (QArray gs)).
Proof.
  intros Hpw Hpr Hgw Hgr. destruct (config_files_distinct d) as (H1 & H2 & H3).
  unfold saved. split.
  - rewrite fs_read_try_write_ne by done.
    apply fs_read_try_write_eq; by autorewrite with cli_fs.
  - apply fs_read_try_write_eq; by autorewrite with cli_fs.
Qed.

(** *** Loading *)

#[local] Arguments fs_read : simpl never.
#[local] Arguments mkpath : simpl never.
#[local] Arguments try_write : simpl never.

(** [loadConfiguration] in a directory whose three files open. *)
Lemma loadConfiguration_existing a c cc pc gc :
  let d := m_configDir a in
  fs_read (d +:+ "/config.json") (c_fs c) = Some cc ->
  fs_read (d +:+ "/profiles.json") (c_fs c) = Some pc ->
  fs_read (d +:+ "/groups.json") (c_fs c) = Some gc ->
  loadConfiguration (a, c) =
    Returns (tt, (set_groups (doc_arr gc) (set_profiles (doc_arr pc) (set_config (doc_obj cc) a)),
                  mkConsole (mkpath d (c_fs c)) (c_in c) (c_out c))).
Proof.
  intros d H1 H2 H3. subst d. unfold loadConfiguration. simpl.
  rewrite fs_read_mkpath, H1. simpl. rewrite fs_read_mkpath, H2. simpl.
  rewrite fs_read_mkpath, H3. reflexivity.
Qed.

(** [loadConfiguration] in a directory without [config.json]: the
    defaults are saved, with the profiles and groups the members held,
    and read back. *)
Lemma loadConfiguration_fresh a c :
  let d := m_configDir a in
  fs_read (d +:+ "/config.json") (c_fs c) = None ->
  (d +:+ "/profiles.json")%string ∉ fs_unwritable (c_fs c) ->
  (d +:+ "/profiles.json")%string ∉ fs_unreadable (c_fs c) ->
  (d +:+ "/groups.json")%string ∉ fs_unwritable (c_fs c) ->
  (d +:+ "/groups.json")%string ∉ fs_unreadable (c_fs c) ->
  loadConfiguration (a, c) =
    Returns (tt, (set_groups (m_groups a) (set_profiles (m_profiles a) (set_config createDefaultConfig a)),
                  mkConsole (saved d createDefaultConfig (m_profiles a) (m_groups a) (mkpath d (c_fs c)))
                            (c_in c) (c_out c))).
Proof.
  intros d H0 Hpw Hpr Hgw Hgr. subst d.
  destruct (saved_read (m_configDir a) createDefaultConfig (m_profiles a) (m_groups a)
              (mkpath (m_configDir a) (c_fs c))) as [Hp Hg]; try (by autorewrite with cli_fs).
  unfold loadConfiguration. cbn -[saveConfiguration saved createDefaultConfig].
  rewrite fs_read_mkpath, H0. cbn -[saveConfiguration saved createDefaultConfig].
  rewrite saveConfiguration_spec. cbn -[saved createDefaultConfig].
  rewrite Hp. cbn -[saved createDefaultConfig]. rewrite Hg. reflexivity.
Qed.

(** [findCore] sets the core path and nothing else. *)
Lemma findCore_spec appDir a c :
  exists p, findCore appDir (a, c) = Returns (tt, (set_corePath p a, c)).
Proof.
  unfold findCore. simpl. case_match; [by eexists|].
  exists (m_corePath a). by destruct a.
Qed.

(** The console relation of the commands that leave the files alone. *)
Definition keeps_fs (c c' : Console) : Prop := c_fs c' = c_fs c.

#[export] Instance keeps_fs_refl : Reflexive keeps_fs.
Proof. by intros c. Qed.
#[export] Instance keeps_fs_trans : Transitive keeps_fs.
Proof. intros c1 c2 c3 H1 H2. unfold keeps_fs in *. congruence. Qed.

Lemma keeps_fs_out s : steps keeps_fs (out s).
Proof. apply steps_modify_out. by intros c. Qed.
Lemma keeps_fs_flush : steps keeps_fs flush_out.
Proof. apply steps_modify_out. by intros c. Qed.

#[export] Hint Resolve keeps_fs_out keeps_fs_flush : cli.

Lemma handleStatus_keeps_fs : steps keeps_fs handleStatus.
Proof. unfold handleStatus, getCurrentProfile, getTunStatus, config_at. steps_tac. Qed.

(** The constructor over a default directory whose three files open. *)
Lemma construct_existing home appDir a c cc pc gc :
  let hd := (home +:+ "/.config/nekoray")%string in
  fs_read (hd +:+ "/config.json") (c_fs c) = Some cc ->
  fs_read (hd +:+ "/profiles.json") (c_fs c) = Some pc ->
  fs_read (hd +:+ "/groups.json") (c_fs c) = Some gc ->
  exists p, construct home appDir (a, c) =
    Returns (tt, (set_corePath p (set_groups (doc_arr gc) (set_profiles (doc_arr pc)
                   (set_config (doc_obj cc) (mkApp hd EmptyString [] [] [])))),
                  mkConsole (mkpath hd (c_fs c)) (c_in c) (c_out c))).
Proof.
  intros hd H1 H2 H3. subst hd. unfold construct. cbn -[loadConfiguration findCore].
  rewrite (loadConfiguration_existing (mkApp (home +:+ "/.config/nekoray") EmptyString [] [] []) c cc pc gc H1 H2 H3).
  cbn -[findCore mkpath].
  destruct (findCore_spec appDir
             (set_groups (doc_arr gc) (set_profiles (doc_arr pc)
               (set_config (doc_obj cc) (mkApp (home +:+ "/.config/nekoray") EmptyString [] [] []))))
             (mkConsole (mkpath (home +:+ "/.config/nekoray") (c_fs c)) (c_in c) (c_out c))) as [p Hp].
  exists p. by rewrite Hp.
Qed.

(** [main] with [-c DIR status]: the constructor, the second load, and
    a status that leaves the files alone. *)
Lemma main_config_status home appDir helpText fuel d a c a1 c1 a2 c2 :
  construct home appDir (a, c) = Returns (tt, (a1, c1)) ->
  loadConfiguration (set_configDir d a1, c1) = Returns (tt, (a2, c2)) ->
  exists code s', main home appDir helpText fuel (mkOptions (Some d) ["status"]) (a, c) = Returns (code, s') /\
    c_fs s'.2 = c_fs c2.
Proof.
  intros Hc Hl. destruct (handleStatus_keeps_fs (a2, c2)) as (v & [a3 c3] & E3 & K3).
  unfold keeps_fs in K3. simpl in K3.
  exists v, (a3, mkConsole (c_fs c3) (c_in c3) (flush (c_out c3))). split; [|exact K3].
  unfold main. rewrite (mbind_returns _ _ _ _ _ Hc).
  change (run helpText fuel (mkOptions (Some d) ["status"])) with
    ((modify_app (set_configDir d) ;;; loadConfiguration) ;;; returning handleStatus).
  cbn [mbind modify_app]. rewrite Hl. unfold returning. cbn [mbind]. rewrite E3. reflexivity.
Qed.

(** [nekoray-cli -c DIR status] on a directory without
    [config.json] writes into DIR the profiles and groups of the default
    directory: the constructor has already loaded [~/.config/nekoray],
    the second [loadConfiguration] replaces only the settings (with the
    defaults, saved at once) and keeps the members [m_profiles] and
    [m_groups], which [saveConfiguration] writes to DIR's
    [profiles.json] and [groups.json]. *)
Theorem config_option_copies_default_profiles home appDir helpText fuel d a c cc P G :
  let hd := (home +:+ "/.config/nekoray")%string in
  fs_read (hd +:+ "/config.json") (c_fs c) = Some cc ->
  fs_read (hd +:+ "/profiles.json") (c_fs c) = Some (JsonFile (QArray P)) ->
  fs_read (hd +:+ "/groups.json") (c_fs c) = Some (JsonFile (QArray G)) ->
  fs_read (d +:+ "/config.json") (c_fs c) = None ->
  (d +:+ "/profiles.json")%string ∉ fs_unwritable (c_fs c) ->
  (d +:+ "/profiles.json")%string ∉ fs_unreadable (c_fs c) ->
  (d +:+ "/groups.json")%string ∉ fs_unwritable (c_fs c) ->
  (d +:+ "/groups.json")%string ∉ fs_unreadable (c_fs c) ->
  exists code s', main home appDir helpText fuel (mkOptions (Some d) ["status"]) (a, c) = Returns (code, s') /\
    fs_read (d +:+ "/profiles.json") (c_fs s'.2) = Some (JsonFile (QArray P)) /\
    fs_read (d +:+ "/groups.json") (c_fs s'.2) = Some (JsonFile (QArray G)).
Proof.
  intros hd H1 H2 H3 H0 Hpw Hpr Hgw Hgr.
  destruct (construct_existing home appDir a c cc _ _ H1 H2 H3) as [p Hc].
  match type of Hc with _ = Returns (tt, (?a1, ?c1)) =>
    pose proof (loadConfiguration_fresh (set_configDir d a1) c1) as Hl end.
  cbv zeta in Hl. cbn [m_configDir set_configDir c_fs] in Hl.
  rewrite fs_read_mkpath, !mkpath_unwritable, !mkpath_unreadable in Hl.
  specialize (Hl H0 Hpw Hpr Hgw Hgr).
  destruct (main_config_status home appDir helpText fuel d _ _ _ _ _ _ Hc Hl) as (code & s' & E & F).
  exists code, s'. split; [done|]. rewrite F. cbn [c_fs].
  apply saved_read; by autorewrite with cli_fs.
Qed.

(** *** What reaches the terminal *)

(** Everything written to [m_out] so far, flushed or not. *)
Definition shown (o : Out) : string := (o_written o +:+ o_buffer o)%string.

Lemma shown_write s o : shown (write s o) = (shown o +:+ s)%string.
Proof.
  unfold write, shown. case_match; simpl; by rewrite ?str_app_nil_r, ?str_app_assoc.
Qed.

(** A write that does not fill the buffer stays in it. *)
Lemma write_buffered s o :
  (Z.of_nat (String.length (o_buffer o +:+ s)) <= QTEXTSTREAM_BUFFERSIZE) ->
  write s o = mkOut (o_written o) (o_buffer o +:+ s).
Proof. intros H. unfold write. rewrite (proj2 (Z.ltb_ge _ _)) by lia. reflexivity. Qed.

(** The key lines [showConfig] prints. *)
Definition config_keys (o : QJsonObject) : string :=
  fold_right (fun kv t => ("%-20s: " +:+ kv.1 +:+ "\n" +:+ t)%string) EmptyString o.

(** The second [arg] finds no escape left: a key without [%] comes out
    with the [%-20s] prefix and without its value. *)
Lemma config_line_key k v : lacks "%" k = true -> config_line k v = ("%-20s: " +:+ k +:+ "\n")%string.
Proof.
  intros Hk. unfold config_line.
  assert (E1 : QStr.arg "%-20s: %1\n" k = ("%-20s: " +:+ k +:+ "\n")%string) by reflexivity.
  rewrite E1. unfold QStr.arg.
  assert (Et : QStr.arg_tokens ("%-20s: " +:+ k +:+ "\n")%string =
               lit_tokens "%-20s: " ++ QStr.arg_tokens (k +:+ "\n")) by reflexivity.
  by rewrite Et, arg_tokens_lit, !min_escape_lit.
Qed.

Lemma config_rows_spec (o : QJsonObject) a c :
  Forall (fun kv => lacks "%" kv.1 = true) o ->
  exists out', fold_right (fun kv k => out (config_line kv.1 kv.2) ;;; k) (mret tt) o (a, c) =
                 Returns (tt, (a, mkConsole (c_fs c) (c_in c) out')) /\
               shown out' = (shown (c_out c) +:+ config_keys o)%string.
Proof.
  revert c. induction o as [|[k v] o IH]; intros c Ho; simpl.
  - exists (c_out c). rewrite str_app_nil_r. by destruct c.
  - apply Forall_cons in Ho as [Hk Ho]. simpl in Hk.
    destruct (IH (mkConsole (c_fs c) (c_in c) (write (config_line k v) (c_out c))) Ho)
      as (out' & E & Hs).
    exists out'. split; [exact E|]. rewrite Hs. cbn [c_out]. rewrite shown_write, config_line_key by done.
    by rewrite !str_app_assoc.
Qed.

(** [config show] prints each setting's key after a literal
    ["%-20s: "] and never its value: [QString("%-20s: %1\n")] has one
    escape, [%1], which the key fills, so the second [.arg(value)] finds
    none and Qt returns the text unchanged.  The files and stdin are not
    touched. *)
Theorem showConfig_prints_keys_only a c :
  Forall (fun kv => lacks "%" kv.1 = true) (m_config a) ->
  exists c', showConfig (a, c) = Returns (0, (a, c')) /\ c_fs c' = c_fs c /\ c_in c' = c_in c /\
    shown (c_out c') = (shown (c_out c) +:+ "\n=== System Configuration ===\n" +:+
                        config_keys (m_config a))%string.
Proof.
  intros Ho. unfold showConfig. cbn [mbind out modify_out app].
  destruct (config_rows_spec (m_config a) a
              (mkConsole (c_fs c) (c_in c) (write "\n=== System Configuration ===\n" (c_out c))) Ho)
    as (out' & E & Hs).
  cbn [fst]. rewrite E. eexists. split_and!; [reflexivity|done|done|].
  simpl. rewrite Hs. cbn [c_out]. rewrite shown_write. by rewrite str_app_assoc.
Qed.

Lemma showConfig_prints_keys_only_witness :
  Forall (fun kv => lacks "%" kv.1 = true) createDefaultConfig /\
  exists c', showConfig (mkApp "/root/.config/nekoray" EmptyString createDefaultConfig [] [],
                         mkConsole (mkFileSystem ∅ ∅ ∅ ∅ ∅) EmptyString (mkOut EmptyString EmptyString))
             = Returns (0, (mkApp "/root/.config/nekoray" EmptyString createDefaultConfig [] [], c')) /\
    c_fs c' = mkFileSystem ∅ ∅ ∅ ∅ ∅ /\ c_in c' = EmptyString /\
    shown (c_out c') = (shown (mkOut EmptyString EmptyString) +:+ "\n=== System Configuration ===\n" +:+
                        config_keys createDefaultConfig)%string.
Proof.
  assert (H : Forall (fun kv => lacks "%" kv.1 = true) createDefaultConfig)
    by (vm_compute; repeat constructor).
  split; [exact H|]. apply (showConfig_prints_keys_only (mkApp _ _ createDefaultConfig [] [])). exact H.
Defined.

(** The commands [run] recognises. *)
Definition commands : list string :=
  ["status"; "start"; "stop"; "restart"; "test"; "profile"; "group"; "tun"; "config";
   "import"; "export"; "logs"; "stats"; "ping"; "interactive"; "daemon"; "update"].

(** An unknown command's message never reaches the terminal: [run]
    writes "Unknown command: ..." into [m_out]'s buffer and
    [parser.showHelp(1)] calls [::exit(1)], which does not run [m_out]'s
    destructor, so only the help text is printed and the buffer is lost. *)
Theorem unknown_command_message_lost home appDir helpText fuel command args a c :
  command ∉ commands ->
  o_buffer (c_out c) = EmptyString ->
  Z.of_nat (String.length command) <= 16000 ->
  exists s', main home appDir helpText fuel (mkOptions None (command :: args)) (a, c) = Returns (1, s') /\
    c_out s'.2 = mkOut (o_written (c_out c) +:+ helpText) ("Unknown command: " +:+ command +:+ "\n").
Proof.
  intros Hcmd Hbuf Hlen.
  destruct (construct_silent home appDir (a, c)) as ([] & [a1 c1] & E1 & [Hin Hout]).
  simpl in Hin, Hout.
  assert (Hne : forall x, x ∈ commands -> String.eqb command x = false).
  { intros x Hx. apply String.eqb_neq. intros ->. done. }
  unfold main. rewrite (mbind_returns _ _ _ _ _ E1).
  unfold run. cbn [o_config o_args mbind mret].
  rewrite !Hne by (apply list_elem_of_In; simpl; auto 20).
  unfold showHelp. cbn [mbind out modify_out to_terminal mret].
  rewrite Hout, write_buffered.
  - eexists. split; [reflexivity|]. simpl. by rewrite Hbuf, str_app_nil_l.
  - rewrite Hbuf, str_app_nil_l, !str_length_app. simpl. unfold QTEXTSTREAM_BUFFERSIZE. lia.
Qed.

Lemma unknown_command_message_lost_witness :
  ("frobnicate" ∉ commands) /\ o_buffer (mkOut EmptyString EmptyString) = EmptyString /\
  Z.of_nat (String.length "frobnicate") <= 16000 /\
  exists s', main "/root" "/opt" "Usage" 1 (mkOptions None ["frobnicate"])
               (mkApp EmptyString EmptyString [] [] [],
                mkConsole (mkFileSystem ∅ ∅ ∅ ∅ ∅) EmptyString (mkOut EmptyString EmptyString))
             = Returns (1, s') /\
    c_out s'.2 = mkOut (o_written (mkOut EmptyString EmptyString) +:+ "Usage")
                       ("Unknown command: " +:+ "frobnicate" +:+ "\n").
Proof.
  assert (H : "frobnicate" ∉ commands) by decide_closed.
  split_and!; [exact H|reflexivity|simpl; lia|].
  apply unknown_command_message_lost; [exact H|reflexivity|simpl; lia].
Defined.

(** The default directory of the samples: three readable files. *)
Definition sample_profiles : list QJsonValue :=
  [QObject [("name", QString "HK"); ("protocol", QString "vmess")]].

Definition sample_fs : FileSystem :=
  mkFileSystem
    (<["/root/.config/nekoray/config.json" := JsonFile (QObject createDefaultConfig)]>
     (<["/root/.config/nekoray/profiles.json" := JsonFile (QArray sample_profiles)]>
      (<["/root/.config/nekoray/groups.json" := JsonFile (QArray [])]> ∅)))
    ∅ ∅ ∅ ∅.

Lemma config_option_copies_default_profiles_witness :
  exists code s', main "/root" "/opt/nekoray" "Usage" 1 (mkOptions (Some "/srv/neko") ["status"])
                    (mkApp EmptyString EmptyString [] [] [],
                     mkConsole sample_fs EmptyString (mkOut EmptyString EmptyString)) = Returns (code, s') /\
    fs_read ("/srv/neko" +:+ "/profiles.json") (c_fs s'.2) = Some (JsonFile (QArray sample_profiles)) /\
    fs_read ("/srv/neko" +:+ "/groups.json") (c_fs s'.2) = Some (JsonFile (QArray [])).
Proof.
  apply (config_option_copies_default_profiles "/root" "/opt/nekoray" "Usage" 1 "/srv/neko" _
           (mkConsole sample_fs EmptyString (mkOut EmptyString EmptyString))
           (JsonFile (QObject createDefaultConfig)));
    first [vm_compute; reflexivity | decide_closed].
Defined.

Lemma saved_read_config d cfg ps gs f :
  (d +:+ "/config.json")%string ∉ fs_unwritable f -> (d +:+ "/config.json")%string ∉ fs_unreadable f ->
  fs_read (d +:+ "/config.json") (saved d cfg ps gs f) = Some (JsonFile (QObject cfg)).
Proof.
  intros Hw Hr. destruct (config_files_distinct d) as (H1 & H2 & H3). unfold saved.
  rewrite !fs_read_try_write_ne by done. apply fs_read_try_write_eq; by autorewrite with cli_fs.
Qed.

(** C16: What [saveConfiguration] writes, [loadConfiguration] reads back:
    a later process (any members, the same directory) loads the
    settings, the profiles and the groups that were saved, when the three
    files can be written and read. *)
Theorem save_then_load a c a' :
  let d := m_configDir a in
  m_configDir a' = d ->
  (d +:+ "/config.json")%string ∉ fs_unwritable (c_fs c) ->
  (d +:+ "/config.json")%string ∉ fs_unreadable (c_fs c) ->
  (d +:+ "/profiles.json")%string ∉ fs_unwritable (c_fs c) ->
  (d +:+ "/profiles.json")%string ∉ fs_unreadable (c_fs c) ->
  (d +:+ "/groups.json")%string ∉ fs_unwritable (c_fs c) ->
  (d +:+ "/groups.json")%string ∉ fs_unreadable (c_fs c) ->
  exists a'' c', (saveConfiguration ;;; modify_app (fun _ => a') ;;; loadConfiguration) (a, c) =
                   Returns (tt, (a'', c')) /\
    m_config a'' = m_config a /\ m_profiles a'' = m_profiles a /\ m_groups a'' = m_groups a.
Proof.
  intros d Hd Hcw Hcr Hpw Hpr Hgw Hgr.
  destruct (saved_read d (m_config a) (m_profiles a) (m_groups a) (c_fs c)) as [Hp Hg]; try done.
  pose proof (saved_read_config d (m_config a) (m_profiles a) (m_groups a) (c_fs c) Hcw Hcr) as Hc.
  do 2 eexists. split.
  - cbn [mbind]. rewrite saveConfiguration_spec. cbn [mbind modify_app].
    apply loadConfiguration_existing; cbn [c_fs]; rewrite Hd; eassumption.
  - split_and!; reflexivity.
Qed.

Lemma save_then_load_witness :
  let a := mkApp "/srv/neko" EmptyString createDefaultConfig sample_profiles [] in
  let c := mkConsole (mkFileSystem ∅ ∅ ∅ ∅ ∅) EmptyString (mkOut EmptyString EmptyString) in
  exists a'' c', (saveConfiguration ;;; modify_app (fun _ => mkApp "/srv/neko" EmptyString [] [] []) ;;;
                  loadConfiguration) (a, c) = Returns (tt, (a'', c')) /\
    m_config a'' = m_config a /\ m_profiles a'' = m_profiles a /\ m_groups a'' = m_groups a.
Proof.
  intros a c. apply (save_then_load a c (mkApp "/srv/neko" EmptyString [] [] []));
    first [reflexivity | decide_closed].
Defined.

End CompleteCliFacts.
