(* ===== verification/StandaloneCli.v ===== *)
(** * The stand-alone CLI: [NekoRayCLI] of [src/nekoray_cli_standalone.cpp]

    A program without Qt: one invocation parses [argv], may write a
    sing-box configuration under the configuration directory, and
    [fork]s and [execlp]s the core (through [pkexec] for TUN mode), or
    signals the process whose pid it holds.  The pids are members of the
    object of one invocation: they start at [-1], and nothing stores
    them, so [stop] in a later invocation has nothing to stop.

    The members are the record [CLI]; the system is [Sys]: the files,
    what was printed on stdout and stderr (one [Line] per [std::endl]),
    and the system calls made ([Call]).  What the operating system
    answers is the [Oracle]: the exit status of [system()], the result
    of each [fork()] in order, and whether a signalled child has exited
    at each [waitpid(..., WNOHANG)].  [std::stoi] raises
    [std::invalid_argument] or [std::out_of_range], which nothing
    catches: the run ends in [std::terminate] ([Abort]).  The two
    configuration templates are written as the JSON documents their
    raw string literals spell. *)

From S2P Require Import Prelude QJson Platform OutputRelay Codec.
From Stdlib Require Import Ascii.

Local Open Scope Z_scope.

Module StandaloneCli.

(** ** State *)

(** The members of [NekoRayCLI]. *)
Record CLI : Type := mkCLI {
  configDir : string;
  coreExecutable : string;
  corePid : Z;
  tunPid : Z;
  verbose : bool;
  dryRun : bool
}.

Inductive Line : Type :=
| Out (s : string)
| Err (s : string).

(** The system calls the program makes. *)
Inductive Call : Type :=
| System (cmd : string)
| Spawn (pid : Z) (argv : list string)     (** [fork] and, in the child, [execlp] *)
| Kill (pid : Z) (sig : Z)
| Sleep (secs : Z).

Record Sys : Type := mkSys {
  s_fs : FileSystem;
  s_lines : list Line;
  s_calls : list Call;
  s_forks : nat                             (** forks made so far *)
}.

(** What the operating system answers. *)
Record Oracle : Type := mkOracle {
  system_status : string -> Z;
  fork_result : nat -> Z;                   (** a pid, or [-1] *)
  exited_at_once : Z -> bool;               (** [waitpid(pid, WNOHANG)] right after [SIGTERM] *)
  exited_after_sleep : Z -> bool            (** the same after [sleep(2)] *)
}.

(** The environment of the process. *)
Record Env : Type := mkEnv {
  env_home : option string;
  env_ssh : bool                            (** [SSH_CLIENT] or [SSH_CONNECTION] is set *)
}.

Abbreviation St := (CLI * Sys)%type.

Inductive Exc : Type := InvalidArgument | OutOfRange.

(** How a run ends: [main] returns a code, or an exception reaches
    [std::terminate]. *)
Inductive Result : Type :=
| Exit (code : Z)
| Abort (e : Exc).

Definition SIGTERM : Z := 15.
Definition SIGKILL : Z := 9.

(** ** Primitive steps *)

Definition cli : M St CLI := fun s => Returns (s.1, s).
Definition modify_cli (f : CLI -> CLI) : M St unit := fun '(c, y) => Returns (tt, (f c, y)).
Definition sys_fs : M St FileSystem := fun s => Returns (s_fs s.2, s).
Definition set_fs (fs : FileSystem) : M St unit :=
  fun '(c, y) => Returns (tt, (c, mkSys fs (s_lines y) (s_calls y) (s_forks y))).
Definition emit (l : Line) : M St unit :=
  fun '(c, y) => Returns (tt, (c, mkSys (s_fs y) (s_lines y ++ [l]) (s_calls y) (s_forks y))).
Definition call (k : Call) : M St unit :=
  fun '(c, y) => Returns (tt, (c, mkSys (s_fs y) (s_lines y) (s_calls y ++ [k]) (s_forks y))).

(** [fork()]: the next answer of the oracle. *)
Definition fork (o : Oracle) : M St Z :=
  fun '(c, y) => Returns (fork_result o (s_forks y),
                          (c, mkSys (s_fs y) (s_lines y) (s_calls y) (S (s_forks y)))).

Definition set_configDir (d : string) (c : CLI) : CLI :=
  mkCLI d (coreExecutable c) (corePid c) (tunPid c) (verbose c) (dryRun c).
Definition set_pid (tunMode : bool) (pid : Z) (c : CLI) : CLI :=
  if tunMode then mkCLI (configDir c) (coreExecutable c) (corePid c) pid (verbose c) (dryRun c)
  else mkCLI (configDir c) (coreExecutable c) pid (tunPid c) (verbose c) (dryRun c).
Definition set_verbose (c : CLI) : CLI :=
  mkCLI (configDir c) (coreExecutable c) (corePid c) (tunPid c) true (dryRun c).
Definition set_dryRun (c : CLI) : CLI :=
  mkCLI (configDir c) (coreExecutable c) (corePid c) (tunPid c) (verbose c) true.

(** [std::to_string(int)]. *)
Definition to_string (z : Z) : string := z_to_string z.

(** ** [std::stoi] *)

(** [isspace] in the C locale. *)
Definition c_isspace (c : ascii) : bool :=
  let n := byte c in (n =? 32) || ((9 <=? n) && (n <=? 13)).

Fixpoint c_ltrim (s : string) : string :=
  match s with
  | EmptyString => EmptyString
  | String c s' => if c_isspace c then c_ltrim s' else s
  end.

(** The decimal digits at the front, with their value and count. *)
Fixpoint leading_digits (s : string) (acc : Z) (k : nat) : Z * nat :=
  match s with
  | String c s' =>
      let n := byte c in
      if (48 <=? n) && (n <=? 57) then leading_digits s' (acc * 10 + (n - 48)) (S k) else (acc, k)
  | EmptyString => (acc, k)
  end.

(** [std::stoi(s)]: [strtol] in base 10 (white space, a sign, digits;
    the rest ignored), [invalid_argument] without digits,
    [out_of_range] outside [int]. *)
Definition stoi (s : string) : Z + Exc :=
  let t := c_ltrim s in
  let '(neg, body) := match t with
                      | String c r => if Ascii.eqb c "-" then (true, r)
                                      else if Ascii.eqb c "+" then (false, r) else (false, t)
                      | EmptyString => (false, t)
                      end in
  match leading_digits body 0 0 with
  | (_, O) => inr InvalidArgument
  | (v, _) => let v := if neg then - v else v in
              if (INT_MIN <=? v) && (v <=? INT_MAX) then inl v else inr OutOfRange
  end.

(** ** The configuration templates *)

(** A JSON object written in the template. *)
Definition jobj (kvs : list (string * QJsonValue)) : QJsonValue :=
  QObject (fold_right (fun kv o => obj_insert kv.1 kv.2 o) [] kvs).

Definition standard_config : QJsonValue :=
  jobj [("log", jobj [("level", QString "info")]);
        ("inbounds", QArray [jobj [("type", QString "socks"); ("tag", QString "socks-in");
                                   ("listen", QString "127.0.0.1"); ("listen_port", QDouble 2080)];
                             jobj [("type", QString "http"); ("tag", QString "http-in");
                                   ("listen", QString "127.0.0.1"); ("listen_port", QDouble 2081)]]);
        ("outbounds", QArray [jobj [("type", QString "direct"); ("tag", QString "direct")]]);
        ("route", jobj [("final", QString "direct")])].

Definition tun_config : QJsonValue :=
  jobj [("log", jobj [("level", QString "info")]);
        ("dns", jobj [("fakeip", jobj [("enabled", QBool true); ("inet4_range", QString "198.18.0.0/15");
                                       ("inet6_range", QString "fc00::/18")]);
                      ("servers", QArray [jobj [("tag", QString "dns-remote"); ("address", QString "8.8.8.8");
                                                ("detour", QString "proxy")];
                                          jobj [("tag", QString "dns-direct"); ("address", QString "223.5.5.5");
                                                ("detour", QString "direct")]])]);
        ("inbounds", QArray [jobj [("type", QString "tun"); ("tag", QString "tun-in");
                                   ("interface_name", QString "nekoray-tun");
                                   ("inet4_address", QString "172.19.0.1/28"); ("mtu", QDouble 9000);
                                   ("auto_route", QBool true); ("strict_route", QBool true);
                                   ("stack", QString "system"); ("endpoint_independent_nat", QBool true);
                                   ("sniff", QBool true)]]);
        ("outbounds", QArray [jobj [("type", QString "socks"); ("tag", QString "proxy");
                                    ("server", QString "127.0.0.1"); ("server_port", QDouble 2080);
                                    ("udp_fragment", QBool true)];
                              jobj [("type", QString "direct"); ("tag", QString "direct")]]);
        ("route", jobj [("final", QString "proxy"); ("auto_detect_interface", QBool true);
                        ("rules", QArray [jobj [("ip_cidr", QArray [QString "224.0.0.0/3"; QString "ff00::/8"]);
                                                ("outbound", QString "block")];
                                          jobj [("port", QDouble 53); ("outbound", QString "dns-out")]])])].

(** ** Member functions *)

Section Program.
Context (env : Env) (o : Oracle).

(** [fileExists(path)]: [stat] succeeds on a file or a directory. *)
Definition fileExists (p : string) (fs : FileSystem) : bool := file_exists p fs || dir_exists p fs.

Definition possibleNames : list string := ["sing-box"; "nekobox_core"; "nekoray_core"].

(** The loop of the constructor: for each name, [/usr/bin] then
    [/usr/local/bin]. *)
Fixpoint find_core (fs : FileSystem) (names : list string) : string :=
  match names with
  | [] => EmptyString
  | n :: ns =>
      if fileExists ("/usr/bin/" +:+ n) fs then ("/usr/bin/" +:+ n)%string
      else if fileExists ("/usr/local/bin/" +:+ n) fs then ("/usr/local/bin/" +:+ n)%string
      else find_core fs ns
  end.

(** The constructor. *)
Definition create (fs : FileSystem) : CLI :=
  mkCLI (match env_home env with
         | Some home => home +:+ "/.config/nekoray"
         | None => "/tmp/nekoray"
         end)%string
        (find_core fs possibleNames) (-1) (-1) false false.

(** [mkdir -p], when [system] reports success. *)
Definition mkdirs (ds : list string) (fs : FileSystem) : FileSystem :=
  fold_left (fun f d => match ensure_dir d f with Some f' => f' | None => f end) ds fs.

(** [createConfigDir()]: one shell command built from the directory. *)
Definition createConfigDir : M St unit :=
  c <- cli ;;
  let cmd := ("mkdir -p " +:+ configDir c +:+ "/profiles " +:+ configDir c +:+ "/groups")%string in
  call (System cmd) ;;;
  let status := system_status o cmd in
  (if Z.eqb status 0 then
     fs <- sys_fs ;;
     set_fs (mkdirs [configDir c; configDir c +:+ "/profiles"; configDir c +:+ "/groups"] fs)
   else mret tt) ;;;
  if negb (Z.eqb status 0) && verbose c then emit (Out "Warning: Failed to create config directories")
  else mret tt.

(** [generateConfig]/[generateTunConfig]: the template written to
    [<dir>/<prefix><id>.json], or the empty path when the file does not
    open. *)
Definition write_config (prefix : string) (doc : QJsonValue) (profileId : Z) : M St string :=
  c <- cli ;;
  let configPath := (configDir c +:+ "/" +:+ prefix +:+ to_string profileId +:+ ".json")%string in
  fs <- sys_fs ;;
  match fs_write configPath (JsonFile doc) fs with
  | Some fs' => set_fs fs' ;;; mret configPath
  | None => mret EmptyString
  end.

Definition generateConfig (profileId : Z) : M St string := write_config "config_" standard_config profileId.
Definition generateTunConfig (profileId : Z) : M St string := write_config "tun_config_" tun_config profileId.

Definition tun_prefix (tunMode : bool) : string := if tunMode then "TUN " else EmptyString.

(** [startCore(profileId, tunMode)]. *)
Definition startCore (profileId : Z) (tunMode : bool) : M St bool :=
  c <- cli ;;
  if String.eqb (coreExecutable c) EmptyString then
    emit (Err "Error: Core executable not found. Please install sing-box or nekobox_core.") ;;; mret false
  else
  createConfigDir ;;;
  configPath <- (if tunMode then
                   p <- generateTunConfig profileId ;;
                   (if verbose c then emit (Out "Using TUN mode configuration") else mret tt) ;;; mret p
                 else
                   p <- generateConfig profileId ;;
                   (if verbose c then emit (Out "Using standard configuration") else mret tt) ;;; mret p) ;;
  if String.eqb configPath EmptyString then
    emit (Err "Error: Failed to generate configuration file") ;;; mret false
  else if dryRun c then
    emit (Out ("DRY RUN: Would execute: " +:+ coreExecutable c +:+ " run -c " +:+ configPath)) ;;; mret true
  else
    pid <- fork o ;;
    if 0 <? pid then
      call (Spawn pid (if tunMode then ["pkexec"; coreExecutable c; "run"; "-c"; configPath]
                       else [coreExecutable c; "run"; "-c"; configPath])) ;;;
      modify_cli (set_pid tunMode pid) ;;;
      (if verbose c then
         emit (Out ("Started " +:+ tun_prefix tunMode +:+ "core process with PID: " +:+ to_string pid)) ;;;
         emit (Out ("Config: " +:+ configPath)) ;;;
         emit (Out "SOCKS proxy: 127.0.0.1:2080") ;;;
         emit (Out "HTTP proxy: 127.0.0.1:2081")
       else mret tt) ;;;
      mret true
    else emit (Err "Error: Failed to fork process") ;;; mret false.

(** [stopCore(tunMode)]. *)
Definition stopCore (tunMode : bool) : M St bool :=
  c <- cli ;;
  let targetPid := if tunMode then tunPid c else corePid c in
  if targetPid <=? 0 then
    (if verbose c then emit (Out (tun_prefix tunMode +:+ "Core is not running")) else mret tt) ;;; mret true
  else if dryRun c then
    emit (Out ("DRY RUN: Would stop " +:+ tun_prefix tunMode +:+ "process with PID: " +:+ to_string targetPid)) ;;;
    mret true
  else
    call (Kill targetPid SIGTERM) ;;;
    (if exited_at_once o targetPid then mret tt
     else call (Sleep 2) ;;;
          if exited_after_sleep o targetPid then mret tt else call (Kill targetPid SIGKILL)) ;;;
    (if verbose c then emit (Out ("Stopped " +:+ tun_prefix tunMode +:+ "core process")) else mret tt) ;;;
    modify_cli (set_pid tunMode (-1)) ;;;
    mret true.

(** [showStatus()]. *)
Definition showStatus : M St unit :=
  c <- cli ;;
  emit (Out "NekoRay CLI Status:") ;;;
  emit (Out "===================") ;;;
  emit (Out ("Config Directory: " +:+ configDir c)) ;;;
  emit (Out ("Core Executable: " +:+ (if String.eqb (coreExecutable c) EmptyString then "Not found"
                                      else coreExecutable c))) ;;;
  emit (Out ("Standard Proxy: " +:+ (if 0 <? corePid c then "Running" else "Stopped") +:+
             (if 0 <? corePid c then " (PID: " +:+ to_string (corePid c) +:+ ")" else EmptyString))) ;;;
  emit (Out ("TUN Mode: " +:+ (if 0 <? tunPid c then "Running" else "Stopped") +:+
             (if 0 <? tunPid c then " (PID: " +:+ to_string (tunPid c) +:+ ")" else EmptyString))) ;;;
  if (0 <? corePid c) || (0 <? tunPid c) then
    emit (Out (String "010" "Proxy Endpoints:")) ;;;
    emit (Out "  SOCKS5: 127.0.0.1:2080") ;;;
    emit (Out "  HTTP:   127.0.0.1:2081")
  else mret tt.

Definition help_lines : list string :=
  ["NekoRay CLI - Headless V2Ray Client v1.0";
   "==========================================";
   "";
   "USAGE:";
   "  nekoray-cli <command> [options]";
   "";
   "COMMANDS:";
   "  start [profile_id]  Start proxy service";
   "  stop                Stop proxy service";
   "  restart [profile_id] Restart proxy service";
   "  status              Show service status";
   "  help                Show this help";
   "";
   "OPTIONS:";
   "  --tun               Enable TUN mode (requires root)";
   "  --verbose, -v       Enable verbose output";
   "  --dry-run, -n       Dry run mode (safe testing)";
   "  --config-dir DIR    Set configuration directory";
   "";
   "EXAMPLES:";
   "  nekoray-cli start 1              # Start with profile 1";
   "  nekoray-cli start 1 --tun        # Start with TUN mode";
   "  nekoray-cli start --dry-run      # Test without executing";
   "  nekoray-cli status                # Check status";
   "  nekoray-cli stop                  # Stop all services";
   "";
   "SAFETY FEATURES:";
   "  ✓ Docker environment detection";
   "  ✓ SSH connection awareness";
   "  ✓ Dry-run mode for safe testing";
   "  ✓ Graceful shutdown handling";
   "";
   "For more information, visit: https://github.com/your-repo/nekoray-cli"]%string.

(** [showHelp()]. *)
Definition showHelp : M St unit :=
  fold_right (fun l k => emit (Out l) ;;; k) (mret tt) help_lines.

(** [arg[0]]: the terminating NUL of an empty [std::string]. *)
Definition char_at0 (s : string) : ascii :=
  match s with String c _ => c | EmptyString => "000" end.

(** The argument loop of [run], from [argv[2]]: TUN mode, the profile
    id, and the members it sets; [stoi] may throw. *)
Fixpoint parse_args (args : list string) (tunMode : bool) (profileId : Z) (c : CLI)
    : (bool * Z * CLI) + Exc :=
  match args with
  | [] => inl (tunMode, profileId, c)
  | arg :: rest =>
      if String.eqb arg "--tun" then parse_args rest true profileId c
      else if String.eqb arg "--verbose" || String.eqb arg "-v" then parse_args rest tunMode profileId (set_verbose c)
      else if String.eqb arg "--dry-run" || String.eqb arg "-n" then parse_args rest tunMode profileId (set_dryRun c)
      else
        match String.eqb arg "--config-dir", rest with
        | true, dir :: rest' => parse_args rest' tunMode profileId (set_configDir dir c)
        | _, _ =>
            if negb (Ascii.eqb (char_at0 arg) "-") then
              match stoi arg with
              | inl v => parse_args rest tunMode v c
              | inr e => inr e
              end
            else parse_args rest tunMode profileId c
        end
  end.

(** [start] and the start half of [restart]. *)
Definition start_both (profileId : Z) (tunMode : bool) : M St Z :=
  ok <- startCore profileId false ;;
  if ok then
    (if tunMode then ok' <- startCore profileId true ;; mret (if ok' then 0 else 1) else mret 0)
  else mret 1.

(** [run(argc, argv)] after the argument loop. *)
Definition dispatch (command : string) (tunMode : bool) (profileId : Z) : M St Z :=
  if String.eqb command "start" then start_both profileId tunMode
  else if String.eqb command "stop" then
    success <- stopCore false ;;
    success <- (if tunMode then ok <- stopCore true ;; mret (ok && success) else mret success) ;;
    mret (if success then 0 else 1)
  else if String.eqb command "restart" then
    stopCore false ;;;
    (if tunMode then stopCore true ;;; mret tt else mret tt) ;;;
    call (Sleep 1) ;;;
    start_both profileId tunMode
  else if String.eqb command "status" then showStatus ;;; mret 0
  else if String.eqb command "help" || String.eqb command "--help" || String.eqb command "-h" then
    showHelp ;;; mret 0
  else
    emit (Err ("Error: Unknown command '" +:+ command +:+ "'")) ;;;
    emit (Err "Use 'nekoray-cli help' for usage information.") ;;;
    mret 1.

(** [run(argc, argv)]; [argv] without the program name. *)
Definition run (args : list string) : M St Result :=
  match args with
  | [] => showHelp ;;; mret (Exit 1)
  | command :: rest =>
      c <- cli ;;
      match parse_args rest false 1 c with
      | inr e => mret (Abort e)
      | inl (tunMode, profileId, c') =>
          modify_cli (fun _ => c') ;;;
          (if env_ssh env then emit (Out "⚠️  Warning: SSH connection detected. Use --dry-run for safe testing.")
           else mret tt) ;;;
          fs <- sys_fs ;;
          (if fileExists "/.dockerenv" fs then emit (Out "🐳 Docker environment detected.") else mret tt) ;;;
          code <- dispatch command tunMode profileId ;;
          mret (Exit code)
      end
  end.

(** [main]: a new object, then [run]. *)
Definition main (args : list string) (fs : FileSystem) : Outcome (Result * St) :=
  run args (create fs, mkSys fs [] [] 0).

End Program.

End StandaloneCli.

(** ** Properties of the stand-alone CLI *)

Module StandaloneCliFacts.
Import StandaloneCli.

(** The references of a sing-box configuration: the tags its outbounds
    declare, and the outbound names its route rules and DNS servers use
    (sing-box refuses to start when one of these is not declared). *)
Definition jfield (k : string) (v : QJsonValue) : QJsonValue :=
  match v with QObject o => obj_value k o | _ => QUndefined end.
Definition jarray (v : QJsonValue) : list QJsonValue :=
  match v with QArray l => l | _ => [] end.
Definition outbound_tags (cfg : QJsonValue) : list string :=
  map (fun ob => qj_toString (jfield "tag" ob)) (jarray (jfield "outbounds" cfg)).
Definition outbound_types (cfg : QJsonValue) : list string :=
  map (fun ob => qj_toString (jfield "type" ob)) (jarray (jfield "outbounds" cfg)).
Definition used_outbounds (cfg : QJsonValue) : list string :=
  qj_toString (jfield "final" (jfield "route" cfg)) ::
  map (fun r => qj_toString (jfield "outbound" r)) (jarray (jfield "rules" (jfield "route" cfg))) ++
  map (fun d => qj_toString (jfield "detour" d)) (jarray (jfield "servers" (jfield "dns" cfg))).
Definition unresolved (cfg : QJsonValue) : list string :=
  filter (fun t => negb (existsb (String.eqb t) (outbound_tags cfg))) (used_outbounds cfg).

(** The argument loop sets options and the directory, never a pid or
    the core. *)
Lemma parse_args_keeps args t p c t' p' c' :
  parse_args args t p c = inl (t', p', c') ->
  corePid c' = corePid c /\ tunPid c' = tunPid c /\ coreExecutable c' = coreExecutable c.
Proof.
  remember (length args) as n eqn:En. revert args En t p c.
  induction n as [n IH] using lt_wf_ind. intros [|arg rest] En t p c; simpl.
  - by intros [= -> -> ->].
  - repeat case_match; intros Hpa; try discriminate; subst;
      (eapply IH in Hpa; [simpl in Hpa; exact Hpa| |reflexivity]); simpl; lia.
Qed.

(** A word that is not an option and not a number ends the argument
    loop in the exception of [stoi]. *)
Lemma parse_args_throws arg rest t p c e :
  char_at0 arg <> "-"%char -> stoi arg = inr e -> parse_args (arg :: rest) t p c = inr e.
Proof.
  intros Harg He. destruct arg as [|x arg']; simpl in Harg |- *.
  - vm_compute in He. by injection He as <-.
  - rewrite (proj2 (Ascii.eqb_neq x "-") Harg). simpl. by rewrite He.
Qed.

(** [stopCore] with no pid returns [true] and makes no system call. *)
Lemma stopCore_no_pid (o : Oracle) (tunMode : bool) (c : CLI) (y : Sys) :
  (if tunMode then tunPid c else corePid c) <= 0 ->
  exists y', stopCore o tunMode (c, y) = Returns (true, (c, y')) /\ s_calls y' = s_calls y /\
             s_fs y' = s_fs y.
Proof.
  intros Hp. unfold stopCore. cbn [mbind cli fst].
  rewrite (proj2 (Z.leb_le _ 0) Hp). destruct (verbose c); simpl; by eexists.
Qed.

(** The two warnings of [run] print at most a line each and touch
    nothing else. *)
Lemma banner_spec env {A} (k : M St A) c y :
  exists y', ((if env_ssh env then emit (Out "⚠️  Warning: SSH connection detected. Use --dry-run for safe testing.")
               else mret tt) ;;;
              fs <- sys_fs ;;
              (if fileExists "/.dockerenv" fs then emit (Out "🐳 Docker environment detected.") else mret tt) ;;;
              k) (c, y) = k (c, y') /\
    s_fs y' = s_fs y /\ s_calls y' = s_calls y /\ s_forks y' = s_forks y.
Proof.
  destruct (env_ssh env); cbn [mbind emit mret sys_fs fst snd s_fs];
    destruct (fileExists _ _); simpl; by eexists.
Qed.

Lemma mkdirs_files ds fs : fs_files (mkdirs ds fs) = fs_files fs /\ fs_unwritable (mkdirs ds fs) = fs_unwritable fs.
Proof.
  unfold mkdirs. revert fs. induction ds as [|d ds IH]; intros fs; simpl; [done|].
  rewrite !(proj1 (IH _)), !(proj2 (IH _)).
  unfold ensure_dir, fs_mkdir. by repeat case_match; simplify_eq.
Qed.

(** Past the argument loop, [main] is [dispatch] from a state that has
    printed at most the warnings. *)
Lemma run_parsed env o command rest fs t p c' :
  parse_args rest false 1 (create env fs) = inl (t, p, c') ->
  exists y, s_fs y = fs /\ s_calls y = [] /\ s_forks y = 0%nat /\
    main env o (command :: rest) fs = (code <- dispatch o command t p ;; mret (Exit code)) (c', y).
Proof.
  intros Hp. unfold main, run. cbn [mbind cli fst]. rewrite Hp. cbn [mbind modify_cli].
  destruct (banner_spec env (code <- dispatch o command t p ;; mret (Exit code)) c' (mkSys fs [] [] 0))
    as (y & E & F & C & K).
  exists y. split_and!; [exact F|exact C|exact K|exact E].
Qed.

#[local] Arguments mkdirs : simpl never.

(** [createConfigDir] makes its one shell call and keeps the files. *)
Lemma createConfigDir_spec o c y :
  exists y', createConfigDir o (c, y) = Returns (tt, (c, y')) /\
    s_calls y' = s_calls y ++ [System ("mkdir -p " +:+ configDir c +:+ "/profiles " +:+ configDir c +:+ "/groups")] /\
    fs_files (s_fs y') = fs_files (s_fs y) /\ fs_unwritable (s_fs y') = fs_unwritable (s_fs y) /\
    s_forks y' = s_forks y.
Proof.
  unfold createConfigDir. cbn [mbind cli fst call].
  destruct (Z.eqb _ 0); cbn [mbind sys_fs set_fs negb andb fst snd s_fs s_calls s_forks];
    [|destruct (verbose c)]; simpl; eexists; split_and!; try reflexivity;
    first [apply (proj1 (mkdirs_files _ _)) | apply (proj2 (mkdirs_files _ _))].
Qed.

(** [write_config] writes its template when the file opens. *)
Lemma write_config_spec prefix doc id c y :
  (configDir c +:+ "/" +:+ prefix +:+ to_string id +:+ ".json")%string ∉ fs_unwritable (s_fs y) ->
  exists y', write_config prefix doc id (c, y) =
             Returns ((configDir c +:+ "/" +:+ prefix +:+ to_string id +:+ ".json")%string, (c, y')) /\
    s_calls y' = s_calls y /\ s_forks y' = s_forks y /\
    fs_files (s_fs y') = <[(configDir c +:+ "/" +:+ prefix +:+ to_string id +:+ ".json")%string := JsonFile doc]>
                           (fs_files (s_fs y)).
Proof.
  intros Hw. unfold write_config, fs_write. cbn [mbind cli sys_fs fst snd].
  rewrite bool_decide_false by exact Hw. simpl. by eexists.
Qed.

(** A dry run of [startCore] still makes the shell call and writes the
    configuration; it forks nothing. *)
Lemma startCore_dry_run o id c y :
  coreExecutable c <> EmptyString -> dryRun c = true ->
  (configDir c +:+ "/config_" +:+ to_string id +:+ ".json")%string ∉ fs_unwritable (s_fs y) ->
  exists y', startCore o id false (c, y) = Returns (true, (c, y')) /\
    s_calls y' = s_calls y ++ [System ("mkdir -p " +:+ configDir c +:+ "/profiles " +:+ configDir c +:+ "/groups")] /\
    s_forks y' = s_forks y /\
    fs_files (s_fs y') !! (configDir c +:+ "/config_" +:+ to_string id +:+ ".json")%string = Some (JsonFile standard_config).
Proof.
  intros Hc Hd Hw. unfold startCore. cbn [mbind cli fst].
  rewrite (proj2 (String.eqb_neq _ _) Hc). cbn [mbind].
  destruct (createConfigDir_spec o c y) as (y1 & E1 & C1 & F1 & U1 & K1). rewrite E1.
  unfold generateConfig. destruct (write_config_spec "config_" standard_config id c y1) as (y2 & E2 & C2 & K2 & F2);
    [rewrite U1; exact Hw|]. cbn [mbind]. rewrite E2.
  assert (Hne : String.eqb (configDir c +:+ "/" +:+ "config_" +:+ to_string id +:+ ".json") EmptyString = false)
    by (apply String.eqb_neq; destruct (configDir c); discriminate).
  destruct (verbose c); cbn [mbind emit mret]; rewrite Hne, Hd; simpl;
    eexists; split_and!; try reflexivity; simpl; try congruence; rewrite F2; apply lookup_insert_eq.
Qed.

(** C17: [nekoray-cli stop] never stops anything: the pids are members
    of the object one invocation builds, set to [-1] by the
    constructor and stored nowhere, so in a new invocation [stopCore]
    finds no pid, signals no process and reports success; the run makes
    no system call and exits 0 (or aborts in [stoi] on a bad argument). *)
Theorem stop_signals_nothing env o rest fs :
  exists r s, main env o ("stop" :: rest) fs = Returns (r, s) /\ s_calls s.2 = [] /\
    (r = Exit 0 \/ exists e, r = Abort e).
Proof.
  destruct (parse_args rest false 1 (create env fs)) as [[[t p] c']|e] eqn:Hp.
  - pose proof (parse_args_keeps _ _ _ _ _ _ _ Hp) as (Hcore & Htun & _). simpl in Hcore, Htun.
    destruct (run_parsed env o "stop" rest fs t p c' Hp) as (y & _ & C & _ & ->).
    unfold dispatch. replace (String.eqb "stop" "start") with false by reflexivity.
    replace (String.eqb "stop" "stop") with true by reflexivity. cbn [mbind].
    destruct (stopCore_no_pid o false c' y) as (y3 & E3 & C3 & _); [simpl; lia|].
    rewrite E3. destruct t; cbn [mbind].
    + destruct (stopCore_no_pid o true c' y3) as (y4 & E4 & C4 & _); [simpl; lia|].
      rewrite E4. do 2 eexists. split_and!; [reflexivity|simpl; congruence|by left].
    + do 2 eexists. split_and!; [reflexivity|simpl; congruence|by left].
  - unfold main, run. cbn [mbind cli fst]. rewrite Hp.
    do 2 eexists. split_and!; [reflexivity|done|right; eauto].
Qed.
(** C18: A positional argument that is not a number ends every command
    in [std::terminate]: the argument loop runs [std::stoi] on every word
    not starting with [-] before the command is looked at, and nothing
    catches [std::invalid_argument] or [std::out_of_range]; nothing is
    printed and no system call is made, for [status] and [help] too. *)
Theorem non_numeric_argument_aborts env o fs command arg rest e :
  char_at0 arg <> "-"%char -> stoi arg = inr e ->
  main env o (command :: arg :: rest) fs = Returns (Abort e, (create env fs, mkSys fs [] [] 0)).
Proof.
  intros Ha He. unfold main, run. cbn [mbind cli fst].
  by rewrite (parse_args_throws arg rest false 1 _ e Ha He).
Qed.

Lemma non_numeric_argument_aborts_witness :
  char_at0 "status2"%string <> "-"%char /\ stoi "x1" = inr InvalidArgument /\
  main (mkEnv (Some "/root") false) (mkOracle (fun _ => 0) (fun _ => 100) (fun _ => true) (fun _ => true))
       ["status"; "x1"] (mkFileSystem ∅ ∅ ∅ ∅ ∅) =
  Returns (Abort InvalidArgument, (create (mkEnv (Some "/root") false) (mkFileSystem ∅ ∅ ∅ ∅ ∅),
                                   mkSys (mkFileSystem ∅ ∅ ∅ ∅ ∅) [] [] 0)).
Proof.
  split_and!; [discriminate|reflexivity|].
  apply non_numeric_argument_aborts; [discriminate|reflexivity].
Defined.

(** C19: [--dry-run] ("safe testing") is not dry: [start --dry-run]
    still runs the shell command [mkdir -p <dir>/profiles <dir>/groups],
    built from the directory with no quoting, and writes
    [<dir>/config_1.json]; only the fork is skipped, and it exits 0. *)
Theorem dry_run_still_acts env o fs :
  find_core fs possibleNames <> EmptyString ->
  (configDir (create env fs) +:+ "/config_1.json")%string ∉ fs_unwritable fs ->
  exists s, main env o ["start"; "--dry-run"] fs = Returns (Exit 0, s) /\
    s_calls s.2 = [System ("mkdir -p " +:+ configDir (create env fs) +:+ "/profiles " +:+
                           configDir (create env fs) +:+ "/groups")] /\
    s_forks s.2 = 0%nat /\
    fs_files (s_fs s.2) !! (configDir (create env fs) +:+ "/config_1.json")%string = Some (JsonFile standard_config).
Proof.
  intros Hc Hw.
  destruct (run_parsed env o "start" ["--dry-run"] fs false 1 (set_dryRun (create env fs)) eq_refl)
    as (y & F & C & K & ->).
  unfold dispatch. replace (String.eqb "start" "start") with true by reflexivity.
  unfold start_both. cbn [mbind].
  destruct (startCore_dry_run o 1 (set_dryRun (create env fs)) y) as (y' & E & C' & K' & L);
    [exact Hc|reflexivity|rewrite F; exact Hw|].
  rewrite E. eexists. split_and!; [reflexivity|simpl; rewrite C', C; reflexivity|simpl; congruence|exact L].
Qed.

Lemma dry_run_still_acts_witness :
  find_core (mkFileSystem {[("/usr/bin/sing-box")%string := TextFile []]} ∅ ∅ ∅ ∅) possibleNames <> EmptyString /\
  ((configDir (create (mkEnv (Some "/root") false) (mkFileSystem {[("/usr/bin/sing-box")%string := TextFile []]} ∅ ∅ ∅ ∅)) +:+ "/config_1.json")%string ∉ fs_unwritable (mkFileSystem {[("/usr/bin/sing-box")%string := TextFile []]} ∅ ∅ ∅ ∅)) /\
  exists s, main (mkEnv (Some "/root") false) (mkOracle (fun _ => 0) (fun _ => 100) (fun _ => true) (fun _ => true))
              ["start"; "--dry-run"] (mkFileSystem {[("/usr/bin/sing-box")%string := TextFile []]} ∅ ∅ ∅ ∅) = Returns (Exit 0, s) /\
    s_calls s.2 = [System "mkdir -p /root/.config/nekoray/profiles /root/.config/nekoray/groups"] /\
    s_forks s.2 = 0%nat /\
    fs_files (s_fs s.2) !! "/root/.config/nekoray/config_1.json"%string = Some (JsonFile standard_config).
Proof.
  split_and!; [vm_compute; discriminate|decide_closed|].
  apply dry_run_still_acts; [vm_compute; discriminate|decide_closed].
Defined.

(** Neither template proxies anything: the standard configuration
    declares one outbound, of type [direct], so every connection to the
    SOCKS and HTTP ports leaves directly; the TUN configuration sends
    its traffic to that SOCKS port, and its route rules name the
    outbounds [block] and [dns-out], which it never declares. *)
Theorem templates_never_proxy :
  outbound_types standard_config = ["direct"] /\
  used_outbounds standard_config = ["direct"] /\
  unresolved tun_config = ["block"; "dns-out"] /\
  jfield "server_port" (hd QUndefined (jarray (jfield "outbounds" tun_config))) =
    jfield "listen_port" (hd QUndefined (jarray (jfield "inbounds" standard_config))).
Proof. split_and!; vm_compute; reflexivity. Qed.

End StandaloneCliFacts.
