(* ===== verification/Beans.v ===== *)
(** * The proxy profile beans: [src/nekoray/fmt]

    One bean per proxy protocol, all deriving from [AbstractBean]
    ([AbstractBean_Headless.hpp/.cpp]), which derives from the
    [JsonStore] of the same header.  The class hierarchy is the sum type
    [Bean]: one constructor per concrete class, each carrying the
    [AbstractBean] members and the subclass's own record; the virtual
    methods ([DisplayType], [ToJson], [FromJson], [BuildCoreObjSingBox])
    dispatch on the constructor, falling back to [AbstractBean]'s
    versions where a class does not override them.

    - [AbstractBean]: constructor defaults, [IsValid], [DisplayAddress]
      (two chained [QString::arg]), [DisplayName], [DisplayTypeAndName],
      [ToJson]/[FromJson] of the seven common members,
      [BuildInboundObj], [BuildOutboundObj], [GenerateRandomTag] (the
      eight [QRandomGenerator::bounded] draws are an input);
    - [SocksHttpBean], [ShadowSocksBean], [VMessBean]
      ([*_Headless.cpp]) and [TrojanVLESSBean], [NaiveBean], [QUICBean],
      [CustomBean], [ChainBean] ([includes_headless.h]): members and
      constructor defaults, [DisplayType], [ToJson], [FromJson] and
      [BuildCoreObjSingBox];
    - [JsonStore]: the interface [ToJson]/[FromJson] as a type class, and
      [Save]/[Load] written once against it, over the file system of
      [Platform] ([QStandardPaths::ConfigLocation] is a parameter).

    [FromJson] mutates the bean: [AbstractBean::FromJson] assigns the
    common members before the subclass's check can return [false], so the
    result is the updated bean together with the returned flag.

    Theorems: the JSON round trip of every bean, the range invariant of
    the [int] members that [FromJson] establishes, the behaviour of
    [Save]/[Load] (every bean the code constructs has an empty
    [fileName], so neither touches the disk), and [DisplayAddress] with
    its chained [arg]. *)

From S2P Require Import Prelude QJson Platform OutputRelay Safety Codec.
From Stdlib Require Import Ascii.

Local Open Scope Z_scope.

Module Beans.

(** ** [AbstractBean] *)

(** The members of [AbstractBean] and of its base [JsonStore]
    ([fileName]; the unused [data] object is left out). *)
Record AbstractBean : Type := mkAbstractBean {
  fileName : string;
  version : Z;
  name : string;
  serverAddress : string;
  serverPort : Z;
  custom_config : string;
  custom_outbound : string;
  software_core_name : string
}.

(** [AbstractBean::AbstractBean(int version)] with the member
    initialisers of the header; [JsonStore(fileName = "")]. *)
Definition AbstractBean_new (v : Z) : AbstractBean := {|
  fileName := EmptyString; version := v; name := EmptyString;
  serverAddress := "127.0.0.1"; serverPort := 1080;
  custom_config := EmptyString; custom_outbound := EmptyString;
  software_core_name := "sing-box" |}.

(** [AbstractBean::IsValid]. *)
Definition IsValid (b : AbstractBean) : bool :=
  negb (String.eqb (serverAddress b) EmptyString) && (0 <? serverPort b) && (serverPort b <=? 65535).

(** [QString("%1:%2").arg(serverAddress).arg(serverPort)]: two chained
    single-argument [arg] calls, the second one rescanning the text the
    first one inserted. *)
Definition DisplayAddress (b : AbstractBean) : string :=
  QStr.arg (QStr.arg "%1:%2" (serverAddress b)) (z_to_string (serverPort b)).

(** [AbstractBean::DisplayName]. *)
Definition DisplayName (b : AbstractBean) : string :=
  if negb (String.eqb (name b) EmptyString) then name b else DisplayAddress b.

(** [QString("[%1] %2").arg(DisplayType(), DisplayName())]: the
    two-argument [arg] fills both escapes in one pass, without
    rescanning the arguments. *)
Definition DisplayTypeAndName (displayType displayName : string) : string :=
  ("[" +:+ displayType +:+ "] " +:+ displayName)%string.

(** [AbstractBean::ToJson]: [obj[key] = member] in the order of the code. *)
Definition AbstractBean_ToJson (b : AbstractBean) : QJsonObject :=
  obj_insert "software_core_name" (QString (software_core_name b))
  (obj_insert "custom_outbound" (QString (custom_outbound b))
  (obj_insert "custom_config" (QString (custom_config b))
  (obj_insert "serverPort" (QDouble (serverPort b))
  (obj_insert "serverAddress" (QString (serverAddress b))
  (obj_insert "name" (QString (name b))
  (obj_insert "version" (QDouble (version b)) [])))))).

(** [AbstractBean::FromJson]: every member assigned from [obj[key]]
    ([toInt()], [toString()]), then [IsValid()]. *)
Definition AbstractBean_FromJson (b : AbstractBean) (obj : QJsonObject) : AbstractBean * bool :=
  let b' := {| fileName := fileName b;
               version := qj_toInt (obj_value "version" obj);
               name := qj_toString (obj_value "name" obj);
               serverAddress := qj_toString (obj_value "serverAddress" obj);
               serverPort := qj_toInt (obj_value "serverPort" obj);
               custom_config := qj_toString (obj_value "custom_config" obj);
               custom_outbound := qj_toString (obj_value "custom_outbound" obj);
               software_core_name := qj_toString (obj_value "software_core_name" obj) |} in
  (b', IsValid b').

(** [AbstractBean::BuildInboundObj(type, port, listen = "127.0.0.1")]. *)
Definition BuildInboundObj (type : string) (port : Z) (listen : string) : QJsonObject :=
  obj_insert "listen_port" (QDouble port)
  (obj_insert "listen" (QString listen)
  (obj_insert "tag" (QString (QStr.arg "inbound-%1" type))
  (obj_insert "type" (QString type) []))).

(** [AbstractBean::BuildOutboundObj(type, tag = "proxy")]. *)
Definition BuildOutboundObj (type tag : string) : QJsonObject :=
  obj_insert "tag" (QString tag) (obj_insert "type" (QString type) []).

Definition tag_chars : string := "ABCDEFGHIJKLMNOPQRSTUVWXYZabcdefghijklmnopqrstuvwxyz0123456789".

(** [AbstractBean::GenerateRandomTag]: eight characters
    [chars.at(bounded(chars.length()))]; [draw i] is the value the
    generator returns at the [i]-th iteration. *)
Definition GenerateRandomTag (draw : nat -> Z) : string :=
  fold_left (fun tag i =>
      (tag +:+ String (match String.get (Z.to_nat (draw i)) tag_chars with
                       | Some c => c | None => "A"%char end) EmptyString)%string)
    (seq 0 8) EmptyString.

(** [struct CoreObjOutboundBuildResult]. *)
Record CoreObjOutboundBuildResult : Type := mkBuildResult {
  outbound : QJsonObject;
  error : string
}.

(** The base members a subclass constructor sets: [AbstractBean(0)],
    then [software_core_name] and, for some classes, [serverPort]. *)
Definition base_with (core : string) (port : Z) : AbstractBean :=
  {| fileName := EmptyString; version := 0; name := EmptyString; serverAddress := "127.0.0.1";
     serverPort := port; custom_config := EmptyString; custom_outbound := EmptyString;
     software_core_name := core |}.

(** ** [SocksHttpBean] ([SocksHttpBean_Headless.cpp]) *)

Module SocksHttpBean.

(** [enum proxy_type]; the member is an [int] after
    [static_cast<proxy_type>(toInt())]. *)
Definition type_HTTP : Z := 0.
Definition type_Socks5 : Z := 1.

Record t : Type := mk { socks_http_type : Z; username : string; password : string }.

(** [SocksHttpBean(proxy_type type = type_Socks5)]. *)
Definition new (type : Z) : AbstractBean * t :=
  (base_with "sing-box" 1080, {| socks_http_type := type; username := EmptyString; password := EmptyString |}).

Definition DisplayType (x : t) : string :=
  if socks_http_type x =? type_HTTP then "HTTP" else "SOCKS5".

Definition BuildCoreObjSingBox (b : AbstractBean) (x : t) (tag : string) : CoreObjOutboundBuildResult :=
  let o := BuildOutboundObj (if socks_http_type x =? type_HTTP then "http" else "socks") tag in
  let o := obj_insert "server_port" (QDouble (serverPort b)) (obj_insert "server" (QString (serverAddress b)) o) in
  let o := if negb (String.eqb (username x) EmptyString) then
             let o := obj_insert "username" (QString (username x)) o in
             if negb (String.eqb (password x) EmptyString) then obj_insert "password" (QString (password x)) o else o
           else o in
  let o := if socks_http_type x =? type_Socks5 then obj_insert "version" (QString "5") o else o in
  {| outbound := o; error := EmptyString |}.

Definition ToJson (b : AbstractBean) (x : t) : QJsonObject :=
  obj_insert "password" (QString (password x))
  (obj_insert "username" (QString (username x))
  (obj_insert "socks_http_type" (QDouble (socks_http_type x)) (AbstractBean_ToJson b))).

Definition FromJson (b : AbstractBean) (x : t) (obj : QJsonObject) : AbstractBean * t * bool :=
  let '(b', ok) := AbstractBean_FromJson b obj in
  if negb ok then (b', x, false) else
  let x' := {| socks_http_type := qj_toInt (obj_value "socks_http_type" obj);
               username := qj_toString (obj_value "username" obj);
               password := qj_toString (obj_value "password" obj) |} in
  (b', x', IsValid b').

End SocksHttpBean.

(** ** [ShadowSocksBean] ([ShadowSocksBean_Headless.cpp]) *)

Module ShadowSocksBean.

Record t : Type := mk { method : string; password : string; plugin : string; plugin_opts : string }.

(** [ShadowSocksBean()]: port 8388 and the header's defaults. *)
Definition new : AbstractBean * t :=
  (base_with "sing-box" 8388,
   {| method := "chacha20-ietf-poly1305"; password := EmptyString; plugin := EmptyString;
      plugin_opts := EmptyString |}).

Definition DisplayType : string := "Shadowsocks".

Definition BuildCoreObjSingBox (b : AbstractBean) (x : t) (tag : string) : CoreObjOutboundBuildResult :=
  let o := BuildOutboundObj "shadowsocks" tag in
  let o := obj_insert "password" (QString (password x)) (obj_insert "method" (QString (method x))
             (obj_insert "server_port" (QDouble (serverPort b)) (obj_insert "server" (QString (serverAddress b)) o))) in
  let o := if negb (String.eqb (plugin x) EmptyString) then
             let pluginObj := obj_insert "type" (QString (plugin x)) [] in
             let pluginObj := if negb (String.eqb (plugin_opts x) EmptyString)
                              then obj_insert "options" (QString (plugin_opts x)) pluginObj else pluginObj in
             obj_insert "plugin" (QObject pluginObj) o
           else o in
  {| outbound := o; error := EmptyString |}.

Definition ToJson (b : AbstractBean) (x : t) : QJsonObject :=
  obj_insert "plugin_opts" (QString (plugin_opts x))
  (obj_insert "plugin" (QString (plugin x))
  (obj_insert "password" (QString (password x))
  (obj_insert "method" (QString (method x)) (AbstractBean_ToJson b)))).

Definition FromJson (b : AbstractBean) (x : t) (obj : QJsonObject) : AbstractBean * t * bool :=
  let '(b', ok) := AbstractBean_FromJson b obj in
  if negb ok then (b', x, false) else
  let x' := {| method := qj_toString (obj_value "method" obj);
               password := qj_toString (obj_value "password" obj);
               plugin := qj_toString (obj_value "plugin" obj);
               plugin_opts := qj_toString (obj_value "plugin_opts" obj) |} in
  (b', x', IsValid b' && negb (String.eqb (password x') EmptyString)).

End ShadowSocksBean.

(** ** [VMessBean] ([VMessBean_Headless.cpp]) *)

Module VMessBean.

Record t : Type := mk {
  uuid : string; security : string; aid : Z;
  network : string; path : string; host : string; tls : string
}.

(** [VMessBean()]: port 443 and the header's defaults. *)
Definition new : AbstractBean * t :=
  (base_with "sing-box" 443,
   {| uuid := EmptyString; security := "auto"; aid := 0; network := "tcp"; path := "/";
      host := EmptyString; tls := EmptyString |}).

Definition DisplayType : string := "VMess".

Definition BuildCoreObjSingBox (b : AbstractBean) (x : t) (tag : string) : CoreObjOutboundBuildResult :=
  let o := BuildOutboundObj "vmess" tag in
  let o := obj_insert "security" (QString (security x)) (obj_insert "uuid" (QString (uuid x))
             (obj_insert "server_port" (QDouble (serverPort b)) (obj_insert "server" (QString (serverAddress b)) o))) in
  let o := if 0 <? aid x then obj_insert "alter_id" (QDouble (aid x)) o else o in
  let transport := obj_insert "type" (QString (network x)) [] in
  let transport :=
    if String.eqb (network x) "ws" then
      let tr := obj_insert "path" (QString (path x)) transport in
      if negb (String.eqb (host x) EmptyString)
      then obj_insert "headers" (QObject (obj_insert "Host" (QString (host x)) [])) tr else tr
    else if String.eqb (network x) "grpc" then obj_insert "service_name" (QString (path x)) transport
    else transport in
  let o := obj_insert "transport" (QObject transport) o in
  let o := if String.eqb (tls x) "tls" then
             let tlsConfig := obj_insert "enabled" (QBool true) [] in
             let tlsConfig := if negb (String.eqb (host x) EmptyString)
                              then obj_insert "server_name" (QString (host x)) tlsConfig else tlsConfig in
             obj_insert "tls" (QObject tlsConfig) o
           else o in
  {| outbound := o; error := EmptyString |}.

Definition ToJson (b : AbstractBean) (x : t) : QJsonObject :=
  obj_insert "tls" (QString (tls x))
  (obj_insert "host" (QString (host x))
  (obj_insert "path" (QString (path x))
  (obj_insert "network" (QString (network x))
  (obj_insert "aid" (QDouble (aid x))
  (obj_insert "security" (QString (security x))
  (obj_insert "uuid" (QString (uuid x)) (AbstractBean_ToJson b))))))).

Definition FromJson (b : AbstractBean) (x : t) (obj : QJsonObject) : AbstractBean * t * bool :=
  let '(b', ok) := AbstractBean_FromJson b obj in
  if negb ok then (b', x, false) else
  let x' := {| uuid := qj_toString (obj_value "uuid" obj);
               security := qj_toString (obj_value "security" obj);
               aid := qj_toInt (obj_value "aid" obj);
               network := qj_toString (obj_value "network" obj);
               path := qj_toString (obj_value "path" obj);
               host := qj_toString (obj_value "host" obj);
               tls := qj_toString (obj_value "tls" obj) |} in
  (b', x', IsValid b' && negb (String.eqb (uuid x') EmptyString)).

End VMessBean.

(** ** [TrojanVLESSBean] ([includes_headless.h]) *)

Module TrojanVLESSBean.

Definition proxy_Trojan : Z := 0.
Definition proxy_VLESS : Z := 1.

Record t : Type := mk {
  proxy_type_value : Z; password : string; uuid : string; flow : string;
  network : string; path : string; host : string; tls : string
}.

Definition new (type : Z) : AbstractBean * t :=
  (base_with "sing-box" 1080,
   {| proxy_type_value := type; password := EmptyString; uuid := EmptyString; flow := EmptyString;
      network := "tcp"; path := "/"; host := EmptyString; tls := EmptyString |}).

Definition DisplayType (x : t) : string :=
  if proxy_type_value x =? proxy_Trojan then "Trojan" else "VLESS".

(** The outbound carries the server and the credential only: the
    [network], [path], [host] and [tls] members are not read. *)
Definition BuildCoreObjSingBox (b : AbstractBean) (x : t) (tag : string) : CoreObjOutboundBuildResult :=
  let o := BuildOutboundObj (if proxy_type_value x =? proxy_Trojan then "trojan" else "vless") tag in
  let o := obj_insert "server_port" (QDouble (serverPort b)) (obj_insert "server" (QString (serverAddress b)) o) in
  let o := if proxy_type_value x =? proxy_Trojan then obj_insert "password" (QString (password x)) o
           else let o := obj_insert "uuid" (QString (uuid x)) o in
                if negb (String.eqb (flow x) EmptyString) then obj_insert "flow" (QString (flow x)) o else o in
  {| outbound := o; error := EmptyString |}.

Definition ToJson (b : AbstractBean) (x : t) : QJsonObject :=
  obj_insert "tls" (QString (tls x))
  (obj_insert "host" (QString (host x))
  (obj_insert "path" (QString (path x))
  (obj_insert "network" (QString (network x))
  (obj_insert "flow" (QString (flow x))
  (obj_insert "uuid" (QString (uuid x))
  (obj_insert "password" (QString (password x))
  (obj_insert "proxy_type_value" (QDouble (proxy_type_value x)) (AbstractBean_ToJson b)))))))).

Definition FromJson (b : AbstractBean) (x : t) (obj : QJsonObject) : AbstractBean * t * bool :=
  let '(b', ok) := AbstractBean_FromJson b obj in
  if negb ok then (b', x, false) else
  let x' := {| proxy_type_value := qj_toInt (obj_value "proxy_type_value" obj);
               password := qj_toString (obj_value "password" obj);
               uuid := qj_toString (obj_value "uuid" obj);
               flow := qj_toString (obj_value "flow" obj);
               network := qj_toString (obj_value "network" obj);
               path := qj_toString (obj_value "path" obj);
               host := qj_toString (obj_value "host" obj);
               tls := qj_toString (obj_value "tls" obj) |} in
  (b', x', IsValid b').

End TrojanVLESSBean.

(** ** [NaiveBean], [QUICBean], [CustomBean], [ChainBean]
    ([includes_headless.h]); none overrides [BuildCoreObjSingBox]. *)

Module NaiveBean.
Record t : Type := mk { username : string; password : string }.
Definition new : AbstractBean * t :=
  (base_with "naive" 1080, {| username := EmptyString; password := EmptyString |}).
Definition DisplayType : string := "Naive".
Definition ToJson (b : AbstractBean) (x : t) : QJsonObject :=
  obj_insert "password" (QString (password x)) (obj_insert "username" (QString (username x)) (AbstractBean_ToJson b)).
Definition FromJson (b : AbstractBean) (x : t) (obj : QJsonObject) : AbstractBean * t * bool :=
  let '(b', ok) := AbstractBean_FromJson b obj in
  if negb ok then (b', x, false) else
  (b', {| username := qj_toString (obj_value "username" obj);
          password := qj_toString (obj_value "password" obj) |}, IsValid b').
End NaiveBean.

Module QUICBean.
Definition proxy_Hysteria2 : Z := 0.
Definition proxy_TUIC : Z := 1.
Record t : Type := mk { proxy_type_value : Z; password : string; uuid : string }.
Definition new (type : Z) : AbstractBean * t :=
  (base_with "sing-box" 1080, {| proxy_type_value := type; password := EmptyString; uuid := EmptyString |}).
Definition DisplayType (x : t) : string :=
  if proxy_type_value x =? proxy_Hysteria2 then "Hysteria2" else "TUIC".
Definition ToJson (b : AbstractBean) (x : t) : QJsonObject :=
  obj_insert "uuid" (QString (uuid x)) (obj_insert "password" (QString (password x))
  (obj_insert "proxy_type_value" (QDouble (proxy_type_value x)) (AbstractBean_ToJson b))).
Definition FromJson (b : AbstractBean) (x : t) (obj : QJsonObject) : AbstractBean * t * bool :=
  let '(b', ok) := AbstractBean_FromJson b obj in
  if negb ok then (b', x, false) else
  (b', {| proxy_type_value := qj_toInt (obj_value "proxy_type_value" obj);
          password := qj_toString (obj_value "password" obj);
          uuid := qj_toString (obj_value "uuid" obj) |}, IsValid b').
End QUICBean.

Module CustomBean.
Record t : Type := mk { core_type : string; config_simple : string }.
Definition new : AbstractBean * t :=
  (base_with "sing-box" 1080, {| core_type := "sing-box"; config_simple := EmptyString |}).
Definition DisplayType : string := "Custom".
Definition ToJson (b : AbstractBean) (x : t) : QJsonObject :=
  obj_insert "config_simple" (QString (config_simple x)) (obj_insert "core_type" (QString (core_type x)) (AbstractBean_ToJson b)).
(** "Custom bean always valid": [true] once the common members passed. *)
Definition FromJson (b : AbstractBean) (x : t) (obj : QJsonObject) : AbstractBean * t * bool :=
  let '(b', ok) := AbstractBean_FromJson b obj in
  if negb ok then (b', x, false) else
  (b', {| core_type := qj_toString (obj_value "core_type" obj);
          config_simple := qj_toString (obj_value "config_simple" obj) |}, true).
End CustomBean.

Module ChainBean.
Record t : Type := mk { chain_list : list string }.
Definition new : AbstractBean * t := (base_with "sing-box" 1080, {| chain_list := [] |}).
Definition DisplayType : string := "Chain".
Definition ToJson (b : AbstractBean) (x : t) : QJsonObject :=
  obj_insert "chain_list" (QArray (map QString (chain_list x))) (AbstractBean_ToJson b).
(** [QJsonValue::toArray()]: the empty array unless an array. *)
Definition qj_toArray (v : QJsonValue) : list QJsonValue := match v with QArray a => a | _ => [] end.
Definition FromJson (b : AbstractBean) (x : t) (obj : QJsonObject) : AbstractBean * t * bool :=
  let '(b', ok) := AbstractBean_FromJson b obj in
  if negb ok then (b', x, false) else
  (b', {| chain_list := map qj_toString (qj_toArray (obj_value "chain_list" obj)) |}, true).
End ChainBean.

(** ** The class hierarchy *)

(** One constructor per concrete class; [Abstract] is a plain
    [AbstractBean] (what [GetBean] builds for an unknown type). *)
Inductive Bean : Type :=
| Abstract (b : AbstractBean)
| SocksHttp (b : AbstractBean) (x : SocksHttpBean.t)
| ShadowSocks (b : AbstractBean) (x : ShadowSocksBean.t)
| VMess (b : AbstractBean) (x : VMessBean.t)
| TrojanVLESS (b : AbstractBean) (x : TrojanVLESSBean.t)
| Naive (b : AbstractBean) (x : NaiveBean.t)
| QUIC (b : AbstractBean) (x : QUICBean.t)
| Custom (b : AbstractBean) (x : CustomBean.t)
| Chain (b : AbstractBean) (x : ChainBean.t).

(** The [AbstractBean] part of a bean. *)
Definition base (bean : Bean) : AbstractBean :=
  match bean with
  | Abstract b | SocksHttp b _ | ShadowSocks b _ | VMess b _ | TrojanVLESS b _
  | Naive b _ | QUIC b _ | Custom b _ | Chain b _ => b
  end.

(** [virtual QString DisplayType()]. *)
Definition DisplayType (bean : Bean) : string :=
  match bean with
  | Abstract _ => "Unknown"
  | SocksHttp _ x => SocksHttpBean.DisplayType x
  | ShadowSocks _ _ => ShadowSocksBean.DisplayType
  | VMess _ _ => VMessBean.DisplayType
  | TrojanVLESS _ x => TrojanVLESSBean.DisplayType x
  | Naive _ _ => NaiveBean.DisplayType
  | QUIC _ x => QUICBean.DisplayType x
  | Custom _ _ => CustomBean.DisplayType
  | Chain _ _ => ChainBean.DisplayType
  end.

(** [virtual QJsonObject ToJson() const]. *)
Definition ToJson (bean : Bean) : QJsonObject :=
  match bean with
  | Abstract b => AbstractBean_ToJson b
  | SocksHttp b x => SocksHttpBean.ToJson b x
  | ShadowSocks b x => ShadowSocksBean.ToJson b x
  | VMess b x => VMessBean.ToJson b x
  | TrojanVLESS b x => TrojanVLESSBean.ToJson b x
  | Naive b x => NaiveBean.ToJson b x
  | QUIC b x => QUICBean.ToJson b x
  | Custom b x => CustomBean.ToJson b x
  | Chain b x => ChainBean.ToJson b x
  end.

(** Rebuilds a bean of the same class from a subclass's [FromJson]. *)
Definition lift {X} (k : AbstractBean -> X -> Bean) (r : AbstractBean * X * bool) : Bean * bool :=
  let '(b, x, ok) := r in (k b x, ok).

(** [virtual bool FromJson(const QJsonObject &)]. *)
Definition FromJson (bean : Bean) (obj : QJsonObject) : Bean * bool :=
  match bean with
  | Abstract b => let '(b', ok) := AbstractBean_FromJson b obj in (Abstract b', ok)
  | SocksHttp b x => lift SocksHttp (SocksHttpBean.FromJson b x obj)
  | ShadowSocks b x => lift ShadowSocks (ShadowSocksBean.FromJson b x obj)
  | VMess b x => lift VMess (VMessBean.FromJson b x obj)
  | TrojanVLESS b x => lift TrojanVLESS (TrojanVLESSBean.FromJson b x obj)
  | Naive b x => lift Naive (NaiveBean.FromJson b x obj)
  | QUIC b x => lift QUIC (QUICBean.FromJson b x obj)
  | Custom b x => lift Custom (CustomBean.FromJson b x obj)
  | Chain b x => lift Chain (ChainBean.FromJson b x obj)
  end.

(** [virtual CoreObjOutboundBuildResult BuildCoreObjSingBox()]; the
    base version returns [{}]: an empty outbound and no error.  [tag]
    is the result of [GenerateRandomTag()]. *)
Definition BuildCoreObjSingBox (bean : Bean) (tag : string) : CoreObjOutboundBuildResult :=
  match bean with
  | SocksHttp b x => SocksHttpBean.BuildCoreObjSingBox b x tag
  | ShadowSocks b x => ShadowSocksBean.BuildCoreObjSingBox b x tag
  | VMess b x => VMessBean.BuildCoreObjSingBox b x tag
  | TrojanVLESS b x => TrojanVLESSBean.BuildCoreObjSingBox b x tag
  | _ => {| outbound := []; error := EmptyString |}
  end.

(** [AbstractBean::ToNekorayShareLink(type)]: the two-argument [arg] on
    a constant template; [toJsonText] is [QJsonDocument::toJson]. *)
Definition ToNekorayShareLink (toJsonText : QJsonObject -> string) (type : string) (bean : Bean) : string :=
  ("nekoray://" +:+ type +:+ "?config=" +:+ toBase64 (toJsonText (ToJson bean)))%string.

(** ** [JsonStore]: the persisted-object interface *)

(** What [JsonStore::Save]/[Load] need of the object: its [fileName]
    and the two pure virtual methods. *)
Class JsonStore (B : Type) := {
  store_fileName : B -> string;
  store_ToJson : B -> QJsonObject;
  store_FromJson : B -> QJsonObject -> B * bool
}.

#[export] Instance Bean_JsonStore : JsonStore Bean := {|
  store_fileName := fun bean => fileName (base bean);
  store_ToJson := ToJson;
  store_FromJson := FromJson
|}.

Section Store.
Context {B : Type} `{JsonStore B}.
(** [QStandardPaths::writableLocation(QStandardPaths::ConfigLocation)]. *)
Variable configLocation : string.

Definition configDir : string := (configLocation +:+ "/nekoray")%string.

(** [JsonStore::Save]: [false] for an empty [fileName]; the directory
    is created if missing (the result of [mkpath] is not checked); the
    document is written, [false] when the open fails. *)
Definition Save (b : B) (fs : FileSystem) : bool * FileSystem :=
  if String.eqb (store_fileName b) EmptyString then (false, fs) else
  let fs1 := match ensure_dir configDir fs with Some fs' => fs' | None => fs end in
  match fs_write (configDir +:+ "/" +:+ store_fileName b)%string (JsonFile (QObject (store_ToJson b))) fs1 with
  | Some fs2 => (true, fs2)
  | None => (false, fs1)
  end.

(** [JsonStore::Load]: [false] for an empty [fileName], a missing or
    unreadable file, or a parse error; otherwise [FromJson(doc.object())]. *)
Definition Load (b : B) (fs : FileSystem) : B * bool :=
  if String.eqb (store_fileName b) EmptyString then (b, false) else
  match fs_read (configDir +:+ "/" +:+ store_fileName b)%string fs with
  | None => (b, false)
  | Some c =>
      match parse_json c with
      | None => (b, false)
      | Some v => store_FromJson b (doc_object v)
      end
  end.

End Store.

End Beans.

(** ** Facts about the beans *)

Module BeansFacts.
Import Beans.

(** The [int] members hold values of C++ [int]. *)
Definition int_range (z : Z) : Prop := INT_MIN <= z <= INT_MAX.

Definition base_wf (b : AbstractBean) : Prop := int_range (version b) /\ int_range (serverPort b).

(** Every [int] member of a bean fits in an [int]. *)
Definition wf (bean : Bean) : Prop :=
  base_wf (base bean) /\
  match bean with
  | SocksHttp _ x => int_range (SocksHttpBean.socks_http_type x)
  | VMess _ x => int_range (VMessBean.aid x)
  | TrojanVLESS _ x => int_range (TrojanVLESSBean.proxy_type_value x)
  | QUIC _ x => int_range (QUICBean.proxy_type_value x)
  | _ => True
  end.

(** Two beans of the same concrete class. *)
Definition same_class (r bean : Bean) : bool :=
  match r, bean with
  | Abstract _, Abstract _ | SocksHttp _ _, SocksHttp _ _ | ShadowSocks _ _, ShadowSocks _ _
  | VMess _ _, VMess _ _ | TrojanVLESS _ _, TrojanVLESS _ _ | Naive _ _, Naive _ _
  | QUIC _ _, QUIC _ _ | Custom _ _, Custom _ _ | Chain _ _, Chain _ _ => true
  | _, _ => false
  end.

(** The bean [r] with its [AbstractBean] part replaced. *)
Definition with_base (r : Bean) (b : AbstractBean) : Bean :=
  match r with
  | Abstract _ => Abstract b
  | SocksHttp _ x => SocksHttp b x
  | ShadowSocks _ x => ShadowSocks b x
  | VMess _ x => VMess b x
  | TrojanVLESS _ x => TrojanVLESS b x
  | Naive _ x => Naive b x
  | QUIC _ x => QUIC b x
  | Custom _ x => Custom b x
  | Chain _ x => Chain b x
  end.

(** What [FromJson] of a bean's own document returns: [IsValid], and
    the non-empty password or uuid the Shadowsocks and VMess beans
    also require. *)
Definition Valid (bean : Bean) : bool :=
  match bean with
  | ShadowSocks b x => IsValid b && negb (String.eqb (ShadowSocksBean.password x) EmptyString)
  | VMess b x => IsValid b && negb (String.eqb (VMessBean.uuid x) EmptyString)
  | _ => IsValid (base bean)
  end.

(** A configured Shadowsocks bean and a fresh one, for the examples. *)
Definition ss_sample_base : AbstractBean :=
  {| fileName := EmptyString; version := 0; name := "node"; serverAddress := "1.2.3.4";
     serverPort := 8388; custom_config := EmptyString; custom_outbound := EmptyString;
     software_core_name := "sing-box" |}.
Definition ss_sample_x : ShadowSocksBean.t :=
  {| ShadowSocksBean.method := "aes-256-gcm"; ShadowSocksBean.password := "secret";
     ShadowSocksBean.plugin := EmptyString; ShadowSocksBean.plugin_opts := EmptyString |}.
Definition ss_sample : Bean := ShadowSocks ss_sample_base ss_sample_x.
Definition ss_fresh : Bean := ShadowSocks (fst ShadowSocksBean.new) (snd ShadowSocksBean.new).

Lemma qj_toInt_range v : int_range (qj_toInt v).
Proof.
  unfold int_range, qj_toInt, INT_MIN, INT_MAX. destruct v; try lia.
  case_match; [apply andb_true_iff in H as [?%Z.leb_le ?%Z.leb_le]|]; lia.
Qed.

Lemma qj_toInt_double z : int_range z -> qj_toInt (QDouble z) = z.
Proof. intros Hz. unfold qj_toInt. by rewrite int_range_true. Qed.

Lemma qj_toString_string s : qj_toString (QString s) = s.
Proof. done. Qed.

Lemma map_toString_QString l : map qj_toString (map QString l) = l.
Proof. induction l as [|x l IH]; simpl; [done|]. by rewrite IH. Qed.

#[export] Hint Resolve qj_toInt_range : neko.
#[export] Hint Rewrite qj_toString_string map_toString_QString : neko_rw.

(** Evaluates every lookup [obj[k]] of a concrete key in an object
    built by concrete insertions (the values may be open terms). *)
Ltac eval_lookups :=
  repeat match goal with
  | |- context [obj_value ?k ?o] =>
      let v := eval hnf in (obj_value k o) in change (obj_value k o) with v
  end.

(** Unfolds the [ToJson]/[FromJson] pairs of all the classes. *)
Ltac unfold_json :=
  unfold FromJson, ToJson, lift, SocksHttpBean.FromJson, SocksHttpBean.ToJson,
    ShadowSocksBean.FromJson, ShadowSocksBean.ToJson, VMessBean.FromJson, VMessBean.ToJson,
    TrojanVLESSBean.FromJson, TrojanVLESSBean.ToJson, NaiveBean.FromJson, NaiveBean.ToJson,
    QUICBean.FromJson, QUICBean.ToJson, CustomBean.FromJson, CustomBean.ToJson,
    ChainBean.FromJson, ChainBean.ToJson, AbstractBean_FromJson, AbstractBean_ToJson.

(** C21: [FromJson] reads back what [ToJson] wrote, for a bean of every
    class whose [int] members are [int]s, into any receiver of the same
    class with the same [fileName]: when the common members are valid
    the result is the bean itself; otherwise [AbstractBean::FromJson]
    has already overwritten the common members and the subclass keeps
    its own.  The flag is [IsValid()], with the non-empty password
    (Shadowsocks) or uuid (VMess) those classes also demand. *)
Theorem FromJson_ToJson (r bean : Bean) :
  same_class r bean = true -> fileName (base r) = fileName (base bean) -> wf bean ->
  FromJson r (ToJson bean) = (if IsValid (base bean) then bean else with_base r (base bean), Valid bean).
Proof.
  intros Hc Hf [[Hv Hp] Hx].
  destruct r as [b|b x|b x|b x|b x|b x|b x|b x|b x], bean as [c|c y|c y|c y|c y|c y|c y|c y|c y];
    try discriminate; destruct c; try destruct y; simpl in Hf; subst; unfold_json;
    eval_lookups; cbn in Hv, Hp, Hx; rewrite ?qj_toInt_double by done; cbn -[IsValid];
    destruct (IsValid _); cbn; try reflexivity.
  do 3 f_equal. apply map_toString_QString.
Qed.

Lemma FromJson_ToJson_witness :
  same_class ss_fresh ss_sample = true /\ fileName (base ss_fresh) = fileName (base ss_sample) /\
  wf ss_sample /\
  FromJson ss_fresh (ToJson ss_sample) =
  (if IsValid (base ss_sample) then ss_sample else with_base ss_fresh (base ss_sample), Valid ss_sample).
Proof.
  assert (Hw : wf ss_sample) by (split; [split|]; cbn; unfold int_range, INT_MIN, INT_MAX; lia || done).
  split; [reflexivity|]. split; [reflexivity|]. split; [exact Hw|].
  apply FromJson_ToJson; [reflexivity|reflexivity|exact Hw].
Defined.

Lemma FromJson_fileName (r : Bean) (obj : QJsonObject) :
  fileName (base (FromJson r obj).1) = fileName (base r).
Proof. destruct r; unfold_json; cbn -[IsValid]; by repeat (case_match; cbn -[IsValid] in *; simplify_eq/=). Qed.

Section StoreFacts.
Context {B : Type} `{JsonStore B}.

Lemma Save_empty cfg (b : B) fs : store_fileName b = EmptyString -> Save cfg b fs = (false, fs).
Proof. intros E. unfold Save. by rewrite E. Qed.

Lemma Load_empty cfg (b : B) fs : store_fileName b = EmptyString -> Load cfg b fs = (b, false).
Proof. intros E. unfold Load. by rewrite E. Qed.

Lemma fs_read_write p c fs fs' :
  fs_write p c fs = Some fs' -> p ∉ fs_unreadable fs -> fs_read p fs' = Some c.
Proof.
  unfold fs_write, fs_read. case_bool_decide; [done|]. intros [= <-] Hr. simpl.
  rewrite bool_decide_false by done. by rewrite lookup_insert_eq.
Qed.

(** What [Save] wrote, [Load] reads back: for an object with a
    file name, a successful [Save] followed by [Load] into the same
    object is [FromJson] of its own [ToJson] document (so, for a bean,
    the round trip of [FromJson_ToJson]). *)
Lemma Save_then_Load cfg (b : B) fs fs' :
  store_fileName b <> EmptyString ->
  (configDir cfg +:+ "/" +:+ store_fileName b)%string ∉ fs_unreadable fs ->
  Save cfg b fs = (true, fs') ->
  Load cfg b fs' = store_FromJson b (store_ToJson b).
Proof.
  intros Hn Hr. unfold Save, Load. apply String.eqb_neq in Hn as ->.
  case_match eqn:Ew; intros [= <-]. rewrite (fs_read_write _ _ _ _ Ew).
  - done.
  - destruct (ensure_dir _ fs) eqn:Ed; [|done].
    unfold ensure_dir, fs_mkdir in Ed. repeat case_match; simplify_eq/=; done.
Qed.

End StoreFacts.

(** ** [DisplayAddress] and the chained [arg] *)

Lemma arg_host_port (a : string) : QStr.arg "%1:%2" a = (a +:+ ":%2")%string.
Proof. reflexivity. Qed.

(** [DisplayAddress] is [address:port] for every address without a
    [%]: the second [arg] sees no escape in the inserted address. *)
Lemma DisplayAddress_plain (b : AbstractBean) :
  lacks "%" (serverAddress b) = true ->
  DisplayAddress b = (serverAddress b +:+ ":" +:+ z_to_string (serverPort b))%string.
Proof.
  intros Hl. unfold DisplayAddress. rewrite arg_host_port, arg_prefix by done.
  f_equal. rewrite <- (str_app_nil_r (z_to_string _)) at 2. reflexivity.
Qed.

(** an address with a [%1] in it (an IPv6 zone index such as
    [fe80::1%1]) is rewritten by the second [arg]: the port replaces the
    [%1] of the address and the [%2] of the template stays. *)
Example DisplayAddress_zone_index :
  DisplayAddress {| fileName := EmptyString; version := 0; name := EmptyString;
                    serverAddress := "fe80::1%1"; serverPort := 1080; custom_config := EmptyString;
                    custom_outbound := EmptyString; software_core_name := "sing-box" |} = "fe80::11080:%2".
Proof. vm_compute. reflexivity. Qed.

End BeansFacts.
