(* ===== verification/Database.v ===== *)
(** * The profile database: [src/nekoray/db/Database_Headless.cpp]

    [NekoCore::ProfileManager] keeps the groups (a [QList<Group*>]) and
    the profiles; [ProxyEntity] is one profile: its identity, its
    latency and the bean ([Beans.Bean]) it owns.  The manager is the
    global [profileManager]: [InitializeDefaultGroup] adds to that
    global object, which is the one modelled.

    - [ProfileManager]: [GetNextId] (the largest group id plus one, an
      [int] that wraps), [NewGroup], [AddGroup], [DeleteGroup],
      [InitializeDefaultGroup], [GetProfileType] and the bean factory
      [GetBean].  [Save()] is declared ([virtual void Save()] of the
      header's own [JsonStore]) but defined nowhere in the repository;
      each call is recorded in [saves].  [GetProfile], [AddProfile] and
      [DeleteProfile] are declared and never defined either.
    - [ProxyEntity]: the constructor, [DisplayLatencyColor],
      [DisplayAddress], [DisplayName], [DisplayType], [IsValid],
      [UpdateBean], [ToJson], [FromJson].  [QDateTime::currentMSecsSinceEpoch]
      is the argument [now].

    Theorems: group ids stay unique and positive under [NewGroup] +
    [AddGroup] and [DeleteGroup] as long as no id reached [INT_MAX], and
    [GetNextId] wraps to [INT_MIN] there; [ProxyEntity::FromJson] of
    [ToJson] rebuilds every bean as a SOCKS/HTTP bean ([GetProfileType]
    always answers ["socks"]): a Shadowsocks profile comes back as an
    HTTP proxy; no bean the database creates is ever saved. *)

From S2P Require Import Prelude QJson Platform OutputRelay Safety Codec Beans.
From Stdlib Require Import Ascii.

Local Open Scope Z_scope.

Module Database.
Import Beans.

(** [int] arithmetic: two's complement wrap-around. *)
Definition int_wrap (z : Z) : Z := (z - INT_MIN) mod 2 ^ 32 + INT_MIN.

(** ** [class Group] *)

Module Group.
Record t : Type := mk {
  id : Z; name : string; created_at : Z; updated_at : Z;
  archive_id : string; url : string; manually_column_width : bool; sub_last_update : Z
}.
End Group.

(** ** [class ProxyEntity] *)

Record ProxyEntity : Type := mkProxyEntity {
  id : Z; gid : Z; name : string; type : string; latency : Z;
  created_at : Z; updated_at : Z;
  bean : option Bean                (** the [shared_ptr], [None] when null *)
}.

(** ** [class ProfileManager] *)

Record ProfileManager : Type := mkProfileManager {
  pm_fileName : string;               (** [JsonStore("groups/pm.json")] *)
  groupsTabOrder : list Z;
  profiles : gmap Z ProxyEntity;
  groups : list Group.t;
  saves : nat                         (** calls of the undefined [Save()] *)
}.

(** [ProfileManager::ProfileManager()]. *)
Definition ProfileManager_new : ProfileManager :=
  {| pm_fileName := "groups/pm.json"; groupsTabOrder := []; profiles := ∅; groups := []; saves := 0 |}.

Definition Save (pm : ProfileManager) : ProfileManager :=
  {| pm_fileName := pm_fileName pm; groupsTabOrder := groupsTabOrder pm; profiles := profiles pm;
     groups := groups pm; saves := S (saves pm) |}.

Definition set_groups (gs : list Group.t) (pm : ProfileManager) : ProfileManager :=
  {| pm_fileName := pm_fileName pm; groupsTabOrder := groupsTabOrder pm; profiles := profiles pm;
     groups := gs; saves := saves pm |}.

(** The loop of [GetNextId]: [maxId] starts at 0 and takes every
    larger id. *)
Definition max_group_id (gs : list Group.t) : Z :=
  fold_left (fun m g => if m <? Group.id g then Group.id g else m) gs 0.

(** [ProfileManager::GetNextId]: [maxId + 1] is an [int] sum. *)
Definition GetNextId (pm : ProfileManager) : Z := int_wrap (max_group_id (groups pm) + 1).

(** [ProfileManager::NewGroup]: not added to the list. *)
Definition NewGroup (now : Z) (pm : ProfileManager) : Group.t :=
  let gid := GetNextId pm in
  {| Group.id := gid; Group.name := QStr.arg "Group %1" (z_to_string gid);
     Group.created_at := now; Group.updated_at := now; Group.archive_id := EmptyString;
     Group.url := EmptyString; Group.manually_column_width := false; Group.sub_last_update := 0 |}.

(** [ProfileManager::AddGroup]: append, then [Save()]. *)
Definition AddGroup (g : Group.t) (pm : ProfileManager) : ProfileManager :=
  Save (set_groups (groups pm ++ [g]) pm).

(** [ProfileManager::DeleteGroup]: the first group with the id is
    removed, then [Save()]; nothing happens when there is none. *)
Fixpoint remove_first (gid : Z) (gs : list Group.t) : option (list Group.t) :=
  match gs with
  | [] => None
  | g :: gs' =>
      if Group.id g =? gid then Some gs'
      else option_map (cons g) (remove_first gid gs')
  end.

Definition DeleteGroup (gid : Z) (pm : ProfileManager) : ProfileManager :=
  match remove_first gid (groups pm) with
  | Some gs => Save (set_groups gs pm)
  | None => pm
  end.

(** [ProfileManager::InitializeDefaultGroup]. *)
Definition InitializeDefaultGroup (now : Z) (pm : ProfileManager) : ProfileManager :=
  match groups pm with
  | [] => AddGroup (NewGroup now pm) pm
  | _ => pm
  end.

(** [ProfileManager::GetProfileType]: the comment says the type is
    read from the configuration, "socks" by default; the body returns
    ["socks"] for every id. *)
Definition GetProfileType (profileId : Z) : string := "socks".

(** [ProfileManager::GetBean]: a fresh bean of the class the type names,
    a plain [AbstractBean(-114514)] for an unknown type. *)
Definition GetBean (profileId : Z) : Bean :=
  let type := GetProfileType profileId in
  if String.eqb type "socks" then let '(b, x) := SocksHttpBean.new SocksHttpBean.type_Socks5 in SocksHttp b x
  else if String.eqb type "http" then let '(b, x) := SocksHttpBean.new SocksHttpBean.type_HTTP in SocksHttp b x
  else if String.eqb type "shadowsocks" then let '(b, x) := ShadowSocksBean.new in ShadowSocks b x
  else if String.eqb type "chain" then let '(b, x) := ChainBean.new in Chain b x
  else if String.eqb type "vmess" then let '(b, x) := VMessBean.new in VMess b x
  else if String.eqb type "trojan" then let '(b, x) := TrojanVLESSBean.new TrojanVLESSBean.proxy_Trojan in TrojanVLESS b x
  else if String.eqb type "vless" then let '(b, x) := TrojanVLESSBean.new TrojanVLESSBean.proxy_VLESS in TrojanVLESS b x
  else if String.eqb type "naive" then let '(b, x) := NaiveBean.new in Naive b x
  else if String.eqb type "hysteria2" then let '(b, x) := QUICBean.new QUICBean.proxy_Hysteria2 in QUIC b x
  else if String.eqb type "tuic" then let '(b, x) := QUICBean.new QUICBean.proxy_TUIC in QUIC b x
  else if String.eqb type "custom" then let '(b, x) := CustomBean.new in Custom b x
  else Abstract (AbstractBean_new (-114514)).

(** ** [ProxyEntity] operations *)

(** [ProxyEntity(AbstractBean *bean, const QString &type_)]. *)
Definition ProxyEntity_new (b : option Bean) (type_ : string) (now : Z) : ProxyEntity :=
  {| id := -1; gid := 0; name := EmptyString; type := type_; latency := 0;
     created_at := now; updated_at := now; bean := b |}.

Definition DisplayLatencyColor (e : ProxyEntity) : string :=
  if latency e <? 0 then "#ff0000"
  else if latency e =? 0 then "#808080"
  else if latency e <? 200 then "#00ff00"
  else if latency e <? 500 then "#ffff00"
  else "#ffa500".

Definition ProxyEntity_DisplayAddress (e : ProxyEntity) : string :=
  match bean e with None => "Invalid" | Some b => DisplayAddress (base b) end.

Definition ProxyEntity_DisplayName (e : ProxyEntity) : string :=
  if String.eqb (name e) EmptyString then ProxyEntity_DisplayAddress e else name e.

Definition ProxyEntity_DisplayType (e : ProxyEntity) : string :=
  match bean e with None => "Unknown" | Some b => DisplayType b end.

Definition ProxyEntity_IsValid (e : ProxyEntity) : bool :=
  match bean e with None => false | Some b => IsValid (base b) end.

(** [ProxyEntity::UpdateBean]: a null bean changes nothing. *)
Definition UpdateBean (newBean : option Bean) (now : Z) (e : ProxyEntity) : ProxyEntity :=
  match newBean with
  | None => e
  | Some b => {| id := id e; gid := gid e; name := name e; type := type e; latency := latency e;
                 created_at := created_at e; updated_at := now; bean := Some b |}
  end.

Definition ProxyEntity_ToJson (e : ProxyEntity) : QJsonObject :=
  let obj :=
    obj_insert "updated_at" (QDouble (updated_at e))
    (obj_insert "created_at" (QDouble (created_at e))
    (obj_insert "latency" (QDouble (latency e))
    (obj_insert "name" (QString (name e))
    (obj_insert "type" (QString (type e))
    (obj_insert "gid" (QDouble (gid e))
    (obj_insert "id" (QDouble (id e)) [])))))) in
  match bean e with Some b => obj_insert "bean" (QObject (ToJson b)) obj | None => obj end.

Definition LLONG_MIN : Z := - 2 ^ 63.
Definition LLONG_MAX : Z := 2 ^ 63 - 1.

(** [QString::toLongLong()]: as [toInt], over the 64-bit range. *)
Definition qstring_toLongLong (s : string) : Z :=
  let t := trimmed s in
  let r := match t with
           | String c rest =>
               if Ascii.eqb c "-"%char then
                 match rest with EmptyString => None | _ => option_map Z.opp (digits_value rest 0) end
               else if Ascii.eqb c "+"%char then
                 match rest with EmptyString => None | _ => digits_value rest 0 end
               else digits_value t 0
           | EmptyString => None
           end in
  match r with
  | Some v => if (LLONG_MIN <=? v) && (v <=? LLONG_MAX) then v else 0
  | None => 0
  end.

(** [QJsonValue::toVariant().toLongLong()]. *)
Definition qj_toLongLong (v : QJsonValue) : Z :=
  match v with
  | QDouble n => n
  | QBool b => if b then 1 else 0
  | QString s => qstring_toLongLong s
  | _ => 0
  end.

(** [QJsonValue::toObject()]: the empty object unless an object. *)
Definition qj_toObject (v : QJsonValue) : QJsonObject :=
  match v with QObject o => o | _ => [] end.

(** [ProxyEntity::FromJson]: the members, then (when the document has a
    ["bean"]) a fresh bean from [GetBean(id)] filled by its [FromJson],
    whose result is not checked; the answer is [IsValid()]. *)
Definition ProxyEntity_FromJson (e : ProxyEntity) (obj : QJsonObject) : ProxyEntity * bool :=
  let id' := qj_toInt (obj_value "id" obj) in
  let b' := if obj_contains "bean" obj
            then Some (FromJson (GetBean id') (qj_toObject (obj_value "bean" obj))).1
            else bean e in
  let e' := {| id := id'; gid := qj_toInt (obj_value "gid" obj);
               type := qj_toString (obj_value "type" obj); name := qj_toString (obj_value "name" obj);
               latency := qj_toInt (obj_value "latency" obj);
               created_at := qj_toLongLong (obj_value "created_at" obj);
               updated_at := qj_toLongLong (obj_value "updated_at" obj); bean := b' |} in
  (e', ProxyEntity_IsValid e').

(** The API calls that change the group list, in any order. *)
Inductive pm_step : ProfileManager -> ProfileManager -> Prop :=
| step_NewGroup now pm : pm_step pm (AddGroup (NewGroup now pm) pm)
| step_DeleteGroup gid pm : pm_step pm (DeleteGroup gid pm)
| step_InitializeDefaultGroup now pm : pm_step pm (InitializeDefaultGroup now pm).

End Database.

(** ** Facts about the database *)

Module DatabaseFacts.
Import Beans BeansFacts Database.

(** *** Group ids *)

(** The ids of the groups are distinct [int]s above 0. *)
Definition ids_ok (gs : list Group.t) : Prop :=
  NoDup (map Group.id gs) /\ Forall (fun g => 0 < Group.id g <= INT_MAX) gs.

(** A manager with the default group, and a Shadowsocks profile. *)
Definition pm_default : ProfileManager := InitializeDefaultGroup 0 ProfileManager_new.
Definition ss_entity : ProxyEntity := ProxyEntity_new (Some ss_sample) "shadowsocks" 0.

Lemma max_group_id_go_ge gs m : m <= fold_left (fun m g => if m <? Group.id g then Group.id g else m) gs m.
Proof.
  revert m. induction gs as [|g gs IH]; intros m; simpl; [lia|].
  specialize (IH (if m <? Group.id g then Group.id g else m)). destruct (Z.ltb_spec m (Group.id g)); lia.
Qed.

Lemma max_group_id_go_bound gs m :
  Forall (fun g => Group.id g <= fold_left (fun m g => if m <? Group.id g then Group.id g else m) gs m) gs.
Proof.
  revert m. induction gs as [|g gs IH]; intros m; simpl; constructor; [|apply IH].
  pose proof (max_group_id_go_ge gs (if m <? Group.id g then Group.id g else m)).
  destruct (Z.ltb_spec m (Group.id g)); lia.
Qed.

Lemma max_group_id_go_le gs m b :
  m <= b -> Forall (fun g => Group.id g <= b) gs ->
  fold_left (fun m g => if m <? Group.id g then Group.id g else m) gs m <= b.
Proof.
  revert m. induction gs as [|g gs IH]; intros m Hm Hgs; simpl; [done|].
  inversion Hgs; subst. apply IH; [destruct (Z.ltb_spec m (Group.id g)); lia|done].
Qed.

Lemma max_group_id_nonneg gs : 0 <= max_group_id gs.
Proof. apply max_group_id_go_ge. Qed.

Lemma max_group_id_ge gs : Forall (fun g => Group.id g <= max_group_id gs) gs.
Proof. apply max_group_id_go_bound. Qed.

Lemma max_group_id_le gs : Forall (fun g => 0 < Group.id g <= INT_MAX) gs -> max_group_id gs <= INT_MAX.
Proof.
  intros H. apply max_group_id_go_le; [unfold INT_MAX; lia|]. eapply Forall_impl; [exact H|]. simpl. lia.
Qed.

Lemma int_wrap_id z : INT_MIN <= z <= INT_MAX -> int_wrap z = z.
Proof. intros Hz. unfold int_wrap, INT_MIN, INT_MAX in *. rewrite Z.mod_small; lia. Qed.

(** Below [INT_MAX], the next id is one above every id. *)
Lemma GetNextId_fresh pm :
  max_group_id (groups pm) < INT_MAX ->
  GetNextId pm = max_group_id (groups pm) + 1 /\ Forall (fun g => Group.id g < GetNextId pm) (groups pm).
Proof.
  intros Hm. pose proof (max_group_id_nonneg (groups pm)).
  assert (E : GetNextId pm = max_group_id (groups pm) + 1)
    by (unfold GetNextId; apply int_wrap_id; unfold INT_MIN in *; lia).
  split; [done|]. rewrite E. eapply Forall_impl; [apply max_group_id_ge|]. simpl. lia.
Qed.

Lemma remove_first_filter gid gs :
  NoDup (map Group.id gs) ->
  remove_first gid gs = if existsb (fun g => Group.id g =? gid) gs
                        then Some (filter (fun g => Group.id g <> gid) gs) else None.
Proof.
  induction gs as [|g gs IH]; simpl; [done|]. intros Hnd. inversion Hnd as [|? ? Hn Hnd']; subst.
  rewrite filter_cons. destruct (Z.eqb_spec (Group.id g) gid) as [<-|Hne]; simpl.
  - rewrite decide_False by lia. f_equal. symmetry. apply filter_all, Forall_forall.
    intros g' Hg' Heq. apply Hn, list_elem_of_In, in_map_iff. exists g'. split; [done|].
    by apply list_elem_of_In.
  - rewrite decide_True by done. rewrite IH by done. by destruct existsb.
Qed.

Lemma NoDup_map_filter {A B} (f : A -> B) (P : A -> Prop) `{forall x, Decision (P x)} (l : list A) :
  NoDup (map f l) -> NoDup (map f (filter P l)).
Proof.
  induction l as [|x l IH]; simpl; [done|]. intros Hnd. inversion Hnd as [|? ? Hn Hnd']; subst.
  rewrite filter_cons. case_decide; simpl; [|by apply IH]. constructor; [|by apply IH].
  intros Hin. apply Hn. apply list_elem_of_In in Hin. apply list_elem_of_In.
  apply in_map_iff in Hin as (y & <- & Hy). apply in_map. apply list_elem_of_In in Hy.
  apply list_elem_of_In. by apply list_elem_of_filter in Hy as [_ ?].
Qed.

Lemma ids_ok_add gs g :
  ids_ok gs -> Forall (fun g' => Group.id g' < Group.id g) gs -> 0 < Group.id g <= INT_MAX ->
  ids_ok (gs ++ [g]).
Proof.
  intros [Hnd Hr] Hlt Hg. split.
  - rewrite map_app. apply NoDup_app. split; [done|]. split; [|apply NoDup_singleton].
    intros x Hx ->%list_elem_of_singleton. apply list_elem_of_In, in_map_iff in Hx as (g' & Hid & Hg').
    apply list_elem_of_In in Hg'. eapply Forall_forall in Hlt; [|exact Hg']. lia.
  - apply Forall_app. split; [done|]. by constructor.
Qed.

Lemma ids_ok_filter gs (P : Group.t -> Prop) `{forall x, Decision (P x)} :
  ids_ok gs -> ids_ok (filter P gs).
Proof.
  intros [Hnd Hr]. split; [by apply NoDup_map_filter|].
  apply Forall_forall. intros g Hg. apply list_elem_of_filter in Hg as [_ Hg].
  by eapply Forall_forall in Hr.
Qed.

(** The functional behaviour of [DeleteGroup] when the ids are
    distinct: the groups of that id leave the list, and [Save()] runs
    exactly when there was one. *)
Lemma DeleteGroup_spec gid pm :
  NoDup (map Group.id (groups pm)) ->
  groups (DeleteGroup gid pm) = filter (fun g => Group.id g <> gid) (groups pm) /\
  saves (DeleteGroup gid pm) =
    (if existsb (fun g => Group.id g =? gid) (groups pm) then S (saves pm) else saves pm).
Proof.
  intros Hnd. unfold DeleteGroup. rewrite remove_first_filter by done.
  destruct (existsb _ _) eqn:E; simpl; [done|]. split; [|done].
  symmetry. apply filter_all, Forall_forall. intros g Hg Heq.
  assert (existsb (fun g' => Group.id g' =? gid) (groups pm) = true) as Ht; [|congruence].
  apply existsb_exists. exists g. split; [by apply list_elem_of_In|]. by apply Z.eqb_eq.
Qed.

(** C25: every call that changes the group list keeps the group ids
    distinct and in [1, INT_MAX], as long as the largest id is below
    [INT_MAX]: [NewGroup]'s id is one above all others, [DeleteGroup]
    removes, and [InitializeDefaultGroup] only adds to an empty list. *)
Theorem pm_step_ids_ok pm pm' :
  pm_step pm pm' -> ids_ok (groups pm) -> max_group_id (groups pm) < INT_MAX -> ids_ok (groups pm').
Proof.
  intros Hs Hok Hm. pose proof (max_group_id_nonneg (groups pm)).
  destruct (GetNextId_fresh pm Hm) as [Hn Hf]. destruct Hs as [now pm|gid pm|now pm].
  - apply ids_ok_add; [done|exact Hf|]. simpl. rewrite Hn. lia.
  - destruct (DeleteGroup_spec gid pm (proj1 Hok)) as [-> _]. by apply ids_ok_filter.
  - unfold InitializeDefaultGroup. destruct (groups pm) eqn:E; [|by rewrite E].
    apply ids_ok_add; [by rewrite E|by rewrite E|]. simpl. rewrite Hn. lia.
Qed.


Lemma pm_step_ids_ok_witness :
  pm_step pm_default (AddGroup (NewGroup 7 pm_default) pm_default) /\ ids_ok (groups pm_default) /\
  max_group_id (groups pm_default) < INT_MAX /\ ids_ok (groups (AddGroup (NewGroup 7 pm_default) pm_default)).
Proof.
  assert (Hg : groups pm_default = [NewGroup 0 ProfileManager_new]) by reflexivity.
  assert (Hid : Group.id (NewGroup 0 ProfileManager_new) = 1) by (vm_compute; reflexivity).
  assert (Hok : ids_ok (groups pm_default)).
  { rewrite Hg. split; [apply NoDup_singleton|]. apply Forall_singleton. rewrite Hid. unfold INT_MAX. lia. }
  assert (Hm : max_group_id (groups pm_default) < INT_MAX) by (vm_compute; reflexivity).
  split; [constructor|]. split; [exact Hok|]. split; [exact Hm|].
  apply (pm_step_ids_ok pm_default); [constructor|exact Hok|exact Hm].
Defined.

(** [GetNextId] is an [int] sum: once a group has the id [INT_MAX]
    the next id wraps to [INT_MIN], a negative id. *)
Example GetNextId_wraps :
  GetNextId (AddGroup {| Group.id := INT_MAX; Group.name := "g"; Group.created_at := 0;
                         Group.updated_at := 0; Group.archive_id := EmptyString; Group.url := EmptyString;
                         Group.manually_column_width := false; Group.sub_last_update := 0 |}
                      ProfileManager_new) = INT_MIN.
Proof. vm_compute. reflexivity. Qed.

(** *** Profiles and their beans *)

Lemma obj_contains_insert k v o : obj_contains k (obj_insert k v o) = true.
Proof. unfold obj_contains. by rewrite obj_find_insert_eq. Qed.

Lemma GetBean_socks (profileId : Z) :
  GetBean profileId = SocksHttp (base_with "sing-box" 1080)
    {| SocksHttpBean.socks_http_type := SocksHttpBean.type_Socks5;
       SocksHttpBean.username := EmptyString; SocksHttpBean.password := EmptyString |}.
Proof. reflexivity. Qed.

(** C24: a Shadowsocks profile does not survive [ToJson]/[FromJson]:
    [FromJson] rebuilds the bean with [GetBean], which makes a
    SOCKS/HTTP bean whatever the profile was, and that bean's
    [FromJson] reads the missing ["socks_http_type"] as 0, [type_HTTP],
    and the Shadowsocks ["password"] as the proxy password.  The profile
    comes back as an HTTP proxy to the same server. *)
Theorem ProxyEntity_roundtrip_shadowsocks (e e0 : ProxyEntity) (b : AbstractBean) (x : ShadowSocksBean.t) :
  bean e = Some (ShadowSocks b x) -> IsValid b = true -> base_wf b -> fileName b = EmptyString ->
  bean (ProxyEntity_FromJson e0 (ProxyEntity_ToJson e)).1 =
  Some (SocksHttp b {| SocksHttpBean.socks_http_type := SocksHttpBean.type_HTTP;
                       SocksHttpBean.username := EmptyString;
                       SocksHttpBean.password := ShadowSocksBean.password x |}).
Proof.
  intros Hb Hv [Hver Hport] Hf. destruct b as [fn v n a p cc co sc]; simpl in Hf, Hver, Hport; subst fn.
  unfold ProxyEntity_FromJson, ProxyEntity_ToJson. rewrite Hb, obj_contains_insert. cbn [bean fst].
  rewrite GetBean_socks. unfold_json. eval_lookups. rewrite !qj_toInt_double by done.
  cbn -[IsValid]. rewrite Hv. reflexivity.
Qed.


Lemma ProxyEntity_roundtrip_shadowsocks_witness :
  bean ss_entity = Some (ShadowSocks ss_sample_base ss_sample_x) /\ IsValid ss_sample_base = true /\
  base_wf ss_sample_base /\ fileName ss_sample_base = EmptyString /\
  bean (ProxyEntity_FromJson (ProxyEntity_new None EmptyString 0) (ProxyEntity_ToJson ss_entity)).1 =
  Some (SocksHttp ss_sample_base {| SocksHttpBean.socks_http_type := SocksHttpBean.type_HTTP;
                                    SocksHttpBean.username := EmptyString;
                                    SocksHttpBean.password := ShadowSocksBean.password ss_sample_x |}).
Proof.
  assert (Hw : base_wf ss_sample_base) by (split; cbn; unfold int_range, INT_MIN, INT_MAX; lia).
  split; [reflexivity|]. split; [vm_compute; reflexivity|]. split; [exact Hw|]. split; [reflexivity|].
  apply ProxyEntity_roundtrip_shadowsocks; [reflexivity|vm_compute; reflexivity|exact Hw|reflexivity].
Defined.

Lemma fold_FromJson_fileName (objs : list QJsonObject) (bean : Bean) :
  fileName (base (fold_left (fun b o => (FromJson b o).1) objs bean)) = fileName (base bean).
Proof.
  revert bean. induction objs as [|o objs IH]; intros bean; simpl; [done|].
  by rewrite IH, FromJson_fileName.
Qed.

(** no bean of the database is ever written or read: [GetBean]
    builds every bean with [JsonStore]'s default empty [fileName],
    [FromJson] never changes it, and [JsonStore::Save]/[Load] return
    [false] at once for an empty name, leaving the disk and the bean
    as they were. *)
Theorem database_beans_never_saved (profileId : Z) (objs : list QJsonObject) cfg fs :
  let bean := fold_left (fun b o => (FromJson b o).1) objs (GetBean profileId) in
  Beans.Save cfg bean fs = (false, fs) /\ Beans.Load cfg bean fs = (bean, false).
Proof.
  intros bean. assert (Hf : store_fileName bean = EmptyString)
    by (simpl; subst bean; by rewrite fold_FromJson_fileName, GetBean_socks).
  split; [by apply Save_empty|by apply Load_empty].
Qed.

End DatabaseFacts.
