(* ===== verification/ShareLink.v ===== *)
(** * Share links of the Shadowsocks and VMess beans

    [ShadowSocksBean::ToShareLink]/[FromShareLink]
    ([src/nekoray/fmt/ShadowSocksBean_Headless.cpp]) write and read
    [ss://BASE64(method:password)@server:port#NAME]; the link is built
    with three chained single-argument [QString::arg] calls and the name
    is percent-encoded.  [VMessBean::ToShareLink]/[FromShareLink]
    ([VMessBean_Headless.cpp]) put a JSON object, base64-encoded, after
    [vmess://]; [config_of] and [from_config] are the object each side
    builds or reads, and the JSON text of [QJsonDocument] is a pair of
    functions [toJsonText]/[fromJsonText] given to the link functions.

    Theorems: the Shadowsocks link round trip (every field the link
    carries comes back, under the conditions the parser needs: no [:]
    in the method, no [#] or [%] in the server address); a link that is
    accepted with an empty password although [FromJson] rejects the
    same bean; the VMess configuration round trip, which resets
    [security] to ["auto"]. *)

From S2P Require Import Prelude QJson Platform OutputRelay Safety Codec Beans.
From Stdlib Require Import Ascii.

Local Open Scope Z_scope.

Module ShareLink.
Import Beans.

(** ** Shadowsocks *)

Module SS.
Import ShadowSocksBean.

(** [ShadowSocksBean::ToShareLink]: [QString("%1:%2").arg(method,
    password)] fills both escapes in one pass; the link template then
    gets three single-argument [arg] calls. *)
Definition ToShareLink (b : AbstractBean) (x : t) : string :=
  let auth := (method x +:+ ":" +:+ password x)%string in
  let authEncoded := toBase64 auth in
  let link := QStr.arg (QStr.arg (QStr.arg "ss://%1@%2:%3" authEncoded) (serverAddress b))
                (z_to_string (serverPort b)) in
  if negb (String.eqb (name b) EmptyString) then (link +:+ "#" +:+ toPercentEncoding (name b))%string
  else link.

(** [ShadowSocksBean::FromShareLink]: [None] is the [nullptr] of every
    early return and of an invalid bean. *)
Definition FromShareLink (link : string) : option (AbstractBean * t) :=
  if negb (QStr.startsWith link "ss://") then None else
  let '(b0, x0) := new in
  let content := QStr.mid link 5 in
  let nameIndex := QStr.indexOf content "#" in
  let '(nm, content) :=
    if negb (nameIndex =? -1)
    then (fromPercentEncoding (QStr.mid content (nameIndex + 1)), QStr.left content nameIndex)
    else (name b0, content) in
  let atIndex := QStr.indexOf content "@" in
  if atIndex =? -1 then None else
  let authPart := QStr.left content atIndex in
  let serverPart := QStr.mid content (atIndex + 1) in
  let colonIndex := QStr.lastIndexOf serverPart ":" in
  if colonIndex =? -1 then None else
  let address := QStr.left serverPart colonIndex in
  let port := (qstring_toInt (QStr.mid serverPart (colonIndex + 1))).1 in
  let authStr := fromBase64 authPart in
  let methodColonIndex := QStr.indexOf authStr ":" in
  if methodColonIndex =? -1 then None else
  let b := {| fileName := fileName b0; version := version b0; name := nm; serverAddress := address;
              serverPort := port; custom_config := custom_config b0; custom_outbound := custom_outbound b0;
              software_core_name := software_core_name b0 |} in
  let x := {| method := QStr.left authStr methodColonIndex;
              password := QStr.mid authStr (methodColonIndex + 1);
              plugin := plugin x0; plugin_opts := plugin_opts x0 |} in
  if IsValid b then Some (b, x) else None.

(** What a link carries back: the name, the server, the method and the
    password, on the defaults of a fresh [ShadowSocksBean]. *)
Definition link_fields (b : AbstractBean) (x : t) : AbstractBean * t :=
  let '(b0, x0) := new in
  ({| fileName := fileName b0; version := version b0; name := name b; serverAddress := serverAddress b;
      serverPort := serverPort b; custom_config := custom_config b0; custom_outbound := custom_outbound b0;
      software_core_name := software_core_name b0 |},
   {| method := method x; password := password x; plugin := plugin x0; plugin_opts := plugin_opts x0 |}).

End SS.

(** ** VMess *)

Module VM.
Import VMessBean.

(** The object [VMessBean::ToShareLink] encodes. *)
Definition config_of (b : AbstractBean) (x : t) : QJsonObject :=
  obj_insert "tls" (QString (tls x))
  (obj_insert "path" (QString (path x))
  (obj_insert "host" (QString (host x))
  (obj_insert "type" (QString "none")
  (obj_insert "net" (QString (network x))
  (obj_insert "aid" (QString (z_to_string (aid x)))
  (obj_insert "id" (QString (uuid x))
  (obj_insert "port" (QString (z_to_string (serverPort b)))
  (obj_insert "add" (QString (serverAddress b))
  (obj_insert "ps" (QString (name b))
  (obj_insert "v" (QString "2") [])))))))))).

(** [VMessBean::ToShareLink]: the compact JSON text, base64-encoded. *)
Definition ToShareLink (toJsonText : QJsonObject -> string) (b : AbstractBean) (x : t) : string :=
  ("vmess://" +:+ toBase64 (toJsonText (config_of b x)))%string.

(** The members [VMessBean::FromShareLink] reads from the object, on a
    fresh [VMessBean], and its final [IsValid()] check. *)
Definition from_config (config : QJsonObject) : option (AbstractBean * t) :=
  let '(b0, x0) := new in
  let b := {| fileName := fileName b0; version := version b0;
              name := qj_toString (obj_value "ps" config);
              serverAddress := qj_toString (obj_value "add" config);
              serverPort := (qstring_toInt (qj_toString (obj_value "port" config))).1;
              custom_config := custom_config b0; custom_outbound := custom_outbound b0;
              software_core_name := software_core_name b0 |} in
  let x := {| uuid := qj_toString (obj_value "id" config); security := security x0;
              aid := (qstring_toInt (qj_toString (obj_value "aid" config))).1;
              network := qj_toString (obj_value "net" config);
              path := qj_toString (obj_value "path" config);
              host := qj_toString (obj_value "host" config);
              tls := qj_toString (obj_value "tls" config) |} in
  if IsValid b then Some (b, x) else None.

(** [VMessBean::FromShareLink]: [fromJsonText] is
    [QJsonDocument::fromJson], [None] on a parse error. *)
Definition FromShareLink (fromJsonText : string -> option QJsonValue) (link : string) : option (AbstractBean * t) :=
  if negb (QStr.startsWith link "vmess://") then None else
  match fromJsonText (fromBase64 (QStr.mid link 8)) with
  | None => None
  | Some doc => from_config (doc_object doc)
  end.

(** What a VMess link carries back: everything but [security], which a
    fresh bean's ["auto"] replaces, and the members outside the link. *)
Definition link_fields (b : AbstractBean) (x : t) : AbstractBean * t :=
  let '(b0, x0) := new in
  ({| fileName := fileName b0; version := version b0; name := name b; serverAddress := serverAddress b;
      serverPort := serverPort b; custom_config := custom_config b0; custom_outbound := custom_outbound b0;
      software_core_name := software_core_name b0 |},
   {| uuid := uuid x; security := security x0; aid := aid x; network := network x; path := path x;
      host := host x; tls := tls x |}).

End VM.

End ShareLink.

(** ** Facts about the share links *)

Module ShareLinkFacts.
Import Beans BeansFacts ShareLink.

(** *** The characters the link pieces contain *)

Lemma toBase64_lacks c s : b64_char c = false -> lacks c (toBase64 s) = true.
Proof. intros Hc. eapply lacks_of_forall; [exact Hc|apply toBase64_chars]. Qed.

Lemma number_lacks c n : is_digit c = false -> 0 <= n -> lacks c (z_to_string n) = true.
Proof. intros Hc Hn. eapply lacks_of_forall; [exact Hc|by apply number_digits]. Qed.

Lemma lacks_app c a b : lacks c (a +:+ b) = lacks c a && lacks c b.
Proof. apply str_forall_app. Qed.

Lemma lacks_cons c x s : lacks c (String x s) = negb (Ascii.eqb x c) && lacks c s.
Proof. reflexivity. Qed.

(** Settles [lacks c s] for the pieces of a link. *)
Ltac solve_lacks :=
  repeat first [ rewrite lacks_app | rewrite lacks_cons ]; cbn [Ascii.eqb negb andb Bool.eqb];
  repeat (apply andb_true_intro; split);
  first [ done | apply toBase64_lacks; reflexivity | apply number_lacks; [reflexivity|lia] ].

(** *** The three [arg] calls of the link *)

Lemma arg_ss (A : string) : QStr.arg "ss://%1@%2:%3" A = ("ss://" +:+ A +:+ "@%2:%3")%string.
Proof. reflexivity. Qed.

Lemma arg_23 (a : string) : QStr.arg "%2:%3" a = (a +:+ ":%3")%string.
Proof. reflexivity. Qed.

Lemma arg_3 (p : string) : QStr.arg "%3" p = p.
Proof. change (QStr.arg "%3" p) with (p +:+ EmptyString)%string. apply str_app_nil_r. Qed.

(** The link is [ss://], the encoded credentials, [@], the address,
    [:], the port, and the encoded name after [#] when there is one. *)
Lemma ss_link_text (b : AbstractBean) (x : ShadowSocksBean.t) :
  lacks "%" (serverAddress b) = true -> 0 <= serverPort b ->
  SS.ToShareLink b x =
  ("ss://" +:+ toBase64 (ShadowSocksBean.method x +:+ ":" +:+ ShadowSocksBean.password x) +:+ "@" +:+
   serverAddress b +:+ ":" +:+ z_to_string (serverPort b) +:+
   (if negb (String.eqb (name b) EmptyString) then "#" +:+ toPercentEncoding (name b) else EmptyString))%string.
Proof.
  intros Ha Hp. unfold SS.ToShareLink. rewrite arg_ss.
  set (A := toBase64 _). set (P := z_to_string _).
  replace ("ss://" +:+ A +:+ "@%2:%3")%string with (("ss://" +:+ A +:+ "@") +:+ "%2:%3")%string
    by (rewrite !str_app_assoc; reflexivity).
  rewrite arg_prefix, arg_23 by (subst A; solve_lacks).
  replace (("ss://" +:+ A +:+ "@") +:+ serverAddress b +:+ ":%3")%string
    with (("ss://" +:+ A +:+ "@" +:+ serverAddress b +:+ ":") +:+ "%3")%string
    by (rewrite !str_app_assoc; reflexivity).
  rewrite arg_prefix, arg_3 by (subst A; solve_lacks).
  destruct (negb _); rewrite !str_app_assoc; [reflexivity|]. by rewrite str_app_nil_r.
Qed.

(** *** Parsing the link back *)

Lemma IsValid_spec b :
  IsValid b = true <-> serverAddress b <> EmptyString /\ 0 < serverPort b <= 65535.
Proof.
  unfold IsValid. rewrite !andb_true_iff, negb_true_iff, String.eqb_neq, Z.ltb_lt, Z.leb_le. tauto.
Qed.

Lemma mid_ss (c : string) : QStr.mid ("ss://" +:+ c) 5 = c.
Proof. exact (mid_app "ss://" c). Qed.

Lemma len_not_m1 (s : string) : (Z.of_nat (String.length s) =? -1) = false.
Proof. apply Z.eqb_neq. lia. Qed.

(** The part of [FromShareLink] after the name: credentials, server and
    port, then the method/password split. *)
Lemma ss_parse_rest (b : AbstractBean) (x : ShadowSocksBean.t) nm :
  lacks ":" (ShadowSocksBean.method x) = true -> IsValid b = true ->
  let A := toBase64 (ShadowSocksBean.method x +:+ ":" +:+ ShadowSocksBean.password x) in
  let pre := (A +:+ "@" +:+ serverAddress b +:+ ":" +:+ z_to_string (serverPort b))%string in
  (let atIndex := QStr.indexOf pre "@" in
   if atIndex =? -1 then None else
   let serverPart := QStr.mid pre (atIndex + 1) in
   let colonIndex := QStr.lastIndexOf serverPart ":" in
   if colonIndex =? -1 then None else
   let authStr := fromBase64 (QStr.left pre atIndex) in
   let methodColonIndex := QStr.indexOf authStr ":" in
   if methodColonIndex =? -1 then None else
   let b' := {| fileName := EmptyString; version := 0; name := nm;
                serverAddress := QStr.left serverPart colonIndex;
                serverPort := (qstring_toInt (QStr.mid serverPart (colonIndex + 1))).1;
                custom_config := EmptyString; custom_outbound := EmptyString;
                software_core_name := "sing-box" |} in
   let x' := {| ShadowSocksBean.method := QStr.left authStr methodColonIndex;
                ShadowSocksBean.password := QStr.mid authStr (methodColonIndex + 1);
                ShadowSocksBean.plugin := EmptyString; ShadowSocksBean.plugin_opts := EmptyString |} in
   if IsValid b' then Some (b', x') else None) =
  Some ({| fileName := EmptyString; version := 0; name := nm; serverAddress := serverAddress b;
           serverPort := serverPort b; custom_config := EmptyString; custom_outbound := EmptyString;
           software_core_name := "sing-box" |},
        {| ShadowSocksBean.method := ShadowSocksBean.method x;
           ShadowSocksBean.password := ShadowSocksBean.password x;
           ShadowSocksBean.plugin := EmptyString; ShadowSocksBean.plugin_opts := EmptyString |}).
Proof.
  intros Hm Hv A pre. pose proof Hv as [Ha Hp]%IsValid_spec. cbv zeta.
  subst pre. rewrite !str_app_cons, !str_app_nil_l.
  rewrite indexOf_app, len_not_m1 by (subst A; solve_lacks).
  rewrite left_app, mid_app_sep, lastIndexOf_app, len_not_m1 by (subst A; solve_lacks).
  rewrite left_app, mid_app_sep, toInt_number by (unfold INT_MIN, INT_MAX; lia).
  subst A. rewrite fromBase64_toBase64, ?str_app_cons, ?str_app_nil_l.
  rewrite indexOf_app, len_not_m1 by solve_lacks.
  rewrite left_app, mid_app_sep. cbn [fst]. unfold IsValid in *. cbn [serverAddress serverPort].
  by rewrite Hv.
Qed.

(** C20: a Shadowsocks share link reads back as the bean it was made
    from: name, server, port, method and password come back (on a fresh
    bean's defaults, so the plugin is lost), provided the method has no
    [:] (the parser splits at the first one), and the server address has
    no [#] (the name separator) and no [%] (the next [arg] would
    substitute into it).  The port needs [IsValid], which the parser
    checks anyway. *)
Theorem ss_link_roundtrip (b : AbstractBean) (x : ShadowSocksBean.t) :
  lacks ":" (ShadowSocksBean.method x) = true -> lacks "%" (serverAddress b) = true ->
  lacks "#" (serverAddress b) = true -> IsValid b = true ->
  SS.FromShareLink (SS.ToShareLink b x) = Some (SS.link_fields b x).
Proof.
  intros Hm Hpc Hh Hv. pose proof Hv as [Ha Hp]%IsValid_spec.
  rewrite ss_link_text by (done || lia). unfold SS.FromShareLink. rewrite startsWith_app, mid_ss.
  set (A := toBase64 _). set (P := z_to_string _).
  destruct (negb (String.eqb (name b) EmptyString)) eqn:En.
  - replace (A +:+ "@" +:+ serverAddress b +:+ ":" +:+ P +:+ "#" +:+ toPercentEncoding (name b))%string
      with ((A +:+ "@" +:+ serverAddress b +:+ ":" +:+ P) +:+ String "#" (toPercentEncoding (name b)))%string
      by (rewrite !str_app_assoc; reflexivity).
    rewrite indexOf_app, len_not_m1 by (subst A P; solve_lacks).
    rewrite mid_app_sep, left_app, fromPercentEncoding_toPercentEncoding.
    exact (ss_parse_rest b x (name b) Hm Hv).
  - apply negb_false_iff, String.eqb_eq in En. rewrite str_app_nil_r, indexOf_lacks by (subst A P; solve_lacks).
    unfold SS.link_fields. rewrite En. exact (ss_parse_rest b x EmptyString Hm Hv).
Qed.

Lemma ss_link_roundtrip_witness :
  lacks ":" (ShadowSocksBean.method ss_sample_x) = true /\ lacks "%" (serverAddress ss_sample_base) = true /\
  lacks "#" (serverAddress ss_sample_base) = true /\ IsValid ss_sample_base = true /\
  SS.FromShareLink (SS.ToShareLink ss_sample_base ss_sample_x) = Some (SS.link_fields ss_sample_base ss_sample_x).
Proof.
  split; [vm_compute; reflexivity|]. split; [vm_compute; reflexivity|].
  split; [vm_compute; reflexivity|]. split; [vm_compute; reflexivity|].
  apply ss_link_roundtrip; vm_compute; reflexivity.
Defined.

(** a share link is accepted with an empty password, a bean that
    [ShadowSocksBean::FromJson] then refuses ([IsValid() &&
    !password.isEmpty()]): a profile imported from such a link does not
    load back from its own JSON. *)
Example ss_link_accepts_empty_password :
  match SS.FromShareLink "ss://YWVzLTI1Ni1nY206@1.2.3.4:8388" with
  | Some (b, x) => ShadowSocksBean.password x = EmptyString /\
                   (FromJson (ShadowSocks b x) (ToJson (ShadowSocks b x))).2 = false
  | None => False
  end.
Proof. vm_compute. split; reflexivity. Qed.

(** *** VMess *)

(** C33: the object a VMess link encodes reads back as the bean, except
    [security], which comes back as a fresh bean's ["auto"]: port and
    alterId travel as decimal strings and [toInt] restores them. *)
Theorem vmess_config_roundtrip (b : AbstractBean) (x : VMessBean.t) :
  IsValid b = true -> int_range (VMessBean.aid x) ->
  VM.from_config (VM.config_of b x) = Some (VM.link_fields b x).
Proof.
  intros Hv Haid. pose proof Hv as [Ha Hp]%IsValid_spec.
  unfold VM.from_config, VM.config_of. eval_lookups. cbn [qj_toString].
  rewrite !toInt_number by (done || unfold INT_MIN, INT_MAX; lia). cbn [fst].
  unfold IsValid in *. cbn [serverAddress serverPort]. by rewrite Hv.
Qed.

Lemma vmess_config_roundtrip_witness :
  let b := {| fileName := EmptyString; version := 0; name := "vm"; serverAddress := "example.org";
              serverPort := 443; custom_config := EmptyString; custom_outbound := EmptyString;
              software_core_name := "sing-box" |} in
  let x := {| VMessBean.uuid := "b831381d"; VMessBean.security := "aes-128-gcm"; VMessBean.aid := 0;
              VMessBean.network := "ws"; VMessBean.path := "/ray"; VMessBean.host := "example.org";
              VMessBean.tls := "tls" |} in
  IsValid b = true /\ int_range (VMessBean.aid x) /\ VM.from_config (VM.config_of b x) = Some (VM.link_fields b x).
Proof.
  intros b x. assert (Ha : int_range (VMessBean.aid x)) by (cbn; unfold int_range, INT_MIN, INT_MAX; lia).
  split; [vm_compute; reflexivity|]. split; [exact Ha|].
  apply vmess_config_roundtrip; [vm_compute; reflexivity|exact Ha].
Defined.

Section VMessText.
(** [QJsonDocument::toJson(Compact)] and [QJsonDocument::fromJson]:
    parsing printed text gives back the object. *)
Variable toJsonText : QJsonObject -> string.
Variable fromJsonText : string -> option QJsonValue.
Hypothesis fromJsonText_toJsonText : forall o, fromJsonText (toJsonText o) = Some (QObject o).

(** The link round trip is the object round trip: base64 and the
    [vmess://] prefix come off exactly. *)
Lemma vmess_link_config (b : AbstractBean) (x : VMessBean.t) :
  VM.FromShareLink fromJsonText (VM.ToShareLink toJsonText b x) = VM.from_config (VM.config_of b x).
Proof.
  unfold VM.FromShareLink, VM.ToShareLink. rewrite startsWith_app.
  rewrite (mid_app "vmess://" _ : QStr.mid ("vmess://" +:+ _) 8 = _).
  by rewrite fromBase64_toBase64, fromJsonText_toJsonText.
Qed.

End VMessText.

End ShareLinkFacts.
